(** * Order and payment pipeline of the marketplace backend

    A shallow embedding of [src/modules/orders/orders.service.ts],
    [src/modules/payments/payments.service.ts] and of the PayStack helper
    service, followed by the properties of the checkout pipeline:
    per-item pricing, order aggregation, seller payouts, the order status
    state machine, payment confirmation and the payment reconciliation
    bridge.

    Conventions of the embedding:
    - a JavaScript [number] is a binary64 floating-point number
      ([Number.t]), and the arithmetic methods of the services, the
      pricing of a cart line and the conversions between naira and kobo,
      are embedded on such numbers. The amounts and quantities the
      documents hold are whole numbers, kept as [Z]; on them the pipeline
      is followed with the exact counterparts of these methods (module
      [Exact]), with which the methods agree as long as the amounts of a
      line do not exceed [maxAmount] (C2, X27);
    - a [Date] is a [Z] (milliseconds since the epoch); every [new Date()]
      of one service call reads the [now] handed to that call;
    - an [async] method is a function in the monad [Async]: it threads the
      document store and a trace of the store and gateway accesses, and it
      either returns or throws. A thrown exception keeps the writes already
      made, as the document store has no transactions. *)

From Stdlib Require Import ZArith QArith Qround List Bool Lia Ascii SpecFloat.
From stdpp Require Import gmap strings list fin_maps pretty.

#[local] Set Warnings "-clear-no-such-hyp,-register-all".

Local Open Scope string_scope.
Local Open Scope Z_scope.

(** ** JavaScript run time: exceptions and asynchronous methods *)

(** The exceptions the services raise or meet: the NestJS HTTP exceptions,
    the [TypeError] of a property read on [undefined] or [null], and a plain
    [Error]. *)
Inductive Exception : Type :=
| NotFoundException (message : string)
| BadRequestException (message : string)
| ForbiddenException (message : string)
| ConflictException (message : string)
| UnauthorizedException (message : string)
| TypeError (message : string)
| Error (message : string).

(** [error.message] *)
Definition message (e : Exception) : string :=
  match e with
  | NotFoundException m | BadRequestException m | ForbiddenException m
  | ConflictException m | UnauthorizedException m | TypeError m | Error m => m
  end.

(** The error kinds of the taxonomy the HTTP layer reports. *)
Inductive ErrorKind : Type :=
| NotFound | Validation | Conflict | Forbidden | Unauthorized | Internal.

Definition kind (e : Exception) : ErrorKind :=
  match e with
  | NotFoundException _ => NotFound
  | BadRequestException _ => Validation
  | ForbiddenException _ => Forbidden
  | ConflictException _ => Conflict
  | UnauthorizedException _ => Unauthorized
  | TypeError _ | Error _ => Internal
  end.

Definition instanceof_BadRequest (e : Exception) : bool :=
  match e with BadRequestException _ => true | _ => false end.
Definition instanceof_NotFound (e : Exception) : bool :=
  match e with NotFoundException _ => true | _ => false end.
Definition instanceof_Forbidden (e : Exception) : bool :=
  match e with ForbiddenException _ => true | _ => false end.
Definition instanceof_Conflict (e : Exception) : bool :=
  match e with ConflictException _ => true | _ => false end.

(** The message of reading property [p] of [undefined]. *)
Definition undefined_read (p : string) : Exception :=
  TypeError ("Cannot read properties of undefined (reading '" ++ p ++ "')").
Definition null_read (p : string) : Exception :=
  TypeError ("Cannot read properties of null (reading '" ++ p ++ "')").

Inductive Completion (A : Type) : Type :=
| Return (a : A)
| Throw (e : Exception).
Arguments Return {A} a.
Arguments Throw {A} e.

(** A synchronous computation that may throw. *)
Definition bindC {A B} (c : Completion A) (k : A -> Completion B) : Completion B :=
  match c with
  | Return a => k a
  | Throw e => Throw e
  end.

(** ** Enumerations *)

(** The members are those of the keys of [validTransitions]. *)
Module OrderStatus.
Inductive t : Type :=
| PENDING | CONFIRMED | PROCESSING | SHIPPED | DELIVERED | CANCELLED | REFUNDED.

#[global] Instance eq_dec : EqDecision t.
Proof. solve_decision. Defined.

Definition eqb (a b : t) : bool := bool_decide (a = b).

(** Modelled from the spec: [src/common/enums/order.enum.ts] is not part
    of the sources; the string of each member is its name in lower case,
    as the integration guide shows them (["pending"], ["confirmed"]). *)
Definition toString (s : t) : string :=
  match s with
  | PENDING => "pending"
  | CONFIRMED => "confirmed"
  | PROCESSING => "processing"
  | SHIPPED => "shipped"
  | DELIVERED => "delivered"
  | CANCELLED => "cancelled"
  | REFUNDED => "refunded"
  end.

Definition all : list t :=
  [PENDING; CONFIRMED; PROCESSING; SHIPPED; DELIVERED; CANCELLED; REFUNDED].
End OrderStatus.

(** Modelled from the spec: the payment statuses of the missing
    [order.enum.ts]; a payment is created PENDING, becomes COMPLETED or
    FAILED, and may become REFUNDED. *)
Module PaymentStatus.
Inductive t : Type := PENDING | COMPLETED | FAILED | REFUNDED.

#[global] Instance eq_dec : EqDecision t.
Proof. solve_decision. Defined.

Definition eqb (a b : t) : bool := bool_decide (a = b).
End PaymentStatus.

Module PaymentMethod.
Inductive t : Type := CARD | BANK_TRANSFER | WALLET.

#[global] Instance eq_dec : EqDecision t.
Proof. solve_decision. Defined.
End PaymentMethod.

Module PaymentGateway.
Inductive t : Type := PAYSTACK | FLUTTERWAVE | STRIPE.

#[global] Instance eq_dec : EqDecision t.
Proof. solve_decision. Defined.

Definition toString (g : t) : string :=
  match g with
  | PAYSTACK => "paystack"
  | FLUTTERWAVE => "flutterwave"
  | STRIPE => "stripe"
  end.
End PaymentGateway.

(** The item statuses of [OrderItem.itemStatus]. *)
Module ItemStatus.
Inductive t : Type :=
| pending | confirmed | processing | shipped | delivered | cancelled | refunded.

#[global] Instance eq_dec : EqDecision t.
Proof. solve_decision. Defined.
End ItemStatus.

(** ** Documents *)

Definition ObjectId : Type := string.
Definition Date : Type := Z.

Record User : Type := mkUser {
  firstName : string;
  lastName : string;
  email : string;
  phone : option string
}.

(** The fields of a product the order pipeline reads or writes.
    [shipping_domestic] is [product.shipping?.domestic]. *)
Record Product : Type := mkProduct {
  product_sellerId : ObjectId;
  title : string;
  brand : string;
  product_size : option string;
  condition : string;
  sellingPrice : Z;
  quantity : Z;
  sold : bool;
  soldAt : option Date;
  shipping_domestic : option Z
}.

(** One entry of the request body of [POST /orders/calculate]. *)
Record OrderItemDto : Type := mkOrderItemDto {
  dto_productId : string;
  dto_quantity : Z;
  dto_selectedSize : option string
}.

(** One entry of [response.items]: the [itemData] of [calculateOrder]. *)
Record ItemData : Type := mkItemData {
  productId : string;
  productTitle : string;
  unitPrice : Z;
  item_quantity : Z;
  totalPrice : Z;
  shippingCost : Z;
  itemServiceFee : Z;
  itemTaxes : Z;
  itemTotal : Z;
  sellerId : string;
  sellerName : string;
  available : bool;
  availabilityMessage : option string
}.

Record OrderCalculationResponseDto : Type := mkCalc {
  items : list ItemData;
  subtotal : Z;
  totalShippingCost : Z;
  totalServiceFee : Z;
  totalTaxes : Z;
  couponDiscount : Z;
  totalAmount : Z;
  currency : string;
  itemCount : Z;
  sellerCount : Z;
  unavailableItems : list string;
  errors : list string
}.

Record SellerPayout : Type := mkPayout {
  payout_sellerId : ObjectId;
  payout_sellerName : string;
  payout_itemCount : Z;
  revenue : Z;
  serviceFee : Z;
  paid : bool;
  payoutReference : option string;
  payout_paidAt : option Date
}.

Record OrderTotals : Type := mkTotals {
  o_subtotal : Z;
  o_totalShippingCost : Z;
  o_totalServiceFee : Z;
  o_totalTaxes : Z;
  o_totalAmount : Z;
  o_itemCount : Z;
  o_sellerCount : Z;
  o_currency : string
}.

Record OrderPayment : Type := mkOrderPayment {
  paymentStatus : PaymentStatus.t;
  paymentMethod : option PaymentMethod.t;
  paymentReference : option string;
  paymentGateway : option string;
  paidAt : option Date
}.

Record ShippingAddress : Type := mkAddress {
  addr_firstName : string;
  addr_lastName : string;
  addr_email : string;
  addr_phone : string;
  addr_address : string;
  addr_city : string;
  addr_state : string;
  addr_country : string;
  addr_postalCode : option string
}.

Record OrderShipping : Type := mkShipping {
  shippingAddress : ShippingAddress;
  shippingMethod : option string;
  trackingNumber : option string;
  carrierName : option string;
  shippedAt : option Date;
  deliveredAt : option Date
}.

Record OrderManagement : Type := mkManagement {
  confirmedAt : option Date;
  processingAt : option Date;
  cancelledAt : option Date;
  cancellationReason : option string;
  cancelledBy : option ObjectId
}.

(** The order document, stored under its [_id]. The schema is flat; its
    fields are grouped here under the headings the schema gives them
    (totals and summary, payment information, shipping information, order
    management). The schema declares [sellerIds]; it declares no
    [sellerId]. The review and dispute fields, which no method below
    touches, are left out. *)
Record Order : Type := mkOrder {
  orderNumber : string;
  buyerId : ObjectId;
  status : OrderStatus.t;
  totals : OrderTotals;
  sellerIds : list ObjectId;
  sellerPayouts : list SellerPayout;
  payment : OrderPayment;
  shipping : OrderShipping;
  management : OrderManagement;
  adminNotes : option string;
  buyerNotes : option string;
  statusHistory : list string
}.

Record OrderItem : Type := mkOrderItem {
  oi_orderId : ObjectId;
  oi_productId : ObjectId;
  oi_sellerId : ObjectId;
  oi_productTitle : string;
  oi_productBrand : string;
  oi_productSize : option string;
  oi_productCondition : string;
  oi_quantity : Z;
  oi_unitPrice : Z;
  oi_totalPrice : Z;
  oi_shippingCost : Z;
  oi_itemServiceFee : Z;
  oi_itemTaxes : Z;
  oi_itemTotal : Z;
  oi_sellerName : string;
  oi_sellerEmail : string;
  oi_sellerPhone : option string;
  sellerRevenue : Z;
  sellerPaid : bool;
  sellerPayoutReference : option string;
  sellerPaidAt : option Date;
  itemStatus : ItemStatus.t;
  oi_cancelledAt : option Date;
  oi_cancellationReason : option string;
  oi_available : bool;
  oi_availabilityMessage : option string
}.

(** ** JSON values *)

(** What [JSON.parse] yields: the fields of an object in the order of its
    own properties, a number being an integer of at most 21 digits. *)
Inductive json : Type :=
| JNull
| JBool (b : bool)
| JNum (n : Z)
| JStr (s : string)
| JArr (l : list json)
| JObj (fields : list (string * json)).

(** What the gateway reports about a customer and a transaction: the
    [data] of [PayStackVerifyResponse] and of a webhook body. A field the
    services read through [?.] or [||] may be absent. [paid_at] is kept as
    the gateway sent it, for [new Date(...)] to read. *)
Record PayStackCustomer : Type := mkCustomer {
  cust_id : option Z;
  first_name : option string;
  last_name : option string;
  cust_email : option string;
  customer_code : option string;
  cust_phone : option string;
  risk_action : option string
}.

Record PayStackData : Type := mkPayStackData {
  ps_id : option Z;
  ps_status : option string;
  ps_reference : option string;
  ps_message : option string;
  gateway_response : option string;
  paid_at : option json;
  channel : option string;
  fees : option Z;
  ip_address : option string;
  customer : option PayStackCustomer
}.

Record VerificationResult : Type := mkVerification {
  vr_status : bool;
  vr_data : PayStackData
}.

Record PaymentCustomer : Type := mkPaymentCustomer {
  pc_email : option string;
  pc_firstName : option string;
  pc_lastName : option string;
  pc_phone : option string;
  pc_customerId : option Z;
  pc_customerCode : option string
}.

(** The payment document. [authorization], [webhookData],
    [gatewayMetadata] and the retry counters, copies of gateway payloads
    that no decision reads, are left out. Amounts of the gateway are in
    kobo; [fees] and [netAmount], in naira, are rationals. [createdAt] is
    the timestamp the schema option [timestamps] maintains. *)
Record Payment : Type := mkPayment {
  payment_id : ObjectId;
  reference : string;
  p_orderId : ObjectId;
  p_userId : ObjectId;
  gateway : PaymentGateway.t;
  p_status : PaymentStatus.t;
  amount : Z;
  p_currency : string;
  method : option PaymentMethod.t;
  p_fees : option Q;
  netAmount : option Q;
  gatewayTransactionId : option Z;
  gatewayReference : option string;
  gatewayResponse : option string;
  p_paidAt : option Date;
  completedAt : option Date;
  failureReason : option string;
  failedAt : option Date;
  p_customer : option PaymentCustomer;
  ipAddress : option string;
  riskAction : option string;
  authorizationUrl : option string;
  accessCode : option string;
  callbackUrl : option string;
  initiatedAt : option Date;
  createdAt : Date
}.

(** ** The document store and the trace of accesses *)

Record Db : Type := mkDb {
  orders : gmap ObjectId Order;
  orderItems : list OrderItem;
  products : gmap ObjectId Product;
  users : gmap ObjectId User;
  payments : list Payment
}.

Inductive Collection : Type :=
| OrderModel | OrderItemModel | ProductModel | UserModel | PaymentModel.

(** One entry per awaited call on a model or on the gateway client. *)
Inductive Event : Type :=
| DbRead (c : Collection)
| DbWrite (c : Collection)
| GatewayInitialize (reference : string)
| GatewayVerify (reference : string).

Record World : Type := mkWorld {
  db : Db;
  trace : list Event
}.

Definition Async (A : Type) : Type := World -> Completion A * World.

Definition ret {A} (a : A) : Async A := fun w => (Return a, w).

Definition throw {A} (e : Exception) : Async A := fun w => (Throw e, w).

Definition bind {A B} (m : Async A) (k : A -> Async B) : Async B :=
  fun w =>
    match m w with
    | (Return a, w') => k a w'
    | (Throw e, w') => (Throw e, w')
    end.

(** [try { m } catch (error) { h error }] *)
Definition try_catch {A} (m : Async A) (h : Exception -> Async A) : Async A :=
  fun w =>
    match m w with
    | (Return a, w') => (Return a, w')
    | (Throw e, w') => h e w'
    end.

Definition lift {A} (c : Completion A) : Async A := fun w => (c, w).

Notation "'let*' x ':=' m 'in' k" := (bind m (fun x => k))
  (at level 10, x name, m at level 100, k at level 200).
Notation "m ';;;' k" := (bind m (fun _ => k))
  (at level 100, k at level 200, right associativity).

Definition log (e : Event) : Async unit :=
  fun w => (Return tt, {| db := db w; trace := trace w ++ [e] |}).

Definition read {A} (c : Collection) (f : Db -> A) : Async A :=
  fun w => (Return (f (db w)), {| db := db w; trace := trace w ++ [DbRead c] |}).

Definition write (c : Collection) (f : Db -> Db) : Async unit :=
  fun w => (Return tt, {| db := f (db w); trace := trace w ++ [DbWrite c] |}).

Definition set_orders (f : gmap ObjectId Order -> gmap ObjectId Order) (d : Db) : Db :=
  {| orders := f (orders d); orderItems := orderItems d; products := products d;
     users := users d; payments := payments d |}.

Definition set_orderItems (f : list OrderItem -> list OrderItem) (d : Db) : Db :=
  {| orders := orders d; orderItems := f (orderItems d); products := products d;
     users := users d; payments := payments d |}.

Definition set_products (f : gmap ObjectId Product -> gmap ObjectId Product) (d : Db) : Db :=
  {| orders := orders d; orderItems := orderItems d; products := f (products d);
     users := users d; payments := payments d |}.

Definition set_payments (f : list Payment -> list Payment) (d : Db) : Db :=
  {| orders := orders d; orderItems := orderItems d; products := products d;
     users := users d; payments := f (payments d) |}.

(** ** The digest of the webhook signature *)

(** SHA-512 (FIPS 180-4) and HMAC (RFC 2104) over bytes, a byte being a [Z]
    below 256 and a word a [Z] below 2^64: the
    [crypto.createHmac('sha512', key).update(payload, 'utf-8').digest('hex')]
    of [verifyWebhookSignature]. A string stands for its UTF-8 bytes. *)
Module SHA512.

Definition mask : Z := 2 ^ 64 - 1.

Definition add (x y : Z) : Z := Z.land (x + y) mask.

Definition rotr (n x : Z) : Z :=
  Z.lor (Z.shiftr x n) (Z.land (Z.shiftl x (64 - n)) mask).

Definition Ch (x y z : Z) : Z :=
  Z.lxor (Z.land x y) (Z.land (Z.lxor x mask) z).

Definition Maj (x y z : Z) : Z :=
  Z.lxor (Z.lxor (Z.land x y) (Z.land x z)) (Z.land y z).

Definition Sigma0 (x : Z) : Z := Z.lxor (Z.lxor (rotr 28 x) (rotr 34 x)) (rotr 39 x).
Definition Sigma1 (x : Z) : Z := Z.lxor (Z.lxor (rotr 14 x) (rotr 18 x)) (rotr 41 x).
Definition sigma0 (x : Z) : Z := Z.lxor (Z.lxor (rotr 1 x) (rotr 8 x)) (Z.shiftr x 7).
Definition sigma1 (x : Z) : Z := Z.lxor (Z.lxor (rotr 19 x) (rotr 61 x)) (Z.shiftr x 6).

Definition K : list Z :=
  [
   0x428a2f98d728ae22; 0x7137449123ef65cd; 0xb5c0fbcfec4d3b2f; 0xe9b5dba58189dbbc;
   0x3956c25bf348b538; 0x59f111f1b605d019; 0x923f82a4af194f9b; 0xab1c5ed5da6d8118;
   0xd807aa98a3030242; 0x12835b0145706fbe; 0x243185be4ee4b28c; 0x550c7dc3d5ffb4e2;
   0x72be5d74f27b896f; 0x80deb1fe3b1696b1; 0x9bdc06a725c71235; 0xc19bf174cf692694;
   0xe49b69c19ef14ad2; 0xefbe4786384f25e3; 0x0fc19dc68b8cd5b5; 0x240ca1cc77ac9c65;
   0x2de92c6f592b0275; 0x4a7484aa6ea6e483; 0x5cb0a9dcbd41fbd4; 0x76f988da831153b5;
   0x983e5152ee66dfab; 0xa831c66d2db43210; 0xb00327c898fb213f; 0xbf597fc7beef0ee4;
   0xc6e00bf33da88fc2; 0xd5a79147930aa725; 0x06ca6351e003826f; 0x142929670a0e6e70;
   0x27b70a8546d22ffc; 0x2e1b21385c26c926; 0x4d2c6dfc5ac42aed; 0x53380d139d95b3df;
   0x650a73548baf63de; 0x766a0abb3c77b2a8; 0x81c2c92e47edaee6; 0x92722c851482353b;
   0xa2bfe8a14cf10364; 0xa81a664bbc423001; 0xc24b8b70d0f89791; 0xc76c51a30654be30;
   0xd192e819d6ef5218; 0xd69906245565a910; 0xf40e35855771202a; 0x106aa07032bbd1b8;
   0x19a4c116b8d2d0c8; 0x1e376c085141ab53; 0x2748774cdf8eeb99; 0x34b0bcb5e19b48a8;
   0x391c0cb3c5c95a63; 0x4ed8aa4ae3418acb; 0x5b9cca4f7763e373; 0x682e6ff3d6b2b8a3;
   0x748f82ee5defb2fc; 0x78a5636f43172f60; 0x84c87814a1f0ab72; 0x8cc702081a6439ec;
   0x90befffa23631e28; 0xa4506cebde82bde9; 0xbef9a3f7b2c67915; 0xc67178f2e372532b;
   0xca273eceea26619c; 0xd186b8c721c0c207; 0xeada7dd6cde0eb1e; 0xf57d4f7fee6ed178;
   0x06f067aa72176fba; 0x0a637dc5a2c898a6; 0x113f9804bef90dae; 0x1b710b35131c471b;
   0x28db77f523047d84; 0x32caab7b40c72493; 0x3c9ebe0a15c9bebc; 0x431d67c49c100d4c;
   0x4cc5d4becb3e42b6; 0x597f299cfc657e2a; 0x5fcb6fab3ad6faec; 0x6c44198c4a475817
  ].

Definition H0 : list Z :=
  [
   0x6a09e667f3bcc908; 0xbb67ae8584caa73b; 0x3c6ef372fe94f82b; 0xa54ff53a5f1d36f1;
   0x510e527fade682d1; 0x9b05688c2b3e6c1f; 0x1f83d9abfb41bd6b; 0x5be0cd19137e2179
  ].

(** The big-endian bytes of [x], [n] of them. *)
Fixpoint be_bytes (n : nat) (x : Z) : list Z :=
  match n with
  | O => []
  | S n' => (be_bytes n' (Z.shiftr x 8) ++ [Z.land x 255])%list
  end.

Definition be_word (bytes : list Z) : Z :=
  fold_left (fun acc b => Z.lor (Z.shiftl acc 8) b) bytes 0.

(** The message, the byte 0x80, zeros up to 112 modulo 128, and the length
    in bits on 16 bytes. *)
Definition pad (msg : list Z) : list Z :=
  let len := Z.of_nat (length msg) in
  let zeros := Z.to_nat ((111 - len) mod 128) in
  (msg ++ [128] ++ repeat 0 zeros ++ be_bytes 16 (len * 8))%list.

Fixpoint chunks (fuel n : nat) (l : list Z) : list (list Z) :=
  match fuel with
  | O => []
  | S fuel' =>
      match l with
      | [] => []
      | _ => take n l :: chunks fuel' n (drop n l)
      end
  end.

(** The message schedule: [n] more words after the window of the last
    sixteen. *)
Fixpoint schedule (n : nat) (window : list Z) : list Z :=
  match n with
  | O => []
  | S n' =>
      let w := add (add (sigma1 (nth 14 window 0)) (nth 9 window 0))
                   (add (sigma0 (nth 1 window 0)) (nth 0 window 0)) in
      w :: schedule n' (drop 1 window ++ [w])%list
  end.

Record State : Type := mkState { a : Z; b : Z; c : Z; d : Z; e : Z; f : Z; g : Z; h : Z }.

Definition round (s : State) (kw : Z * Z) : State :=
  let T1 := add (add (add (h s) (Sigma1 (e s))) (add (Ch (e s) (f s) (g s)) kw.1)) kw.2 in
  let T2 := add (Sigma0 (a s)) (Maj (a s) (b s) (c s)) in
  {| a := add T1 T2; b := a s; c := b s; d := c s;
     e := add (d s) T1; f := e s; g := f s; h := g s |}.

Definition stateOf (l : list Z) : State :=
  {| a := nth 0 l 0; b := nth 1 l 0; c := nth 2 l 0; d := nth 3 l 0;
     e := nth 4 l 0; f := nth 5 l 0; g := nth 6 l 0; h := nth 7 l 0 |}.

Definition wordsOf (s : State) : list Z :=
  [a s; b s; c s; d s; e s; f s; g s; h s].

Definition compress (hash : list Z) (block : list Z) : list Z :=
  let w16 := map be_word (chunks 16 8 block) in
  let w := (w16 ++ schedule 64 w16)%list in
  let s := fold_left round (combine K w) (stateOf hash) in
  map (fun p => add p.1 p.2) (combine hash (wordsOf s)).

Definition digest (msg : list Z) : list Z :=
  let p := pad msg in
  let hash := fold_left compress (chunks (length p) 128 p) H0 in
  concat (map (be_bytes 8) hash).

Definition hmac (key msg : list Z) : list Z :=
  let key := if (128 <? Z.of_nat (length key)) then digest key else key in
  let key := (key ++ repeat 0 (128 - length key))%list in
  let ikey := map (Z.lxor 54) key in
  let okey := map (Z.lxor 92) key in
  digest (okey ++ digest (ikey ++ msg)).

Definition bytesOf (s : string) : list Z :=
  map (fun ch => Z.of_N (Ascii.N_of_ascii ch)) (String.list_ascii_of_string s).

Definition hexDigit (n : Z) : ascii :=
  Ascii.ascii_of_N (Z.to_N (if n <? 10 then 48 + n else 87 + n)).

Definition hex (bytes : list Z) : string :=
  String.string_of_list_ascii
    (concat (map (fun x => [hexDigit (Z.shiftr x 4); hexDigit (Z.land x 15)]) bytes)).

End SHA512.

(** [crypto.createHmac('sha512', key).update(payload, 'utf-8').digest('hex')] *)
Definition hmac_sha512_hex (key payload : string) : string :=
  SHA512.hex (SHA512.hmac (SHA512.bytesOf key) (SHA512.bytesOf payload)).

(** [PayStackService.verifyWebhookSignature] *)
Definition verifyWebhookSignature (secretKey payload signature : string) : bool :=
  String.eqb (hmac_sha512_hex secretKey payload) signature.

(** ** Operations on JSON values *)

Module JSON.

Definition dquote : ascii := Ascii.ascii_of_nat 34.
Definition backslash : ascii := Ascii.ascii_of_nat 92.

Definition escape (ch : ascii) : list ascii :=
  let n := Ascii.nat_of_ascii ch in
  if Nat.eqb n 34 then [backslash; dquote]
  else if Nat.eqb n 92 then [backslash; backslash]
  else if Nat.eqb n 8 then [backslash; "b"%char]
  else if Nat.eqb n 12 then [backslash; "f"%char]
  else if Nat.eqb n 10 then [backslash; "n"%char]
  else if Nat.eqb n 13 then [backslash; "r"%char]
  else if Nat.eqb n 9 then [backslash; "t"%char]
  else if Nat.ltb n 32 then
    [backslash; "u"%char; "0"%char; "0"%char;
     SHA512.hexDigit (Z.of_nat (n / 16)); SHA512.hexDigit (Z.of_nat (n mod 16))]
  else [ch].

(** [JSON.stringify] of a string. *)
Definition quote (s : string) : string :=
  String.string_of_list_ascii
    ([dquote] ++ concat (map escape (String.list_ascii_of_string s)) ++ [dquote]).

(** [JSON.stringify] *)
Fixpoint stringify (j : json) : string :=
  match j with
  | JNull => "null"
  | JBool true => "true"
  | JBool false => "false"
  | JNum n => pretty n
  | JStr s => quote s
  | JArr l => "[" ++ String.concat "," (map stringify l) ++ "]"
  | JObj fields =>
      "{" ++ String.concat ","
               (map (fun kv => match kv with (k, v) => quote k ++ ":" ++ stringify v end)
                  fields)
      ++ "}"
  end.

(** [j.key] (or [j[key]]): a [TypeError] on [null], [undefined] on a value
    that is not an object or has no such property. *)
Definition get (key : string) (j : json) : Completion (option json) :=
  match j with
  | JNull => Throw (null_read key)
  | JObj fields => Return (snd <$> List.find (fun kv => String.eqb kv.1 key) fields)
  | _ => Return None
  end.

(** The same read on a value that may be [undefined]. *)
Definition get_of (key : string) (j : option json) : Completion (option json) :=
  match j with
  | None => Throw (undefined_read key)
  | Some j => get key j
  end.

Definition asString (j : option json) : option string :=
  match j with Some (JStr s) => Some s | _ => None end.

Definition asNumber (j : option json) : option Z :=
  match j with Some (JNum n) => Some n | _ => None end.

(** [String(j)], the primitive that [new Date(j)] parses when [j] is an
    array or an object: the elements of an array are joined by commas,
    [null] among them giving the empty string. *)
Fixpoint toString (j : json) : string :=
  match j with
  | JNull => "null"
  | JBool true => "true"
  | JBool false => "false"
  | JNum n => pretty n
  | JStr s => s
  | JArr l =>
      String.concat ","
        (map (fun x => match x with JNull => EmptyString | _ => toString x end) l)
  | JObj _ => "[object Object]"
  end.

End JSON.

(** ** Errors of the document mapper *)

Definition quoted (s : string) : string :=
  String JSON.dquote (s ++ String JSON.dquote EmptyString).

(** The [CastError] of Mongoose: a value that cannot be cast to the type
    of its path. *)
Definition castError (type value valueType path : string) (model : option string)
  : Exception :=
  Error ("Cast to " ++ type ++ " failed for value " ++ quoted value
         ++ " (type " ++ valueType ++ ") at path " ++ quoted path
         ++ match model with
            | Some m => " for model " ++ quoted m
            | None => EmptyString
            end).

(** ** Numbers *)

(** A JavaScript [number] is a binary64 floating-point number of IEEE 754:
    [spec_float] at precision 53 with maximal exponent 1024, whose
    operations round to nearest, a tie going to the even mantissa. *)
Module Number.

Definition t : Type := spec_float.

Definition prec : Z := 53.
Definition emax : Z := 1024.

(** The number nearest to a whole number. *)
Definition of_Z (n : Z) : t := binary_normalize prec emax n 0 false.

(** [x * y], [x + y] and [x / y] *)
Definition mul : t -> t -> t := SFmul prec emax.
Definition add : t -> t -> t := SFadd prec emax.
Definition div : t -> t -> t := SFdiv prec emax.

(** The decimal literal that reads [num / den], as [0.035] reads
    [35 / 1000]: the number nearest to the fraction. *)
Definition decimal (num den : Z) : t := div (of_Z num) (of_Z den).

(** [ToBoolean] of a number: [0], [-0] and [NaN] are falsy. *)
Definition toBoolean (x : t) : bool :=
  match x with
  | S754_zero _ | S754_nan => false
  | _ => true
  end.

(** The whole number a number holds, when it holds one. *)
Definition to_Z (x : t) : option Z :=
  match x with
  | S754_zero _ => Some 0
  | S754_finite s m e =>
      if 0 <=? e then Some (cond_Zopp s (Z.pos m * 2 ^ e))
      else if Z.pos m mod 2 ^ (- e) =? 0
           then Some (cond_Zopp s (Z.pos m / 2 ^ (- e)))
           else None
  | _ => None
  end.

End Number.

Definition number : Type := Number.t.

(** ** Pricing of one cart line *)

(** [Math.round]: the whole number nearest to [x], a tie going up; a
    result in [-0.5, 0) is [-0], and [NaN], the infinities and the zeros
    are returned as they are. A number whose exponent is not negative is
    whole already. *)
Definition Math_round (x : number) : number :=
  match x with
  | S754_finite s m e =>
      if 0 <=? e then x
      else
        let n := (cond_Zopp s (Z.pos m) + 2 ^ (- e - 1)) / 2 ^ (- e) in
        if n =? 0 then S754_zero s else Number.of_Z n
  | _ => x
  end.

(** [calculateServiceFee]: 3.5% service fee. *)
Definition calculateServiceFee (amount : number) : number :=
  Math_round (Number.mul amount (Number.decimal 35 1000)).

(** [calculateTaxes]: 7.5% VAT. *)
Definition calculateTaxes (amount : number) : number :=
  Math_round (Number.mul amount (Number.decimal 75 1000)).

Record Pricing (A : Type) : Type := mkPricing {
  pr_totalPrice : A;
  pr_shippingCost : A;
  pr_itemServiceFee : A;
  pr_itemTaxes : A;
  pr_itemTotal : A
}.
Arguments mkPricing {A}.
Arguments pr_totalPrice {A}.
Arguments pr_shippingCost {A}.
Arguments pr_itemServiceFee {A}.
Arguments pr_itemTaxes {A}.
Arguments pr_itemTotal {A}.

(** [x || 0] on a number that may be absent: zero replaces an absent or
    null, zero or [NaN] one. *)
Definition orZero (x : option number) : number :=
  match x with
  | Some n => if Number.toBoolean n then n else Number.of_Z 0
  | None => Number.of_Z 0
  end.

(** The block "Calculate item pricing" of [calculateOrder]; [domestic] is
    [product.shipping?.domestic]. *)
Definition calculateItemPricing (unitPrice quantity : number) (domestic : option number)
  : Pricing number :=
  let totalPrice := Number.mul unitPrice quantity in
  let shippingCost := Number.mul (orZero domestic) quantity in
  let itemServiceFee := calculateServiceFee totalPrice in
  let itemTaxes := calculateTaxes (Number.add totalPrice itemServiceFee) in
  let itemTotal :=
    Number.add (Number.add (Number.add totalPrice shippingCost) itemServiceFee)
      itemTaxes in
  {| pr_totalPrice := totalPrice; pr_shippingCost := shippingCost;
     pr_itemServiceFee := itemServiceFee; pr_itemTaxes := itemTaxes;
     pr_itemTotal := itemTotal |}.

(** *** Whole amounts *)

(** The amounts of the marketplace are whole numbers of naira. On them the
    services are followed in exact arithmetic: products and sums of whole
    numbers, and the percentages as fractions, rounded half up. These are
    the equations of the specification; the methods above agree with them
    as long as the amounts of a line do not exceed [maxAmount] (C2), and
    differ from them on larger ones. *)
Module Exact.

Definition Math_round (x : Q) : Z := Qfloor (x + (1 # 2))%Q.

Definition calculateServiceFee (amount : Z) : Z :=
  Math_round (inject_Z amount * (35 # 1000))%Q.

Definition calculateTaxes (amount : Z) : Z :=
  Math_round (inject_Z amount * (75 # 1000))%Q.

Definition calculateItemPricing (unitPrice quantity : Z) (domestic : option Z)
  : Pricing Z :=
  let totalPrice := unitPrice * quantity in
  let shippingCost := default 0 domestic * quantity in
  let itemServiceFee := calculateServiceFee totalPrice in
  let itemTaxes := calculateTaxes (totalPrice + itemServiceFee) in
  let itemTotal := totalPrice + shippingCost + itemServiceFee + itemTaxes in
  {| pr_totalPrice := totalPrice; pr_shippingCost := shippingCost;
     pr_itemServiceFee := itemServiceFee; pr_itemTaxes := itemTaxes;
     pr_itemTotal := itemTotal |}.

Definition nairaToKobo (nairaAmount : Z) : Z :=
  Math_round (inject_Z nairaAmount * 100).

Definition koboToNaira (koboAmount : Z) : Q := (koboAmount # 100)%Q.

End Exact.

(** A bound on the amounts of a line, the price times the quantity and the
    shipping cost times the quantity, up to which the breakdown of the
    line on binary64 numbers is the exact one. *)
Definition maxAmount : Z := 70000000000000.

(** ** Order calculation *)

Definition emptyResponse : OrderCalculationResponseDto :=
  {| items := []; subtotal := 0; totalShippingCost := 0; totalServiceFee := 0;
     totalTaxes := 0; couponDiscount := 0; totalAmount := 0; currency := "NGN";
     itemCount := 0; sellerCount := 0; unavailableItems := []; errors := [] |}.

(** [response.errors.push(e)] *)
Definition push_error (e : string) (r : OrderCalculationResponseDto) :=
  {| items := items r; subtotal := subtotal r;
     totalShippingCost := totalShippingCost r; totalServiceFee := totalServiceFee r;
     totalTaxes := totalTaxes r; couponDiscount := couponDiscount r;
     totalAmount := totalAmount r; currency := currency r;
     itemCount := itemCount r; sellerCount := sellerCount r;
     unavailableItems := unavailableItems r; errors := errors r ++ [e] |}.

(** [response.unavailableItems.push(id)] *)
Definition push_unavailable (id : string) (r : OrderCalculationResponseDto) :=
  {| items := items r; subtotal := subtotal r;
     totalShippingCost := totalShippingCost r; totalServiceFee := totalServiceFee r;
     totalTaxes := totalTaxes r; couponDiscount := couponDiscount r;
     totalAmount := totalAmount r; currency := currency r;
     itemCount := itemCount r; sellerCount := sellerCount r;
     unavailableItems := unavailableItems r ++ [id]; errors := errors r |}.

(** [response.items.push(itemData)] *)
Definition push_item (d : ItemData) (r : OrderCalculationResponseDto) :=
  {| items := items r ++ [d]; subtotal := subtotal r;
     totalShippingCost := totalShippingCost r; totalServiceFee := totalServiceFee r;
     totalTaxes := totalTaxes r; couponDiscount := couponDiscount r;
     totalAmount := totalAmount r; currency := currency r;
     itemCount := itemCount r; sellerCount := sellerCount r;
     unavailableItems := unavailableItems r; errors := errors r |}.

(** The five [+=] of the block "Add to totals only if available". *)
Definition add_to_totals (d : ItemData) (r : OrderCalculationResponseDto) :=
  {| items := items r; subtotal := subtotal r + totalPrice d;
     totalShippingCost := totalShippingCost r + shippingCost d;
     totalServiceFee := totalServiceFee r + itemServiceFee d;
     totalTaxes := totalTaxes r + itemTaxes d; couponDiscount := couponDiscount r;
     totalAmount := totalAmount r; currency := currency r;
     itemCount := itemCount r + item_quantity d; sellerCount := sellerCount r;
     unavailableItems := unavailableItems r; errors := errors r |}.

(** The two assignments after the loop. *)
Definition finish (sellers : gset string) (r : OrderCalculationResponseDto) :=
  {| items := items r; subtotal := subtotal r;
     totalShippingCost := totalShippingCost r; totalServiceFee := totalServiceFee r;
     totalTaxes := totalTaxes r; couponDiscount := couponDiscount r;
     totalAmount := subtotal r + totalShippingCost r + totalServiceFee r
                    + totalTaxes r - couponDiscount r;
     currency := currency r;
     itemCount := itemCount r; sellerCount := Z.of_nat (size sellers);
     unavailableItems := unavailableItems r; errors := errors r |}.

(** The availability check of [calculateOrder]: the flag and the message. *)
Definition checkAvailability (product : Product) (requested : Z) (buyerId : string)
  : bool * option string :=
  let available := negb (sold product) && (requested <=? quantity product) in
  if sold product then (available, Some "Product is no longer available")
  else if quantity product <? requested then
    (available, Some ("Only " ++ pretty (quantity product) ++ " items available"))
  else if String.eqb (product_sellerId product) buyerId then
    (false, Some "You cannot buy your own product")
  else (available, None).

(** The [itemData] literal. *)
Definition makeItemData (item : OrderItemDto) (product : Product) (seller : User)
    (buyerId : string) : ItemData :=
  let '(available, availabilityMessage) :=
    checkAvailability product (dto_quantity item) buyerId in
  let p := Exact.calculateItemPricing (sellingPrice product) (dto_quantity item)
             (shipping_domestic product) in
  {| productId := dto_productId item;
     productTitle := title product;
     unitPrice := sellingPrice product;
     item_quantity := dto_quantity item;
     totalPrice := pr_totalPrice p;
     shippingCost := pr_shippingCost p;
     itemServiceFee := pr_itemServiceFee p;
     itemTaxes := pr_itemTaxes p;
     itemTotal := pr_itemTotal p;
     sellerId := product_sellerId product;
     sellerName := firstName seller ++ " " ++ lastName seller;
     available := available;
     availabilityMessage := availabilityMessage |}.

(** ** Seller payouts *)

(** A JavaScript [Map] keyed by seller id: the entries in insertion
    order. *)
Definition Map_has (k : string) (m : list (string * SellerPayout)) : bool :=
  existsb (fun kv => String.eqb kv.1 k) m.

(** The mutation of the payout [sellerMap.get(k)] in place. *)
Definition Map_update (k : string) (f : SellerPayout -> SellerPayout)
    (m : list (string * SellerPayout)) : list (string * SellerPayout) :=
  map (fun kv => if String.eqb kv.1 k then (kv.1, f kv.2) else kv) m.

Definition add_item_to_payout (item : ItemData) (payout : SellerPayout) : SellerPayout :=
  {| payout_sellerId := payout_sellerId payout;
     payout_sellerName := payout_sellerName payout;
     payout_itemCount := payout_itemCount payout + item_quantity item;
     revenue := revenue payout + (totalPrice item - itemServiceFee item);
     serviceFee := serviceFee payout + itemServiceFee item;
     paid := paid payout;
     payoutReference := payoutReference payout;
     payout_paidAt := payout_paidAt payout |}.

(** The callback of [items.forEach] in [preparellerPayouts]. *)
Definition payoutStep (sellerMap : list (string * SellerPayout)) (item : ItemData)
  : list (string * SellerPayout) :=
  let sellerMap :=
    if Map_has (sellerId item) sellerMap then sellerMap
    else (sellerMap ++
          [(sellerId item,
            {| payout_sellerId := sellerId item; payout_sellerName := sellerName item;
               payout_itemCount := 0; revenue := 0; serviceFee := 0; paid := false;
               payoutReference := None; payout_paidAt := None |})])%list in
  Map_update (sellerId item) (add_item_to_payout item) sellerMap.

Definition preparellerPayouts (calculated : list ItemData) : list SellerPayout :=
  map snd (fold_left payoutStep calculated []).

(** ** Order documents: field updates *)

Definition set_status (s : OrderStatus.t) (o : Order) : Order :=
  {| orderNumber := orderNumber o; buyerId := buyerId o; status := s;
     totals := totals o; sellerIds := sellerIds o; sellerPayouts := sellerPayouts o;
     payment := payment o; shipping := shipping o; management := management o;
     adminNotes := adminNotes o; buyerNotes := buyerNotes o;
     statusHistory := statusHistory o |}.

Definition set_payment (p : OrderPayment) (o : Order) : Order :=
  {| orderNumber := orderNumber o; buyerId := buyerId o; status := status o;
     totals := totals o; sellerIds := sellerIds o; sellerPayouts := sellerPayouts o;
     payment := p; shipping := shipping o; management := management o;
     adminNotes := adminNotes o; buyerNotes := buyerNotes o;
     statusHistory := statusHistory o |}.

Definition set_shipping (s : OrderShipping) (o : Order) : Order :=
  {| orderNumber := orderNumber o; buyerId := buyerId o; status := status o;
     totals := totals o; sellerIds := sellerIds o; sellerPayouts := sellerPayouts o;
     payment := payment o; shipping := s; management := management o;
     adminNotes := adminNotes o; buyerNotes := buyerNotes o;
     statusHistory := statusHistory o |}.

Definition set_management (m : OrderManagement) (o : Order) : Order :=
  {| orderNumber := orderNumber o; buyerId := buyerId o; status := status o;
     totals := totals o; sellerIds := sellerIds o; sellerPayouts := sellerPayouts o;
     payment := payment o; shipping := shipping o; management := m;
     adminNotes := adminNotes o; buyerNotes := buyerNotes o;
     statusHistory := statusHistory o |}.

Definition set_adminNotes (n : option string) (o : Order) : Order :=
  {| orderNumber := orderNumber o; buyerId := buyerId o; status := status o;
     totals := totals o; sellerIds := sellerIds o; sellerPayouts := sellerPayouts o;
     payment := payment o; shipping := shipping o; management := management o;
     adminNotes := n; buyerNotes := buyerNotes o;
     statusHistory := statusHistory o |}.

Definition set_sellerPayouts (ps : list SellerPayout) (o : Order) : Order :=
  {| orderNumber := orderNumber o; buyerId := buyerId o; status := status o;
     totals := totals o; sellerIds := sellerIds o; sellerPayouts := ps;
     payment := payment o; shipping := shipping o; management := management o;
     adminNotes := adminNotes o; buyerNotes := buyerNotes o;
     statusHistory := statusHistory o |}.

(** [order.statusHistory.push(entry)] *)
Definition push_history (entry : string) (o : Order) : Order :=
  {| orderNumber := orderNumber o; buyerId := buyerId o; status := status o;
     totals := totals o; sellerIds := sellerIds o; sellerPayouts := sellerPayouts o;
     payment := payment o; shipping := shipping o; management := management o;
     adminNotes := adminNotes o; buyerNotes := buyerNotes o;
     statusHistory := statusHistory o ++ [entry] |}.

Definition set_confirmedAt (t : Date) (o : Order) : Order :=
  let m := management o in
  set_management
    {| confirmedAt := Some t; processingAt := processingAt m;
       cancelledAt := cancelledAt m; cancellationReason := cancellationReason m;
       cancelledBy := cancelledBy m |} o.

Definition set_processingAt (t : Date) (o : Order) : Order :=
  let m := management o in
  set_management
    {| confirmedAt := confirmedAt m; processingAt := Some t;
       cancelledAt := cancelledAt m; cancellationReason := cancellationReason m;
       cancelledBy := cancelledBy m |} o.

(** The three assignments of the CANCELLED case. *)
Definition set_cancelled (t : Date) (reason : option string) (by_ : ObjectId)
    (o : Order) : Order :=
  let m := management o in
  set_management
    {| confirmedAt := confirmedAt m; processingAt := processingAt m;
       cancelledAt := Some t; cancellationReason := reason;
       cancelledBy := Some by_ |} o.

(** A JavaScript string used as a condition: absent and empty are false. *)
Definition truthy (s : option string) : bool :=
  match s with
  | Some s => negb (String.eqb s EmptyString)
  | None => false
  end.

(** The assignments of the SHIPPED case. *)
Definition set_shipped (t : Date) (tracking carrier : option string) (o : Order) : Order :=
  let s := shipping o in
  set_shipping
    {| shippingAddress := shippingAddress s; shippingMethod := shippingMethod s;
       trackingNumber := if truthy tracking then tracking else trackingNumber s;
       carrierName := if truthy carrier then carrier else carrierName s;
       shippedAt := Some t; deliveredAt := deliveredAt s |} o.

Definition set_deliveredAt (t : Date) (o : Order) : Order :=
  let s := shipping o in
  set_shipping
    {| shippingAddress := shippingAddress s; shippingMethod := shippingMethod s;
       trackingNumber := trackingNumber s; carrierName := carrierName s;
       shippedAt := shippedAt s; deliveredAt := Some t |} o.

(** ** The order status state machine *)

(** The table [validTransitions]. *)
Definition validTransitions (currentStatus : OrderStatus.t) : list OrderStatus.t :=
  match currentStatus with
  | OrderStatus.PENDING => [OrderStatus.CONFIRMED; OrderStatus.CANCELLED]
  | OrderStatus.CONFIRMED => [OrderStatus.PROCESSING; OrderStatus.CANCELLED]
  | OrderStatus.PROCESSING => [OrderStatus.SHIPPED; OrderStatus.CANCELLED]
  | OrderStatus.SHIPPED => [OrderStatus.DELIVERED]
  | OrderStatus.DELIVERED => [OrderStatus.REFUNDED]
  | OrderStatus.CANCELLED => []
  | OrderStatus.REFUNDED => []
  end.

(** [Array.prototype.includes] on statuses. *)
Definition includes (l : list OrderStatus.t) (s : OrderStatus.t) : bool :=
  existsb (OrderStatus.eqb s) l.

Definition validateStatusTransition (currentStatus newStatus : OrderStatus.t)
  : Completion unit :=
  if negb (includes (validTransitions currentStatus) newStatus) then
    Throw (BadRequestException
             ("Invalid status transition from " ++ OrderStatus.toString currentStatus
              ++ " to " ++ OrderStatus.toString newStatus))
  else Return tt.

(** [order.sellerId]: the order schema has no such path, so the read on an
    order document yields [undefined]. *)
Definition Order_sellerId (order : Order) : option ObjectId := None.

(** [x.toString()] on a value that may be [undefined]. *)
Definition toString_of (x : option ObjectId) : Completion string :=
  match x with
  | Some s => Return s
  | None => Throw (undefined_read "toString")
  end.

Definition canUpdateOrderStatus (order : Order) (userId userRole : string)
    (newStatus : OrderStatus.t) : Completion bool :=
  if String.eqb userRole "admin" then Return true
  else
    let isBuyer := String.eqb (buyerId order) userId in
    bindC (toString_of (Order_sellerId order)) (fun seller =>
    let isSeller := String.eqb seller userId in
    if isBuyer && OrderStatus.eqb newStatus OrderStatus.CANCELLED then Return true
    else if isSeller
            && includes [OrderStatus.CONFIRMED; OrderStatus.PROCESSING; OrderStatus.SHIPPED]
                 newStatus
    then Return true
    else Return false).

Record UpdateOrderStatusDto : Type := mkUpdateStatus {
  us_status : OrderStatus.t;
  us_reason : option string;
  us_trackingNumber : option string;
  us_carrierName : option string;
  us_adminNotes : option string
}.

Record CreateOrderDto : Type := mkCreateOrder {
  co_items : list OrderItemDto;
  co_shippingAddress : ShippingAddress;
  co_shippingMethod : option string;
  co_buyerNotes : option string;
  co_couponCode : option string
}.

Record PaymentData : Type := mkPaymentData {
  pd_reference : string;
  pd_method : PaymentMethod.t;
  pd_gateway : PaymentGateway.t
}.

Record ProcessSellerPayoutDto : Type := mkProcessPayout {
  pp_sellerId : string;
  pp_payoutReference : string
}.

(** What a call draws from its environment: the clock, [Math.random] and
    the identifier the store gives a new document. *)
Record Entropy : Type := mkEntropy {
  now : Date;
  random : Z;
  newId : ObjectId
}.

(** [generateOrderNumber]; [random] is [Math.floor(Math.random() * 1000)]. *)
Definition generateOrderNumber (e : Entropy) : string :=
  "ORD" ++ pretty (now e) ++ pretty (random e).

(** The item documents of one order: [orderItemModel.find({ orderId })]. *)
Definition itemsOf (orderId : ObjectId) (d : Db) : list OrderItem :=
  filter (fun it => oi_orderId it = orderId) (orderItems d).

Section Services.

(** [Types.ObjectId.isValid] and [Date.prototype.toISOString], of the
    libraries. *)
Variable ObjectId_isValid : string -> bool.
Variable toISOString : Date -> string.

(** [new Types.ObjectId(id)] on a string: the constructor throws on what
    [isValid] refuses. *)
Definition new_ObjectId (id : string) : Completion ObjectId :=
  if ObjectId_isValid id then Return id
  else Throw (Error "input must be a 24 character hex string, 12 byte Uint8Array, or an integer").

(** [model.findById(id)] with an id of the caller. The documents of a
    collection are stored under ObjectIds: a string that [isValid] refuses
    names none of them, and the query for it is rejected with the
    [CastError] of its [_id] before it reaches the store. *)
Definition Model_findById {A} (c : Collection) (model : string)
    (lookup : Db -> option A) (id : string) : Async (option A) :=
  fun w =>
    match lookup (db w) with
    | None =>
        if ObjectId_isValid id then read c lookup w
        else throw (castError "ObjectId" id "string" "_id" (Some model)) w
    | Some _ => read c lookup w
    end.

(** [productModel.findById(id).populate('sellerId', ...).lean()]: the
    product with its seller, [null] in place of a seller that is not in the
    users collection. *)
Definition findProductWithSeller (id : string) : Async (option (Product * option User)) :=
  let* product := read ProductModel (fun d => products d !! id) in
  match product with
  | None => ret None
  | Some p =>
      let* seller := read UserModel (fun d => users d !! product_sellerId p) in
      ret (Some (p, seller))
  end.

(** One turn of the loop "Process each item"; the accumulator is the
    response and the set [sellerIds]. *)
Definition processItem (buyerId : string)
    (acc : OrderCalculationResponseDto * gset string) (item : OrderItemDto)
  : Async (OrderCalculationResponseDto * gset string) :=
  let '(response, sellers) := acc in
  if negb (ObjectId_isValid (dto_productId item)) then
    ret (push_error ("Invalid product ID: " ++ dto_productId item) response, sellers)
  else
    let* found := findProductWithSeller (dto_productId item) in
    match found with
    | None =>
        ret (push_unavailable (dto_productId item)
               (push_error ("Product not found: " ++ dto_productId item) response),
             sellers)
    | Some (product, None) => throw (null_read "_id")
    | Some (product, Some seller) =>
        let itemData := makeItemData item product seller buyerId in
        let response :=
          if available itemData then response
          else push_unavailable (dto_productId item) response in
        let response := push_item itemData response in
        let sellers := {[ sellerId itemData ]} ∪ sellers in
        let response :=
          if available itemData then add_to_totals itemData response else response in
        ret (response, sellers)
    end.

Fixpoint forEach {A S} (body : S -> A -> Async S) (l : list A) (s : S) : Async S :=
  match l with
  | [] => ret s
  | x :: l' => let* s' := body s x in forEach body l' s'
  end.

Definition calculateOrder (dtoItems : list OrderItemDto) (buyerId : string)
  : Async OrderCalculationResponseDto :=
  try_catch
    (if negb (ObjectId_isValid buyerId) then
       throw (BadRequestException "Invalid buyer ID format")
     else
       let* acc := forEach (processItem buyerId) dtoItems (emptyResponse, ∅) in
       ret (finish acc.2 acc.1))
    (fun error =>
       if instanceof_BadRequest error then throw error
       else throw (BadRequestException ("Failed to calculate order: " ++ message error))).

(** *** Order creation *)

Definition nonEmpty {A} (l : list A) : bool :=
  match l with
  | [] => false
  | _ :: _ => true
  end.

(** The [orderItem] literal of [createOrderItems]. The image and the
    category of the snapshot are left out, as they are in [Product]. *)
Definition makeOrderItem (orderId : ObjectId) (calcItem : ItemData)
    (originalItem : option OrderItemDto) (product : Product) (seller : User) : OrderItem :=
  let selected := originalItem ≫= dto_selectedSize in
  {| oi_orderId := orderId;
     oi_productId := productId calcItem;
     oi_sellerId := sellerId calcItem;
     oi_productTitle := title product;
     oi_productBrand := brand product;
     oi_productSize := if truthy selected then selected else product_size product;
     oi_productCondition := condition product;
     oi_quantity := item_quantity calcItem;
     oi_unitPrice := unitPrice calcItem;
     oi_totalPrice := totalPrice calcItem;
     oi_shippingCost := shippingCost calcItem;
     oi_itemServiceFee := itemServiceFee calcItem;
     oi_itemTaxes := itemTaxes calcItem;
     oi_itemTotal := itemTotal calcItem;
     oi_sellerName := sellerName calcItem;
     oi_sellerEmail := email seller;
     oi_sellerPhone := phone seller;
     sellerRevenue := totalPrice calcItem - itemServiceFee calcItem;
     sellerPaid := false;
     sellerPayoutReference := None;
     sellerPaidAt := None;
     itemStatus := ItemStatus.pending;
     oi_cancelledAt := None;
     oi_cancellationReason := None;
     oi_available := available calcItem;
     oi_availabilityMessage := availabilityMessage calcItem |}.

(** One turn of the loop of [createOrderItems]. *)
Definition appendOrderItem (orderId : ObjectId) (originalItems : list OrderItemDto)
    (orderItems : list OrderItem) (calcItem : ItemData) : Async (list OrderItem) :=
  let originalItem :=
    List.find (fun it => String.eqb (dto_productId it) (productId calcItem))
      originalItems in
  let* product := read ProductModel (fun d => products d !! productId calcItem) in
  let* seller := read UserModel (fun d => users d !! sellerId calcItem) in
  match product, seller with
  | Some p, Some u =>
      ret (orderItems ++ [makeOrderItem orderId calcItem originalItem p u])%list
  | _, _ => ret orderItems
  end.

(** The validators of the [OrderItem] schema that a document built by
    [createOrderItems] can fail: [productTitle] is required, which an
    empty string does not meet, and [quantity] has a minimum of 1. The
    other required paths always hold a value. *)
Definition validationErrors (it : OrderItem) : list string :=
  (if String.eqb (oi_productTitle it) EmptyString
   then ["productTitle: Path `productTitle` is required."] else [])
  ++ (if oi_quantity it <? 1
      then ["quantity: Path `quantity` (" ++ pretty (oi_quantity it)
            ++ ") is less than minimum allowed value (1)."]
      else []).

Definition validates (it : OrderItem) : bool :=
  negb (String.eqb (oi_productTitle it) EmptyString) && (1 <=? oi_quantity it).

(** [orderItemModel.insertMany(docs)]: every document is validated before
    any is sent to the store; the first one that fails rejects the call. *)
Definition insertMany (docs : list OrderItem) : Async unit :=
  match List.find (fun it => negb (validates it)) docs with
  | Some invalid =>
      throw (Error ("OrderItem validation failed: "
                    ++ String.concat ", " (validationErrors invalid)))
  | None => write OrderItemModel (set_orderItems (fun l => l ++ docs)%list)
  end.

Definition createOrderItems (orderId : ObjectId) (calculatedItems : list ItemData)
    (originalItems : list OrderItemDto) : Async (list OrderItem) :=
  let* orderItems :=
    forEach (appendOrderItem orderId originalItems) calculatedItems [] in
  insertMany orderItems ;;;
  ret orderItems.

(** The order document [create] builds. [sellerIds] is built from a [Set]
    of freshly allocated [ObjectId] objects, which a [Set] tells apart by
    reference: it keeps one entry per item. *)
Definition newOrder (dto : CreateOrderDto) (buyerId : string) (e : Entropy)
    (calculation : OrderCalculationResponseDto) : Order :=
  {| orderNumber := generateOrderNumber e;
     buyerId := buyerId;
     status := OrderStatus.PENDING;
     totals :=
       {| o_subtotal := subtotal calculation;
          o_totalShippingCost := totalShippingCost calculation;
          o_totalServiceFee := totalServiceFee calculation;
          o_totalTaxes := totalTaxes calculation;
          o_totalAmount := totalAmount calculation;
          o_itemCount := itemCount calculation;
          o_sellerCount := sellerCount calculation;
          o_currency := currency calculation |};
     sellerIds := map sellerId (items calculation);
     sellerPayouts := preparellerPayouts (items calculation);
     payment :=
       {| paymentStatus := PaymentStatus.PENDING; paymentMethod := None;
          paymentReference := None; paymentGateway := None; paidAt := None |};
     shipping :=
       {| shippingAddress := co_shippingAddress dto;
          shippingMethod := co_shippingMethod dto;
          trackingNumber := None; carrierName := None;
          shippedAt := None; deliveredAt := None |};
     management :=
       {| confirmedAt := None; processingAt := None; cancelledAt := None;
          cancellationReason := None; cancelledBy := None |};
     adminNotes := None;
     buyerNotes := co_buyerNotes dto;
     statusHistory := ["Order created - " ++ toISOString (now e)] |}.

(** [create] returns the saved order and its items, of which the response
    DTO is a projection. *)
Definition create (dto : CreateOrderDto) (buyerId : string) (e : Entropy)
  : Async (Order * list OrderItem) :=
  try_catch
    (if negb (ObjectId_isValid buyerId) then
       throw (BadRequestException "Invalid buyer ID format")
     else
       let* calculation := calculateOrder (co_items dto) buyerId in
       if nonEmpty (errors calculation) then
         throw (BadRequestException
                  ("Order validation failed: "
                   ++ String.concat ", " (errors calculation)))
       else if nonEmpty (unavailableItems calculation) then
         throw (ConflictException
                  ("Some items are no longer available: "
                   ++ String.concat ", " (unavailableItems calculation)))
       else if negb (nonEmpty (items calculation)) then
         throw (BadRequestException "No valid items in order")
       else
         let order := newOrder dto buyerId e calculation in
         write OrderModel (set_orders (insert (newId e) order)) ;;;
         let* orderItems :=
           createOrderItems (newId e) (items calculation) (co_items dto) in
         ret (order, orderItems))
    (fun error =>
       if instanceof_NotFound error || instanceof_BadRequest error
          || instanceof_Conflict error
       then throw error
       else throw (BadRequestException ("Failed to create order: " ++ message error))).

(** *** Stock of the products *)

Definition set_stock (q : Z) (s : bool) (at_ : option Date) (p : Product) : Product :=
  {| product_sellerId := product_sellerId p; title := title p; brand := brand p;
     product_size := product_size p; condition := condition p;
     sellingPrice := sellingPrice p; quantity := q; sold := s; soldAt := at_;
     shipping_domestic := shipping_domestic p |}.

(** The update document of [updateProductAfterPayment], applied to the
    stored product: [$set] of [sold], [soldAt], [quantity] when the new
    quantity is not positive, [$inc] of [quantity] otherwise. *)
Definition paymentUpdate (newQuantity qty : Z) (t : Date) (p : Product) : Product :=
  if newQuantity <=? 0 then set_stock 0 true (Some t) p
  else set_stock (quantity p + - qty) (sold p) (soldAt p) p.

Definition updateProductAfterPayment (productId : ObjectId) (qty : Z) (t : Date)
  : Async unit :=
  try_catch
    (let* product := read ProductModel (fun d => products d !! productId) in
     match product with
     | None => ret tt
     | Some product =>
         let newQuantity := quantity product - qty in
         write ProductModel (set_products (alter (paymentUpdate newQuantity qty t) productId))
     end)
    (fun error => ret tt).

(** The update document of [restoreProductQuantity]: [$inc] of [quantity],
    [$set] of [sold], [$unset] of [soldAt]. *)
Definition restoreUpdate (qty : Z) (p : Product) : Product :=
  set_stock (quantity p + qty) false None p.

Definition restoreProductQuantity (orderId : ObjectId) : Async unit :=
  try_catch
    (let* orderItems := read OrderItemModel (itemsOf orderId) in
     forEach
       (fun (_ : unit) item =>
          let* product := read ProductModel (fun d => products d !! oi_productId item) in
          match product with
          | None => ret tt
          | Some _ =>
              write ProductModel
                (set_products (alter (restoreUpdate (oi_quantity item)) (oi_productId item)))
          end)
       orderItems tt)
    (fun error => ret tt).

(** *** Item documents: field updates *)

Definition set_itemStatus (s : ItemStatus.t) (c : option Date) (r : option string)
    (it : OrderItem) : OrderItem :=
  {| oi_orderId := oi_orderId it; oi_productId := oi_productId it;
     oi_sellerId := oi_sellerId it; oi_productTitle := oi_productTitle it;
     oi_productBrand := oi_productBrand it; oi_productSize := oi_productSize it;
     oi_productCondition := oi_productCondition it; oi_quantity := oi_quantity it;
     oi_unitPrice := oi_unitPrice it; oi_totalPrice := oi_totalPrice it;
     oi_shippingCost := oi_shippingCost it; oi_itemServiceFee := oi_itemServiceFee it;
     oi_itemTaxes := oi_itemTaxes it; oi_itemTotal := oi_itemTotal it;
     oi_sellerName := oi_sellerName it; oi_sellerEmail := oi_sellerEmail it;
     oi_sellerPhone := oi_sellerPhone it; sellerRevenue := sellerRevenue it;
     sellerPaid := sellerPaid it; sellerPayoutReference := sellerPayoutReference it;
     sellerPaidAt := sellerPaidAt it; itemStatus := s;
     oi_cancelledAt := c; oi_cancellationReason := r;
     oi_available := oi_available it;
     oi_availabilityMessage := oi_availabilityMessage it |}.

(** [$set: { itemStatus: 'confirmed' }] *)
Definition confirmItem (it : OrderItem) : OrderItem :=
  set_itemStatus ItemStatus.confirmed (oi_cancelledAt it) (oi_cancellationReason it) it.

(** [$set: { itemStatus: 'cancelled', cancelledAt, cancellationReason }];
    setting a field to [undefined] leaves it as it is. *)
Definition cancelItem (t : Date) (reason : option string) (it : OrderItem) : OrderItem :=
  set_itemStatus ItemStatus.cancelled (Some t)
    (match reason with Some r => Some r | None => oi_cancellationReason it end) it.

(** [$set: { sellerPaid, sellerPayoutReference, sellerPaidAt }] *)
Definition payItem (ref : string) (t : Date) (it : OrderItem) : OrderItem :=
  {| oi_orderId := oi_orderId it; oi_productId := oi_productId it;
     oi_sellerId := oi_sellerId it; oi_productTitle := oi_productTitle it;
     oi_productBrand := oi_productBrand it; oi_productSize := oi_productSize it;
     oi_productCondition := oi_productCondition it; oi_quantity := oi_quantity it;
     oi_unitPrice := oi_unitPrice it; oi_totalPrice := oi_totalPrice it;
     oi_shippingCost := oi_shippingCost it; oi_itemServiceFee := oi_itemServiceFee it;
     oi_itemTaxes := oi_itemTaxes it; oi_itemTotal := oi_itemTotal it;
     oi_sellerName := oi_sellerName it; oi_sellerEmail := oi_sellerEmail it;
     oi_sellerPhone := oi_sellerPhone it; sellerRevenue := sellerRevenue it;
     sellerPaid := true; sellerPayoutReference := Some ref;
     sellerPaidAt := Some t; itemStatus := itemStatus it;
     oi_cancelledAt := oi_cancelledAt it;
     oi_cancellationReason := oi_cancellationReason it;
     oi_available := oi_available it;
     oi_availabilityMessage := oi_availabilityMessage it |}.

(** [orderItemModel.updateMany(filter, update)] *)
Definition updateMany (sel : OrderItem -> bool) (f : OrderItem -> OrderItem)
  : Async unit :=
  write OrderItemModel
    (set_orderItems (map (fun it => if sel it then f it else it))).

(** *** Status updates *)

(** The [switch] of [updateStatus] on the target status. *)
Definition applyStatus (orderId : ObjectId) (dto : UpdateOrderStatusDto)
    (userId : string) (t : Date) (order : Order) : Async Order :=
  match us_status dto with
  | OrderStatus.CONFIRMED => ret (set_confirmedAt t order)
  | OrderStatus.PROCESSING => ret (set_processingAt t order)
  | OrderStatus.SHIPPED =>
      ret (set_shipped t (us_trackingNumber dto) (us_carrierName dto) order)
  | OrderStatus.DELIVERED => ret (set_deliveredAt t order)
  | OrderStatus.CANCELLED =>
      let* cancelledBy := lift (new_ObjectId userId) in
      let order := set_cancelled t (us_reason dto) cancelledBy order in
      restoreProductQuantity orderId ;;;
      updateMany (fun it => bool_decide (oi_orderId it = orderId))
        (cancelItem t (us_reason dto)) ;;;
      ret order
  | _ => ret order
  end.

Definition historyEntry (dto : UpdateOrderStatusDto) (t : Date) : string :=
  "Status changed to " ++ OrderStatus.toString (us_status dto) ++ " - "
  ++ toISOString t
  ++ (if truthy (us_reason dto) then " - " ++ default EmptyString (us_reason dto)
      else EmptyString).

Definition updateStatus (orderId : string) (dto : UpdateOrderStatusDto)
    (userId userRole : string) (t : Date) : Async Order :=
  try_catch
    (if negb (ObjectId_isValid orderId) then
       throw (BadRequestException "Invalid order ID format")
     else
       let* found := read OrderModel (fun d => orders d !! orderId) in
       match found with
       | None => throw (NotFoundException "Order not found")
       | Some order =>
           let* canUpdate :=
             lift (canUpdateOrderStatus order userId userRole (us_status dto)) in
           if negb canUpdate then
             throw (ForbiddenException
                      "You do not have permission to update this order status")
           else
             lift (validateStatusTransition (status order) (us_status dto)) ;;;
             let order := set_status (us_status dto) order in
             let* order := applyStatus orderId dto userId t order in
             let order :=
               if truthy (us_adminNotes dto) && String.eqb userRole "admin"
               then set_adminNotes (us_adminNotes dto) order else order in
             let order := push_history (historyEntry dto t) order in
             write OrderModel (set_orders (insert orderId order)) ;;;
             ret order
       end)
    (fun error =>
       if instanceof_NotFound error || instanceof_Forbidden error
          || instanceof_BadRequest error
       then throw error
       else throw (BadRequestException
                     ("Failed to update order status: " ++ message error))).

Definition cancelOrder (orderId : string) (reason : string) (userId : string)
    (t : Date) : Async Order :=
  try_catch
    (if negb (ObjectId_isValid orderId) then
       throw (BadRequestException "Invalid order ID format")
     else
       let* found := read OrderModel (fun d => orders d !! orderId) in
       match found with
       | None => throw (NotFoundException "Order not found")
       | Some order =>
           let isBuyer := String.eqb (buyerId order) userId in
           let isSeller := existsb (fun s => String.eqb s userId) (sellerIds order) in
           if negb isBuyer && negb isSeller then
             throw (ForbiddenException
                      "You do not have permission to cancel this order")
           else if includes
                     [OrderStatus.DELIVERED; OrderStatus.CANCELLED; OrderStatus.REFUNDED]
                     (status order)
           then throw (BadRequestException
                         "Order cannot be cancelled in current status")
           else
             updateStatus orderId
               {| us_status := OrderStatus.CANCELLED; us_reason := Some reason;
                  us_trackingNumber := None; us_carrierName := None;
                  us_adminNotes := None |}
               userId "user" t
       end)
    (fun error =>
       if instanceof_NotFound error || instanceof_Forbidden error
          || instanceof_BadRequest error
       then throw error
       else throw (BadRequestException ("Failed to cancel order: " ++ message error))).

(** *** Payment confirmation *)

(** The assignments of [confirmPayment] on the order document. *)
Definition markPaid (paymentData : PaymentData) (t : Date) (order : Order) : Order :=
  let order :=
    set_payment
      {| paymentStatus := PaymentStatus.COMPLETED;
         paymentMethod := Some (pd_method paymentData);
         paymentReference := Some (pd_reference paymentData);
         paymentGateway := Some (PaymentGateway.toString (pd_gateway paymentData));
         paidAt := Some t |} order in
  let order :=
    if OrderStatus.eqb (status order) OrderStatus.PENDING
    then set_confirmedAt t (set_status OrderStatus.CONFIRMED order)
    else order in
  push_history ("Payment confirmed - " ++ toISOString t) order.

Definition confirmPayment (orderId : string) (paymentData : PaymentData) (t : Date)
  : Async unit :=
  try_catch
    (let* found :=
       Model_findById OrderModel "Order" (fun d => orders d !! orderId) orderId in
     match found with
     | None => throw (NotFoundException "Order not found")
     | Some order =>
         let* orderItems := read OrderItemModel (itemsOf orderId) in
         let order := markPaid paymentData t order in
         write OrderModel (set_orders (insert orderId order)) ;;;
         updateMany (fun it => bool_decide (oi_orderId it = orderId)) confirmItem ;;;
         forEach
           (fun (_ : unit) item =>
              updateProductAfterPayment (oi_productId item) (oi_quantity item) t)
           orderItems tt
     end)
    (fun error =>
       throw (BadRequestException ("Failed to confirm payment: " ++ message error))).

(** *** Payout processing *)

Definition markPayoutPaid (ref : string) (t : Date) (p : SellerPayout) : SellerPayout :=
  {| payout_sellerId := payout_sellerId p; payout_sellerName := payout_sellerName p;
     payout_itemCount := payout_itemCount p; revenue := revenue p;
     serviceFee := serviceFee p; paid := true;
     payoutReference := Some ref; payout_paidAt := Some t |}.

(** [sellerPayouts.findIndex(...)], [None] for [-1]. *)
Fixpoint findIndex {A} (f : A -> bool) (l : list A) : option nat :=
  match l with
  | [] => None
  | x :: l' => if f x then Some O else S <$> findIndex f l'
  end.

Definition processSellerPayout (orderId : string) (dto : ProcessSellerPayoutDto)
    (t : Date) : Async unit :=
  try_catch
    (let* found :=
       Model_findById OrderModel "Order" (fun d => orders d !! orderId) orderId in
     match found with
     | None => throw (NotFoundException "Order not found")
     | Some order =>
         match findIndex (fun p => String.eqb (payout_sellerId p) (pp_sellerId dto))
                 (sellerPayouts order) with
         | None => throw (NotFoundException "Seller not found in this order")
         | Some i =>
             let order :=
               set_sellerPayouts
                 (alter (markPayoutPaid (pp_payoutReference dto) t) i
                    (sellerPayouts order)) order in
             updateMany
               (fun it => bool_decide (oi_orderId it = orderId)
                          && bool_decide (oi_sellerId it = pp_sellerId dto))
               (payItem (pp_payoutReference dto) t) ;;;
             write OrderModel (set_orders (insert orderId order))
         end
     end)
    (fun error =>
       if instanceof_NotFound error then throw error
       else throw (BadRequestException
                     ("Failed to process seller payout: " ++ message error))).

(** *** The payment reconciliation bridge *)

(** [PayStackService.secretKey], and the gateway behind
    [PayStackService.verifyPayment]: what the verification endpoint
    answers for a reference, or the [Error] of a failed call. *)
Variable secretKey : string.
Variable payStackVerify : string -> Completion VerificationResult.

(** [JSON.parse], of the controller. *)
Variable JSON_parse : string -> Completion json.

(** [Date.parse]: the time value of a date string, [None] for [NaN]. *)
Variable Date_parse : string -> option Date.

(** The largest time value of a [Date]. *)
Definition maxTime : Z := 8640000000000000.

(** [new Date(value)] on a value of the gateway: its time value, [None]
    for an Invalid Date. [undefined] gives an Invalid Date, [null] the
    epoch; a string is parsed, and so is the string of an array or an
    object. *)
Definition new_Date (value : option json) : option Date :=
  match value with
  | None => None
  | Some JNull => Some 0
  | Some (JBool b) => Some (if b then 1 else 0)
  | Some (JNum n) => if Z.abs n <=? maxTime then Some n else None
  | Some (JStr s) => Date_parse s
  | Some j => Date_parse (JSON.toString j)
  end.

Definition toLowerCase (s : string) : string :=
  String.string_of_list_ascii
    (map (fun ch =>
            let n := Ascii.nat_of_ascii ch in
            if Nat.leb 65 n && Nat.leb n 90 then Ascii.ascii_of_nat (n + 32) else ch)
       (String.list_ascii_of_string s)).

Definition mapPayStackChannelToMethod (channel : option string) : PaymentMethod.t :=
  match toLowerCase <$> channel with
  | Some c =>
      if String.eqb c "card" then PaymentMethod.CARD
      else if String.eqb c "bank" || String.eqb c "bank_transfer"
      then PaymentMethod.BANK_TRANSFER
      else if String.eqb c "ussd" || String.eqb c "mobile_money"
      then PaymentMethod.WALLET
      else PaymentMethod.CARD
  | None => PaymentMethod.CARD
  end.

(** [koboToNaira] *)
Definition koboToNaira (koboAmount : number) : number :=
  Number.div koboAmount (Number.of_Z 100).

(** A field of an update document: [undefined] leaves the stored value. *)
Definition orElse {A} (new old : option A) : option A :=
  match new with
  | Some x => Some x
  | None => old
  end.

(** The update document of a successful verification; [paidAt] is the
    time value of [new Date(data.paid_at)]. *)
Definition completeUpdate (data : PayStackData) (c : PayStackCustomer)
    (paidAt t : Date) (amountOf : Z) (p : Payment) : Payment :=
  {| payment_id := payment_id p; reference := reference p; p_orderId := p_orderId p;
     p_userId := p_userId p; gateway := gateway p;
     p_status := PaymentStatus.COMPLETED;
     amount := amount p; p_currency := p_currency p;
     method := Some (mapPayStackChannelToMethod (channel data));
     p_fees := Some (Exact.koboToNaira (default 0 (fees data)));
     netAmount := Some (inject_Z amountOf - Exact.koboToNaira (default 0%Z (fees data)))%Q;
     gatewayTransactionId := orElse (ps_id data) (gatewayTransactionId p);
     gatewayReference := orElse (ps_reference data) (gatewayReference p);
     gatewayResponse := orElse (gateway_response data) (gatewayResponse p);
     p_paidAt := Some paidAt;
     completedAt := Some t;
     failureReason := failureReason p; failedAt := failedAt p;
     p_customer :=
       Some {| pc_email := cust_email c; pc_firstName := first_name c;
               pc_lastName := last_name c; pc_phone := cust_phone c;
               pc_customerId := cust_id c; pc_customerCode := customer_code c |};
     ipAddress := orElse (ip_address data) (ipAddress p);
     riskAction := orElse (risk_action c) (riskAction p);
     authorizationUrl := authorizationUrl p; accessCode := accessCode p;
     callbackUrl := callbackUrl p; initiatedAt := initiatedAt p;
     createdAt := createdAt p |}.

(** The update document of a failure: status, gateway response, reason
    and time. *)
Definition failUpdate (response reason : option string) (t : Date) (p : Payment)
  : Payment :=
  {| payment_id := payment_id p; reference := reference p; p_orderId := p_orderId p;
     p_userId := p_userId p; gateway := gateway p;
     p_status := PaymentStatus.FAILED;
     amount := amount p; p_currency := p_currency p;
     method := method p; p_fees := p_fees p; netAmount := netAmount p;
     gatewayTransactionId := gatewayTransactionId p;
     gatewayReference := gatewayReference p;
     gatewayResponse := orElse response (gatewayResponse p);
     p_paidAt := p_paidAt p; completedAt := completedAt p;
     failureReason := orElse reason (failureReason p); failedAt := Some t;
     p_customer := p_customer p; ipAddress := ipAddress p;
     riskAction := riskAction p;
     authorizationUrl := authorizationUrl p; accessCode := accessCode p;
     callbackUrl := callbackUrl p; initiatedAt := initiatedAt p;
     createdAt := createdAt p |}.

(** The update of [initializePayment] that marks a pending payment older
    than thirty minutes as expired. *)
Definition expireUpdate (t : Date) (p : Payment) : Payment :=
  failUpdate None (Some "Payment expired") t p.

(** [paymentModel.findOne({ reference })] *)
Definition findOneByReference (ref : option string) (d : Db) : option Payment :=
  match ref with
  | Some r => List.find (fun p => String.eqb (reference p) r) (payments d)
  | None => None
  end.

(** [paymentModel.findById(id)] *)
Definition findPaymentById (id : ObjectId) (d : Db) : option Payment :=
  List.find (fun p => String.eqb (payment_id p) id) (payments d).

(** [paymentModel.findByIdAndUpdate(id, update)] *)
Definition updatePaymentById (id : ObjectId) (f : Payment -> Payment) : Async unit :=
  write PaymentModel
    (set_payments (map (fun p => if String.eqb (payment_id p) id then f p else p))).

(** *** Initialisation of a payment *)

Record InitializePaymentDto : Type := mkInitializePayment {
  ip_orderId : string;
  ip_gateway : option PaymentGateway.t;
  ip_callbackUrl : option string
}.

Record PayStackMetadata : Type := mkMetadata {
  md_orderId : string;
  md_orderNumber : string;
  md_itemCount : Z;
  md_sellerCount : Z;
  md_buyerId : string;
  md_sellerIds : list string;
  md_multiProduct : bool;
  md_multiSeller : bool;
  md_subtotal : Z;
  md_shippingCost : Z;
  md_serviceFee : Z;
  md_taxes : Z
}.

Record PayStackInitializePaymentDto : Type := mkInitialize {
  psi_email : string;
  psi_amount : Z;
  psi_reference : string;
  psi_callback_url : string;
  psi_metadata : PayStackMetadata
}.

Record PayStackInitializeData : Type := mkInitializeData {
  authorization_url : string;
  access_code : string;
  init_reference : string
}.

Record PayStackInitializeResponse : Type := mkInitializeResponse {
  ir_status : bool;
  ir_data : PayStackInitializeData
}.

Record InitializationData : Type := mkInitializationData {
  id_reference : string;
  id_authorizationUrl : option string;
  id_accessCode : option string;
  id_orderId : string;
  id_amount : Z;
  id_currency : string
}.

Record PaymentInitializationResponseDto : Type := mkInitializationResponse {
  init_success : bool;
  init_message : string;
  init_data : InitializationData
}.

(** The gateway behind [PayStackService.initializePayment]: what the
    initialisation endpoint answers, or the [Error] of a failed call. *)
Variable payStackInitialize :
  PayStackInitializePaymentDto -> Completion PayStackInitializeResponse.

(** [nairaToKobo] *)
Definition nairaToKobo (nairaAmount : number) : number :=
  Math_round (Number.mul nairaAmount (Number.of_Z 100)).

(** [generateReference]; [random] is [Math.floor(Math.random() * 1000000)]. *)
Definition generateReference (prefix : string) (e : Entropy) : string :=
  prefix ++ "_" ++ pretty (now e) ++ "_" ++ pretty (random e).

Definition initializePayStackPayment (orderId : ObjectId) (order : Order)
    (reference callbackUrl : string) : Async PayStackInitializeData :=
  let amountInKobo := Exact.nairaToKobo (o_totalAmount (totals order)) in
  let paymentData :=
    {| psi_email := addr_email (shippingAddress (shipping order));
       psi_amount := amountInKobo;
       psi_reference := reference;
       psi_callback_url := callbackUrl;
       psi_metadata :=
         {| md_orderId := orderId;
            md_orderNumber := orderNumber order;
            md_itemCount := o_itemCount (totals order);
            md_sellerCount := o_sellerCount (totals order);
            md_buyerId := buyerId order;
            md_sellerIds := sellerIds order;
            md_multiProduct := 1 <? o_itemCount (totals order);
            md_multiSeller := 1 <? o_sellerCount (totals order);
            md_subtotal := o_subtotal (totals order);
            md_shippingCost := o_totalShippingCost (totals order);
            md_serviceFee := o_totalServiceFee (totals order);
            md_taxes := o_totalTaxes (totals order) |} |} in
  log (GatewayInitialize reference) ;;;
  let* response := lift (payStackInitialize paymentData) in
  if negb (ir_status response) then
    throw (BadRequestException "Failed to initialize PayStack payment")
  else ret (ir_data response).

(** [paymentModel.findOne({ orderId, status: PENDING })] *)
Definition findPendingOfOrder (orderId : ObjectId) (d : Db) : option Payment :=
  List.find
    (fun p => String.eqb (p_orderId p) orderId
              && PaymentStatus.eqb (p_status p) PaymentStatus.PENDING)
    (payments d).

(** [payment.save()] of a new document: the unique index on [reference]
    refuses a reference that is stored already. *)
Definition savePayment (payment : Payment) : Async unit :=
  fun w =>
    if existsb (fun p => String.eqb (reference p) (reference payment)) (payments (db w))
    then (Throw (Error "E11000 duplicate key error collection: payments index: reference_1"),
          {| db := db w; trace := trace w ++ [DbWrite PaymentModel] |})
    else write PaymentModel (set_payments (fun l => l ++ [payment])%list) w.

(** The payment document [initializePayment] builds. *)
Definition newPayment (e : Entropy) (orderId : ObjectId) (order : Order)
    (userId : ObjectId) (gateway : PaymentGateway.t) (reference callbackUrl : string)
    (paymentResponse : PayStackInitializeData) : Payment :=
  {| payment_id := newId e; reference := reference; p_orderId := orderId;
     p_userId := userId; gateway := gateway; p_status := PaymentStatus.PENDING;
     amount := o_totalAmount (totals order); p_currency := o_currency (totals order);
     method := None; p_fees := Some 0%Q; netAmount := None;
     gatewayTransactionId := None; gatewayReference := None; gatewayResponse := None;
     p_paidAt := None; completedAt := None; failureReason := None; failedAt := None;
     p_customer := None; ipAddress := None; riskAction := None;
     authorizationUrl := Some (authorization_url paymentResponse);
     accessCode := Some (access_code paymentResponse);
     callbackUrl := Some callbackUrl;
     initiatedAt := Some (now e); createdAt := now e |}.

Definition thirtyMinutes : Z := 30 * 60 * 1000.

Definition initializePayment (initializeDto : InitializePaymentDto) (userId : string)
    (origin : option string) (e : Entropy) : Async PaymentInitializationResponseDto :=
  let orderId := ip_orderId initializeDto in
  try_catch
    (if negb (ObjectId_isValid orderId) then
       throw (BadRequestException "Invalid order ID format")
     else
       let* found := read OrderModel (fun d => orders d !! orderId) in
       match found with
       | None => throw (NotFoundException "Order not found")
       | Some order =>
           if negb (String.eqb (buyerId order) userId) then
             throw (BadRequestException "You can only pay for your own orders")
           else if PaymentStatus.eqb (paymentStatus (payment order))
                     PaymentStatus.COMPLETED then
             throw (ConflictException "Order has already been paid")
           else
             let* existingPayment := read PaymentModel (findPendingOfOrder orderId) in
             let fresh : Async PaymentInitializationResponseDto :=
               let reference := generateReference "PAY" e in
               let callbackUrl :=
                 if truthy (ip_callbackUrl initializeDto)
                 then default EmptyString (ip_callbackUrl initializeDto)
                 else default "undefined" origin ++ "/checkout/callback" in
               let gateway := default PaymentGateway.PAYSTACK (ip_gateway initializeDto) in
               let* paymentResponse :=
                 match gateway with
                 | PaymentGateway.PAYSTACK =>
                     initializePayStackPayment orderId order reference callbackUrl
                 | g =>
                     throw (BadRequestException
                              ("Unsupported payment gateway: "
                               ++ PaymentGateway.toString g))
                 end in
               let* user := lift (new_ObjectId userId) in
               savePayment
                 (newPayment e orderId order user gateway reference callbackUrl
                    paymentResponse) ;;;
               ret {| init_success := true;
                      init_message := "Payment initialized successfully";
                      init_data :=
                        {| id_reference := reference;
                           id_authorizationUrl :=
                             Some (authorization_url paymentResponse);
                           id_accessCode := Some (access_code paymentResponse);
                           id_orderId := orderId;
                           id_amount := o_totalAmount (totals order);
                           id_currency := o_currency (totals order) |} |} in
             match existingPayment with
             | Some existing =>
                 if now e - thirtyMinutes <? createdAt existing then
                   ret {| init_success := true;
                          init_message := "Payment already initialized";
                          init_data :=
                            {| id_reference := reference existing;
                               id_authorizationUrl := authorizationUrl existing;
                               id_accessCode := accessCode existing;
                               id_orderId := orderId;
                               id_amount := amount existing;
                               id_currency := p_currency existing |} |}
                 else
                   updatePaymentById (payment_id existing) (expireUpdate (now e)) ;;;
                   fresh
             | None => fresh
             end
       end)
    (fun error =>
       if instanceof_NotFound error || instanceof_BadRequest error
          || instanceof_Conflict error
       then throw error
       else throw (BadRequestException
                     ("Failed to initialize payment: " ++ message error))).

(** [processPaymentVerification]. The update document of a success is
    built first, which reads [data.customer.email]; [findByIdAndUpdate]
    then casts it, and rejects an Invalid Date for [paidAt] with a
    [CastError] before anything is written. *)
Definition processPaymentVerification (payment : Payment)
    (verificationResult : VerificationResult) (t : Date) : Async unit :=
  let data := vr_data verificationResult in
  let isSuccessful :=
    vr_status verificationResult
    && bool_decide (ps_status data = Some "success") in
  if isSuccessful then
    match customer data with
    | None => throw (undefined_read "email")
    | Some c =>
        match new_Date (paid_at data) with
        | None => throw (castError "date" "Invalid Date" "Date" "paidAt" None)
        | Some paidAt =>
            updatePaymentById (payment_id payment)
              (completeUpdate data c paidAt t (amount payment)) ;;;
            confirmPayment (p_orderId payment)
              {| pd_reference := reference payment;
                 pd_method := mapPayStackChannelToMethod (channel data);
                 pd_gateway := gateway payment |} t
        end
    end
  else
    updatePaymentById (payment_id payment)
      (failUpdate (gateway_response data) (ps_message data) t).

Record VerificationData : Type := mkVerificationData {
  vd_reference : string;
  vd_status : PaymentStatus.t;
  vd_amount : Z;
  vd_currency : string;
  vd_paidAt : option Date;
  vd_gatewayResponse : option string;
  vd_orderId : string
}.

Record PaymentVerificationResponseDto : Type := mkVerificationResponse {
  success : bool;
  vrd_message : string;
  vrd_data : VerificationData
}.

Definition verificationData (p : Payment) : VerificationData :=
  {| vd_reference := reference p; vd_status := p_status p; vd_amount := amount p;
     vd_currency := p_currency p; vd_paidAt := p_paidAt p;
     vd_gatewayResponse := gatewayResponse p; vd_orderId := p_orderId p |}.

Definition verifyPayment (ref : string) (t : Date)
  : Async PaymentVerificationResponseDto :=
  try_catch
    (let* found := read PaymentModel (findOneByReference (Some ref)) in
     match found with
     | None => throw (NotFoundException "Payment record not found")
     | Some payment =>
         if PaymentStatus.eqb (p_status payment) PaymentStatus.COMPLETED then
           ret {| success := true; vrd_message := "Payment already verified";
                  vrd_data := verificationData payment |}
         else
           let* verificationResult :=
             match gateway payment with
             | PaymentGateway.PAYSTACK =>
                 log (GatewayVerify ref) ;;; lift (payStackVerify ref)
             | g =>
                 throw (BadRequestException
                          ("Unsupported payment gateway: " ++ PaymentGateway.toString g))
             end in
           processPaymentVerification payment verificationResult t ;;;
           let* updated := read PaymentModel (findPaymentById (payment_id payment)) in
           match updated with
           | None => throw (null_read "status")
           | Some updatedPayment =>
               ret {| success := true;
                      vrd_message :=
                        if PaymentStatus.eqb (p_status updatedPayment)
                             PaymentStatus.COMPLETED
                        then "Payment verified successfully"
                        else "Payment verification failed";
                      vrd_data := verificationData updatedPayment |}
           end
     end)
    (fun error =>
       if instanceof_NotFound error || instanceof_BadRequest error then throw error
       else throw (BadRequestException
                     ("Payment verification failed: " ++ message error))).

(** The [data] of a webhook body read as the gateway's transaction record.
    A property that is missing, or is not of the JSON type the DTO
    declares, is read as [undefined]; so is a [null] customer. *)
Definition field (key : string) (j : json) : option json :=
  match JSON.get key j with
  | Return v => v
  | Throw _ => None
  end.

Definition decodeCustomer (j : option json) : option PayStackCustomer :=
  match j with
  | None | Some JNull => None
  | Some c =>
      Some {| cust_id := JSON.asNumber (field "id" c);
              first_name := JSON.asString (field "first_name" c);
              last_name := JSON.asString (field "last_name" c);
              cust_email := JSON.asString (field "email" c);
              customer_code := JSON.asString (field "customer_code" c);
              cust_phone := JSON.asString (field "phone" c);
              risk_action := JSON.asString (field "risk_action" c) |}
  end.

Definition decodeData (j : json) : PayStackData :=
  {| ps_id := JSON.asNumber (field "id" j);
     ps_status := JSON.asString (field "status" j);
     ps_reference := JSON.asString (field "reference" j);
     ps_message := JSON.asString (field "message" j);
     gateway_response := JSON.asString (field "gateway_response" j);
     paid_at := field "paid_at" j;
     channel := JSON.asString (field "channel" j);
     fees := JSON.asNumber (field "fees" j);
     ip_address := JSON.asString (field "ip_address" j);
     customer := decodeCustomer (field "customer" j) |}.

Definition handleSuccessfulPayment (paymentData : option json) (t : Date) : Async unit :=
  try_catch
    (let* ref := lift (JSON.get_of "reference" paymentData) in
     let* found := read PaymentModel (findOneByReference (JSON.asString ref)) in
     match found, paymentData with
     | Some payment, Some data =>
         if PaymentStatus.eqb (p_status payment) PaymentStatus.PENDING then
           processPaymentVerification payment
             {| vr_status := true; vr_data := decodeData data |} t
         else ret tt
     | _, _ => ret tt
     end)
    (fun error => ret tt).

Definition handleFailedPayment (paymentData : option json) (t : Date) : Async unit :=
  try_catch
    (let* ref := lift (JSON.get_of "reference" paymentData) in
     let* found := read PaymentModel (findOneByReference (JSON.asString ref)) in
     match found, paymentData with
     | Some payment, Some data =>
         if PaymentStatus.eqb (p_status payment) PaymentStatus.PENDING then
           updatePaymentById (payment_id payment)
             (failUpdate (JSON.asString (field "gateway_response" data))
                (JSON.asString (field "message" data)) t)
         else ret tt
     | _, _ => ret tt
     end)
    (fun error => ret tt).

Definition handlePayStackWebhook (webhookData : json) (signature : string) (t : Date)
  : Async unit :=
  try_catch
    (let isValidSignature :=
       verifyWebhookSignature secretKey (JSON.stringify webhookData) signature in
     if negb isValidSignature then
       throw (BadRequestException "Invalid webhook signature")
     else
       let* event := lift (JSON.get "event" webhookData) in
       match JSON.asString event with
       | Some ev =>
           if String.eqb ev "charge.success" then
             let* data := lift (JSON.get "data" webhookData) in
             handleSuccessfulPayment data t
           else if String.eqb ev "charge.failed" then
             let* data := lift (JSON.get "data" webhookData) in
             handleFailedPayment data t
           else ret tt
       | None => ret tt
       end)
    (fun error =>
       throw (BadRequestException ("Webhook processing failed: " ++ message error))).

(** The controller method of [POST /payments/webhook/paystack]; the header
    and the raw body may be missing. *)
Definition paystackWebhook (rawBody : option string) (signature : option string)
    (t : Date) : Async string :=
  try_catch
    (if negb (truthy signature) then
       throw (BadRequestException "Missing PayStack signature")
     else
       match rawBody with
       | None => throw (BadRequestException "Missing request body")
       | Some raw =>
           let* webhookData := lift (JSON_parse raw) in
           handlePayStackWebhook webhookData (default EmptyString signature) t ;;;
           ret "Webhook processed successfully"
       end)
    (fun error =>
       throw (BadRequestException ("Webhook processing failed: " ++ message error))).


(** *** Reading an order *)

(** What [findById] hands to [mapOrderToResponseDto]: the order found,
    its buyer id and seller ids as [populate] left them (a buyer that is
    no user any more is [null]; such a seller is dropped from the array),
    and the items of the order. *)
Record FoundOrder : Type := mkFoundOrder {
  found_order : Order;
  found_buyer : option ObjectId;
  found_sellers : list ObjectId;
  found_items : list OrderItem
}.

(** [populate('buyerId', ...)] *)
Definition populateBuyer (d : Db) (order : Order) : option ObjectId :=
  match users d !! buyerId order with
  | Some _ => Some (buyerId order)
  | None => None
  end.

(** [populate('sellerIds', ...)] *)
Definition populateSellers (d : Db) (order : Order) : list ObjectId :=
  List.filter (fun s => bool_decide (is_Some (users d !! s))) (sellerIds order).

Definition findById (orderId : string) (userId userRole : option string)
  : Async FoundOrder :=
  try_catch
    (if negb (ObjectId_isValid orderId) then
       throw (BadRequestException "Invalid order ID format")
     else
       let* order := read OrderModel (fun d => orders d !! orderId) in
       let* populated :=
         match order with
         | None => ret None
         | Some order =>
             let* buyer := read UserModel (fun d => populateBuyer d order) in
             let* sellers := read UserModel (fun d => populateSellers d order) in
             ret (Some (order, buyer, sellers))
         end in
       let* orderItems := read OrderItemModel (itemsOf orderId) in
       match populated with
       | None => throw (NotFoundException "Order not found")
       | Some (order, buyer, sellers) =>
           let answer :=
             {| found_order := order; found_buyer := buyer;
                found_sellers := sellers; found_items := orderItems |} in
           if negb (bool_decide (userRole = Some "admin")) && truthy userId then
             match buyer with
             | None => throw (null_read "_id")
             | Some buyerDoc =>
                 let canAccess :=
                   bool_decide (Some buyerDoc = userId)
                   || existsb (fun seller => bool_decide (Some seller = userId)) sellers in
                 if negb canAccess then
                   throw (ForbiddenException
                            "You do not have permission to view this order")
                 else ret answer
             end
           else ret answer
       end)
    (fun error =>
       if instanceof_NotFound error || instanceof_Forbidden error
          || instanceof_BadRequest error
       then throw error
       else throw (BadRequestException ("Failed to fetch order: " ++ message error))).

(** *** Reading a payment *)

(** [PaymentResponseDto], without [authorization] and [updatedAt]. *)
Record PaymentResponseDto : Type := mkPaymentResponse {
  res_id : string;
  res_reference : string;
  res_orderId : option string;
  res_userId : string;
  res_gateway : PaymentGateway.t;
  res_status : PaymentStatus.t;
  res_method : option PaymentMethod.t;
  res_amount : Z;
  res_currency : string;
  res_fees : option Q;
  res_netAmount : option Q;
  res_gatewayTransactionId : option Z;
  res_authorizationUrl : option string;
  res_gatewayResponse : option string;
  res_paidAt : option Date;
  res_customer : option PaymentCustomer;
  res_createdAt : Date
}.

(** [mapPaymentToResponseDto] on the lean payment whose [orderId] was
    populated: [orderId?.toString()] of the order, a plain object, is
    [[object Object]]; of [null], for an order that is gone, it is
    [undefined]. *)
Definition mapPaymentToResponseDto (payment : Payment) (order : option Order)
  : PaymentResponseDto :=
  {| res_id := payment_id payment;
     res_reference := reference payment;
     res_orderId := (fun _ => "[object Object]") <$> order;
     res_userId := p_userId payment;
     res_gateway := gateway payment;
     res_status := p_status payment;
     res_method := method payment;
     res_amount := amount payment;
     res_currency := p_currency payment;
     res_fees := p_fees payment;
     res_netAmount := netAmount payment;
     res_gatewayTransactionId := gatewayTransactionId payment;
     res_authorizationUrl := authorizationUrl payment;
     res_gatewayResponse := gatewayResponse payment;
     res_paidAt := p_paidAt payment;
     res_customer := p_customer payment;
     res_createdAt := createdAt payment |}.

Definition getPayment (paymentId : string) (userId : option string)
  : Async PaymentResponseDto :=
  try_catch
    (if negb (ObjectId_isValid paymentId) then
       throw (BadRequestException "Invalid payment ID format")
     else
       let* found := read PaymentModel (findPaymentById paymentId) in
       match found with
       | None => throw (NotFoundException "Payment not found")
       | Some payment =>
           let* order := read OrderModel (fun d => orders d !! p_orderId payment) in
           if truthy userId && negb (bool_decide (Some (p_userId payment) = userId)) then
             throw (BadRequestException
                      "You do not have permission to view this payment")
           else ret (mapPaymentToResponseDto payment order)
       end)
    (fun error =>
       if instanceof_NotFound error || instanceof_BadRequest error then throw error
       else throw (BadRequestException ("Failed to get payment: " ++ message error))).

(** *** Refunds *)

Record RefundPaymentDto : Type := mkRefundPayment {
  rf_paymentId : string;
  rf_amount : option Z;
  rf_reason : option string
}.

(** The refund fields of a payment document: [refundedAmount],
    [refundedAt], [refundReason]. They are kept beside the store, under
    the id of the payment; [refunded], false by default, is true of a
    payment that has an entry. *)
Record Refund : Type := mkRefund {
  refundedAmount : Z;
  refundedAt : Date;
  refundReason : option string
}.

(** The payload of [PayStackService.refundTransaction]. *)
Record RefundPayload : Type := mkRefundPayload {
  transaction : option Z;
  payload_amount : option Z
}.

Record RefundResponse : Type := mkRefundResponse {
  refund_success : bool;
  refund_message : string;
  refund_data : json
}.

(** The gateway behind [PayStackService.refundTransaction]: the answer of
    the refund endpoint, or the [Error] of a failed call. *)
Variable payStackRefund : RefundPayload -> Completion json.

(** A JavaScript number used as a condition: absent and zero are false. *)
Definition truthyNumber (n : option Z) : bool :=
  match n with
  | Some n => negb (n =? 0)
  | None => false
  end.

(** [PayStackService.refundTransaction] *)
Definition refundTransaction (transactionId : option Z) (amount : option Z)
  : Completion json :=
  payStackRefund
    {| transaction := transactionId;
       payload_amount := if truthyNumber amount then amount else None |}.

(** [payment.status = PaymentStatus.REFUNDED] *)
Definition markRefunded (p : Payment) : Payment :=
  {| payment_id := payment_id p; reference := reference p; p_orderId := p_orderId p;
     p_userId := p_userId p; gateway := gateway p;
     p_status := PaymentStatus.REFUNDED;
     amount := amount p; p_currency := p_currency p;
     method := method p; p_fees := p_fees p; netAmount := netAmount p;
     gatewayTransactionId := gatewayTransactionId p;
     gatewayReference := gatewayReference p;
     gatewayResponse := gatewayResponse p;
     p_paidAt := p_paidAt p; completedAt := completedAt p;
     failureReason := failureReason p; failedAt := failedAt p;
     p_customer := p_customer p; ipAddress := ipAddress p;
     riskAction := riskAction p;
     authorizationUrl := authorizationUrl p; accessCode := accessCode p;
     callbackUrl := callbackUrl p; initiatedAt := initiatedAt p;
     createdAt := createdAt p |}.

(** [refundPayment] on the refund fields [refunds] of the payments; it
    returns them as [payment.save()] leaves them. *)
Definition refundPayment (refundDto : RefundPaymentDto) (userId userRole : string)
    (t : Date) (refunds : gmap ObjectId Refund)
  : Async (RefundResponse * gmap ObjectId Refund) :=
  try_catch
    (let* found :=
       Model_findById PaymentModel "Payment"
         (findPaymentById (rf_paymentId refundDto)) (rf_paymentId refundDto) in
     match found with
     | None => throw (NotFoundException "Payment not found")
     | Some payment =>
         if negb (String.eqb userRole "admin")
            && negb (String.eqb (p_userId payment) userId) then
           throw (BadRequestException
                    "You do not have permission to refund this payment")
         else if negb (PaymentStatus.eqb (p_status payment) PaymentStatus.COMPLETED) then
           throw (BadRequestException "Only completed payments can be refunded")
         else if bool_decide (is_Some (refunds !! payment_id payment)) then
           throw (ConflictException "Payment has already been refunded")
         else
           let* refundResult :=
             match gateway payment with
             | PaymentGateway.PAYSTACK =>
                 lift (refundTransaction (gatewayTransactionId payment)
                         (rf_amount refundDto))
             | g =>
                 throw (BadRequestException
                          ("Refunds not supported for gateway: "
                           ++ PaymentGateway.toString g))
             end in
           let refund :=
             {| refundedAmount :=
                  if truthyNumber (rf_amount refundDto)
                  then default 0 (rf_amount refundDto) else amount payment;
                refundedAt := t;
                refundReason := rf_reason refundDto |} in
           updatePaymentById (payment_id payment) markRefunded ;;;
           ret ({| refund_success := true;
                   refund_message := "Refund processed successfully";
                   refund_data := refundResult |},
                <[payment_id payment := refund]> refunds)
     end)
    (fun error =>
       if instanceof_NotFound error || instanceof_BadRequest error
          || instanceof_Conflict error
       then throw error
       else throw (BadRequestException ("Refund failed: " ++ message error))).

(** *** The endpoint that creates an order *)

(** The payment methods of [mapPaymentMethodToGateway]. *)
Inductive PaymentMethodName : Type := paystack | flutterwave | stripe.

Definition mapPaymentMethodToGateway (method : PaymentMethodName) : PaymentGateway.t :=
  match method with
  | paystack => PaymentGateway.PAYSTACK
  | flutterwave => PaymentGateway.FLUTTERWAVE
  | stripe => PaymentGateway.STRIPE
  end.

Record PaymentSummary : Type := mkPaymentSummary {
  ps_reference_ : string;
  ps_authorizationUrl : option string;
  ps_accessCode : option string;
  ps_amount : Z;
  ps_currency : string;
  ps_paymentMethod : PaymentMethodName
}.

Record CreateOrderResponseDto : Type := mkCreateOrderResponse {
  cr_order : Order * list OrderItem;
  cr_payment : option PaymentSummary
}.

(** [OrdersController.create]: [createOrderDto.paymentMethod] is passed
    beside the body; the order is made with [orderEntropy], the payment
    with [paymentEntropy]. *)
Definition OrdersController_create (createOrderDto : CreateOrderDto)
    (paymentMethod : option PaymentMethodName) (buyerId : string)
    (origin : option string) (orderEntropy paymentEntropy : Entropy)
  : Async CreateOrderResponseDto :=
  let* order := create createOrderDto buyerId orderEntropy in
  match paymentMethod with
  | Some method =>
      try_catch
        (let callbackUrl :=
           default "undefined" origin ++ "/checkout?ordno=" ++ orderNumber order.1 in
         let* paymentResponse :=
           initializePayment
             {| ip_orderId := newId orderEntropy;
                ip_gateway := Some (mapPaymentMethodToGateway method);
                ip_callbackUrl := Some callbackUrl |}
             buyerId origin paymentEntropy in
         ret {| cr_order := order;
                cr_payment :=
                  Some {| ps_reference_ := id_reference (init_data paymentResponse);
                          ps_authorizationUrl :=
                            id_authorizationUrl (init_data paymentResponse);
                          ps_accessCode := id_accessCode (init_data paymentResponse);
                          ps_amount := id_amount (init_data paymentResponse);
                          ps_currency := id_currency (init_data paymentResponse);
                          ps_paymentMethod := method |} |})
        (fun error => ret {| cr_order := order; cr_payment := None |})
  | None => ret {| cr_order := order; cr_payment := None |}
  end.

End Services.

(** ** Vocabulary of the properties *)

Section Vocabulary.

Variable ObjectId_isValid : string -> bool.

(** The entry of [response.items] that a requested item gives rise to:
    none when its id is malformed or names no product. *)
Definition pricedItem (d : Db) (buyerId : string) (item : OrderItemDto)
  : option ItemData :=
  if ObjectId_isValid (dto_productId item) then
    p ← products d !! dto_productId item;
    u ← users d !! product_sellerId p;
    Some (makeItemData item p u buyerId)
  else None.

(** A requested item is unavailable when its well-formed id names no
    product, or names one that fails the availability check. *)
Definition unavailable (d : Db) (buyerId : string) (item : OrderItemDto) : bool :=
  ObjectId_isValid (dto_productId item)
  && match products d !! dto_productId item with
     | None => true
     | Some p => negb (checkAvailability p (dto_quantity item) buyerId).1
     end.

(** The seller of every requested product is a user. *)
Definition sellersPresent (d : Db) (l : list OrderItemDto) : Prop :=
  forall item p,
    item ∈ l -> products d !! dto_productId item = Some p ->
    is_Some (users d !! product_sellerId p).

(** The message [calculateOrder] records for a requested item, if any. *)
Definition errorOf (d : Db) (item : OrderItemDto) : option string :=
  if ObjectId_isValid (dto_productId item) then
    match products d !! dto_productId item with
    | None => Some ("Product not found: " ++ dto_productId item)
    | Some _ => None
    end
  else Some ("Invalid product ID: " ++ dto_productId item).

(** What the loop of [calculateOrder] adds to the response and to the set
    of seller ids while it goes through the requested items [l]: the
    response [r] and the set [s] become [r'] and [s']. *)
Definition accumulated (d : Db) (buyerId : string) (l : list OrderItemDto)
    (r : OrderCalculationResponseDto) (s : gset string)
    (r' : OrderCalculationResponseDto) (s' : gset string) : Prop :=
  let new := omap (pricedItem d buyerId) l in
  let avail := List.filter available new in
  items r' = (items r ++ new)%list
  /\ subtotal r' = subtotal r + foldr Z.add 0 (map totalPrice avail)
  /\ totalShippingCost r' = totalShippingCost r + foldr Z.add 0 (map shippingCost avail)
  /\ totalServiceFee r' = totalServiceFee r + foldr Z.add 0 (map itemServiceFee avail)
  /\ totalTaxes r' = totalTaxes r + foldr Z.add 0 (map itemTaxes avail)
  /\ itemCount r' = itemCount r + foldr Z.add 0 (map item_quantity avail)
  /\ unavailableItems r'
     = (unavailableItems r
        ++ map dto_productId (List.filter (unavailable d buyerId) l))%list
  /\ errors r' = (errors r ++ omap (errorOf d) l)%list
  /\ s' = list_to_set (map sellerId new) ∪ s
  /\ couponDiscount r' = couponDiscount r
  /\ currency r' = currency r.

End Vocabulary.

(** The entries of a calculation that are available. *)
Definition availableItems (l : list ItemData) : list ItemData :=
  List.filter available l.

(** The distinct seller ids among entries. *)
Definition distinctSellers (l : list ItemData) : gset string :=
  list_to_set (map sellerId l).

(** The entries of a calculation that seller [k] sells. *)
Definition sellerItems (k : string) (l : list ItemData) : list ItemData :=
  List.filter (fun it => String.eqb (sellerId it) k) l.

(** What the payouts hand out in all: revenue plus service fee. *)
Definition payoutsTotal (ps : list SellerPayout) : Z :=
  foldr Z.add 0 (map (fun p => revenue p + serviceFee p) ps).

(** The payout of seller [k] summarises the entries [l]. *)
Definition summarises (l : list ItemData) (k : string) (p : SellerPayout) : Prop :=
  payout_sellerId p = k
  /\ payout_itemCount p = foldr Z.add 0 (map item_quantity (sellerItems k l))
  /\ revenue p
     = foldr Z.add 0 (map (fun it => totalPrice it - itemServiceFee it) (sellerItems k l))
  /\ serviceFee p = foldr Z.add 0 (map itemServiceFee (sellerItems k l))
  /\ paid p = false
  /\ payoutReference p = None
  /\ payout_paidAt p = None.

(** The invariant of the loop of [preparellerPayouts] after the entries
    [l]: one payout per seller of [l], each a summary of that seller's
    entries. *)
Definition payoutsInv (l : list ItemData) (m : list (string * SellerPayout)) : Prop :=
  NoDup (map fst m)
  /\ (forall k p, In (k, p) m -> summarises l k p)
  /\ (forall it, In it l -> In (sellerId it) (map fst m))
  /\ (forall k, In k (map fst m) -> exists it, In it l /\ sellerId it = k)
  /\ payoutsTotal (map snd m) = foldr Z.add 0 (map totalPrice l)
  /\ foldr Z.add 0 (map serviceFee (map snd m))
     = foldr Z.add 0 (map itemServiceFee l).

(** The transition table of the specification: the legal pairs. *)
Definition transitionTable : list (OrderStatus.t * OrderStatus.t) :=
  [ (OrderStatus.PENDING, OrderStatus.CONFIRMED);
    (OrderStatus.PENDING, OrderStatus.CANCELLED);
    (OrderStatus.CONFIRMED, OrderStatus.PROCESSING);
    (OrderStatus.CONFIRMED, OrderStatus.CANCELLED);
    (OrderStatus.PROCESSING, OrderStatus.SHIPPED);
    (OrderStatus.PROCESSING, OrderStatus.CANCELLED);
    (OrderStatus.SHIPPED, OrderStatus.DELIVERED);
    (OrderStatus.DELIVERED, OrderStatus.REFUNDED) ].

(** The message of an illegal transition: it names both states. *)
Definition invalidTransition (from to : OrderStatus.t) : Exception :=
  BadRequestException
    ("Invalid status transition from " ++ OrderStatus.toString from
     ++ " to " ++ OrderStatus.toString to).

(** What a status update by anyone but an administrator comes to. *)
Definition sellerIdReadFailure : Exception :=
  BadRequestException
    "Failed to update order status: Cannot read properties of undefined (reading 'toString')".

(** What a confirmed payment does to the stock of a product, in the words
    of the specification: the on-hand quantity goes down by the quantity of
    the item; when that reaches zero or below, the product is marked sold
    and the quantity is pinned to zero. *)
Definition consume (qty : Z) (t : Date) (p : Product) : Product :=
  if quantity p - qty <=? 0 then set_stock 0 true (Some t) p
  else set_stock (quantity p - qty) (sold p) (soldAt p) p.

(** The stock after the items [its] were consumed, one after the other. *)
Definition consumeAll (t : Date) (its : list OrderItem)
    (ps : gmap ObjectId Product) : gmap ObjectId Product :=
  fold_left (fun ps it => alter (consume (oi_quantity it) t) (oi_productId it) ps) its ps.

(** The stock after the quantities of the items [its] were given back. *)
Definition restoreAll (its : list OrderItem)
    (ps : gmap ObjectId Product) : gmap ObjectId Product :=
  fold_left (fun ps it => alter (restoreUpdate (oi_quantity it)) (oi_productId it) ps)
    its ps.

(** The quantity of product [pid] that the items [its] order in all. *)
Definition ordered (pid : ObjectId) (its : list OrderItem) : Z :=
  foldr (fun it acc => if bool_decide (oi_productId it = pid)
                       then oi_quantity it + acc else acc) 0 its.

(** What a sequence of per-item updates does to the one product [pid]. *)
Definition perProduct (f : OrderItem -> Product -> Product) (pid : ObjectId)
    (its : list OrderItem) (p : Product) : Product :=
  fold_left (fun p it => if bool_decide (oi_productId it = pid) then f it p else p) its p.

(** The store after a confirmed payment of the order [orderId]. *)
Definition confirmedDb (toISOString : Date -> string) (orderId : ObjectId)
    (paymentData : PaymentData) (t : Date) (order : Order) (d : Db) : Db :=
  set_products (consumeAll t (itemsOf orderId d))
    (set_orderItems
       (map (fun it => if bool_decide (oi_orderId it = orderId)
                       then confirmItem it else it))
       (set_orders (insert orderId (markPaid toISOString paymentData t order)) d)).

(** What payout processing must leave alone in a payout. *)
Definition settlement (p : SellerPayout) : ObjectId * string * Z * Z * Z :=
  (payout_sellerId p, payout_sellerName p, payout_itemCount p, revenue p, serviceFee p).

(** The answer of [verifyPayment] for a payment that is already completed. *)
Definition cachedVerification (p : Payment) : PaymentVerificationResponseDto :=
  {| success := true; vrd_message := "Payment already verified";
     vrd_data := verificationData p |}.

(** The failure of a webhook whose signature does not match, as the
    service throws it and as the controller hands it on. *)
Definition invalidSignature : Exception :=
  BadRequestException "Webhook processing failed: Invalid webhook signature".

Definition invalidSignatureResponse : Exception :=
  BadRequestException
    "Webhook processing failed: Webhook processing failed: Invalid webhook signature".


(** The rounding the specification asks for: [r] is the integer nearest to
    [x], a tie going to the larger neighbour. *)
Definition rounds_half_up (x : Q) (r : Z) : Prop :=
  (inject_Z r <= x + (1 # 2) /\ x + (1 # 2) < inject_Z r + 1)%Q.

Definition Zsum (l : list Z) : Z := foldr Z.add 0 l.

(** [M] is [m / 2 ^ s] rounded to a nearest whole number. *)
Definition nearest (m s M : Z) : Prop :=
  (M = m / 2 ^ s \/ M = m / 2 ^ s + 1)
  /\ (2 * (m mod 2 ^ s) < 2 ^ s -> M = m / 2 ^ s)
  /\ (2 ^ s < 2 * (m mod 2 ^ s) -> M = m / 2 ^ s + 1).

(** The number that holds the whole number [n] of at most 53 binary
    digits: its mantissa has 53 binary digits. *)
Definition normal (n : Z) : number :=
  S754_finite false (Z.to_pos (n * 2 ^ (53 - Zdigits2 n))) (Zdigits2 n - 53).


(** A computation keeps an invariant of the store. *)
Definition preserves (P : Db -> Prop) {A} (m : Async A) : Prop :=
  forall w, P (db w) -> P (db (m w).2).

(** Every stored payment is a PayStack payment. *)
Definition payStackOnly (d : Db) : Prop :=
  Forall (fun p => gateway p = PaymentGateway.PAYSTACK) (payments d).

(** The item document that [createOrderItems] builds for an entry of a
    calculation: none when the product or the seller is gone. *)
Definition orderItemOf (d : Db) (orderId : ObjectId) (originalItems : list OrderItemDto)
    (calcItem : ItemData) : option OrderItem :=
  p ← products d !! productId calcItem;
  u ← users d !! sellerId calcItem;
  Some (makeOrderItem orderId calcItem
          (List.find (fun it => String.eqb (dto_productId it) (productId calcItem))
             originalItems)
          p u).

(** A status update from [from] to [to] passes the transition check. *)
Definition legal (from to : OrderStatus.t) : Prop :=
  validateStatusTransition from to = Return tt.

(** How far a status is along the life of an order. *)
Definition rank (s : OrderStatus.t) : nat :=
  match s with
  | OrderStatus.PENDING => 0
  | OrderStatus.CONFIRMED => 1
  | OrderStatus.PROCESSING => 2
  | OrderStatus.SHIPPED => 3
  | OrderStatus.DELIVERED => 4
  | OrderStatus.CANCELLED => 5
  | OrderStatus.REFUNDED => 5
  end.

(** A payment is a pending payment of the order. *)
Definition pendingFor (orderId : ObjectId) (p : Payment) : bool :=
  String.eqb (p_orderId p) orderId
  && PaymentStatus.eqb (p_status p) PaymentStatus.PENDING.

(** The pending payments of an order. *)
Definition pendingOf (orderId : ObjectId) (d : Db) : list Payment :=
  List.filter
    (fun p => String.eqb (p_orderId p) orderId
              && PaymentStatus.eqb (p_status p) PaymentStatus.PENDING)
    (payments d).

(** No order has two pending payments. *)
Definition onePending (d : Db) : Prop :=
  forall orderId, (length (pendingOf orderId d) <= 1)%nat.

(** ** A scenario to run the services on *)

(** [Types.ObjectId.isValid] on a string as bson 5 and later decide it: 24
    hexadecimal digits. *)
Definition isHexDigit (ch : ascii) : bool :=
  let n := Ascii.nat_of_ascii ch in
  (Nat.leb 48 n && Nat.leb n 57) || (Nat.leb 97 n && Nat.leb n 102)
  || (Nat.leb 65 n && Nat.leb n 70).

Definition isHex24 (s : string) : bool :=
  Nat.eqb (String.length s) 24 && forallb isHexDigit (String.list_ascii_of_string s).

(** A stand-in for [toISOString]: the decimal number of milliseconds. *)
Definition epochString (t : Date) : string := pretty t.

Module Scenario.

Definition sellerId : ObjectId := "65a000000000000000000001".
Definition buyerId : ObjectId := "65a000000000000000000002".
Definition adminId : ObjectId := "65a000000000000000000003".
Definition bagId : ObjectId := "65b000000000000000000001".
Definition coatId : ObjectId := "65b000000000000000000002".
Definition orderId : ObjectId := "65c000000000000000000001".
Definition paymentId : ObjectId := "65d000000000000000000001".
Definition secondPaymentId : ObjectId := "65d000000000000000000002".

Definition seller : User :=
  {| firstName := "Ada"; lastName := "Obi"; email := "ada@example.com"; phone := None |}.

Definition buyer : User :=
  {| firstName := "Bola"; lastName := "Ade"; email := "bola@example.com"; phone := None |}.

(** Five bags at 25000 with 1250 of domestic shipping each. *)
Definition bag : Product :=
  {| product_sellerId := sellerId; title := "Bag"; brand := "Acme";
     product_size := None; condition := "new"; sellingPrice := 25000;
     quantity := 5; sold := false; soldAt := None; shipping_domestic := Some 1250 |}.

(** A coat of the same seller that is sold already. *)
Definition coat : Product :=
  {| product_sellerId := sellerId; title := "Coat"; brand := "Acme";
     product_size := Some "M"; condition := "used"; sellingPrice := 40000;
     quantity := 0; sold := true; soldAt := Some 1690000000000;
     shipping_domestic := None |}.

Definition world0 : World :=
  {| db := {| orders := ∅; orderItems := [];
              products := {[ bagId := bag; coatId := coat ]};
              users := {[ sellerId := seller; buyerId := buyer ]};
              payments := [] |};
     trace := [] |}.

Definition twoBags : OrderItemDto :=
  {| dto_productId := bagId; dto_quantity := 2; dto_selectedSize := None |}.

Definition oneCoat : OrderItemDto :=
  {| dto_productId := coatId; dto_quantity := 1; dto_selectedSize := None |}.

Definition address : ShippingAddress :=
  {| addr_firstName := "Bola"; addr_lastName := "Ade"; addr_email := "bola@example.com";
     addr_phone := "08000000000"; addr_address := "1 Marina Road"; addr_city := "Lagos";
     addr_state := "Lagos"; addr_country := "Nigeria"; addr_postalCode := None |}.

Definition checkout : CreateOrderDto :=
  {| co_items := [twoBags]; co_shippingAddress := address; co_shippingMethod := None;
     co_buyerNotes := None; co_couponCode := None |}.

Definition entropy : Entropy :=
  {| now := 1700000000000; random := 42; newId := orderId |}.

(** The buyer checks out two bags: the order, its items and the world
    afterwards. *)
Definition created : Completion (Order * list OrderItem) * World :=
  create isHex24 epochString checkout buyerId entropy world0.

Definition world1 : World := created.2.

Definition order1 : Order :=
  match created.1 with
  | Return (order, _) => order
  | Throw _ => newOrder epochString checkout buyerId entropy emptyResponse
  end.

Definition items1 : list OrderItem :=
  match created.1 with
  | Return (_, orderItems) => orderItems
  | Throw _ => []
  end.

(** Two status update requests. *)
Definition toDelivered : UpdateOrderStatusDto :=
  {| us_status := OrderStatus.DELIVERED; us_reason := None; us_trackingNumber := None;
     us_carrierName := None; us_adminNotes := None |}.

Definition toCancelled : UpdateOrderStatusDto :=
  {| us_status := OrderStatus.CANCELLED; us_reason := Some "Changed my mind";
     us_trackingNumber := None; us_carrierName := None; us_adminNotes := None |}.

Definition toConfirmed : UpdateOrderStatusDto :=
  {| us_status := OrderStatus.CONFIRMED; us_reason := None; us_trackingNumber := None;
     us_carrierName := None; us_adminNotes := None |}.

Definition paymentData : PaymentData :=
  {| pd_reference := "PAY_1700000000100_7"; pd_method := PaymentMethod.CARD;
     pd_gateway := PaymentGateway.PAYSTACK |}.

(** The gateway opens a transaction for whatever it is asked. *)
Definition payStackOpen (request : PayStackInitializePaymentDto)
  : Completion PayStackInitializeResponse :=
  Return {| ir_status := true;
            ir_data :=
              {| authorization_url := "https://checkout.paystack.com/0peioxfhpn";
                 access_code := "0peioxfhpn";
                 init_reference := psi_reference request |} |}.

Definition payRequest : InitializePaymentDto :=
  {| ip_orderId := orderId; ip_gateway := None; ip_callbackUrl := None |}.

Definition firstAttempt : Entropy :=
  {| now := 1700000000100; random := 7; newId := paymentId |}.

(** An hour later. *)
Definition secondAttempt : Entropy :=
  {| now := 1700003600000; random := 8; newId := secondPaymentId |}.

(** The buyer starts to pay for the order. *)
Definition worldPending : World :=
  (initializePayment isHex24 payStackOpen payRequest buyerId
     (Some "https://tradeoff.example") firstAttempt world1).2.

(** The payment of the order, as [initializePayment] recorded it. *)
Definition pendingPayment : Payment :=
  {| payment_id := paymentId; reference := "PAY_1700000000100_7";
     p_orderId := orderId; p_userId := buyerId; gateway := PaymentGateway.PAYSTACK;
     p_status := PaymentStatus.PENDING; amount := 58131; p_currency := "NGN";
     method := None; p_fees := Some 0%Q; netAmount := None; gatewayTransactionId := None;
     gatewayReference := None; gatewayResponse := None; p_paidAt := None;
     completedAt := None; failureReason := None; failedAt := None;
     p_customer := None; ipAddress := None; riskAction := None;
     authorizationUrl := Some "https://checkout.paystack.com/0peioxfhpn";
     accessCode := Some "0peioxfhpn";
     callbackUrl := Some "https://tradeoff.example/checkout/callback";
     initiatedAt := Some 1700000000100; createdAt := 1700000000100 |}.

(** The buyer left the payment pending and starts again an hour later:
    the first payment is marked as expired and a second one is opened. *)
Definition worldExpired : World :=
  (initializePayment isHex24 payStackOpen payRequest buyerId
     (Some "https://tradeoff.example") secondAttempt worldPending).2.

Definition expiredPayment : Payment := expireUpdate 1700003600000 pendingPayment.

(** A stand-in for [Date.parse] that knows the one instant. *)
Definition parseDate (s : string) : option Date :=
  if String.eqb s "2023-11-14T22:15:20.000Z" then Some 1700000120000 else None.

(** What the gateway answers for the reference: a success. *)
Definition successAnswer : VerificationResult :=
  {| vr_status := true;
     vr_data :=
       {| ps_id := Some 4099260516; ps_status := Some "success";
          ps_reference := Some "PAY_1700000000100_7"; ps_message := None;
          gateway_response := Some "Successful";
          paid_at := Some (JStr "2023-11-14T22:15:20.000Z");
          channel := Some "card"; fees := Some 97197; ip_address := Some "102.89.0.1";
          customer :=
            Some {| cust_id := Some 181873746; first_name := Some "Bola";
                    last_name := Some "Ade"; cust_email := Some "bola@example.com";
                    customer_code := Some "CUS_1rkzaqsv4rrhqo6";
                    cust_phone := None; risk_action := Some "default" |} |} |}.

Definition payStack (ref : string) : Completion VerificationResult :=
  if String.eqb ref "PAY_1700000000100_7" then Return successAnswer
  else Throw (Error "Payment verification failed: Transaction reference not found").

(** The world after the pending payment was verified. *)
Definition worldPaid : World :=
  (verifyPayment isHex24 epochString payStack parseDate "PAY_1700000000100_7"
     1700000130000 worldPending).2.

Definition paidPayment : Payment :=
  match payments (db worldPaid) with
  | p :: _ => p
  | [] => pendingPayment
  end.

Definition secret : string := "sk_test_secret".

(** The body of a webhook of the gateway, after [JSON.parse]. *)
Definition chargeSuccess : json :=
  JObj [("event", JStr "charge.success");
        ("data", JObj [("reference", JStr "PAY_1700000000100_7");
                       ("status", JStr "success")])].

(** The same body as the gateway sent it, with a blank after each colon
    and comma: [JSON.stringify] of its parse is another string. *)
Definition spacedBody : string :=
  String.string_of_list_ascii
    (concat
       (map (fun ch =>
               let n := Ascii.nat_of_ascii ch in
               if Nat.eqb n 58 || Nat.eqb n 44 then [ch; " "%char] else [ch])
          (String.list_ascii_of_string (JSON.stringify chargeSuccess)))).

(** A stand-in for [JSON.parse] that knows the one body. *)
Definition parse (raw : string) : Completion json :=
  if String.eqb raw spacedBody then Return chargeSuccess
  else Throw (Error "Unexpected token in JSON").

(** A cart with the sold coat only. *)
Definition soldOut : CreateOrderDto :=
  {| co_items := [oneCoat]; co_shippingAddress := address; co_shippingMethod := None;
     co_buyerNotes := None; co_couponCode := None |}.

(** A cart whose one line asks for no bag at all. *)
Definition emptyLine : CreateOrderDto :=
  {| co_items :=
       [{| dto_productId := bagId; dto_quantity := 0; dto_selectedSize := None |}];
     co_shippingAddress := address; co_shippingMethod := None;
     co_buyerNotes := None; co_couponCode := None |}.

(** A cart with the bags, the sold coat, a product that is not there and
    an identifier that is none. *)
Definition mixedCart : list OrderItemDto :=
  [twoBags; oneCoat;
   {| dto_productId := "65b0000000000000000000ff"; dto_quantity := 1;
      dto_selectedSize := None |};
   {| dto_productId := "bag"; dto_quantity := 1; dto_selectedSize := None |}].

(** Two payout requests for the seller. *)
Definition firstPayout : ProcessSellerPayoutDto :=
  {| pp_sellerId := sellerId; pp_payoutReference := "TRF_first" |}.

Definition secondPayout : ProcessSellerPayoutDto :=
  {| pp_sellerId := sellerId; pp_payoutReference := "TRF_second" |}.

(** Ten minutes after the first attempt. *)
Definition soonAfter : Entropy :=
  {| now := 1700000600100; random := 9; newId := secondPaymentId |}.

(** What the gateway answers when the bank declined the card. *)
Definition declinedAnswer : VerificationResult :=
  {| vr_status := true;
     vr_data :=
       {| ps_id := Some 4099260517; ps_status := Some "failed";
          ps_reference := Some "PAY_1700000000100_7"; ps_message := None;
          gateway_response := Some "Declined"; paid_at := None;
          channel := Some "card"; fees := None; ip_address := Some "102.89.0.1";
          customer := None |} |}.

Definition payStackDeclines (ref : string) : Completion VerificationResult :=
  Return declinedAnswer.

(** The gateway cannot be reached. *)
Definition payStackDown (ref : string) : Completion VerificationResult :=
  Throw (Error "connect ETIMEDOUT").



(** The gateway accepts every refund. *)
Definition payStackRefunds (payload : RefundPayload) : Completion json :=
  Return (JObj [("status", JBool true);
                ("message", JStr "Refund has been queued for processing")]).

(** A request to refund the whole payment. *)
Definition refundRequest : RefundPaymentDto :=
  {| rf_paymentId := paymentId; rf_amount := None;
     rf_reason := Some "Item not as described" |}.

End Scenario.

(** * Properties *)

(** ** Binary64 arithmetic *)

(** What the pricing needs of the operations on binary64 numbers: a whole
    number of at most 53 binary digits is held exactly; products, sums
    and quotients of such numbers are exact when their result is such a
    number; and a product that is not exact is its exact value rounded to
    a nearest multiple of its unit in the last place. *)

Lemma digits2_pos_size (p : positive) : digits2_pos p = Pos.size p.
Proof. induction p as [p IH|p IH|]; cbn; congruence. Qed.

Lemma digits2_pos_bounds (p : positive) :
  2 ^ (Z.pos (digits2_pos p) - 1) <= Z.pos p < 2 ^ Z.pos (digits2_pos p).
Proof.
  rewrite digits2_pos_size. split.
  - pose proof (Pos.size_le p) as H.
    apply Pos2Z.pos_le_pos in H. rewrite Pos2Z.inj_pow in H.
    replace (Z.pos (Pos.size p)) with (Z.succ (Z.pos (Pos.size p) - 1)) in H by lia.
    rewrite Z.pow_succ_r in H by lia. change (Z.pos p~0) with (2 * Z.pos p) in H. lia.
  - pose proof (Pos.size_gt p) as H.
    apply Pos2Z.pos_lt_pos in H. rewrite Pos2Z.inj_pow in H. exact H.
Qed.

Lemma digits2_pos_unique (p : positive) (d : Z) :
  2 ^ (d - 1) <= Z.pos p < 2 ^ d -> Z.pos (digits2_pos p) = d.
Proof.
  intros [Hl Hu]. pose proof (digits2_pos_bounds p) as [Hl' Hu'].
  set (d' := Z.pos (digits2_pos p)) in *.
  assert (0 < d).
  { destruct (Z.ltb_spec 0 d) as [|Hd]; [done|].
    assert (2 ^ d <= 2 ^ 0) by (destruct (Z.ltb_spec d 0);
      [rewrite Z.pow_neg_r by done; cbn; lia | apply Z.pow_le_mono_r; lia]).
    cbn in *. lia. }
  destruct (Z.lt_trichotomy d d') as [Hlt|[->|Hgt]]; [|done|].
  - assert (2 ^ d <= 2 ^ (d' - 1)) by (apply Z.pow_le_mono_r; lia). lia.
  - assert (2 ^ d' <= 2 ^ (d - 1)) by (apply Z.pow_le_mono_r; lia). lia.
Qed.

Lemma iter_pos_nat {A} (f : A -> A) (p : positive) (x : A) :
  SpecFloat.iter_pos f p x = Nat.iter (Pos.to_nat p) f x.
Proof.
  revert x. induction p as [p IH|p IH|]; intros x; cbn [SpecFloat.iter_pos].
  - rewrite !IH, Pos2Nat.inj_xI.
    replace (S (2 * Pos.to_nat p)) with (Pos.to_nat p + (Pos.to_nat p + 1))%nat by lia.
    rewrite !Nat.iter_add. reflexivity.
  - rewrite !IH, Pos2Nat.inj_xO.
    replace (2 * Pos.to_nat p)%nat with (Pos.to_nat p + Pos.to_nat p)%nat by lia.
    rewrite Nat.iter_add. reflexivity.
  - reflexivity.
Qed.

Lemma shr_1_nonneg (m : Z) (r s : bool) :
  0 <= m ->
  shr_1 {| shr_m := m; shr_r := r; shr_s := s |}
  = {| shr_m := m / 2; shr_r := Z.odd m; shr_s := r || s |}.
Proof.
  intros Hm. rewrite <- Z.div2_div.
  destruct m as [|[p|p|]|]; try reflexivity. lia.
Qed.

(** The record after [S k] shifts to the right. *)
Lemma shr_iter (m : Z) (k : nat) :
  0 <= m ->
  Nat.iter (S k) shr_1 {| shr_m := m; shr_r := false; shr_s := false |}
  = {| shr_m := m / 2 ^ Z.of_nat (S k);
       shr_r := Z.odd (m / 2 ^ Z.of_nat k);
       shr_s := negb (m mod 2 ^ Z.of_nat k =? 0) |}.
Proof.
  intros Hm. induction k as [|k IH].
  - cbn [Nat.iter]. rewrite shr_1_nonneg by done.
    change (2 ^ Z.of_nat 1) with 2. change (2 ^ Z.of_nat 0) with 1.
    rewrite Z.div_1_r, Z.mod_1_r. reflexivity.
  - change (Nat.iter (S (S k)) shr_1 ?x) with (shr_1 (Nat.iter (S k) shr_1 x)).
    rewrite IH.
    assert (Hp : 0 < 2 ^ Z.of_nat k) by (apply Z.pow_pos_nonneg; lia).
    assert (Hk : 2 ^ Z.of_nat (S k) = 2 ^ Z.of_nat k * 2)
      by (rewrite Nat2Z.inj_succ, Z.pow_succ_r; lia).
    rewrite shr_1_nonneg by (apply Z.div_pos; lia).
    f_equal.
    + rewrite Z.div_div by lia.
      rewrite (Nat2Z.inj_succ (S k)), Z.pow_succ_r by lia. f_equal. lia.
    + rewrite Hk, Z.rem_mul_r by lia. rewrite Zmod_odd.
      pose proof (Z.mod_pos_bound m (2 ^ Z.of_nat k) Hp) as Hb.
      destruct (Z.odd _); destruct (Z.eqb_spec (m mod 2 ^ Z.of_nat k) 0) as [E|E];
        cbn [orb negb]; symmetry.
      * apply negb_true_iff, Z.eqb_neq. lia.
      * apply negb_true_iff, Z.eqb_neq. lia.
      * apply negb_false_iff, Z.eqb_eq. lia.
      * apply negb_true_iff, Z.eqb_neq. lia.
Qed.

Lemma shr_nonpos (mrs : shr_record) (e n : Z) : n <= 0 -> shr mrs e n = (mrs, e).
Proof. destruct n; [reflexivity | lia | reflexivity]. Qed.

Lemma shr_nearest (m e s : Z) :
  0 <= m -> 0 < s ->
  exists mrs,
    shr {| shr_m := m; shr_r := false; shr_s := false |} e s = (mrs, e + s)
    /\ nearest m s (round_nearest_even (shr_m mrs) (loc_of_shr_record mrs)).
Proof.
  intros Hm Hs. destruct s as [|p|p]; try lia. clear Hs.
  unfold shr. rewrite iter_pos_nat.
  destruct (Pos.to_nat p) as [|k] eqn:Hk; [lia|].
  rewrite shr_iter by done. eexists. split; [reflexivity|].
  assert (Hp : Z.pos p = Z.of_nat k + 1) by lia.
  rewrite Nat2Z.inj_succ, <- Z.add_1_r, <- Hp.
  replace (Z.of_nat k) with (Z.pos p - 1) by lia.
  set (h := 2 ^ (Z.pos p - 1)).
  assert (Hh : 0 < h) by (apply Z.pow_pos_nonneg; lia).
  assert (H2 : 2 ^ Z.pos p = h * 2).
  { unfold h. replace (Z.pos p) with (Z.succ (Z.pos p - 1)) at 1 by lia.
    rewrite Z.pow_succ_r by lia. lia. }
  unfold nearest. rewrite H2, Z.rem_mul_r by lia. rewrite Zmod_odd.
  pose proof (Z.mod_pos_bound m h Hh) as Hb.
  cbn [shr_m loc_of_shr_record].
  destruct (Z.odd (m / h)); destruct (Z.eqb_spec (m mod h) 0) as [E|E];
    cbn [negb round_nearest_even]; try destruct (Z.even _); lia.
Qed.

Lemma binary_round_aux_exact (sx : bool) (m : positive) (e : Z) :
  Z.pos (digits2_pos m) <= 53 -> -1074 <= e <= 971 ->
  binary_round_aux Number.prec Number.emax sx (Z.pos m) e loc_Exact = S754_finite sx m e.
Proof.
  intros Hd He.
  unfold binary_round_aux, shr_fexp, fexp, emin, Number.prec, Number.emax.
  cbn [Zdigits2 shr_record_of_loc].
  rewrite shr_nonpos by lia. cbn [shr_m loc_of_shr_record round_nearest_even Zdigits2].
  rewrite shr_nonpos by lia. cbn [shr_m].
  destruct (Z.leb_spec e (1024 - 53)); [reflexivity | lia].
Qed.

Lemma binary_round_aux_round (sx : bool) (m : positive) (e : Z) :
  let s := Z.pos (digits2_pos m) - 53 in
  0 < s -> -1074 <= e -> e + s < 971 ->
  exists M,
    nearest (Z.pos m) s M
    /\ 2 ^ 52 <= M <= 2 ^ 53
    /\ binary_round_aux Number.prec Number.emax sx (Z.pos m) e loc_Exact
       = if M <? 2 ^ 53 then S754_finite sx (Z.to_pos M) (e + s)
         else S754_finite sx (Z.to_pos (2 ^ 52)) (e + s + 1).
Proof.
  intros s Hs He Hes.
  pose proof (digits2_pos_bounds m) as [Hl Hu].
  assert (H2s : 0 < 2 ^ s) by (apply Z.pow_pos_nonneg; lia).
  assert (Hfl : 2 ^ 52 <= Z.pos m / 2 ^ s < 2 ^ 53).
  { replace (Z.pos (digits2_pos m) - 1) with (52 + s) in Hl by (unfold s; lia).
    replace (Z.pos (digits2_pos m)) with (53 + s) in Hu by (unfold s; lia).
    rewrite Z.pow_add_r in Hl, Hu by lia. split.
    - apply Z.div_le_lower_bound; lia.
    - apply Z.div_lt_upper_bound; lia. }
  destruct (shr_nearest (Z.pos m) e s) as (mrs & E & Hn); [lia | lia |].
  set (M := round_nearest_even (shr_m mrs) (loc_of_shr_record mrs)) in *.
  assert (HM : 2 ^ 52 <= M <= 2 ^ 53) by (destruct Hn as [[->| ->] _]; lia).
  exists M. split; [exact Hn|]. split; [exact HM|].
  unfold binary_round_aux, shr_fexp, fexp, emin, Number.prec, Number.emax.
  cbn [Zdigits2 shr_record_of_loc].
  replace (Z.max (Z.pos (digits2_pos m) + e - 53) (3 - 1024 - 53) - e) with s
    by (unfold s; lia).
  rewrite E. fold M.
  destruct (Z.ltb_spec M (2 ^ 53)) as [Hlt|Hge].
  - destruct M as [|q|q] eqn:EM; [cbn in HM; lia | | lia].
    cbn [Zdigits2]. rewrite (digits2_pos_unique q 53) by (cbn in *; lia).
    rewrite shr_nonpos by lia. cbn [shr_m Z.to_pos].
    destruct (Z.leb_spec (e + s) (1024 - 53)); [reflexivity | lia].
  - assert (EM : M = 2 ^ 53) by lia. rewrite EM.
    change (Zdigits2 (2 ^ 53)) with 54.
    replace (Z.max (54 + (e + s) - 53) (3 - 1024 - 53) - (e + s)) with 1 by lia.
    cbn [shr SpecFloat.iter_pos]. rewrite shr_1_nonneg by lia. cbn [shr_m].
    change (2 ^ 53 / 2) with 4503599627370496.
    change (Z.to_pos (2 ^ 52)) with 4503599627370496%positive. cbv iota.
    destruct (Z.leb_spec (e + s + 1) (1024 - 53)); [reflexivity | lia].
Qed.

Lemma Pos_iter_xO (m d : positive) : Z.pos (Pos.iter xO m d) = Z.pos m * 2 ^ Z.pos d.
Proof.
  induction d as [|d IH] using Pos.peano_ind.
  - cbn. lia.
  - rewrite Pos.iter_succ, Pos2Z.inj_succ, Z.pow_succ_r by lia.
    change (Z.pos (Pos.iter xO m d)~0) with (2 * Z.pos (Pos.iter xO m d)). lia.
Qed.

Lemma Zdigits2_bounds (n : Z) : 0 < n -> 2 ^ (Zdigits2 n - 1) <= n < 2 ^ Zdigits2 n.
Proof. destruct n as [|p|p]; try lia. intros _. apply digits2_pos_bounds. Qed.

Lemma Zdigits2_unique (n d : Z) : 0 < n -> 2 ^ (d - 1) <= n < 2 ^ d -> Zdigits2 n = d.
Proof. destruct n as [|p|p]; try lia. intros _. apply digits2_pos_unique. Qed.

Lemma Zdigits2_pos (n : Z) : 0 < n -> 0 < Zdigits2 n.
Proof. destruct n; cbn; lia. Qed.

Lemma Zdigits2_le (n d : Z) : 0 < n -> n < 2 ^ d -> Zdigits2 n <= d.
Proof.
  intros Hn Hd. pose proof (Zdigits2_bounds n Hn) as [Hl _].
  destruct (Z.le_gt_cases (Zdigits2 n) d) as [|Hgt]; [done|].
  assert (2 ^ d <= 2 ^ (Zdigits2 n - 1)); [|lia].
  apply Z.pow_le_mono_r; [lia|]. lia.
Qed.

Lemma Zdigits2_ge (n d : Z) : 0 < n -> 2 ^ (d - 1) <= n -> d <= Zdigits2 n.
Proof.
  intros Hn Hd. pose proof (Zdigits2_bounds n Hn) as [_ Hu].
  pose proof (Zdigits2_pos n Hn).
  destruct (Z.le_gt_cases d (Zdigits2 n)) as [|Hgt]; [done|].
  assert (2 ^ Zdigits2 n <= 2 ^ (d - 1)); [|lia].
  apply Z.pow_le_mono_r; lia.
Qed.

Lemma Zdigits2_shift (n j : Z) : 0 < n -> 0 <= j -> Zdigits2 (n * 2 ^ j) = Zdigits2 n + j.
Proof.
  intros Hn Hj. pose proof (Zdigits2_bounds n Hn) as [Hl Hu].
  pose proof (Zdigits2_pos n Hn).
  assert (0 < 2 ^ j) by (apply Z.pow_pos_nonneg; lia).
  apply Zdigits2_unique; [lia|].
  replace (Zdigits2 n + j - 1) with (Zdigits2 n - 1 + j) by lia.
  rewrite !Z.pow_add_r by lia. nia.
Qed.

Lemma normal_mantissa (n : Z) :
  0 < n < 2 ^ 53 -> 2 ^ (53 - 1) <= n * 2 ^ (53 - Zdigits2 n) < 2 ^ 53.
Proof.
  intros Hn.
  pose proof (Zdigits2_pos n ltac:(lia)) as Hdp.
  pose proof (Zdigits2_le n 53 ltac:(lia) ltac:(lia)) as Hd53.
  pose proof (Zdigits2_bounds n ltac:(lia)) as [Hl Hu].
  assert (0 < 2 ^ (53 - Zdigits2 n)) by (apply Z.pow_pos_nonneg; lia).
  assert (E1 : 2 ^ (53 - 1) = 2 ^ (Zdigits2 n - 1) * 2 ^ (53 - Zdigits2 n))
    by (rewrite <- Z.pow_add_r by lia; f_equal; lia).
  assert (E2 : 2 ^ 53 = 2 ^ Zdigits2 n * 2 ^ (53 - Zdigits2 n))
    by (rewrite <- Z.pow_add_r by lia; f_equal; lia).
  rewrite E1, E2. nia.
Qed.

(** Rounding a whole number of at most 53 binary digits, scaled by a power
    of two, changes nothing. *)
Lemma binary_round_aux_scaled (sx : bool) (n j e : Z) :
  0 < n < 2 ^ 53 -> 53 <= Zdigits2 n + j -> -1074 <= e ->
  e + j + Zdigits2 n - 53 < 971 ->
  binary_round_aux Number.prec Number.emax sx (n * 2 ^ j) e loc_Exact
  = S754_finite sx (Z.to_pos (n * 2 ^ (53 - Zdigits2 n))) (e + j - (53 - Zdigits2 n)).
Proof.
  intros Hn Hd He Hmax.
  pose proof (Zdigits2_pos n ltac:(lia)) as Hdp.
  pose proof (Zdigits2_le n 53 ltac:(lia) ltac:(lia)) as Hd53.
  assert (Hj : 0 <= j) by lia.
  assert (H2j : 0 < 2 ^ j) by (apply Z.pow_pos_nonneg; lia).
  pose proof (Zdigits2_shift n j ltac:(lia) Hj) as Hds.
  destruct (n * 2 ^ j) as [|m|m] eqn:Em; [nia | | nia].
  cbn [Zdigits2] in Hds.
  destruct (Z.eq_dec (Zdigits2 n + j) 53) as [E53|Hne].
  - rewrite binary_round_aux_exact by lia.
    replace (53 - Zdigits2 n) with j by lia. rewrite Em. cbn [Z.to_pos].
    f_equal. lia.
  - destruct (binary_round_aux_round sx m e) as (M & Hnear & HM & ->); [lia..|].
    rewrite Hds in Hnear |- *.
    set (s := Zdigits2 n + j - 53) in *.
    assert (Hs : 0 < s <= j) by (unfold s; lia).
    assert (H2s : 0 < 2 ^ s) by (apply Z.pow_pos_nonneg; lia).
    assert (Hm : Z.pos m = n * 2 ^ (53 - Zdigits2 n) * 2 ^ s).
    { rewrite <- Em, <- Z.mul_assoc, <- Z.pow_add_r by lia. do 2 f_equal. unfold s. lia. }
    assert (EM : M = n * 2 ^ (53 - Zdigits2 n)).
    { destruct Hnear as (_ & Hlow & _). rewrite Hlow.
      - rewrite Hm. apply Z.div_mul. lia.
      - rewrite Hm, Z.mod_mul by lia. lia. }
    assert (HM53 : M < 2 ^ 53) by (rewrite EM; apply normal_mantissa; lia).
    destruct (Z.ltb_spec M (2 ^ 53)); [|lia].
    rewrite EM. f_equal. unfold s. lia.
Qed.

Lemma binary_normalize_scaled (n j : Z) :
  0 < n < 2 ^ 53 -> 0 <= j <= 1000 ->
  binary_normalize Number.prec Number.emax (n * 2 ^ j) (- j) false = normal n.
Proof.
  intros Hn Hj.
  pose proof (Zdigits2_pos n ltac:(lia)) as Hdp.
  pose proof (Zdigits2_le n 53 ltac:(lia) ltac:(lia)) as Hd53.
  assert (H2j : 0 < 2 ^ j) by (apply Z.pow_pos_nonneg; lia).
  pose proof (Zdigits2_shift n j ltac:(lia) ltac:(lia)) as Hds.
  destruct (n * 2 ^ j) as [|m|m] eqn:Em; [nia | | nia].
  cbn [Zdigits2] in Hds.
  unfold binary_normalize, binary_round, normal.
  rewrite Hds. unfold fexp, emin, Number.prec, Number.emax.
  replace (Z.max (Zdigits2 n + j + - j - 53) (3 - 1024 - 53)) with (Zdigits2 n - 53) by lia.
  unfold shl_align.
  destruct (Zdigits2 n - 53 - - j) as [|d|d] eqn:Ed.
  - rewrite <- Em, binary_round_aux_scaled by lia. f_equal. lia.
  - rewrite <- Em, binary_round_aux_scaled by lia. f_equal. lia.
  - rewrite binary_round_aux_exact.
    + f_equal. apply Pos2Z.inj. rewrite Pos_iter_xO, Z2Pos.id.
      * rewrite <- Em, <- Z.mul_assoc, <- Z.pow_add_r by lia.
        do 2 f_equal. lia.
      * apply Z.mul_pos_pos; [lia|]. apply Z.pow_pos_nonneg; lia.
    + rewrite (digits2_pos_unique _ 53); [lia|].
      rewrite Pos_iter_xO, <- Em, <- Z.mul_assoc, <- Z.pow_add_r by lia.
      replace (j + Z.pos d) with (53 - Zdigits2 n) by lia.
      apply normal_mantissa. lia.
    + lia.
Qed.

Lemma of_Z_zero : Number.of_Z 0 = S754_zero false.
Proof. reflexivity. Qed.

Lemma of_Z_normal (n : Z) : 0 < n < 2 ^ 53 -> Number.of_Z n = normal n.
Proof.
  intros Hn. unfold Number.of_Z.
  rewrite <- (binary_normalize_scaled n 0) by lia.
  change (2 ^ 0) with 1. rewrite Z.mul_1_r. reflexivity.
Qed.

Lemma normal_mantissa_pos (n : Z) : 0 < n < 2 ^ 53 -> 0 < n * 2 ^ (53 - Zdigits2 n).
Proof. intros Hn. pose proof (normal_mantissa n Hn). cbn in *. lia. Qed.

(** The product of two whole numbers is exact when it has at most 53
    binary digits. *)
Lemma mul_of_Z (a b : Z) :
  0 <= a < 2 ^ 53 -> 0 <= b < 2 ^ 53 -> a * b < 2 ^ 53 ->
  Number.mul (Number.of_Z a) (Number.of_Z b) = Number.of_Z (a * b).
Proof.
  intros Ha Hb Hab.
  destruct (Z.eq_dec a 0) as [->|Ha0].
  { rewrite Z.mul_0_l, of_Z_zero. destruct (Z.eq_dec b 0) as [->|Hb0]; [reflexivity|].
    rewrite (of_Z_normal b) by lia. reflexivity. }
  destruct (Z.eq_dec b 0) as [->|Hb0].
  { rewrite Z.mul_0_r, of_Z_zero, (of_Z_normal a) by lia. reflexivity. }
  rewrite !of_Z_normal by nia. unfold normal at 1 2, Number.mul, SFmul. cbn [xorb].
  pose proof (normal_mantissa_pos a ltac:(lia)) as Hma.
  pose proof (normal_mantissa_pos b ltac:(lia)) as Hmb.
  pose proof (Zdigits2_pos a ltac:(lia)) as Hda.
  pose proof (Zdigits2_pos b ltac:(lia)) as Hdb.
  pose proof (Zdigits2_le a 53 ltac:(lia) ltac:(lia)) as Hda53.
  pose proof (Zdigits2_le b 53 ltac:(lia) ltac:(lia)) as Hdb53.
  pose proof (Zdigits2_bounds a ltac:(lia)) as [Hla Hua].
  pose proof (Zdigits2_bounds b ltac:(lia)) as [Hlb Hub].
  assert (Hdab : Zdigits2 a + Zdigits2 b - 1 <= Zdigits2 (a * b)).
  { apply Zdigits2_ge; [nia|].
    replace (Zdigits2 a + Zdigits2 b - 1 - 1) with (Zdigits2 a - 1 + (Zdigits2 b - 1)) by lia.
    rewrite Z.pow_add_r by lia.
    assert (0 < 2 ^ (Zdigits2 a - 1)) by (apply Z.pow_pos_nonneg; lia).
    assert (0 < 2 ^ (Zdigits2 b - 1)) by (apply Z.pow_pos_nonneg; lia). nia. }
  pose proof (Zdigits2_le (a * b) 53 ltac:(nia) ltac:(lia)) as Hdab53.
  rewrite Pos2Z.inj_mul, !Z2Pos.id by lia.
  replace (a * 2 ^ (53 - Zdigits2 a) * (b * 2 ^ (53 - Zdigits2 b)))
    with (a * b * 2 ^ (106 - Zdigits2 a - Zdigits2 b)).
  2: { replace (106 - Zdigits2 a - Zdigits2 b)
         with (53 - Zdigits2 a + (53 - Zdigits2 b)) by lia.
       rewrite Z.pow_add_r by lia. lia. }
  rewrite binary_round_aux_scaled by nia. unfold normal. f_equal. lia.
Qed.

(** The sum of two whole numbers is exact when it has at most 53 binary
    digits. *)
Lemma add_of_Z (a b : Z) :
  0 <= a -> 0 <= b -> a + b < 2 ^ 53 ->
  Number.add (Number.of_Z a) (Number.of_Z b) = Number.of_Z (a + b).
Proof.
  intros Ha Hb Hab.
  destruct (Z.eq_dec a 0) as [->|Ha0].
  { rewrite Z.add_0_l, of_Z_zero. destruct (Z.eq_dec b 0) as [->|Hb0]; [reflexivity|].
    rewrite (of_Z_normal b) by lia. reflexivity. }
  destruct (Z.eq_dec b 0) as [->|Hb0].
  { rewrite Z.add_0_r, of_Z_zero, (of_Z_normal a) by lia. reflexivity. }
  rewrite !of_Z_normal by lia. unfold normal at 1 2, Number.add, SFadd. cbn [cond_Zopp].
  pose proof (normal_mantissa_pos a ltac:(lia)) as Hma.
  pose proof (normal_mantissa_pos b ltac:(lia)) as Hmb.
  pose proof (Zdigits2_pos a ltac:(lia)) as Hda.
  pose proof (Zdigits2_pos b ltac:(lia)) as Hdb.
  pose proof (Zdigits2_le a 53 ltac:(lia) ltac:(lia)) as Hda53.
  pose proof (Zdigits2_le b 53 ltac:(lia) ltac:(lia)) as Hdb53.
  set (ez := Z.min (Zdigits2 a - 53) (Zdigits2 b - 53)).
  assert (Hal : forall n, 0 < n < 2 ^ 53 -> ez <= Zdigits2 n - 53 ->
            Z.pos (shl_align (Z.to_pos (n * 2 ^ (53 - Zdigits2 n))) (Zdigits2 n - 53) ez).1
            = n * 2 ^ (- ez)).
  { intros n Hn Hez.
    pose proof (normal_mantissa_pos n Hn).
    pose proof (Zdigits2_pos n ltac:(lia)).
    pose proof (Zdigits2_le n 53 ltac:(lia) ltac:(lia)).
    unfold shl_align.
    destruct (ez - (Zdigits2 n - 53)) as [|d|d] eqn:Ed; cbn [fst]; try lia.
    - rewrite Z2Pos.id by lia. do 2 f_equal. lia.
    - rewrite Pos_iter_xO, Z2Pos.id, <- Z.mul_assoc, <- Z.pow_add_r by lia.
      do 2 f_equal. lia. }
  change (fst ?x) with (x.1).
  rewrite (Hal a), (Hal b) by (unfold ez; lia).
  rewrite <- Z.mul_add_distr_r.
  pose proof (binary_normalize_scaled (a + b) (- ez)) as Hn.
  rewrite Z.opp_involutive in Hn. apply Hn; unfold ez; lia.
Qed.

(** A whole number is its own rounding. *)
Lemma Math_round_of_Z (n : Z) : 0 <= n < 2 ^ 53 -> Math_round (Number.of_Z n) = Number.of_Z n.
Proof.
  intros Hn. destruct (Z.eq_dec n 0) as [->|Hn0]; [reflexivity|].
  rewrite (of_Z_normal n) by lia. unfold normal, Math_round.
  destruct (Z.leb_spec 0 (Zdigits2 n - 53)) as [|He]; [reflexivity|].
  cbn [cond_Zopp].
  pose proof (normal_mantissa_pos n ltac:(lia)) as Hm.
  pose proof (Zdigits2_pos n ltac:(lia)) as Hd.
  rewrite Z2Pos.id by lia.
  replace (- (Zdigits2 n - 53)) with (53 - Zdigits2 n) by lia.
  set (g := 53 - Zdigits2 n).
  assert (Hg : 2 ^ g = 2 * 2 ^ (g - 1)).
  { rewrite <- Z.pow_succ_r by (unfold g; lia). f_equal. lia. }
  assert (0 < 2 ^ (g - 1)) by (apply Z.pow_pos_nonneg; unfold g; lia).
  replace ((n * 2 ^ g + 2 ^ (g - 1)) / 2 ^ g) with n.
  2: { apply Z.div_unique with (r := 2 ^ (g - 1)); lia. }
  destruct (Z.eqb_spec n 0); [lia|]. rewrite (of_Z_normal n) by lia. reflexivity.
Qed.

Lemma nearest_between (P s M R R' : Z) :
  nearest P s M -> 0 < s ->
  (2 * R - 1) * 2 ^ s < 2 * P -> 2 * P < (2 * R' - 1) * 2 ^ s ->
  R <= M < R'.
Proof.
  intros (Hor & Hlow & Hhigh) Hs HL HU.
  assert (HS : 0 < 2 ^ s) by (apply Z.pow_pos_nonneg; lia).
  pose proof (Z.div_mod P (2 ^ s) ltac:(lia)) as HP.
  pose proof (Z.mod_pos_bound P (2 ^ s) HS) as Hr.
  set (q := P / 2 ^ s) in *. set (r := P mod 2 ^ s) in *. set (S := 2 ^ s) in *.
  split.
  - destruct (Z_lt_le_dec q (R - 1)) as [Hq|Hq]; [nia|].
    destruct (Z.eq_dec q (R - 1)) as [Eq|Nq]; [|lia].
    rewrite Hhigh; [lia|]. nia.
  - destruct (Z_lt_le_dec (R' - 1) q) as [Hq|Hq]; [nia|].
    destruct (Z.eq_dec q (R' - 1)) as [Eq|Nq]; [|lia].
    rewrite Hlow; [lia|]. nia.
Qed.

(** The product of a whole number with a literal, rounded by
    [Math.round]: it is [k] when the exact product is within a half of
    [k], less half a unit in the last place of the product. *)
Lemma Math_round_mul (a C E k : Z) :
  0 < a < 2 ^ 50 -> 2 ^ 52 <= C < 2 ^ 53 -> 52 <= E <= 1000 ->
  2 * (2 * k - 1) * 2 ^ E < a * (4 * C + 1) ->
  2 * a * (C + 1) < (2 * k + 1) * 2 ^ E ->
  Math_round (Number.mul (Number.of_Z a) (S754_finite false (Z.to_pos C) (- E))) = Number.of_Z k.
Proof.
  intros Ha HC HE HL HU.
  assert (Ha53 : 0 < a < 2 ^ 53) by (change (2 ^ 50) with 1125899906842624 in Ha;
    change (2 ^ 53) with 9007199254740992; lia).
  rewrite of_Z_normal by done. unfold normal, Number.mul, SFmul. cbn [xorb].
  pose proof (normal_mantissa a Ha53) as HmA.
  pose proof (Zdigits2_pos a ltac:(lia)) as Hda.
  pose proof (Zdigits2_le a 50 ltac:(lia) ltac:(lia)) as Hda50.
  set (da := Zdigits2 a) in *. set (X := 2 ^ (53 - da)) in *.
  assert (HX : 0 < X) by (apply Z.pow_pos_nonneg; lia).
  assert (HpE : 0 < 2 ^ E) by (apply Z.pow_pos_nonneg; lia).
  change (2 ^ (53 - 1)) with (2 ^ 52) in HmA.
  rewrite Pos2Z.inj_mul, !Z2Pos.id by (change (2 ^ 52) with 4503599627370496 in *; lia).
  destruct (a * X * C) as [|p|p] eqn:EP;
    [change (2 ^ 52) with 4503599627370496 in *; nia | |
     change (2 ^ 52) with 4503599627370496 in *; nia].
  assert (HP : 2 ^ 104 <= Z.pos p < 2 ^ 106).
  { rewrite <- EP. change (2 ^ 104) with (2 ^ 52 * 2 ^ 52).
    change (2 ^ 106) with (2 ^ 53 * 2 ^ 53).
    change (2 ^ 52) with 4503599627370496 in *.
    change (2 ^ 53) with 9007199254740992 in *. nia. }
  assert (Hd1 : 105 <= Z.pos (digits2_pos p))
    by (apply (Zdigits2_ge (Z.pos p) 105); [lia | apply HP]).
  assert (Hd2 : Z.pos (digits2_pos p) <= 106)
    by (apply (Zdigits2_le (Z.pos p) 106); [lia | apply HP]).
  destruct (binary_round_aux_round false p (da - 53 + - E)) as (M & Hnear & HM & ->);
    [lia..|].
  set (s := Z.pos (digits2_pos p) - 53) in *.
  set (g := 53 + E - da - s).
  assert (Hg : 2 <= g) by (unfold g, s; lia).
  replace (da - 53 + - E + s) with (- g) by (unfold g; lia).
  assert (HS : 2 ^ 52 <= 2 ^ s <= 2 ^ 53)
    by (split; apply Z.pow_le_mono_r; unfold s; lia).
  assert (HG : 0 < 2 ^ (g - 2)) by (apply Z.pow_pos_nonneg; lia).
  assert (HG1 : 2 ^ (g - 1) = 2 * 2 ^ (g - 2))
    by (rewrite <- Z.pow_succ_r by lia; f_equal; lia).
  assert (HG0 : 2 ^ g = 2 * 2 ^ (g - 1))
    by (rewrite <- Z.pow_succ_r by lia; f_equal; lia).
  assert (HGS : 2 * 2 ^ (g - 1) * 2 ^ s = 2 ^ E * X).
  { rewrite <- HG0. unfold X. rewrite <- !Z.pow_add_r by (unfold s; lia).
    f_equal. unfold g. lia. }
  destruct (nearest_between (Z.pos p) s M ((2 * k - 1) * 2 ^ (g - 1))
              ((2 * k + 1) * 2 ^ (g - 1)) Hnear) as [HR HR'].
  - unfold s. lia.
  - rewrite <- EP.
    assert (2 * (2 * k - 1) * 2 ^ E * X < a * (4 * C + 1) * X)
      by (apply Z.mul_lt_mono_pos_r; lia).
    replace ((2 * ((2 * k - 1) * 2 ^ (g - 1)) - 1) * 2 ^ s)
      with ((2 * k - 1) * (2 * 2 ^ (g - 1) * 2 ^ s) - 2 ^ s) by ring.
    rewrite HGS. change (2 ^ 52) with 4503599627370496 in *.
    change (2 ^ 53) with 9007199254740992 in *. nia.
  - rewrite <- EP.
    assert (2 * a * (C + 1) * X < (2 * k + 1) * 2 ^ E * X)
      by (apply Z.mul_lt_mono_pos_r; lia).
    replace ((2 * ((2 * k + 1) * 2 ^ (g - 1)) - 1) * 2 ^ s)
      with ((2 * k + 1) * (2 * 2 ^ (g - 1) * 2 ^ s) - 2 ^ s) by ring.
    rewrite HGS. change (2 ^ 52) with 4503599627370496 in *.
    change (2 ^ 53) with 9007199254740992 in *. nia.
  - assert (Hk : forall n, n = k -> (if n =? 0 then S754_zero false else Number.of_Z n) = Number.of_Z k).
    { intros n ->. destruct (Z.eqb_spec k 0) as [->|]; reflexivity. }
    destruct (Z.ltb_spec M (2 ^ 53)) as [Hlt|Hge]; unfold Math_round; cbn [cond_Zopp].
    + destruct (Z.leb_spec 0 (- g)); [lia|].
      rewrite Z.opp_involutive, Z2Pos.id
        by (change (2 ^ 52) with 4503599627370496 in *; lia).
      apply Hk. symmetry.
      apply Z.div_unique with (r := M + 2 ^ (g - 1) - 2 ^ g * k); nia.
    + destruct (Z.leb_spec 0 (- g + 1)); [lia|].
      replace (- (- g + 1)) with (g - 1) by lia.
      replace (g - 1 - 1) with (g - 2) by lia.
      rewrite Z2Pos.id by (change (2 ^ 52) with 4503599627370496; lia).
      assert (EM : M = 2 ^ 53) by lia. rewrite EM in HR, HR'.
      change (2 ^ 53) with (2 * 2 ^ 52) in HR, HR'.
      apply Hk. symmetry.
      apply Z.div_unique with (r := 2 ^ 52 + 2 ^ (g - 2) - 2 ^ (g - 1) * k); nia.
Qed.

Lemma to_Z_of_Z (n : Z) : 0 <= n < 2 ^ 53 -> Number.to_Z (Number.of_Z n) = Some n.
Proof.
  intros Hn. destruct (Z.eq_dec n 0) as [->|Hn0]; [reflexivity|].
  rewrite of_Z_normal by lia. unfold normal, Number.to_Z.
  pose proof (normal_mantissa_pos n ltac:(lia)) as Hm.
  pose proof (Zdigits2_pos n ltac:(lia)) as Hd.
  pose proof (Zdigits2_le n 53 ltac:(lia) ltac:(lia)) as Hd53.
  rewrite Z2Pos.id by lia. cbn [cond_Zopp].
  destruct (Z.leb_spec 0 (Zdigits2 n - 53)).
  - replace (Zdigits2 n - 53) with 0 by lia. replace (53 - Zdigits2 n) with 0 by lia.
    change (2 ^ 0) with 1. f_equal. lia.
  - replace (- (Zdigits2 n - 53)) with (53 - Zdigits2 n) by lia.
    assert (0 < 2 ^ (53 - Zdigits2 n)) by (apply Z.pow_pos_nonneg; lia).
    rewrite Z.mod_mul, Z.div_mul by lia. reflexivity.
Qed.

Lemma Zdigits2_mul_le (a b : Z) :
  0 < a -> 0 < b -> Zdigits2 (a * b) <= Zdigits2 a + Zdigits2 b.
Proof.
  intros Ha Hb.
  pose proof (Zdigits2_bounds a Ha) as [_ Hua].
  pose proof (Zdigits2_bounds b Hb) as [_ Hub].
  apply Zdigits2_le; [nia|]. rewrite Z.pow_add_r by (apply Z.lt_le_incl, Zdigits2_pos; lia).
  nia.
Qed.

(** The quotient of two whole numbers is exact when it is a whole
    number. *)
Lemma div_of_Z (a b : Z) :
  0 < a -> 0 < b < 2 ^ 53 -> a * b < 2 ^ 53 ->
  Number.div (Number.of_Z (a * b)) (Number.of_Z b) = Number.of_Z a.
Proof.
  intros Ha Hb Hab.
  assert (Ha53 : 0 < a < 2 ^ 53) by nia.
  rewrite !of_Z_normal by nia. unfold normal at 1 2, Number.div, SFdiv. cbn [xorb].
  pose proof (normal_mantissa (a * b) ltac:(nia)) as HmN.
  pose proof (normal_mantissa b ltac:(lia)) as Hmb.
  pose proof (Zdigits2_pos a ltac:(lia)) as Hda.
  pose proof (Zdigits2_pos b ltac:(lia)) as Hdb.
  pose proof (Zdigits2_pos (a * b) ltac:(nia)) as HdN.
  pose proof (Zdigits2_le a 53 ltac:(lia) ltac:(lia)) as Hda53.
  pose proof (Zdigits2_le b 53 ltac:(lia) ltac:(lia)) as Hdb53.
  pose proof (Zdigits2_le (a * b) 53 ltac:(nia) ltac:(lia)) as HdN53.
  pose proof (Zdigits2_mul_le a b ltac:(lia) ltac:(lia)) as Hle.
  assert (Hge : Zdigits2 b <= Zdigits2 (a * b)).
  { apply Zdigits2_ge; [nia|]. pose proof (Zdigits2_bounds b ltac:(lia)). nia. }
  set (dN := Zdigits2 (a * b)) in *. set (db := Zdigits2 b) in *.
  change (2 ^ (53 - 1)) with (2 ^ 52) in *.
  unfold SFdiv_core_binary. rewrite !Z2Pos.id
    by (change (2 ^ 52) with 4503599627370496 in *; lia).
  rewrite (Zdigits2_unique (a * b * 2 ^ (53 - dN)) 53)
    by (change (2 ^ (53 - 1)) with (2 ^ 52);
        change (2 ^ 52) with 4503599627370496 in *; lia).
  rewrite (Zdigits2_unique (b * 2 ^ (53 - db)) 53)
    by (change (2 ^ (53 - 1)) with (2 ^ 52);
        change (2 ^ 52) with 4503599627370496 in *; lia).
  unfold fexp, emin, Number.prec, Number.emax.
  replace (Z.min (Z.max (53 + (dN - 53) - (53 + (db - 53)) - 53) (3 - 1024 - 53))
             (dN - 53 - (db - 53))) with (dN - db - 53) by lia.
  replace (dN - 53 - (db - 53) - (dN - db - 53)) with 53 by lia.
  rewrite Z.shiftl_mul_pow2 by lia.
  assert (HXN : 0 < 2 ^ (53 - dN)) by (apply Z.pow_pos_nonneg; lia).
  assert (HXb : 0 < 2 ^ (53 - db)) by (apply Z.pow_pos_nonneg; lia).
  assert (E : a * b * 2 ^ (53 - dN) * 2 ^ 53
              = a * 2 ^ (53 + db - dN) * (b * 2 ^ (53 - db))).
  { replace (2 ^ 53) with (2 ^ db * 2 ^ (53 - db))
      by (rewrite <- Z.pow_add_r by lia; f_equal; lia).
    replace (2 ^ (53 + db - dN)) with (2 ^ (53 - dN) * 2 ^ db)
      by (rewrite <- Z.pow_add_r by lia; f_equal; lia).
    ring. }
  rewrite E.
  pose proof (Z.div_mul (a * 2 ^ (53 + db - dN)) (b * 2 ^ (53 - db)) ltac:(lia)) as Hq.
  pose proof (Z.mod_mul (a * 2 ^ (53 + db - dN)) (b * 2 ^ (53 - db)) ltac:(lia)) as Hr.
  unfold Z.div, Z.modulo in Hq, Hr.
  destruct (Z.div_eucl _ _) as [q r]. cbn [fst snd] in Hq, Hr. subst q r.
  replace (new_location (b * 2 ^ (53 - db)) 0) with loc_Exact
    by (unfold new_location, new_location_even, new_location_odd;
        destruct (Z.even _); reflexivity).
  rewrite binary_round_aux_scaled by lia.
  unfold normal. f_equal. lia.
Qed.

(** ** Pricing *)

Lemma Math_round_rounds (x : Q) : rounds_half_up x (Exact.Math_round x).
Proof.
  unfold rounds_half_up, Exact.Math_round. split.
  - apply Qfloor_le.
  - pose proof (Qlt_floor (x + (1 # 2))) as H.
    rewrite inject_Z_plus in H. exact H.
Qed.

Lemma rounds_half_up_unique (x : Q) (r : Z) :
  rounds_half_up x r -> r = Exact.Math_round x.
Proof.
  intros [Hle Hlt]. unfold Exact.Math_round.
  set (y := (x + (1 # 2))%Q) in *.
  assert (H1 : r <= Qfloor y).
  { rewrite <- (Qfloor_Z r). now apply Qfloor_resp_le. }
  assert (H2 : Qfloor y < r + 1).
  { rewrite Zlt_Qlt. eapply Qle_lt_trans; [apply Qfloor_le|].
    now rewrite inject_Z_plus. }
  lia.
Qed.

Lemma Math_round_permille (amount k : Z) :
  Exact.Math_round (inject_Z amount * (k # 1000))%Q = (amount * k + 500) / 1000.
Proof.
  unfold Exact.Math_round, Qfloor, Qplus, Qmult, inject_Z; cbn [Qnum Qden].
  replace (Z.pos (1 * 1000 * 2)) with (1000 * 2) by reflexivity.
  replace (amount * k * 2 + 1 * Z.pos (1 * 1000)) with ((amount * k + 500) * 2)
    by (change (Z.pos (1 * 1000)) with 1000; lia).
  apply Z.div_mul_cancel_r; lia.
Qed.

Lemma decimal_35_1000 :
  Number.decimal 35 1000 = S754_finite false (Z.to_pos 5044031582654956) (- 57).
Proof. vm_compute. reflexivity. Qed.

Lemma decimal_75_1000 :
  Number.decimal 75 1000 = S754_finite false (Z.to_pos 5404319552844595) (- 56).
Proof. vm_compute. reflexivity. Qed.

(** The service fee of a whole amount is the exact one. *)
Lemma calculateServiceFee_exact (amount : Z) :
  0 <= amount <= maxAmount ->
  calculateServiceFee (Number.of_Z amount)
  = Number.of_Z (Exact.calculateServiceFee amount).
Proof.
  intros Ha. unfold Exact.calculateServiceFee. rewrite Math_round_permille.
  destruct (Z.eq_dec amount 0) as [->|Hn]; [vm_compute; reflexivity|].
  unfold calculateServiceFee. rewrite decimal_35_1000.
  unfold maxAmount in Ha.
  pose proof (Z.div_mod (amount * 35 + 500) 1000 ltac:(lia)) as Hd.
  pose proof (Z.mod_pos_bound (amount * 35 + 500) 1000 ltac:(lia)) as Hr.
  apply (Math_round_mul amount 5044031582654956 57).
  - change (2 ^ 50) with 1125899906842624. lia.
  - change (2 ^ 52) with 4503599627370496. change (2 ^ 53) with 9007199254740992. lia.
  - lia.
  - change (2 ^ 57) with 144115188075855872. lia.
  - change (2 ^ 57) with 144115188075855872. lia.
Qed.

(** The taxes of a whole amount are the exact ones. *)
Lemma calculateTaxes_exact (amount : Z) :
  0 <= amount <= 75000000000000 ->
  calculateTaxes (Number.of_Z amount) = Number.of_Z (Exact.calculateTaxes amount).
Proof.
  intros Ha. unfold Exact.calculateTaxes. rewrite Math_round_permille.
  destruct (Z.eq_dec amount 0) as [->|Hn]; [vm_compute; reflexivity|].
  unfold calculateTaxes. rewrite decimal_75_1000.
  pose proof (Z.div_mod (amount * 75 + 500) 1000 ltac:(lia)) as Hd.
  pose proof (Z.mod_pos_bound (amount * 75 + 500) 1000 ltac:(lia)) as Hr.
  apply (Math_round_mul amount 5404319552844595 56).
  - change (2 ^ 50) with 1125899906842624. lia.
  - change (2 ^ 52) with 4503599627370496. change (2 ^ 53) with 9007199254740992. lia.
  - lia.
  - change (2 ^ 56) with 72057594037927936. lia.
  - change (2 ^ 56) with 72057594037927936. lia.
Qed.

Lemma of_Z_toBoolean (n : Z) :
  0 <= n < 2 ^ 53 ->
  (if Number.toBoolean (Number.of_Z n) then Number.of_Z n else Number.of_Z 0)
  = Number.of_Z n.
Proof.
  intros Hn. destruct (Z.eq_dec n 0) as [->|Hn0]; [reflexivity|].
  rewrite of_Z_normal by lia. reflexivity.
Qed.

(** The breakdown of a line of whole amounts is the exact one. *)
Lemma calculateItemPricing_exact (unitPrice quantity : Z) (domestic : option Z) :
  0 <= unitPrice <= maxAmount -> 0 <= quantity <= maxAmount ->
  0 <= default 0 domestic <= maxAmount ->
  unitPrice * quantity <= maxAmount ->
  default 0 domestic * quantity <= maxAmount ->
  let p := Exact.calculateItemPricing unitPrice quantity domestic in
  calculateItemPricing (Number.of_Z unitPrice) (Number.of_Z quantity)
    (Number.of_Z <$> domestic)
  = {| pr_totalPrice := Number.of_Z (pr_totalPrice p);
       pr_shippingCost := Number.of_Z (pr_shippingCost p);
       pr_itemServiceFee := Number.of_Z (pr_itemServiceFee p);
       pr_itemTaxes := Number.of_Z (pr_itemTaxes p);
       pr_itemTotal := Number.of_Z (pr_itemTotal p) |}.
Proof.
  unfold maxAmount. intros Hu Hq Hd Huq Hdq. cbv zeta.
  unfold calculateItemPricing, Exact.calculateItemPricing.
  cbn [pr_totalPrice pr_shippingCost pr_itemServiceFee pr_itemTaxes pr_itemTotal].
  assert (H53 : 2 ^ 53 = 9007199254740992) by reflexivity.
  assert (Hs : orZero (Number.of_Z <$> domestic) = Number.of_Z (default 0 domestic)).
  { destruct domestic as [c|]; cbn [fmap option_fmap option_map default] in *;
      [|reflexivity]. apply of_Z_toBoolean. lia. }
  rewrite Hs.
  assert (Hnn : 0 <= unitPrice * quantity) by nia.
  assert (Hsn : 0 <= default 0 domestic * quantity) by nia.
  set (T := unitPrice * quantity) in *.
  set (S := default 0 domestic * quantity) in *.
  rewrite !mul_of_Z by lia. fold T S. clearbody T S.
  rewrite calculateServiceFee_exact by (unfold maxAmount; lia).
  assert (Hfee : Exact.calculateServiceFee T = (T * 35 + 500) / 1000)
    by apply Math_round_permille.
  pose proof (Z.div_mod (T * 35 + 500) 1000 ltac:(lia)) as Hfd.
  pose proof (Z.mod_pos_bound (T * 35 + 500) 1000 ltac:(lia)) as Hfr.
  rewrite <- Hfee in Hfd.
  set (fee := Exact.calculateServiceFee T) in *. clearbody fee.
  rewrite (add_of_Z T fee) by lia.
  rewrite calculateTaxes_exact by lia.
  assert (Htax : Exact.calculateTaxes (T + fee) = ((T + fee) * 75 + 500) / 1000)
    by apply Math_round_permille.
  pose proof (Z.div_mod ((T + fee) * 75 + 500) 1000 ltac:(lia)) as Htd.
  pose proof (Z.mod_pos_bound ((T + fee) * 75 + 500) 1000 ltac:(lia)) as Htr.
  rewrite <- Htax in Htd.
  set (tax := Exact.calculateTaxes (T + fee)) in *. clearbody tax.
  rewrite (add_of_Z T S), (add_of_Z (T + S) fee), (add_of_Z (T + S + fee) tax) by lia.
  reflexivity.
Qed.

(** C2, amended. For a natural unit price, quantity and per-unit domestic
    shipping cost (an absent cost counts as zero), none of them nor the
    two line amounts, price times quantity and shipping cost times
    quantity, above [maxAmount], the price breakdown of a cart line as the
    service computes it on binary64 numbers is the exact one: the total
    price is the product of price and quantity, the shipping cost is the
    per-unit cost times the quantity, the service fee is 3.5% of the total
    price and the taxes are 7.5% of total price plus fee, each rounded to
    the nearest whole number on its own with a tie going up, and the item
    total is the sum of the four. The breakdown is a function of the three
    inputs alone. The entries of [calculateOrder] carry the exact breakdown
    of the product's price, the requested quantity and the product's
    domestic shipping cost. *)
Theorem C2_pricing_breakdown (unitPrice quantity : Z) (domestic : option Z) :
  0 <= unitPrice <= maxAmount -> 0 <= quantity <= maxAmount ->
  0 <= default 0 domestic <= maxAmount ->
  unitPrice * quantity <= maxAmount ->
  default 0 domestic * quantity <= maxAmount ->
  let p :=
    calculateItemPricing (Number.of_Z unitPrice) (Number.of_Z quantity)
      (Number.of_Z <$> domestic) in
  let exact := Exact.calculateItemPricing unitPrice quantity domestic in
  p = {| pr_totalPrice := Number.of_Z (pr_totalPrice exact);
         pr_shippingCost := Number.of_Z (pr_shippingCost exact);
         pr_itemServiceFee := Number.of_Z (pr_itemServiceFee exact);
         pr_itemTaxes := Number.of_Z (pr_itemTaxes exact);
         pr_itemTotal := Number.of_Z (pr_itemTotal exact) |}
  /\ (exists totalPrice shippingCost itemServiceFee itemTaxes : Z,
        Number.to_Z (pr_totalPrice p) = Some totalPrice
        /\ totalPrice = unitPrice * quantity
        /\ Number.to_Z (pr_shippingCost p) = Some shippingCost
        /\ shippingCost = default 0 domestic * quantity
        /\ Number.to_Z (pr_itemServiceFee p) = Some itemServiceFee
        /\ rounds_half_up (inject_Z totalPrice * (35 # 1000)) itemServiceFee
        /\ itemServiceFee = (totalPrice * 35 + 500) / 1000
        /\ Number.to_Z (pr_itemTaxes p) = Some itemTaxes
        /\ rounds_half_up (inject_Z (totalPrice + itemServiceFee) * (75 # 1000))
             itemTaxes
        /\ itemTaxes = ((totalPrice + itemServiceFee) * 75 + 500) / 1000
        /\ Number.to_Z (pr_itemTotal p)
           = Some (totalPrice + shippingCost + itemServiceFee + itemTaxes))
  /\ forall item product seller buyerId,
       let d := makeItemData item product seller buyerId in
       {| pr_totalPrice := totalPrice d; pr_shippingCost := shippingCost d;
          pr_itemServiceFee := itemServiceFee d; pr_itemTaxes := itemTaxes d;
          pr_itemTotal := itemTotal d |}
       = Exact.calculateItemPricing (sellingPrice product) (dto_quantity item)
           (shipping_domestic product).
Proof.
  intros Hu Hq Hd Huq Hdq p exact.
  pose proof (calculateItemPricing_exact _ _ _ Hu Hq Hd Huq Hdq) as E.
  cbv zeta in E. fold p exact in E.
  split; [exact E|]. split.
  2: { intros item product seller buyerId. unfold makeItemData.
       destruct (checkAvailability _ _ _). reflexivity. }
  rewrite E. unfold exact, Exact.calculateItemPricing.
  cbn [pr_totalPrice pr_shippingCost pr_itemServiceFee pr_itemTaxes pr_itemTotal].
  unfold maxAmount in *.
  assert (Hnn : 0 <= unitPrice * quantity) by nia.
  assert (Hsn : 0 <= default 0 domestic * quantity) by nia.
  clear E p exact.
  set (T := unitPrice * quantity) in *.
  set (S := default 0 domestic * quantity) in *. clearbody T S.
  unfold Exact.calculateServiceFee, Exact.calculateTaxes.
  pose proof (Math_round_rounds (inject_Z T * (35 # 1000))) as Rfee.
  pose proof (Math_round_permille T 35) as Hfee.
  set (fee := Exact.Math_round (inject_Z T * (35 # 1000))) in *. clearbody fee.
  pose proof (Math_round_rounds (inject_Z (T + fee) * (75 # 1000))) as Rtax.
  pose proof (Math_round_permille (T + fee) 75) as Htax.
  set (tax := Exact.Math_round (inject_Z (T + fee) * (75 # 1000))) in *. clearbody tax.
  pose proof (Z.div_mod (T * 35 + 500) 1000 ltac:(lia)) as Hfd.
  pose proof (Z.mod_pos_bound (T * 35 + 500) 1000 ltac:(lia)) as Hfr.
  rewrite <- Hfee in Hfd.
  pose proof (Z.div_mod ((T + fee) * 75 + 500) 1000 ltac:(lia)) as Htd.
  pose proof (Z.mod_pos_bound ((T + fee) * 75 + 500) 1000 ltac:(lia)) as Htr.
  rewrite <- Htax in Htd.
  assert (H53 : 2 ^ 53 = 9007199254740992) by reflexivity.
  exists T, S, fee, tax.
  rewrite !to_Z_of_Z by lia. split_and!; done.
Qed.

(** The scenario of the specification: two units at 25000 with 1250 of
    shipping each. *)
Example pricing_scenario :
  Exact.calculateItemPricing 25000 2 (Some 1250)
  = {| pr_totalPrice := 50000; pr_shippingCost := 2500; pr_itemServiceFee := 1750;
       pr_itemTaxes := 3881; pr_itemTotal := 58131 |}.
Proof. reflexivity. Qed.

(** ** Amounts in naira and in kobo *)

Lemma nairaToKobo_exact (n : Z) : Exact.nairaToKobo n = 100 * n.
Proof.
  unfold Exact.nairaToKobo, Exact.Math_round, Qfloor, Qplus, Qmult, inject_Z;
    cbn [Qnum Qden].
  rewrite !Z.mul_1_r. change (Z.pos (1 * 1 * 2)) with 2.
  replace (n * 100 * 2 + 1) with (1 + (100 * n) * 2) by lia.
  rewrite Z.div_add by lia. reflexivity.
Qed.

(** The kobo of a whole amount of naira are a hundred times the amount,
    and the naira of these kobo are the amount. *)
Lemma nairaToKobo_of_Z (n : Z) :
  0 <= n -> 100 * n < 2 ^ 53 ->
  nairaToKobo (Number.of_Z n) = Number.of_Z (100 * n)
  /\ koboToNaira (nairaToKobo (Number.of_Z n)) = Number.of_Z n.
Proof.
  intros Hn Hb.
  assert (E : nairaToKobo (Number.of_Z n) = Number.of_Z (100 * n)).
  { unfold nairaToKobo. rewrite mul_of_Z, Math_round_of_Z.
    - f_equal. lia.
    - lia.
    - lia.
    - change (2 ^ 53) with 9007199254740992. lia.
    - lia. }
  split; [exact E|]. rewrite E. unfold koboToNaira.
  destruct (Z.eq_dec n 0) as [->|Hn0]; [vm_compute; reflexivity|].
  rewrite (Z.mul_comm 100 n). apply div_of_Z.
  - lia.
  - change (2 ^ 53) with 9007199254740992. lia.
  - lia.
Qed.


(** X27. For a whole amount of naira of at most 90071992547409, a hundred
    times which is below [2 ^ 53], [nairaToKobo] is exact on binary64
    numbers: the number that holds a hundred times the amount, as on whole
    amounts; and [koboToNaira] gives the amount back. *)
Theorem X27_naira_kobo_round_trip (n : Z) :
  0 <= n <= 90071992547409 ->
  nairaToKobo (Number.of_Z n) = Number.of_Z (100 * n)
  /\ Number.to_Z (nairaToKobo (Number.of_Z n)) = Some (100 * n)
  /\ Exact.nairaToKobo n = 100 * n
  /\ koboToNaira (nairaToKobo (Number.of_Z n)) = Number.of_Z n
  /\ Number.to_Z (koboToNaira (nairaToKobo (Number.of_Z n))) = Some n.
Proof.
  intros Hn.
  assert (H53 : 2 ^ 53 = 9007199254740992) by reflexivity.
  destruct (nairaToKobo_of_Z n) as [E1 E2]; [lia | lia |].
  rewrite E2, E1, !to_Z_of_Z by lia.
  split_and!; try reflexivity. apply nairaToKobo_exact.
Qed.

(** ** The services *)

Section Properties.

Variable ObjectId_isValid : string -> bool.
Variable toISOString : Date -> string.

(** ** Queries by id *)

Lemma Model_findById_found {A} (c : Collection) (model : string)
    (lookup : Db -> option A) (id : string) (w : World) (doc : A) :
  lookup (db w) = Some doc ->
  Model_findById ObjectId_isValid c model lookup id w = read c lookup w.
Proof. intros H. unfold Model_findById. by rewrite H. Qed.

Lemma Model_findById_valid {A} (c : Collection) (model : string)
    (lookup : Db -> option A) (id : string) (w : World) :
  ObjectId_isValid id = true ->
  Model_findById ObjectId_isValid c model lookup id w = read c lookup w.
Proof. intros H. unfold Model_findById. rewrite H. by destruct (lookup (db w)). Qed.

Lemma Model_findById_malformed {A} (c : Collection) (model : string)
    (lookup : Db -> option A) (id : string) (w : World) :
  lookup (db w) = None ->
  ObjectId_isValid id = false ->
  Model_findById ObjectId_isValid c model lookup id w
  = (Throw (castError "ObjectId" id "string" "_id" (Some model)), w).
Proof. intros H1 H2. unfold Model_findById. by rewrite H1, H2. Qed.

(** ** Order calculation *)

Lemma forEach_cons {A S} (body : S -> A -> Async S) x l s w :
  forEach body (x :: l) s w
  = match body s x w with
    | (Return s', w') => forEach body l s' w'
    | (Throw e, w') => (Throw e, w')
    end.
Proof. reflexivity. Qed.

Lemma Zsum_app (l1 l2 : list Z) : Zsum (l1 ++ l2) = Zsum l1 + Zsum l2.
Proof. unfold Zsum. induction l1 as [|x l1 IH]; cbn; [reflexivity | rewrite IH; lia]. Qed.

(** The availability flag: the product is not sold, its stock covers the
    request, and the buyer is not its seller. *)
Lemma checkAvailability_flag (product : Product) (requested : Z) (buyerId : string) :
  (checkAvailability product requested buyerId).1
  = negb (sold product) && (requested <=? quantity product)
    && negb (String.eqb (product_sellerId product) buyerId).
Proof.
  unfold checkAvailability.
  destruct (sold product); cbn; [reflexivity|].
  destruct (Z.ltb_spec (quantity product) requested) as [H|H]; cbn.
  - replace (requested <=? quantity product) with false by lia. reflexivity.
  - replace (requested <=? quantity product) with true by lia.
    destruct (String.eqb _ _); reflexivity.
Qed.

Lemma available_makeItemData item product seller buyerId :
  available (makeItemData item product seller buyerId)
  = (checkAvailability product (dto_quantity item) buyerId).1.
Proof. unfold makeItemData. destruct (checkAvailability _ _ _); reflexivity. Qed.

Lemma productId_makeItemData item product seller buyerId :
  productId (makeItemData item product seller buyerId) = dto_productId item.
Proof. unfold makeItemData. destruct (checkAvailability _ _ _); reflexivity. Qed.

Section Calculation.

Variable buyerId : string.

Local Abbreviation accum := (accumulated ObjectId_isValid).

Lemma accumulated_nil d r s : accum d buyerId [] r s r s.
Proof.
  unfold accumulated; cbn. rewrite !app_nil_r, !Z.add_0_r.
  split_and!; try reflexivity. set_solver.
Qed.

Lemma accumulated_app d l1 l2 r1 s1 r2 s2 r3 s3 :
  accum d buyerId l1 r1 s1 r2 s2 ->
  accum d buyerId l2 r2 s2 r3 s3 ->
  accum d buyerId (l1 ++ l2) r1 s1 r3 s3.
Proof.
  unfold accumulated; cbn zeta.
  intros (A1 & A2 & A3 & A4 & A5 & A6 & A7 & A8 & A9 & A10 & A11)
         (B1 & B2 & B3 & B4 & B5 & B6 & B7 & B8 & B9 & B10 & B11).
  rewrite omap_app, !List.filter_app, !map_app, !foldr_app.
  assert (F : forall (a : list Z) b, foldr Z.add b a = b + foldr Z.add 0 a).
  { induction a as [|z a IHa]; intros b; cbn; [lia | rewrite IHa; lia]. }
  rewrite !(F _ (foldr _ _ _)).
  split_and!; try congruence; try lia.
  - rewrite B1, A1. symmetry; apply app_assoc.
  - rewrite B7, A7. symmetry; apply app_assoc.
  - rewrite B8, A8, omap_app. symmetry; apply app_assoc.
  - rewrite B9, A9. set_solver.
Qed.

Lemma processItem_result (x : OrderItemDto) r s w :
  match processItem ObjectId_isValid buyerId (r, s) x w with
  | (Return (r', s'), w') => db w' = db w /\ accum (db w) buyerId [x] r s r' s'
  | (Throw e, w') => db w' = db w /\ ~ sellersPresent (db w) [x]
  end.
Proof.
  unfold processItem.
  destruct (ObjectId_isValid (dto_productId x)) eqn:Hv; cbn [negb andb].
  - unfold bind at 1. unfold findProductWithSeller. unfold bind at 1, read at 1.
    destruct (products (db w) !! dto_productId x) as [p|] eqn:Hp.
    + unfold bind at 1, read at 1. cbn [db].
      destruct (users (db w) !! product_sellerId p) as [u|] eqn:Hu; unfold ret, throw.
      * split; [reflexivity|].
        unfold accumulated, pricedItem, unavailable, errorOf.
        cbn [omap list_omap List.filter map]. rewrite Hv, Hp.
        cbn [mbind option_bind]. rewrite Hu. cbn [mbind option_bind andb].
        rewrite <- available_makeItemData with (seller := u).
        remember (makeItemData x p u buyerId) as d eqn:Hd. clear Hd.
        destruct (available d) eqn:Ha; cbn; rewrite ?Ha; cbn;
          rewrite ?app_nil_r, ?Z.add_0_r;
          (split_and!; try reflexivity; try lia; set_solver).
      * split; [reflexivity|]. intros Hs.
        destruct (Hs x p) as [u Hu']; [set_solver | done | congruence].
    + unfold ret. split; [reflexivity|].
      unfold accumulated, pricedItem, unavailable, errorOf.
      cbn [omap list_omap List.filter map]. rewrite Hv, Hp. cbn.
      rewrite ?app_nil_r, ?Z.add_0_r.
      split_and!; try reflexivity. set_solver.
  - unfold ret. split; [reflexivity|].
    unfold accumulated, pricedItem, unavailable, errorOf.
    cbn [omap list_omap List.filter map]. rewrite Hv. cbn.
    rewrite ?app_nil_r, ?Z.add_0_r.
    split_and!; try reflexivity. set_solver.
Qed.

Lemma processItems_result (l : list OrderItemDto) :
  forall r s w,
    match forEach (processItem ObjectId_isValid buyerId) l (r, s) w with
    | (Return (r', s'), w') => db w' = db w /\ accum (db w) buyerId l r s r' s'
    | (Throw e, w') => db w' = db w /\ ~ sellersPresent (db w) l
    end.
Proof.
  induction l as [|x l IH]; intros r s w.
  - cbn. split; [reflexivity | apply accumulated_nil].
  - rewrite forEach_cons. pose proof (processItem_result x r s w) as H1.
    destruct (processItem _ _ _ _ w) as [[[r1 s1]|e] w1].
    + destruct H1 as [D1 A1]. specialize (IH r1 s1 w1).
      destruct (forEach _ l _ w1) as [[[r2 s2]|e] w2]; rewrite D1 in IH.
      * destruct IH as [D2 A2]. split; [congruence|].
        apply (accumulated_app _ [x] l _ _ _ _ _ _ A1 A2).
      * destruct IH as [D2 N2]. split; [congruence|]. intros Hs. apply N2.
        intros item p Hin. apply Hs. set_solver.
    + destruct H1 as [D1 N1]. split; [done|]. intros Hs. apply N1.
      intros item p Hin. apply Hs. set_solver.
Qed.

(** What [calculateOrder] comes to: a response built by the loop from the
    empty response, or a validation error; the store is read only. *)
Lemma calculateOrder_result (dtoItems : list OrderItemDto) w :
  match calculateOrder ObjectId_isValid dtoItems buyerId w with
  | (Return resp, w') =>
      db w' = db w /\ ObjectId_isValid buyerId = true
      /\ exists r s, accum (db w) buyerId dtoItems emptyResponse ∅ r s
                     /\ resp = finish s r
  | (Throw e, w') =>
      db w' = db w /\ instanceof_BadRequest e = true
      /\ (ObjectId_isValid buyerId = false \/ ~ sellersPresent (db w) dtoItems)
  end.
Proof.
  unfold calculateOrder, try_catch.
  destruct (ObjectId_isValid buyerId) eqn:Hb; cbn [negb].
  - unfold bind. pose proof (processItems_result dtoItems emptyResponse ∅ w) as H.
    destruct (forEach _ dtoItems _ w) as [[[r s]|e] w1].
    + destruct H as [D A]. unfold ret; cbn. split_and!; [done | done |].
      exists r, s. done.
    + destruct H as [D N]. destruct (instanceof_BadRequest e) eqn:He; unfold throw.
      * split_and!; [done | done | by right].
      * split_and!; [done | done | by right].
  - unfold throw; cbn. split_and!; [done | done | by left].
Qed.

(** An entry that is not available has its product id listed. *)
Lemma accumulated_unavailable d (l : list OrderItemDto) r s :
  accum d buyerId l emptyResponse ∅ r s ->
  forall x, In x (items r) -> available x = false ->
            In (productId x) (unavailableItems r).
Proof.
  intros (A1 & _ & _ & _ & _ & _ & A7 & _) x Hx Ha.
  cbn [emptyResponse items unavailableItems app] in *.
  rewrite A7. rewrite A1 in Hx.
  apply list_elem_of_In, list_elem_of_omap in Hx as (item & Hin & Hp).
  apply list_elem_of_In in Hin.
  unfold pricedItem in Hp.
  destruct (ObjectId_isValid (dto_productId item)) eqn:Hv; [|done].
  destruct (products d !! dto_productId item) as [p|] eqn:Ep; [|done].
  cbn in Hp. destruct (users d !! product_sellerId p) as [u|]; [|done].
  cbn in Hp. injection Hp as <-.
  rewrite productId_makeItemData. apply in_map, filter_In. split; [done|].
  unfold unavailable. rewrite Hv, Ep. cbn.
  rewrite available_makeItemData in Ha. by rewrite Ha.
Qed.

End Calculation.

(** ** Seller payouts *)

Lemma foldr_add_app (l1 l2 : list Z) :
  foldr Z.add 0 (l1 ++ l2) = foldr Z.add 0 l1 + foldr Z.add 0 l2.
Proof. induction l1 as [|x l1 IH]; cbn; [reflexivity | rewrite IH; lia]. Qed.

Lemma Map_has_In k m : Map_has k m = true <-> In k (map fst m).
Proof.
  unfold Map_has. rewrite existsb_exists, in_map_iff. split.
  - intros ([k' p] & Hin & E). apply String.eqb_eq in E. cbn in E. subst k'.
    by exists (k, p).
  - intros ([k' p] & E & Hin). cbn in E. subst. exists (k, p).
    split; [done | apply String.eqb_refl].
Qed.

Lemma Map_update_keys k f m : map fst (Map_update k f m) = map fst m.
Proof.
  unfold Map_update. rewrite map_map. apply map_ext.
  intros [k' p]; cbn. destruct (String.eqb k' k); reflexivity.
Qed.

Lemma Map_update_In k f m k' p' :
  In (k', p') (Map_update k f m) <->
  exists p, In (k', p) m /\ p' = if String.eqb k' k then f p else p.
Proof.
  unfold Map_update. rewrite in_map_iff. split.
  - intros ([k0 p0] & E & Hin). cbn in E.
    destruct (String.eqb k0 k) eqn:Ek; injection E as <- <-; exists p0; rewrite Ek; eauto.
  - intros (p & Hin & ->). exists (k', p). split; [|done]. cbn.
    destruct (String.eqb k' k); reflexivity.
Qed.

Lemma Map_update_total (g : SellerPayout -> Z) k f delta m :
  NoDup (map fst m) -> In k (map fst m) ->
  (forall p, g (f p) = g p + delta) ->
  foldr Z.add 0 (map g (map snd (Map_update k f m)))
  = foldr Z.add 0 (map g (map snd m)) + delta.
Proof.
  intros Hnd Hin Hf.
  induction m as [|[k0 p0] m IH]; [destruct Hin|].
  cbn in Hnd. apply NoDup_cons in Hnd as [Hk0 Hnd]. cbn.
  destruct (String.eqb_spec k0 k) as [->|Hne]; cbn.
  - rewrite Hf.
    assert (E : Map_update k f m = m).
    { unfold Map_update. rewrite <- (map_id m) at 2. apply map_ext_in.
      intros [k1 p1] H1; cbn. destruct (String.eqb_spec k1 k) as [->|]; [|done].
      exfalso. apply Hk0. apply list_elem_of_In, in_map_iff. by exists (k, p1). }
    unfold Map_update in E. rewrite E. lia.
  - destruct Hin as [E|Hin]; [cbn in E; congruence|].
    specialize (IH Hnd Hin). unfold Map_update in IH. rewrite IH. lia.
Qed.

Lemma sellerItems_app k l1 l2 :
  sellerItems k (l1 ++ l2) = (sellerItems k l1 ++ sellerItems k l2)%list.
Proof. apply List.filter_app. Qed.

Lemma sellerItems_absent k l :
  (forall it, In it l -> sellerId it <> k) -> sellerItems k l = [].
Proof.
  intros H. induction l as [|x l IH]; [reflexivity|]. cbn.
  destruct (String.eqb_spec (sellerId x) k) as [E|_].
  - exfalso. apply (H x); [by left | done].
  - apply IH. intros it Hin. apply H. by right.
Qed.

Lemma summarises_snoc_other l x k p :
  sellerId x <> k -> summarises l k p -> summarises (l ++ [x]) k p.
Proof.
  intros Hne (S1 & S2 & S3 & S4 & S5 & S6 & S7).
  unfold summarises. rewrite sellerItems_app. cbn.
  destruct (String.eqb_spec (sellerId x) k); [done|]. rewrite app_nil_r. done.
Qed.

Lemma summarises_snoc_same l x p :
  summarises l (sellerId x) p ->
  summarises (l ++ [x]) (sellerId x) (add_item_to_payout x p).
Proof.
  intros (S1 & S2 & S3 & S4 & S5 & S6 & S7).
  unfold summarises. rewrite sellerItems_app. cbn.
  rewrite String.eqb_refl, !map_app, !foldr_add_app. cbn.
  split_and!; try done; lia.
Qed.

Lemma payoutStep_inv l m x : payoutsInv l m -> payoutsInv (l ++ [x]) (payoutStep m x).
Proof.
  intros (Hnd & Hsum & Hcov & Hused & Htot & Hfee). unfold payoutStep.
  set (k := sellerId x).
  set (fresh := {| payout_sellerId := k; payout_sellerName := sellerName x;
                   payout_itemCount := 0; revenue := 0; serviceFee := 0; paid := false;
                   payoutReference := None; payout_paidAt := None |}).
  set (m1 := if Map_has k m then m else (m ++ [(k, fresh)])%list).
  assert (Hk1 : In k (map fst m1)).
  { subst m1. destruct (Map_has k m) eqn:Hh; [by apply Map_has_In|].
    rewrite map_app. apply in_or_app. right. by left. }
  assert (Hnd1 : NoDup (map fst m1)).
  { subst m1. destruct (Map_has k m) eqn:Hh; [done|].
    rewrite map_app. apply NoDup_app. split_and!; [done | | apply NoDup_singleton].
    intros k' Hk' Hin. apply list_elem_of_In in Hk'. cbn in Hin.
    apply list_elem_of_In in Hin. destruct Hin as [<-|[]].
    apply Map_has_In in Hk'. congruence. }
  assert (Hsum1 : forall k' p, In (k', p) m1 -> summarises l k' p).
  { subst m1. destruct (Map_has k m) eqn:Hh; [done|].
    intros k' p Hin. apply in_app_or in Hin as [Hin|[E|[]]]; [by apply Hsum|].
    inversion E; subst k' p. unfold summarises, fresh; cbn.
    rewrite sellerItems_absent; [done|].
    intros it Hit E'. apply Hcov in Hit. rewrite E' in Hit.
    apply Map_has_In in Hit. congruence. }
  assert (Hkeys1 : forall k', In k' (map fst m1) -> In k' (map fst m) \/ k' = k).
  { subst m1. destruct (Map_has k m); [by left|].
    intros k'. rewrite map_app, in_app_iff. cbn. naive_solver. }
  assert (Htot1 : payoutsTotal (map snd m1) = payoutsTotal (map snd m)).
  { subst m1. destruct (Map_has k m); [done|].
    unfold payoutsTotal. rewrite !map_app, foldr_add_app. cbn. lia. }
  assert (Hfee1 : foldr Z.add 0 (map serviceFee (map snd m1))
                  = foldr Z.add 0 (map serviceFee (map snd m))).
  { subst m1. destruct (Map_has k m); [done|].
    rewrite !map_app, foldr_add_app. cbn. lia. }
  unfold payoutsInv. rewrite Map_update_keys. split_and!.
  - done.
  - intros k' p' Hin. apply Map_update_In in Hin as (p & Hin & ->).
    destruct (String.eqb_spec k' k) as [->|Hne].
    + apply summarises_snoc_same. by apply Hsum1.
    + apply summarises_snoc_other; [intros E; by apply Hne | by apply Hsum1].
  - intros it Hit. apply in_app_or in Hit as [Hit|[<-|[]]]; [|done].
    apply Hcov in Hit. subst m1. destruct (Map_has k m); [done|].
    rewrite map_app. apply in_or_app. by left.
  - intros k' Hk'. apply Hkeys1 in Hk' as [Hk'| ->].
    + destruct (Hused k' Hk') as (it & Hit & E). exists it. split; [|done].
      apply in_or_app. by left.
    + exists x. split; [|done]. apply in_or_app. right. by left.
  - unfold payoutsTotal in *.
    rewrite (Map_update_total _ k _ (totalPrice x)); [| done | done |].
    + rewrite Htot1, Htot, map_app, foldr_add_app. cbn. lia.
    + intros p. cbn. lia.
  - rewrite (Map_update_total _ k _ (itemServiceFee x)); [| done | done |].
    + rewrite Hfee1, Hfee, map_app, foldr_add_app. cbn. lia.
    + intros p. cbn. lia.
Qed.

Lemma payoutsInv_fold l : forall l0 m,
  payoutsInv l0 m -> payoutsInv (l0 ++ l) (fold_left payoutStep l m).
Proof.
  induction l as [|x l IH]; intros l0 m H; cbn.
  - by rewrite app_nil_r.
  - replace (l0 ++ x :: l)%list with ((l0 ++ [x]) ++ l)%list
      by (rewrite <- app_assoc; reflexivity).
    apply IH. by apply payoutStep_inv.
Qed.

Lemma payoutsInv_nil : payoutsInv [] [].
Proof.
  unfold payoutsInv; cbn. split_and!; try done. apply NoDup_nil_2.
Qed.

(** The payouts of a calculation: one per seller, each the summary of the
    seller's entries, and together they hand out the total price. *)
Lemma preparellerPayouts_spec (calculated : list ItemData) :
  NoDup (map payout_sellerId (preparellerPayouts calculated))
  /\ (forall p, In p (preparellerPayouts calculated) ->
        summarises calculated (payout_sellerId p) p)
  /\ (forall it, In it calculated ->
        exists p, In p (preparellerPayouts calculated)
                  /\ payout_sellerId p = sellerId it)
  /\ (forall p, In p (preparellerPayouts calculated) ->
        exists it, In it calculated /\ sellerId it = payout_sellerId p)
  /\ payoutsTotal (preparellerPayouts calculated)
     = foldr Z.add 0 (map totalPrice calculated)
  /\ foldr Z.add 0 (map serviceFee (preparellerPayouts calculated))
     = foldr Z.add 0 (map itemServiceFee calculated).
Proof.
  unfold preparellerPayouts.
  destruct (payoutsInv_fold calculated [] [] payoutsInv_nil)
    as (Hnd & Hsum & Hcov & Hused & Htot & Hfee). cbn [app] in *.
  set (m := fold_left payoutStep calculated []) in *.
  assert (Hid : forall k p, In (k, p) m -> payout_sellerId p = k).
  { intros k p Hin. by destruct (Hsum k p Hin). }
  assert (Hkeys : map payout_sellerId (map snd m) = map fst m).
  { rewrite map_map. apply map_ext_in. intros [k p] Hin. cbn. by apply Hid. }
  split_and!.
  - by rewrite Hkeys.
  - intros p Hp. apply in_map_iff in Hp as ([k p'] & E & Hin). cbn in E. subst p'.
    rewrite (Hid k p Hin). by apply Hsum.
  - intros it Hit. apply Hcov, in_map_iff in Hit as ([k p] & E & Hin). cbn in E.
    exists p. split; [apply in_map_iff; by exists (k, p)|].
    rewrite (Hid k p Hin). done.
  - intros p Hp. apply in_map_iff in Hp as ([k p'] & E & Hin). cbn in E. subst p'.
    rewrite (Hid k p Hin). apply Hused, in_map_iff. by exists (k, p).
  - done.
  - done.
Qed.

(** C1, amended. For a well-formed buyer id and requested items whose
    products have their sellers among the users, [calculateOrder] returns
    a response and leaves the store as it is. Its entries are those of the
    requested items whose product was found. The subtotal, the shipping
    cost, the service fee, the taxes and the item count are sums over the
    available entries only. Every unavailable requested item (its
    well-formed id names no product, or the product is sold, short of
    stock or the buyer's own) is listed in [unavailableItems]. The seller
    count is the number of distinct seller ids among all entries, the
    unavailable ones included. The total amount is subtotal plus shipping
    plus fee plus taxes minus the coupon discount. *)
Theorem C1_calculateOrder_totals (dtoItems : list OrderItemDto) (buyerId : string)
    (w : World) :
  ObjectId_isValid buyerId = true ->
  sellersPresent (db w) dtoItems ->
  exists resp w',
    calculateOrder ObjectId_isValid dtoItems buyerId w = (Return resp, w')
    /\ db w' = db w
    /\ items resp = omap (pricedItem ObjectId_isValid (db w) buyerId) dtoItems
    /\ subtotal resp = Zsum (map totalPrice (availableItems (items resp)))
    /\ totalShippingCost resp = Zsum (map shippingCost (availableItems (items resp)))
    /\ totalServiceFee resp = Zsum (map itemServiceFee (availableItems (items resp)))
    /\ totalTaxes resp = Zsum (map itemTaxes (availableItems (items resp)))
    /\ itemCount resp = Zsum (map item_quantity (availableItems (items resp)))
    /\ unavailableItems resp
       = map dto_productId
           (List.filter (unavailable ObjectId_isValid (db w) buyerId) dtoItems)
    /\ (forall item, In item dtoItems ->
          unavailable ObjectId_isValid (db w) buyerId item = true ->
          In (dto_productId item) (unavailableItems resp))
    /\ (forall d, In d (items resp) -> available d = false ->
          In (productId d) (unavailableItems resp))
    /\ sellerCount resp = Z.of_nat (size (distinctSellers (items resp)))
    /\ couponDiscount resp = 0
    /\ totalAmount resp
       = subtotal resp + totalShippingCost resp + totalServiceFee resp
         + totalTaxes resp - couponDiscount resp.
Proof.
  intros Hb Hs. pose proof (calculateOrder_result buyerId dtoItems w) as H.
  destruct (calculateOrder _ dtoItems buyerId w) as [[resp|e] w'].
  2: { destruct H as (_ & _ & [E|N]); [congruence | contradiction]. }
  destruct H as (D & _ & r & s & A & ->). exists (finish s r), w'.
  pose proof (accumulated_unavailable buyerId (db w) dtoItems r s A) as HU.
  destruct A as (A1 & A2 & A3 & A4 & A5 & A6 & A7 & A8 & A9 & A10 & A11).
  cbn [emptyResponse items subtotal totalShippingCost totalServiceFee totalTaxes
       itemCount unavailableItems errors couponDiscount currency app] in *.
  assert (U : unavailableItems r
              = map dto_productId
                  (List.filter (unavailable ObjectId_isValid (db w) buyerId) dtoItems))
    by exact A7.
  unfold finish, availableItems, distinctSellers, Zsum;
    cbn [items subtotal totalShippingCost totalServiceFee totalTaxes itemCount
         unavailableItems sellerCount couponDiscount totalAmount].
  rewrite A1. split_and!; try done; try lia.
  - intros item Hin Hu. rewrite U. apply in_map. apply filter_In. done.
  - intros d Hd Ha. apply HU; [by rewrite A1 | done].
  - rewrite A9. f_equal. f_equal. set_solver.
Qed.

(** ** The status state machine *)

(** The table of the code is the table of the specification. *)
Lemma validTransitions_table (from to : OrderStatus.t) :
  includes (validTransitions from) to = true <-> In (from, to) transitionTable.
Proof.
  assert (E : includes (validTransitions from) to
              = bool_decide ((from, to) ∈ transitionTable))
    by (destruct from, to; reflexivity).
  rewrite E, bool_decide_eq_true. apply list_elem_of_In.
Qed.

(** No transition leaves a terminal state. *)
Lemma terminal_states (to : OrderStatus.t) :
  ~ In (OrderStatus.CANCELLED, to) transitionTable
  /\ ~ In (OrderStatus.REFUNDED, to) transitionTable.
Proof.
  rewrite <- !validTransitions_table. split; cbn; congruence.
Qed.

Lemma canUpdateOrderStatus_admin order userId newStatus :
  canUpdateOrderStatus order userId "admin" newStatus = Return true.
Proof. reflexivity. Qed.

(** Anyone but an administrator: the read of [order.sellerId] throws before
    any of the two rules is looked at. *)
Lemma canUpdateOrderStatus_other order userId userRole newStatus :
  userRole <> "admin" ->
  canUpdateOrderStatus order userId userRole newStatus
  = Throw (undefined_read "toString").
Proof.
  intros H. unfold canUpdateOrderStatus.
  destruct (String.eqb_spec userRole "admin"); [contradiction | reflexivity].
Qed.

Lemma canUpdateOrderStatus_true order userId userRole newStatus :
  canUpdateOrderStatus order userId userRole newStatus = Return true ->
  userRole = "admin".
Proof.
  unfold canUpdateOrderStatus.
  destruct (String.eqb_spec userRole "admin"); [done | discriminate].
Qed.

(** C3, amended. For an order and a pair of statuses that is not in the
    transition table (any pair out of CANCELLED or REFUNDED is such a
    pair, see [terminal_states]), a status update fails and leaves the
    whole store as it was: the order, its items and the stock of the
    products. When the request passes the permission check, which comes
    first, the failure is the validation error that names the current and
    the target status. *)
Theorem C3_illegal_transition_rejected (orderId : string) (dto : UpdateOrderStatusDto)
    (userId userRole : string) (t : Date) (w : World) (order : Order) :
  ObjectId_isValid orderId = true ->
  orders (db w) !! orderId = Some order ->
  ~ In (status order, us_status dto) transitionTable ->
  exists e w',
    updateStatus ObjectId_isValid toISOString orderId dto userId userRole t w
    = (Throw e, w')
    /\ db w' = db w
    /\ (canUpdateOrderStatus order userId userRole (us_status dto) = Return true ->
        e = invalidTransition (status order) (us_status dto)
        /\ kind e = Validation).
Proof.
  intros Hv Ho Hill. rewrite <- validTransitions_table in Hill.
  apply not_true_is_false in Hill.
  unfold updateStatus, try_catch. rewrite Hv. cbn [negb].
  unfold bind at 1, read at 1. rewrite Ho.
  unfold bind at 1, lift at 1.
  destruct (String.eqb_spec userRole "admin") as [->|Hne].
  - rewrite canUpdateOrderStatus_admin. cbn [negb].
    unfold bind at 1, lift at 1, validateStatusTransition. rewrite Hill. cbn.
    eexists _, _. split_and!; [reflexivity | reflexivity |]. intros _. done.
  - rewrite canUpdateOrderStatus_other by done. cbn.
    eexists _, _. split_and!; [reflexivity | reflexivity |]. discriminate.
Qed.

(** C7, what the code does. A status update by an actor whose role is not
    [admin] never reaches the rules for buyers and sellers: the permission
    check reads [order.sellerId], which no order has, and the update fails
    with a validation error that wraps the [TypeError]; the store is left
    as it was. It is neither permitted nor refused with a permission
    error, whoever the actor and whatever the target status. *)
Theorem C7_non_admin_update_fails (orderId : string) (dto : UpdateOrderStatusDto)
    (userId userRole : string) (t : Date) (w : World) (order : Order) :
  ObjectId_isValid orderId = true ->
  orders (db w) !! orderId = Some order ->
  userRole <> "admin" ->
  exists w',
    updateStatus ObjectId_isValid toISOString orderId dto userId userRole t w
    = (Throw sellerIdReadFailure, w')
    /\ db w' = db w
    /\ kind sellerIdReadFailure = Validation.
Proof.
  intros Hv Ho Hne.
  unfold updateStatus, try_catch. rewrite Hv. cbn [negb].
  unfold bind at 1, read at 1. rewrite Ho.
  unfold bind at 1, lift at 1.
  rewrite canUpdateOrderStatus_other by done. cbn.
  eexists. split_and!; reflexivity.
Qed.

(** ** Payment confirmation *)

Lemma set_products_id (d : Db) : set_products (fun ps => ps) d = d.
Proof. by destruct d. Qed.

Lemma alter_absent {A} (f : A -> A) (k : string) (m : gmap string A) :
  m !! k = None -> alter f k m = m.
Proof.
  intros H. apply map_eq. intros j. rewrite lookup_alter.
  case_decide; [subst; by rewrite H | done].
Qed.

Lemma alter_agree {A} (f g : A -> A) (k : string) (m : gmap string A) x :
  m !! k = Some x -> f x = g x -> alter f k m = alter g k m.
Proof.
  intros H E. apply map_eq. intros j. rewrite !lookup_alter.
  case_decide; [subst; rewrite H; cbn; by rewrite E | done].
Qed.

Lemma updateProductAfterPayment_run (pid : ObjectId) (qty : Z) (t : Date) (w : World) :
  exists w',
    updateProductAfterPayment pid qty t w = (Return tt, w')
    /\ db w' = set_products (alter (consume qty t) pid) (db w).
Proof.
  unfold updateProductAfterPayment, try_catch, bind, read.
  destruct (products (db w) !! pid) as [p|] eqn:Hp.
  - unfold write. eexists. split; [reflexivity|]. cbn [db].
    unfold set_products. f_equal.
    apply (alter_agree _ _ _ _ p Hp).
    unfold paymentUpdate, consume.
    replace (quantity p + - qty) with (quantity p - qty) by lia. reflexivity.
  - unfold ret. eexists. split; [reflexivity|].
    unfold set_products. rewrite (alter_absent _ _ _ Hp). by destruct (db w).
Qed.

Lemma consume_loop_run (t : Date) (its : list OrderItem) : forall w,
  exists w',
    forEach (fun (_ : unit) item =>
               updateProductAfterPayment (oi_productId item) (oi_quantity item) t)
      its tt w = (Return tt, w')
    /\ db w' = set_products (consumeAll t its) (db w).
Proof.
  induction its as [|it its IH]; intros w.
  - exists w. split; [reflexivity|]. unfold consumeAll; cbn. by destruct (db w).
  - destruct (updateProductAfterPayment_run (oi_productId it) (oi_quantity it) t w)
      as (w1 & E1 & D1).
    destruct (IH w1) as (w2 & E2 & D2).
    exists w2. rewrite forEach_cons, E1. split; [exact E2|].
    rewrite D2, D1. unfold consumeAll; cbn. by destruct (db w).
Qed.

(** The stock of a product after [consume]. *)
Lemma consume_stock (qty : Z) (t : Date) (p : Product) :
  quantity (consume qty t p) = Z.max 0 (quantity p - qty)
  /\ sold (consume qty t p) = (quantity p - qty <=? 0) || sold p
  /\ (0 < quantity p - qty -> quantity (consume qty t p) = quantity p - qty
                               /\ sold (consume qty t p) = sold p)
  /\ (quantity p - qty <= 0 -> quantity (consume qty t p) = 0
                                /\ sold (consume qty t p) = true).
Proof.
  unfold consume. destruct (Z.leb_spec (quantity p - qty) 0) as [H|H]; cbn.
  - split_and!; try done; lia.
  - split_and!; try done; lia.
Qed.

Lemma confirmPayment_run (orderId : string) (paymentData : PaymentData)
    (t : Date) (w : World) (order : Order) :
  orders (db w) !! orderId = Some order ->
  exists w',
    confirmPayment ObjectId_isValid toISOString orderId paymentData t w = (Return tt, w')
    /\ db w' = confirmedDb toISOString orderId paymentData t order (db w).
Proof.
  intros Ho. unfold confirmPayment, try_catch.
  unfold bind at 1. rewrite (Model_findById_found _ _ _ _ _ _ Ho).
  unfold read at 1. rewrite Ho.
  unfold bind at 1, read at 1.
  unfold bind at 1, write at 1.
  unfold bind at 1, updateMany, write at 1.
  cbn [db trace].
  match goal with
  | |- context [forEach ?b ?l tt ?w0] =>
      destruct (consume_loop_run t l w0) as (w2 & E2 & D2)
  end.
  rewrite E2. exists w2. split; [reflexivity|]. rewrite D2. reflexivity.
Qed.

Lemma status_markPaid (paymentData : PaymentData) (t : Date) (order : Order) :
  status (markPaid toISOString paymentData t order)
  = if OrderStatus.eqb (status order) OrderStatus.PENDING
    then OrderStatus.CONFIRMED else status order.
Proof.
  unfold markPaid; cbn -[OrderStatus.eqb].
  destruct (OrderStatus.eqb (status order) OrderStatus.PENDING); reflexivity.
Qed.

(** C4. For an order of the store, [confirmPayment] returns, and it has
    exactly this effect: on the order, the payment status is COMPLETED,
    the payment date is the time of the call and the reference, method and
    gateway of the payment are copied; the status becomes CONFIRMED if and
    only if it was PENDING, and is left as it was otherwise; one entry is
    appended to the history; every item of the order is marked confirmed
    (the items of other orders are untouched); and for each item of the
    order, in turn, the stock of its product goes down by the quantity of
    the item, the product being marked sold with a stock of zero whenever
    that reaches zero or below. Users and payments are untouched. *)
Theorem C4_confirmPayment_effect (orderId : string) (paymentData : PaymentData)
    (t : Date) (w : World) (order : Order) :
  orders (db w) !! orderId = Some order ->
  exists w' order',
    confirmPayment ObjectId_isValid toISOString orderId paymentData t w = (Return tt, w')
    /\ orders (db w') = <[orderId := order']> (orders (db w))
    /\ payment order'
       = {| paymentStatus := PaymentStatus.COMPLETED;
            paymentMethod := Some (pd_method paymentData);
            paymentReference := Some (pd_reference paymentData);
            paymentGateway := Some (PaymentGateway.toString (pd_gateway paymentData));
            paidAt := Some t |}
    /\ status order'
       = (if OrderStatus.eqb (status order) OrderStatus.PENDING
          then OrderStatus.CONFIRMED else status order)
    /\ (status order' = OrderStatus.CONFIRMED /\ status order <> OrderStatus.CONFIRMED
        <-> status order = OrderStatus.PENDING)
    /\ statusHistory order'
       = (statusHistory order ++ [("Payment confirmed - " ++ toISOString t)%string])%list
    /\ (totals order', sellerIds order', sellerPayouts order', shipping order',
        buyerId order', orderNumber order')
       = (totals order, sellerIds order, sellerPayouts order, shipping order,
          buyerId order, orderNumber order)
    /\ orderItems (db w')
       = map (fun it => if bool_decide (oi_orderId it = orderId)
                        then confirmItem it else it) (orderItems (db w))
    /\ (forall it, In it (itemsOf orderId (db w')) -> itemStatus it = ItemStatus.confirmed)
    /\ products (db w') = consumeAll t (itemsOf orderId (db w)) (products (db w))
    /\ (forall qty p,
          quantity (consume qty t p) = Z.max 0 (quantity p - qty)
          /\ sold (consume qty t p) = (quantity p - qty <=? 0) || sold p)
    /\ users (db w') = users (db w)
    /\ payments (db w') = payments (db w).
Proof.
  intros Ho. destruct (confirmPayment_run orderId paymentData t w order Ho)
    as (w2 & E2 & D2).
  exists w2, (markPaid toISOString paymentData t order).
  rewrite E2, D2. unfold confirmedDb.
  cbn [db orders orderItems products users payments set_products
       set_orderItems set_orders].
  pose proof (status_markPaid paymentData t order) as Hst.
  split_and!; try reflexivity;
    try (unfold markPaid; cbn -[OrderStatus.eqb];
         destruct (OrderStatus.eqb (status order) OrderStatus.PENDING); reflexivity).
  - rewrite Hst. unfold OrderStatus.eqb.
    case_bool_decide as Hp; split.
    + intros _. done.
    + intros _. split; [done | congruence].
    + intros [? ?]. done.
    + intros ?. done.
  - intros it Hin. unfold itemsOf in Hin. apply list_elem_of_In in Hin.
    apply list_elem_of_filter in Hin as [Hid Hin]. cbn in Hin.
    apply list_elem_of_In, in_map_iff in Hin as (it0 & E & _).
    case_bool_decide as H0; subst it; [reflexivity | contradiction].
  - intros qty p. destruct (consume_stock qty t p) as (? & ? & _). done.
Qed.

(** ** Cancellation *)

Lemma restore_loop_run (its : list OrderItem) : forall w,
  exists w',
    forEach
      (fun (_ : unit) item =>
         let* product := read ProductModel (fun d => products d !! oi_productId item) in
         match product with
         | None => ret tt
         | Some _ =>
             write ProductModel
               (set_products (alter (restoreUpdate (oi_quantity item)) (oi_productId item)))
         end)
      its tt w = (Return tt, w')
    /\ db w' = set_products (restoreAll its) (db w).
Proof.
  induction its as [|it its IH]; intros w.
  - exists w. split; [reflexivity|]. unfold restoreAll; cbn. by destruct (db w).
  - rewrite forEach_cons. unfold bind at 1, read at 1.
    destruct (products (db w) !! oi_productId it) as [p|] eqn:Hp.
    + unfold write at 1.
      match goal with |- context [forEach _ its tt ?w0] => destruct (IH w0) as (w2 & E2 & D2) end.
      exists w2. split; [exact E2|]. rewrite D2. cbn [db].
      unfold restoreAll; cbn. by destruct (db w).
    + unfold ret at 1.
      match goal with |- context [forEach _ its tt ?w0] => destruct (IH w0) as (w2 & E2 & D2) end.
      exists w2. split; [exact E2|]. rewrite D2. cbn [db].
      unfold set_products, restoreAll; cbn [fold_left].
      rewrite (alter_absent _ _ _ Hp). reflexivity.
Qed.

Lemma restoreProductQuantity_run (orderId : ObjectId) (w : World) :
  exists w',
    restoreProductQuantity orderId w = (Return tt, w')
    /\ db w' = set_products (restoreAll (itemsOf orderId (db w))) (db w).
Proof.
  unfold restoreProductQuantity, try_catch. unfold bind at 1, read at 1.
  match goal with
  | |- context [forEach _ ?l tt ?w0] => destruct (restore_loop_run l w0) as (w2 & E2 & D2)
  end.
  rewrite E2. exists w2. split; [reflexivity | exact D2].
Qed.

(** The store after the order [orderId] was cancelled. *)
Lemma updateStatus_cancel_run (orderId : string) (dto : UpdateOrderStatusDto)
    (userId : string) (t : Date) (w : World) (order : Order) :
  ObjectId_isValid orderId = true ->
  ObjectId_isValid userId = true ->
  orders (db w) !! orderId = Some order ->
  us_status dto = OrderStatus.CANCELLED ->
  In (status order, OrderStatus.CANCELLED) transitionTable ->
  exists w' order',
    updateStatus ObjectId_isValid toISOString orderId dto userId "admin" t w
    = (Return order', w')
    /\ status order' = OrderStatus.CANCELLED
    /\ cancelledAt (management order') = Some t
    /\ cancellationReason (management order') = us_reason dto
    /\ cancelledBy (management order') = Some userId
    /\ orders (db w') = <[orderId := order']> (orders (db w))
    /\ orderItems (db w')
       = map (fun it => if bool_decide (oi_orderId it = orderId)
                        then cancelItem t (us_reason dto) it else it)
           (orderItems (db w))
    /\ products (db w') = restoreAll (itemsOf orderId (db w)) (products (db w)).
Proof.
  intros Hv Hu Ho Hs Hleg. apply validTransitions_table in Hleg.
  unfold updateStatus, try_catch. rewrite Hv. cbn [negb].
  unfold bind at 1, read at 1. rewrite Ho.
  unfold bind at 1, lift at 1. rewrite canUpdateOrderStatus_admin. cbn [negb].
  unfold bind at 1, lift at 1, validateStatusTransition. rewrite Hs, Hleg. cbn [negb].
  unfold applyStatus. rewrite Hs.
  unfold bind at 1. unfold bind at 1, lift at 1, new_ObjectId. rewrite Hu.
  unfold bind at 1.
  match goal with
  | |- context [restoreProductQuantity orderId ?w0] =>
      destruct (restoreProductQuantity_run orderId w0) as (w1 & E1 & D1)
  end.
  rewrite E1. unfold bind at 1, updateMany, write at 1. unfold ret at 1.
  unfold bind at 1, write at 1. unfold ret.
  eexists _, _. split; [reflexivity|].
  cbn [db]. rewrite D1. cbn.
  split_and!; try reflexivity.
  - destruct (truthy (us_adminNotes dto)); reflexivity.
  - destruct (truthy (us_adminNotes dto)); reflexivity.
  - destruct (truthy (us_adminNotes dto)); reflexivity.
  - destruct (truthy (us_adminNotes dto)); reflexivity.
Qed.

Lemma lookup_fold_alter (f : OrderItem -> Product -> Product) (pid : ObjectId)
    (its : list OrderItem) : forall ps : gmap ObjectId Product,
  fold_left (fun ps it => alter (f it) (oi_productId it) ps) its ps !! pid
  = perProduct f pid its <$> ps !! pid.
Proof.
  induction its as [|it its IH]; intros ps; cbn.
  - unfold perProduct; cbn. by destruct (ps !! pid).
  - rewrite IH, lookup_alter. unfold perProduct; cbn.
    case_decide as Hd; case_bool_decide; try congruence.
    subst. destruct (ps !! oi_productId it); reflexivity.
Qed.

Lemma ordered_cons (pid : ObjectId) it its :
  ordered pid (it :: its)
  = if bool_decide (oi_productId it = pid)
    then oi_quantity it + ordered pid its else ordered pid its.
Proof. reflexivity. Qed.

Lemma perProduct_cons f (pid : ObjectId) it its p :
  perProduct f pid (it :: its) p
  = perProduct f pid its (if bool_decide (oi_productId it = pid) then f it p else p).
Proof. reflexivity. Qed.

Lemma ordered_nonneg (pid : ObjectId) (its : list OrderItem) :
  (forall it, In it its -> oi_productId it = pid -> 0 <= oi_quantity it) ->
  0 <= ordered pid its.
Proof.
  induction its as [|it its IH]; intros Hpos; [cbn; lia|].
  rewrite ordered_cons.
  assert (0 <= ordered pid its) by (apply IH; intros; apply Hpos; [by right | done]).
  case_bool_decide as Hd; [|done].
  pose proof (Hpos it (or_introl eq_refl) Hd). lia.
Qed.

Lemma perProduct_consume (t : Date) (pid : ObjectId) (its : list OrderItem) :
  forall p,
    (forall it, In it its -> oi_productId it = pid -> 0 <= oi_quantity it) ->
    ordered pid its <= quantity p ->
    quantity (perProduct (fun it => consume (oi_quantity it) t) pid its p)
    = quantity p - ordered pid its.
Proof.
  induction its as [|it its IH]; intros p Hpos Hle.
  - cbn. lia.
  - assert (Hpos' : forall it0, In it0 its -> oi_productId it0 = pid -> 0 <= oi_quantity it0)
      by (intros; apply Hpos; [by right | done]).
    pose proof (ordered_nonneg pid its Hpos') as Hord.
    rewrite perProduct_cons. rewrite ordered_cons in *.
    case_bool_decide as Hd.
    + pose proof (Hpos it (or_introl eq_refl) Hd) as Hq.
      destruct (consume_stock (oi_quantity it) t p) as (Hc & _).
      rewrite IH; [| done | rewrite Hc; lia].
      rewrite Hc. lia.
    + by apply IH.
Qed.

Lemma perProduct_restore (pid : ObjectId) (its : list OrderItem) :
  forall p,
    quantity (perProduct (fun it => restoreUpdate (oi_quantity it)) pid its p)
    = quantity p + ordered pid its
    /\ ((exists it, In it its /\ oi_productId it = pid) \/ sold p = false ->
        sold (perProduct (fun it => restoreUpdate (oi_quantity it)) pid its p) = false).
Proof.
  induction its as [|it its IH]; intros p.
  - cbn. split; [lia|]. intros [(it & [] & _)|H]; done.
  - rewrite perProduct_cons, ordered_cons. case_bool_decide as Hd.
    + destruct (IH (restoreUpdate (oi_quantity it) p)) as [Hq Hs]. split.
      * rewrite Hq. cbn. lia.
      * intros _. apply Hs. by right.
    + destruct (IH p) as [Hq Hs]. split; [done|].
      intros [(it0 & [<-|Hin] & E)|H]; [done | | by apply Hs; right].
      apply Hs. left. by exists it0.
Qed.

Lemma itemsOf_map (orderId : ObjectId) (f : OrderItem -> OrderItem) (l : list OrderItem) :
  (forall it, oi_orderId (f it) = oi_orderId it) ->
  filter (fun it => oi_orderId it = orderId)
    (map (fun it => if bool_decide (oi_orderId it = orderId) then f it else it) l)
  = map f (filter (fun it => oi_orderId it = orderId) l).
Proof.
  intros Hf. induction l as [|it l IH]; [reflexivity|]. cbn [map].
  rewrite !filter_cons. case_bool_decide as Hd; rewrite ?Hf.
  - destruct (decide (oi_orderId it = orderId)); [|contradiction].
    cbn [map]. by rewrite IH.
  - destruct (decide (oi_orderId it = orderId)); [contradiction|]. exact IH.
Qed.

Lemma ordered_map (pid : ObjectId) (f : OrderItem -> OrderItem) (l : list OrderItem) :
  (forall it, oi_productId (f it) = oi_productId it) ->
  (forall it, oi_quantity (f it) = oi_quantity it) ->
  ordered pid (map f l) = ordered pid l.
Proof.
  intros H1 H2. induction l as [|it l IH]; [reflexivity|]. cbn [map].
  rewrite !ordered_cons, H1, H2, IH. reflexivity.
Qed.

Lemma restoreAll_map (f : OrderItem -> OrderItem) (l : list OrderItem) :
  (forall it, oi_productId (f it) = oi_productId it) ->
  (forall it, oi_quantity (f it) = oi_quantity it) ->
  forall ps, restoreAll (map f l) ps = restoreAll l ps.
Proof.
  intros H1 H2. unfold restoreAll.
  induction l as [|it l IH]; intros ps; [reflexivity|]. cbn.
  rewrite H1, H2. apply IH.
Qed.

(** C5. Take an order that may still be cancelled, a product of stock [S]
    and the items of the order on that product, which order [Q] in all
    with [Q <= S]. The confirmation of the payment takes the stock from [S]
    to [S - Q]; the transition of the order to CANCELLED that follows
    (by an administrator, the one actor whose status updates pass the
    permission check) brings the stock back to [S] and clears the sold
    flag of the product, and it marks every item of the order cancelled
    with the time and the reason recorded on the order. The items are
    those of an order not cancelled before: they carry no earlier
    cancellation reason. *)
Theorem C5_cancel_restores_stock (orderId : string) (paymentData : PaymentData)
    (t1 t2 : Date) (dto : UpdateOrderStatusDto) (adminId : string)
    (w : World) (order : Order) (pid : ObjectId) (p : Product) :
  ObjectId_isValid orderId = true ->
  ObjectId_isValid adminId = true ->
  orders (db w) !! orderId = Some order ->
  In (status order)
    [OrderStatus.PENDING; OrderStatus.CONFIRMED; OrderStatus.PROCESSING] ->
  us_status dto = OrderStatus.CANCELLED ->
  products (db w) !! pid = Some p ->
  (exists it, In it (itemsOf orderId (db w)) /\ oi_productId it = pid) ->
  (forall it, In it (itemsOf orderId (db w)) -> oi_productId it = pid ->
              0 <= oi_quantity it) ->
  ordered pid (itemsOf orderId (db w)) <= quantity p ->
  (forall it, In it (itemsOf orderId (db w)) -> oi_cancellationReason it = None) ->
  exists w1 p1 w2 order2 p2,
    confirmPayment ObjectId_isValid toISOString orderId paymentData t1 w = (Return tt, w1)
    /\ products (db w1) !! pid = Some p1
    /\ quantity p1 = quantity p - ordered pid (itemsOf orderId (db w))
    /\ updateStatus ObjectId_isValid toISOString orderId dto adminId "admin" t2 w1
       = (Return order2, w2)
    /\ orders (db w2) !! orderId = Some order2
    /\ status order2 = OrderStatus.CANCELLED
    /\ cancelledAt (management order2) = Some t2
    /\ cancellationReason (management order2) = us_reason dto
    /\ products (db w2) !! pid = Some p2
    /\ quantity p2 = quantity p
    /\ sold p2 = false
    /\ (forall it, In it (itemsOf orderId (db w2)) ->
          itemStatus it = ItemStatus.cancelled
          /\ oi_cancelledAt it = cancelledAt (management order2)
          /\ oi_cancellationReason it = cancellationReason (management order2)).
Proof.
  intros Hv Ha Ho Hst Hs Hp Hex Hpos Hle Hnone.
  set (L := itemsOf orderId (db w)) in *.
  destruct (confirmPayment_run orderId paymentData t1 w order Ho) as (w1 & E1 & D1).
  set (order1 := markPaid toISOString paymentData t1 order).
  assert (Ho1 : orders (db w1) !! orderId = Some order1).
  { rewrite D1. unfold confirmedDb; cbn. apply lookup_insert_eq. }
  assert (Hleg : In (status order1, OrderStatus.CANCELLED) transitionTable).
  { subst order1. rewrite status_markPaid. apply validTransitions_table.
    cbn in Hst. destruct Hst as [<-|[<-|[<-|[]]]]; reflexivity. }
  assert (HL1 : itemsOf orderId (db w1) = map confirmItem L).
  { rewrite D1. unfold confirmedDb, itemsOf; cbn. by apply itemsOf_map. }
  assert (Hp1 : products (db w1) !! pid
                = Some (perProduct (fun it => consume (oi_quantity it) t1) pid L p)).
  { rewrite D1. unfold confirmedDb, consumeAll; cbn.
    fold L. rewrite lookup_fold_alter, Hp. reflexivity. }
  set (p1 := perProduct (fun it => consume (oi_quantity it) t1) pid L p) in *.
  assert (Hq1 : quantity p1 = quantity p - ordered pid L)
    by (apply perProduct_consume; done).
  destruct (updateStatus_cancel_run orderId dto adminId t2 w1 order1 Hv Ha Ho1 Hs Hleg)
    as (w2 & order2 & E2 & S2 & C2 & R2 & B2 & O2 & I2 & P2).
  rewrite HL1 in P2. rewrite restoreAll_map in P2 by done.
  assert (Hp2 : products (db w2) !! pid
                = Some (perProduct (fun it => restoreUpdate (oi_quantity it)) pid L p1)).
  { rewrite P2. unfold restoreAll. rewrite lookup_fold_alter, Hp1. reflexivity. }
  destruct (perProduct_restore pid L p1) as [Hq2 Hs2].
  exists w1, p1, w2, order2,
    (perProduct (fun it => restoreUpdate (oi_quantity it)) pid L p1).
  split_and!; try done.
  - rewrite O2. apply lookup_insert_eq.
  - lia.
  - apply Hs2. by left.
  - intros it Hin. unfold itemsOf in Hin. rewrite I2 in Hin.
    rewrite itemsOf_map in Hin by done. fold (itemsOf orderId (db w1)) in Hin.
    rewrite HL1 in Hin. apply in_map_iff in Hin as (it1 & <- & Hin).
    apply in_map_iff in Hin as (it0 & <- & Hin).
    rewrite C2, R2. cbn. split_and!; try reflexivity.
    rewrite (Hnone it0 Hin). by destruct (us_reason dto).
Qed.

(** ** Order creation and payouts *)

Lemma createOrderItems_loop (orderId : ObjectId) (orig : list OrderItemDto)
    (l : list ItemData) : forall acc w,
  exists acc' w',
    forEach (appendOrderItem orderId orig) l acc w = (Return acc', w')
    /\ db w' = db w.
Proof.
  induction l as [|x l IH]; intros acc w.
  - exists acc, w. done.
  - rewrite forEach_cons. unfold appendOrderItem at 1.
    unfold bind at 1, read at 1. unfold bind at 1, read at 1.
    cbn [db].
    destruct (products (db w) !! productId x), (users (db w) !! sellerId x);
      unfold ret at 1;
      match goal with
      | |- context [forEach _ l ?a ?w0] => destruct (IH a w0) as (acc' & w' & E & D)
      end; exists acc', w'; (split; [exact E | exact D]).
Qed.

Lemma find_none_forallb {A} (f : A -> bool) (l : list A) :
  List.find (fun x => negb (f x)) l = None <-> forallb f l = true.
Proof.
  induction l as [|x l IH]; cbn; [done|].
  destruct (f x); cbn; [exact IH | done].
Qed.

(** [createOrderItems] builds the documents without a write; it stores
    them all when each passes the validators, and throws without a write
    when one does not. *)
Lemma createOrderItems_run (orderId : ObjectId) (calc : list ItemData)
    (orig : list OrderItemDto) (w : World) :
  exists its w1,
    forEach (appendOrderItem orderId orig) calc [] w = (Return its, w1)
    /\ db w1 = db w
    /\ ((forallb validates its = true
         /\ exists w',
              createOrderItems orderId calc orig w = (Return its, w')
              /\ db w' = set_orderItems (fun l => l ++ its)%list (db w))
        \/ (forallb validates its = false
            /\ exists err,
                 createOrderItems orderId calc orig w = (Throw err, w1)
                 /\ kind err = Internal)).
Proof.
  unfold createOrderItems. unfold bind at 1 3.
  destruct (createOrderItems_loop orderId orig calc [] w) as (its & w1 & E & D).
  rewrite E. exists its, w1. split; [reflexivity|]. split; [exact D|].
  unfold insertMany.
  destruct (List.find _ its) as [invalid|] eqn:Hfind.
  - right. split.
    + apply not_true_is_false. intros H. apply find_none_forallb in H. congruence.
    + eexists. split; reflexivity.
  - left. split; [by apply find_none_forallb|].
    unfold bind, write, ret. eexists. split; [reflexivity|].
    cbn [db]. by rewrite D.
Qed.

(** An order that [create] returns was built from a calculation without
    errors and without unavailable items; it is stored under its id. *)
Lemma create_result (dto : CreateOrderDto) (buyerId : string) (e : Entropy)
    (w w' : World) (order : Order) (its : list OrderItem) :
  create ObjectId_isValid toISOString dto buyerId e w = (Return (order, its), w') ->
  exists calc w1,
    calculateOrder ObjectId_isValid (co_items dto) buyerId w = (Return calc, w1)
    /\ errors calc = []
    /\ unavailableItems calc = []
    /\ order = newOrder toISOString dto buyerId e calc
    /\ orders (db w') = <[newId e := order]> (orders (db w)).
Proof.
  unfold create, try_catch.
  destruct (ObjectId_isValid buyerId) eqn:Hb; cbn [negb].
  2: { unfold throw; cbn. discriminate. }
  unfold bind at 1.
  pose proof (calculateOrder_result buyerId (co_items dto) w) as Hc.
  destruct (calculateOrder _ (co_items dto) buyerId w) as [[calc|err] w1].
  2: { destruct (_ || _); unfold throw; discriminate. }
  destruct Hc as (D1 & _).
  destruct (errors calc) as [|? ?] eqn:He; cbn [nonEmpty].
  2: { unfold throw; cbn. discriminate. }
  destruct (unavailableItems calc) as [|? ?] eqn:Hu; cbn [nonEmpty].
  2: { unfold throw; cbn. discriminate. }
  destruct (items calc) as [|? ?] eqn:Hi; cbn [nonEmpty negb].
  1: { unfold throw; cbn. discriminate. }
  unfold bind at 1, write at 1. unfold bind at 1.
  match goal with
  | |- context [createOrderItems ?a ?b ?c ?w0] =>
      destruct (createOrderItems_run a b c w0)
        as (its' & w2 & _ & _ & [(_ & w3 & E2 & D2)|(_ & err & E2 & _)])
  end.
  2: { rewrite E2. cbv beta iota. destruct (_ || _); unfold throw; discriminate. }
  rewrite E2. unfold ret. intros H. injection H as <- <- <-.
  exists calc, w1. split_and!; try done.
  rewrite D2. cbn. by rewrite D1.
Qed.

Lemma filter_all {A} (f : A -> bool) (l : list A) :
  (forall x, In x l -> f x = true) -> List.filter f l = l.
Proof.
  induction l as [|x l IH]; intros H; [reflexivity|]. cbn.
  rewrite (H x (or_introl eq_refl)). f_equal. apply IH. intros; apply H. by right.
Qed.

Lemma findIndex_lt {A} (f : A -> bool) (l : list A) i :
  findIndex f l = Some i -> (i < length l)%nat.
Proof.
  revert i. induction l as [|x l IH]; intros i; cbn; [discriminate|].
  destruct (f x); [intros [= <-]; lia|].
  destruct (findIndex f l) as [j|]; cbn; [|discriminate].
  intros [= <-]. specialize (IH j eq_refl). lia.
Qed.

Lemma settlement_alter (ref : string) (t : Date) (i : nat) (ps : list SellerPayout) :
  map settlement (alter (markPayoutPaid ref t) i ps) = map settlement ps.
Proof.
  revert i. induction ps as [|p ps IH]; intros [|i]; cbn; try reflexivity.
  f_equal. apply IH.
Qed.

Lemma payoutsTotal_settlement (ps qs : list SellerPayout) :
  map settlement ps = map settlement qs -> payoutsTotal ps = payoutsTotal qs.
Proof.
  unfold payoutsTotal. revert qs.
  induction ps as [|p ps IH]; intros [|q qs]; cbn; try done.
  intros [= E1 E2 E3 E4 E5 E]. rewrite E4, E5, (IH qs E). reflexivity.
Qed.

(** Payout processing: the order it finds keeps its totals and the
    settlement of every payout, whether the call returns or throws. *)
Lemma processSellerPayout_preserves (orderId : string) (dto : ProcessSellerPayoutDto)
    (t : Date) (w : World) (order : Order) :
  orders (db w) !! orderId = Some order ->
  exists r w' order',
    processSellerPayout ObjectId_isValid orderId dto t w = (r, w')
    /\ orders (db w') !! orderId = Some order'
    /\ totals order' = totals order
    /\ map settlement (sellerPayouts order') = map settlement (sellerPayouts order)
    /\ payoutsTotal (sellerPayouts order') = payoutsTotal (sellerPayouts order).
Proof.
  intros Ho. unfold processSellerPayout, try_catch.
  unfold bind at 1. rewrite (Model_findById_found _ _ _ _ _ _ Ho).
  unfold read at 1. rewrite Ho.
  destruct (findIndex _ (sellerPayouts order)) as [i|] eqn:Hi.
  - unfold bind, updateMany, write. cbn [db].
    eexists _, _, _. split; [reflexivity|]. cbn.
    split; [apply lookup_insert_eq|]. cbn.
    split; [reflexivity|].
    pose proof (settlement_alter (pp_payoutReference dto) t i (sellerPayouts order)) as E.
    split; [exact E | by apply payoutsTotal_settlement].
  - unfold throw; cbn. eexists _, _, order. split; [reflexivity|]. cbn. done.
Qed.

(** C6, amended. The payouts of an order that [create] returns are built
    from the entries of its calculation, grouped by seller id: one payout
    per seller, unpaid, whose item count is the sum of the quantities of
    the seller's entries, whose revenue is the sum of total price minus
    service fee over them, and whose service fee is the sum of their
    service fees. Over all payouts, revenue plus service fee adds up to
    the subtotal of the order (the service fees alone add up to the total
    service fee, so the revenues add up to subtotal minus total service
    fee). Payout processing changes neither the totals of the order nor
    the seller, item count, revenue and service fee of any payout: it only
    sets the paid flag, the payout reference and the payment date. *)
Theorem C6_seller_payouts (dto : CreateOrderDto) (buyerId : string) (e : Entropy)
    (w w' : World) (order : Order) (its : list OrderItem) :
  create ObjectId_isValid toISOString dto buyerId e w = (Return (order, its), w') ->
  exists calc w1,
    calculateOrder ObjectId_isValid (co_items dto) buyerId w = (Return calc, w1)
    /\ sellerPayouts order = preparellerPayouts (items calc)
    /\ NoDup (map payout_sellerId (sellerPayouts order))
    /\ (forall p, In p (sellerPayouts order) ->
          summarises (items calc) (payout_sellerId p) p)
    /\ (forall it, In it (items calc) ->
          exists p, In p (sellerPayouts order) /\ payout_sellerId p = sellerId it)
    /\ (forall p, In p (sellerPayouts order) ->
          exists it, In it (items calc) /\ sellerId it = payout_sellerId p)
    /\ payoutsTotal (sellerPayouts order) = o_subtotal (totals order)
    /\ Zsum (map serviceFee (sellerPayouts order)) = o_totalServiceFee (totals order)
    /\ Zsum (map revenue (sellerPayouts order))
       = o_subtotal (totals order) - o_totalServiceFee (totals order)
    /\ orders (db w') !! newId e = Some order
    /\ (forall orderId pdto t w2 order2,
          orders (db w2) !! orderId = Some order2 ->
          exists r w3 order3,
            processSellerPayout ObjectId_isValid orderId pdto t w2 = (r, w3)
            /\ orders (db w3) !! orderId = Some order3
            /\ totals order3 = totals order2
            /\ map settlement (sellerPayouts order3)
               = map settlement (sellerPayouts order2)
            /\ payoutsTotal (sellerPayouts order3) = payoutsTotal (sellerPayouts order2)).
Proof.
  intros Hc. destruct (create_result _ _ _ _ _ _ _ Hc) as (calc & w1 & Ec & He & Hu & -> & Ho).
  exists calc, w1.
  pose proof (calculateOrder_result buyerId (co_items dto) w) as Hr. rewrite Ec in Hr.
  destruct Hr as (_ & _ & r & s & A & Ef).
  pose proof (accumulated_unavailable buyerId (db w) (co_items dto) r s A) as HU.
  assert (Hall : forall x, In x (items calc) -> available x = true).
  { intros x Hx. destruct (available x) eqn:Ha; [done|]. exfalso.
    rewrite Ef in Hx, Hu. cbn in Hx, Hu. specialize (HU x Hx Ha).
    rewrite Hu in HU. destruct HU. }
  destruct A as (A1 & A2 & _ & A4 & _).
  cbn [emptyResponse items subtotal totalServiceFee app] in A1, A2, A4.
  assert (Hi : items calc = items r) by (rewrite Ef; reflexivity).
  rewrite <- A1, <- Hi, (filter_all _ _ Hall) in A2, A4.
  assert (Hsub : subtotal calc = foldr Z.add 0 (map totalPrice (items calc))).
  { rewrite Z.add_0_l in A2. rewrite <- A2, Ef. reflexivity. }
  assert (Hfee : totalServiceFee calc = foldr Z.add 0 (map itemServiceFee (items calc))).
  { rewrite Z.add_0_l in A4. rewrite <- A4, Ef. reflexivity. }
  destruct (preparellerPayouts_spec (items calc)) as (P1 & P2 & P3 & P4 & P5 & P6).
  assert (Hrev : forall ps : list SellerPayout,
             Zsum (map revenue ps) = payoutsTotal ps - Zsum (map serviceFee ps)).
  { unfold payoutsTotal, Zsum. induction ps as [|p ps IH]; cbn; [lia | rewrite IH; lia]. }
  cbn [newOrder sellerPayouts totals o_subtotal o_totalServiceFee].
  split_and!; try done.
  - by rewrite P5, Hsub.
  - unfold Zsum. by rewrite P6, Hfee.
  - rewrite Hrev. unfold Zsum. rewrite P5, P6, Hsub, Hfee. reflexivity.
  - rewrite Ho. apply lookup_insert_eq.
  - intros orderId pdto t w2 order2 Ho2.
    apply processSellerPayout_preserves. exact Ho2.
Qed.

(** [Date.parse], of the run time. *)
Variable Date_parse : string -> option Date.

(** *** Every stored payment is a PayStack payment *)

Section Invariant.

Variable P : Db -> Prop.

Lemma preserves_ret {A} (a : A) : preserves P (ret a).
Proof. intros w H. exact H. Qed.

Lemma preserves_throw {A} (e : Exception) : preserves P (@throw A e).
Proof. intros w H. exact H. Qed.

Lemma preserves_lift {A} (c : Completion A) : preserves P (lift c).
Proof. intros w H. exact H. Qed.

Lemma preserves_log (e : Event) : preserves P (log e).
Proof. intros w H. exact H. Qed.

Lemma preserves_read {A} (c : Collection) (f : Db -> A) : preserves P (read c f).
Proof. intros w H. exact H. Qed.

Lemma preserves_write (c : Collection) (f : Db -> Db) :
  (forall d, P d -> P (f d)) -> preserves P (write c f).
Proof. intros Hf w H. apply Hf, H. Qed.

Lemma preserves_bind {A B} (m : Async A) (k : A -> Async B) :
  preserves P m -> (forall a, preserves P (k a)) -> preserves P (bind m k).
Proof.
  intros Hm Hk w H. unfold bind. specialize (Hm w H).
  destruct (m w) as [[a|e] w1]; cbn in *; [by apply Hk | done].
Qed.

Lemma preserves_try {A} (m : Async A) (h : Exception -> Async A) :
  preserves P m -> (forall e, preserves P (h e)) -> preserves P (try_catch m h).
Proof.
  intros Hm Hh w H. unfold try_catch. specialize (Hm w H).
  destruct (m w) as [[a|e] w1]; cbn in *; [done | by apply Hh].
Qed.

Lemma preserves_forEach {A S} (body : S -> A -> Async S) (l : list A) :
  (forall s x, preserves P (body s x)) -> forall s, preserves P (forEach body l s).
Proof.
  intros Hb. induction l as [|x l IH]; intros s.
  - apply preserves_ret.
  - cbn. apply preserves_bind; [apply Hb | intros s'; apply IH].
Qed.

End Invariant.

Lemma preserves_Model_findById (P : Db -> Prop) {A} (c : Collection) (model : string)
    (lookup : Db -> option A) (id : string) :
  preserves P (Model_findById ObjectId_isValid c model lookup id).
Proof.
  intros w Hw. unfold Model_findById.
  destruct (lookup (db w)); [exact Hw|]. destruct (ObjectId_isValid id); exact Hw.
Qed.

Ltac preserves_step :=
  match goal with
  | |- preserves _ (Model_findById _ _ _ _ _) => apply preserves_Model_findById
  | |- preserves _ (bind _ _) => apply preserves_bind; [|intros ?]
  | |- preserves _ (try_catch _ _) => apply preserves_try; [|intros ?]
  | |- preserves _ (forEach _ _ _) => apply preserves_forEach; intros ? ?
  | |- preserves _ (ret _) => apply preserves_ret
  | |- preserves _ (throw _) => apply preserves_throw
  | |- preserves _ (lift _) => apply preserves_lift
  | |- preserves _ (log _) => apply preserves_log
  | |- preserves _ (read _ _) => apply preserves_read
  | |- preserves _ (write _ _) => apply preserves_write
  | |- preserves _ (match ?x with _ => _ end) => destruct x
  end.

Lemma payStackOnly_update (c : Payment -> bool) (f : Payment -> Payment) (d : Db) :
  (forall p, gateway (f p) = gateway p) ->
  payStackOnly d ->
  payStackOnly (set_payments (map (fun p => if c p then f p else p)) d).
Proof.
  intros Hf. unfold payStackOnly, set_payments; cbn.
  induction 1 as [|p l Hp Hl IH]; cbn; constructor; [|exact IH].
  destruct (c p); [by rewrite Hf | done].
Qed.

Lemma preserves_updatePaymentById (id : ObjectId) (f : Payment -> Payment) :
  (forall p, gateway (f p) = gateway p) ->
  preserves payStackOnly (updatePaymentById id f).
Proof.
  intros Hf. apply preserves_write. intros d. by apply payStackOnly_update.
Qed.

Lemma preserves_confirmPayment orderId paymentData t :
  preserves payStackOnly (confirmPayment ObjectId_isValid toISOString orderId paymentData t).
Proof.
  unfold confirmPayment, updateMany, updateProductAfterPayment.
  repeat first [preserves_step | (intros d Hd; exact Hd)].
Qed.

Lemma preserves_processPaymentVerification payment vr t :
  preserves payStackOnly (processPaymentVerification ObjectId_isValid toISOString Date_parse payment vr t).
Proof.
  unfold processPaymentVerification. cbv zeta.
  repeat first [ apply preserves_confirmPayment
               | apply preserves_updatePaymentById; intros ?; reflexivity
               | preserves_step ].
Qed.

Lemma preserves_savePayment (payment : Payment) :
  gateway payment = PaymentGateway.PAYSTACK ->
  preserves payStackOnly (savePayment payment).
Proof.
  intros Hg w Hw. unfold savePayment.
  destruct (existsb _ _); [exact Hw|].
  unfold payStackOnly in *; cbn. apply Forall_app. split; [exact Hw|].
  by constructor.
Qed.

(** A payment that [initializePayment] stores is a PayStack payment: a
    request for another gateway is refused before anything is saved. *)
Lemma initializePayment_payStackOnly
    (payStackInitialize : PayStackInitializePaymentDto
                          -> Completion PayStackInitializeResponse)
    initializeDto userId origin e :
  preserves payStackOnly
    (initializePayment ObjectId_isValid payStackInitialize initializeDto userId origin e).
Proof.
  unfold initializePayment. cbv zeta.
  apply preserves_try.
  2: { intros err. destruct (_ || _); apply preserves_throw. }
  destruct (negb _); [apply preserves_throw|].
  apply preserves_bind; [apply preserves_read|]. intros [order|]; [|apply preserves_throw].
  destruct (negb _); [apply preserves_throw|].
  destruct (PaymentStatus.eqb _ _); [apply preserves_throw|].
  apply preserves_bind; [apply preserves_read|]. intros existing.
  destruct (ip_gateway initializeDto) as [[]|]; cbn [default from_option id];
    (destruct existing as [old|];
     [ destruct (_ <? _); [apply preserves_ret|];
       apply preserves_bind;
       [apply preserves_updatePaymentById; intros ?; reflexivity | intros _]
     | ]);
    first [ by (intros w Hw; exact Hw)
          | unfold initializePayStackPayment; cbv zeta;
            repeat first [ apply preserves_savePayment; reflexivity
                         | preserves_step ] ].
Qed.

Lemma verifyPayment_payStackOnly
    (payStackVerify : string -> Completion VerificationResult) ref t :
  preserves payStackOnly (verifyPayment ObjectId_isValid toISOString payStackVerify Date_parse ref t).
Proof.
  unfold verifyPayment.
  apply preserves_try.
  2: { intros err. destruct (_ || _); apply preserves_throw. }
  repeat first [ apply preserves_processPaymentVerification | preserves_step ].
Qed.

Lemma paystackWebhook_payStackOnly (secretKey : string)
    (JSON_parse : string -> Completion json) rawBody signature t :
  preserves payStackOnly
    (paystackWebhook ObjectId_isValid toISOString secretKey JSON_parse Date_parse rawBody signature t).
Proof.
  unfold paystackWebhook, handlePayStackWebhook, handleSuccessfulPayment,
    handleFailedPayment. cbv zeta.
  repeat first [ apply preserves_processPaymentVerification
               | apply preserves_updatePaymentById; intros ?; reflexivity
               | preserves_step ].
Qed.

(** ** The payment reconciliation bridge *)

Variable secretKey : string.
Variable payStackVerify : string -> Completion VerificationResult.
Variable JSON_parse : string -> Completion json.

(** C9. For a payment that is already COMPLETED, [verifyPayment] returns
    the cached result: success, the message "Payment already verified"
    and the stored payment's reference (the one asked for), status
    COMPLETED, amount, currency, time of payment, gateway response and
    order. It does so after one read of the payment: the gateway is not
    called and nothing is written. A second call returns the same answer,
    again with one read and no write; the store is the same after both. *)
Theorem C9_verify_completed_is_cached (ref : string) (t t' : Date) (w : World)
    (payment : Payment) :
  findOneByReference (Some ref) (db w) = Some payment ->
  p_status payment = PaymentStatus.COMPLETED ->
  let answer :=
    {| success := true;
       vrd_message := "Payment already verified";
       vrd_data :=
         {| vd_reference := ref;
            vd_status := PaymentStatus.COMPLETED;
            vd_amount := amount payment;
            vd_currency := p_currency payment;
            vd_paidAt := p_paidAt payment;
            vd_gatewayResponse := gatewayResponse payment;
            vd_orderId := p_orderId payment |} |} in
  exists w1 w2,
    verifyPayment ObjectId_isValid toISOString payStackVerify Date_parse ref t w
    = (Return answer, w1)
    /\ verifyPayment ObjectId_isValid toISOString payStackVerify Date_parse ref t' w1
       = (Return answer, w2)
    /\ answer = cachedVerification payment
    /\ db w1 = db w /\ db w2 = db w
    /\ trace w1 = (trace w ++ [DbRead PaymentModel])%list
    /\ trace w2 = (trace w1 ++ [DbRead PaymentModel])%list
    /\ (forall ev, In ev (trace w2) -> ~ In ev (trace w) -> ev = DbRead PaymentModel).
Proof.
  intros Hf Hs answer.
  assert (Hr : reference payment = ref).
  { unfold findOneByReference in Hf. apply find_some in Hf as [_ Hr].
    by apply String.eqb_eq. }
  assert (Ha : answer = cachedVerification payment).
  { unfold answer, cachedVerification, verificationData. by rewrite Hr, Hs. }
  assert (E : forall w0 t0, db w0 = db w ->
            verifyPayment ObjectId_isValid toISOString payStackVerify Date_parse ref t0 w0
            = (Return answer,
               {| db := db w0; trace := trace w0 ++ [DbRead PaymentModel] |})).
  { intros w0 t0 D. rewrite Ha. unfold verifyPayment, try_catch.
    unfold bind at 1, read at 1. rewrite D, Hf, Hs. reflexivity. }
  eexists _, _. split; [apply E; reflexivity|].
  split; [apply E; reflexivity|]. cbn.
  split_and!; try reflexivity; [exact Ha|].
  intros ev Hin Hnot. rewrite <- app_assoc in Hin.
  apply in_app_or in Hin as [Hin|Hin]; [contradiction|].
  cbn in Hin. destruct Hin as [<-|[<-|[]]]; reflexivity.
Qed.

(** C8, amended. A webhook whose signature check fails is rejected with a
    validation error, and the world is the same afterwards: no payment
    and no order was read or written. This holds of the service method
    and of the controller method in front of it, for which a request
    without signature, without body or with a body that does not parse is
    rejected in the same way. So a request that changes anything, or is
    answered at all, passed the signature check. *)
Theorem C8_webhook_signature_gate (webhookData : json) (signature : string)
    (t : Date) (w : World) :
  verifyWebhookSignature secretKey (JSON.stringify webhookData) signature = false ->
  handlePayStackWebhook ObjectId_isValid toISOString secretKey Date_parse webhookData signature t w
  = (Throw invalidSignature, w)
  /\ kind invalidSignature = Validation
  /\ (forall raw,
        signature <> EmptyString ->
        JSON_parse raw = Return webhookData ->
        paystackWebhook ObjectId_isValid toISOString secretKey JSON_parse Date_parse (Some raw) (Some signature) t w
        = (Throw invalidSignatureResponse, w))
  /\ (forall rawBody sig r w',
        paystackWebhook ObjectId_isValid toISOString secretKey JSON_parse Date_parse rawBody sig t w = (r, w') ->
        (w' <> w \/ exists answer, r = Return answer) ->
        exists raw s data,
          rawBody = Some raw /\ sig = Some s /\ JSON_parse raw = Return data
          /\ verifyWebhookSignature secretKey (JSON.stringify data) s = true).
Proof.
  intros Hsig.
  assert (Hsvc : forall data s,
            verifyWebhookSignature secretKey (JSON.stringify data) s = false ->
            handlePayStackWebhook ObjectId_isValid toISOString secretKey Date_parse data s t w
            = (Throw invalidSignature, w)).
  { intros data s H. unfold handlePayStackWebhook, try_catch. rewrite H. reflexivity. }
  split_and!.
  - by apply Hsvc.
  - reflexivity.
  - intros raw Hne Hp. unfold paystackWebhook, try_catch.
    assert (Ht : truthy (Some signature) = true).
    { cbn. apply negb_true_iff, String.eqb_neq. exact Hne. }
    rewrite Ht. cbn [negb].
    unfold bind at 1, lift. rewrite Hp. cbv beta iota. unfold bind.
    cbn [from_option id]. rewrite (Hsvc _ _ Hsig). reflexivity.
  - intros rawBody sig r w' Hrun Hch. unfold paystackWebhook, try_catch in Hrun.
    destruct (truthy sig) eqn:Ht; cbn [negb] in Hrun.
    2: { unfold throw in Hrun. injection Hrun as <- <-.
         destruct Hch as [Hch|[a Ha]]; [contradiction | discriminate]. }
    destruct rawBody as [raw|].
    2: { unfold throw in Hrun. injection Hrun as <- <-.
         destruct Hch as [Hch|[a Ha]]; [contradiction | discriminate]. }
    unfold bind at 1, lift in Hrun.
    destruct (JSON_parse raw) as [data|err] eqn:Hp.
    2: { unfold throw in Hrun. injection Hrun as <- <-.
         destruct Hch as [Hch|[a Ha]]; [contradiction | discriminate]. }
    destruct sig as [s|]; [|discriminate]. cbn [from_option id] in Hrun.
    destruct (verifyWebhookSignature secretKey (JSON.stringify data) s) eqn:Hv.
    + exists raw, s, data. done.
    + cbv beta iota in Hrun. unfold bind in Hrun. rewrite (Hsvc _ _ Hv) in Hrun.
      unfold throw in Hrun. injection Hrun as <- <-.
      destruct Hch as [Hch|[a Ha]]; [contradiction | discriminate].
Qed.

(** *** The trace only grows *)














(** *** Verification of a payment that is not completed *)

Lemma find_updated (f : Payment -> Payment) (id : ObjectId) (l : list Payment)
    (payment : Payment) :
  (forall p, payment_id (f p) = payment_id p) ->
  NoDup (map payment_id l) -> In payment l -> payment_id payment = id ->
  List.find (fun p => String.eqb (payment_id p) id)
    (map (fun p => if String.eqb (payment_id p) id then f p else p) l)
  = Some (f payment).
Proof.
  intros Hf Hnd Hin Hid. induction l as [|x l IH]; [destruct Hin|].
  cbn in Hnd. apply NoDup_cons in Hnd as [Hx Hnd]. cbn.
  destruct (String.eqb_spec (payment_id x) id) as [E|Hne].
  - rewrite Hf, E, String.eqb_refl.
    destruct Hin as [->|Hin]; [reflexivity|]. exfalso. apply Hx.
    apply list_elem_of_In, in_map_iff. exists payment. split; [congruence | done].
  - destruct (String.eqb_spec (payment_id x) id); [contradiction|].
    destruct Hin as [->|Hin]; [contradiction|]. by apply IH.
Qed.

Lemma findOneByReference_In (ref : string) (d : Db) (payment : Payment) :
  findOneByReference (Some ref) d = Some payment ->
  In payment (payments d) /\ reference payment = ref.
Proof.
  unfold findOneByReference. intros H. apply find_some in H as [Hin E].
  split; [done | by apply String.eqb_eq].
Qed.

Lemma find_app_Some {A} (f : A -> bool) (l l' : list A) (x : A) :
  List.find f l = Some x -> List.find f (l ++ l') = Some x.
Proof.
  induction l as [|a l IH]; cbn; [discriminate|]. destruct (f a); auto.
Qed.

Lemma preserves_savePayment_find (id : ObjectId) (v payment : Payment) :
  preserves (fun d => findPaymentById id d = Some v) (savePayment payment).
Proof.
  intros w H. unfold savePayment.
  destruct (existsb _ _); [exact H|].
  unfold findPaymentById in *; cbn. by apply find_app_Some.
Qed.

(** A pending payment that is thirty minutes old or older when its order
    is paid for again is marked as failed, with the reason
    [Payment expired], whatever becomes of the new attempt. *)
Lemma initializePayment_expires
    (payStackInitialize : PayStackInitializePaymentDto
                          -> Completion PayStackInitializeResponse)
    initializeDto userId origin e w order old :
  ObjectId_isValid (ip_orderId initializeDto) = true ->
  orders (db w) !! ip_orderId initializeDto = Some order ->
  buyerId order = userId ->
  paymentStatus (payment order) <> PaymentStatus.COMPLETED ->
  findPendingOfOrder (ip_orderId initializeDto) (db w) = Some old ->
  createdAt old + thirtyMinutes <= now e ->
  NoDup (map payment_id (payments (db w))) ->
  let w' :=
    (initializePayment ObjectId_isValid payStackInitialize initializeDto userId origin e
       w).2 in
  findPaymentById (payment_id old) (db w') = Some (expireUpdate (now e) old)
  /\ p_status (expireUpdate (now e) old) = PaymentStatus.FAILED
  /\ failureReason (expireUpdate (now e) old) = Some "Payment expired".
Proof.
  intros Hv Ho Hb Hp Hf Hage Hnd w'. split; [|split; reflexivity].
  assert (Hin : In old (payments (db w))).
  { unfold findPendingOfOrder in Hf. by apply find_some in Hf as [Hin _]. }
  assert (Hq : List.find (fun p => String.eqb (payment_id p) (payment_id old))
                 (map (fun p => if String.eqb (payment_id p) (payment_id old)
                                then expireUpdate (now e) p else p)
                    (payments (db w)))
               = Some (expireUpdate (now e) old)).
  { apply find_updated; done. }
  subst w'. unfold initializePayment, try_catch. cbv zeta.
  rewrite Hv. cbn [negb]. unfold bind at 1, read at 1. rewrite Ho.
  rewrite Hb, String.eqb_refl. cbn [negb].
  assert (Hnc : PaymentStatus.eqb (paymentStatus (payment order)) PaymentStatus.COMPLETED
                = false).
  { unfold PaymentStatus.eqb. by apply bool_decide_eq_false. }
  rewrite Hnc. unfold bind at 1, read at 1. cbn [db]. rewrite Hf.
  assert (Hold : (now e - thirtyMinutes <? createdAt old) = false).
  { apply Z.ltb_ge. lia. }
  rewrite Hold. unfold bind at 1, updatePaymentById at 1, write at 1.
  match goal with
  | |- context [let (c, w') := ?m ?w2 in _] =>
      assert (Hm : preserves
                     (fun d => findPaymentById (payment_id old) d
                               = Some (expireUpdate (now e) old)) m);
      [| specialize (Hm w2 Hq); destruct (m w2) as [[r|err] w3];
         [exact Hm|]; destruct (_ || _); exact Hm ]
  end.
  destruct (ip_gateway initializeDto) as [[]|]; cbn [default from_option id];
    first [ by (intros w0 H0; exact H0)
          | unfold initializePayStackPayment; cbv zeta;
            repeat first [ apply preserves_savePayment_find | preserves_step ] ].
Qed.


(** A success report whose [paid_at] gives no date is refused by the
    cast of the update, before anything is written. *)
Lemma processPaymentVerification_invalid_date (pay : Payment)
    (vr : VerificationResult) (c : PayStackCustomer) (t : Date) (w : World) :
  vr_status vr = true ->
  ps_status (vr_data vr) = Some "success" ->
  customer (vr_data vr) = Some c ->
  new_Date Date_parse (paid_at (vr_data vr)) = None ->
  processPaymentVerification ObjectId_isValid toISOString Date_parse pay vr t w
  = (Throw (castError "date" "Invalid Date" "Date" "paidAt" None), w).
Proof.
  intros Hst Hsucc Hc Hdate.
  unfold processPaymentVerification. rewrite Hst, Hsucc, Hc, Hdate.
  rewrite bool_decide_true by done. reflexivity.
Qed.




(** ** Further properties of the order service *)

(** *** Order calculation and order creation *)

Lemma pricedItem_fields d buyerId item x :
  pricedItem ObjectId_isValid d buyerId item = Some x ->
  itemTotal x = totalPrice x + shippingCost x + itemServiceFee x + itemTaxes x
  /\ productId x = dto_productId item
  /\ item_quantity x = dto_quantity item
  /\ exists p u, ObjectId_isValid (dto_productId item) = true
       /\ products d !! dto_productId item = Some p
       /\ users d !! product_sellerId p = Some u
       /\ sellerId x = product_sellerId p.
Proof.
  unfold pricedItem. destruct (ObjectId_isValid _) eqn:Hv; [|done].
  destruct (products d !! _) as [p|] eqn:Hp; [|done]. cbn.
  destruct (users d !! _) as [u|] eqn:Hu; [|done]. cbn.
  intros [= <-]. unfold makeItemData.
  destruct (checkAvailability _ _ _) as [a m]. cbn.
  split_and!; try reflexivity. by exists p, u.
Qed.

Lemma Zsum_itemTotal (l : list ItemData) :
  Forall (fun x => itemTotal x
                   = totalPrice x + shippingCost x + itemServiceFee x + itemTaxes x) l ->
  Zsum (map itemTotal l)
  = Zsum (map totalPrice l) + Zsum (map shippingCost l)
    + Zsum (map itemServiceFee l) + Zsum (map itemTaxes l).
Proof. unfold Zsum. induction 1; cbn; lia. Qed.

Lemma omap_nil_iff {A B} (f : A -> option B) (l : list A) :
  omap f l = [] <-> forall x, In x l -> f x = None.
Proof.
  induction l as [|a l IH]; cbn.
  - split; [intros _ x [] | done].
  - destruct (f a) eqn:E.
    + split; [done|]. intros H. specialize (H a (or_introl eq_refl)). congruence.
    + rewrite IH. split.
      * intros H x [<-|Hin]; [done | by apply H].
      * intros H x Hin. apply H. by right.
Qed.

(** X1. [calculateOrder] only reads: the store is the same after every
    call, failed or not. It fails with a validation error only (the
    message names the buyer id when that is malformed). When it answers,
    its errors are the messages of the requested items whose id is
    malformed or names no product, in the order of the request, so that
    there is none exactly when every id is well formed and names a
    product; no coupon is ever applied. *)
Theorem X1_calculateOrder_reports (dtoItems : list OrderItemDto) (buyerId : string)
    (w w' : World) (r : Completion OrderCalculationResponseDto) :
  calculateOrder ObjectId_isValid dtoItems buyerId w = (r, w') ->
  db w' = db w
  /\ match r with
     | Throw e =>
         kind e = Validation
         /\ (ObjectId_isValid buyerId = false ->
             e = BadRequestException "Invalid buyer ID format")
     | Return resp =>
         errors resp = omap (errorOf ObjectId_isValid (db w)) dtoItems
         /\ (errors resp = [] <->
             forall item, In item dtoItems ->
               ObjectId_isValid (dto_productId item) = true
               /\ is_Some (products (db w) !! dto_productId item))
         /\ couponDiscount resp = 0
     end.
Proof.
  intros Hrun. pose proof (calculateOrder_result buyerId dtoItems w) as H.
  rewrite Hrun in H. destruct r as [resp|e].
  - destruct H as (D & _ & r & s & A & ->). split; [exact D|].
    destruct A as (_ & _ & _ & _ & _ & _ & _ & A8 & _ & A10 & _).
    cbn [emptyResponse errors couponDiscount app] in A8, A10.
    assert (E : errors (finish s r) = omap (errorOf ObjectId_isValid (db w)) dtoItems)
      by exact A8.
    split; [exact E|]. split; [|exact A10].
    rewrite E, omap_nil_iff. split.
    + intros Hn item Hin. specialize (Hn item Hin). unfold errorOf in Hn.
      destruct (ObjectId_isValid (dto_productId item)); [|done].
      destruct (products (db w) !! dto_productId item); [by eauto | done].
    + intros Hok item Hin. destruct (Hok item Hin) as [Hv [p Hp]].
      unfold errorOf. by rewrite Hv, Hp.
  - destruct H as (D & He & _). split; [exact D|]. split.
    + destruct e; cbn in He; try discriminate; reflexivity.
    + intros Hb. unfold calculateOrder, try_catch in Hrun. rewrite Hb in Hrun.
      cbn in Hrun. by injection Hrun as <- _.
Qed.

Lemma calculateOrder_totalAmount (dtoItems : list OrderItemDto)
    (buyerId : string) (w w' : World) (resp : OrderCalculationResponseDto) :
  calculateOrder ObjectId_isValid dtoItems buyerId w = (Return resp, w') ->
  totalAmount resp = Zsum (map itemTotal (availableItems (items resp))).
Proof.
  intros Hrun. pose proof (calculateOrder_result buyerId dtoItems w) as H.
  rewrite Hrun in H. destruct H as (_ & _ & r & s & A & ->).
  destruct A as (A1 & A2 & A3 & A4 & A5 & _ & _ & _ & _ & A10 & _).
  cbn [emptyResponse items subtotal totalShippingCost totalServiceFee totalTaxes
       couponDiscount app] in *.
  unfold finish, availableItems; cbn [items totalAmount].
  rewrite A1, A2, A3, A4, A5, A10.
  rewrite Zsum_itemTotal; [unfold Zsum; lia|].
  apply Forall_forall. intros x Hx. apply list_elem_of_In, filter_In in Hx as [Hx _].
  apply list_elem_of_In, list_elem_of_omap in Hx as (item & _ & Hp).
  by apply pricedItem_fields in Hp as (? & _).
Qed.

(** X2. The amount to pay that [calculateOrder] answers is the sum of the
    item totals of the available entries of the answer. *)
Theorem X2_totalAmount_sums_item_totals (dtoItems : list OrderItemDto)
    (buyerId : string) (w w' : World) (resp : OrderCalculationResponseDto) :
  calculateOrder ObjectId_isValid dtoItems buyerId w = (Return resp, w') ->
  totalAmount resp = Zsum (map itemTotal (availableItems (items resp))).
Proof. apply calculateOrder_totalAmount. Qed.

Lemma processItem_seller buyerId x acc w a w' p :
  processItem ObjectId_isValid buyerId acc x w = (Return a, w') ->
  ObjectId_isValid (dto_productId x) = true ->
  products (db w) !! dto_productId x = Some p ->
  is_Some (users (db w) !! product_sellerId p).
Proof.
  unfold processItem. destruct acc as [r s]. intros H Hv Hp.
  rewrite Hv in H. cbn [negb] in H.
  unfold bind at 1, findProductWithSeller, bind at 1, read at 1 in H.
  rewrite Hp in H. unfold bind at 1, read at 1 in H. cbn [db] in H.
  destruct (users (db w) !! product_sellerId p); [by eauto | discriminate].
Qed.

Lemma processItems_sellers buyerId (l : list OrderItemDto) : forall acc w a w',
  forEach (processItem ObjectId_isValid buyerId) l acc w = (Return a, w') ->
  forall x p, In x l -> ObjectId_isValid (dto_productId x) = true ->
    products (db w) !! dto_productId x = Some p ->
    is_Some (users (db w) !! product_sellerId p).
Proof.
  induction l as [|y l IH]; intros [r s] w a w' H x p Hin Hv Hp; [destruct Hin|].
  rewrite forEach_cons in H.
  pose proof (processItem_result buyerId y r s w) as H1.
  destruct (processItem _ _ _ y w) as [[[r1 s1]|err] w1] eqn:E1; [|discriminate].
  destruct H1 as [D1 _]. destruct Hin as [->|Hin].
  - by eapply processItem_seller.
  - rewrite <- D1 in *. by eapply IH.
Qed.

Lemma calculateOrder_sellers dtoItems buyerId w resp w' :
  calculateOrder ObjectId_isValid dtoItems buyerId w = (Return resp, w') ->
  forall x p, In x dtoItems -> ObjectId_isValid (dto_productId x) = true ->
    products (db w) !! dto_productId x = Some p ->
    is_Some (users (db w) !! product_sellerId p).
Proof.
  unfold calculateOrder, try_catch. destruct (ObjectId_isValid buyerId); cbn [negb].
  2: { unfold throw; cbn. discriminate. }
  unfold bind.
  destruct (forEach _ dtoItems _ w) as [[a|err] w1] eqn:E.
  - intros _. by eapply processItems_sellers.
  - destruct (instanceof_BadRequest err); discriminate.
Qed.

Lemma orderItemOf_eq d orderId orig x :
  orderItemOf d orderId orig x
  = match products d !! productId x, users d !! sellerId x with
    | Some p, Some u =>
        Some (makeOrderItem orderId x
                (List.find (fun it => String.eqb (dto_productId it) (productId x)) orig)
                p u)
    | _, _ => None
    end.
Proof.
  unfold orderItemOf.
  destruct (products d !! productId x), (users d !! sellerId x); reflexivity.
Qed.

Lemma createOrderItems_items (orderId : ObjectId) (orig : list OrderItemDto)
    (l : list ItemData) : forall acc w,
  exists w',
    forEach (appendOrderItem orderId orig) l acc w
    = (Return (acc ++ omap (orderItemOf (db w) orderId orig) l)%list, w')
    /\ db w' = db w.
Proof.
  induction l as [|x l IH]; intros acc w.
  - exists w. cbn. by rewrite app_nil_r.
  - rewrite forEach_cons. unfold appendOrderItem at 1.
    unfold bind at 1, read at 1. unfold bind at 1, read at 1. cbn [db].
    cbn [omap list_omap]. rewrite orderItemOf_eq.
    destruct (products (db w) !! productId x) as [p|];
      destruct (users (db w) !! sellerId x) as [u|];
      unfold ret at 1;
      match goal with
      | |- context [forEach _ l ?a ?w0] => destruct (IH a w0) as (w' & E & D)
      end; exists w'; rewrite E; cbn [db] in *;
      (split; [by rewrite <- ?app_assoc | exact D]).
Qed.

(** What an order that [create] returns was made of. *)
Lemma create_effect (dto : CreateOrderDto) (buyerId : string) (e : Entropy)
    (w w' : World) (order : Order) (its : list OrderItem) :
  create ObjectId_isValid toISOString dto buyerId e w = (Return (order, its), w') ->
  exists calc w1,
    calculateOrder ObjectId_isValid (co_items dto) buyerId w = (Return calc, w1)
    /\ errors calc = []
    /\ unavailableItems calc = []
    /\ items calc <> []
    /\ order = newOrder toISOString dto buyerId e calc
    /\ its = omap (orderItemOf (db w) (newId e) (co_items dto)) (items calc)
    /\ db w'
       = set_orderItems (fun l => l ++ its)%list
           (set_orders (insert (newId e) order) (db w)).
Proof.
  unfold create, try_catch.
  destruct (ObjectId_isValid buyerId) eqn:Hb; cbn [negb].
  2: { unfold throw; cbn. discriminate. }
  unfold bind at 1.
  pose proof (calculateOrder_result buyerId (co_items dto) w) as Hc.
  destruct (calculateOrder _ (co_items dto) buyerId w) as [[calc|err] w1].
  2: { destruct (_ || _); unfold throw; discriminate. }
  destruct Hc as (D1 & _).
  destruct (errors calc) as [|? ?] eqn:He; cbn [nonEmpty].
  2: { unfold throw; cbn. discriminate. }
  destruct (unavailableItems calc) as [|? ?] eqn:Hu; cbn [nonEmpty].
  2: { unfold throw; cbn. discriminate. }
  destruct (nonEmpty (items calc)) eqn:Hne; cbn [negb].
  2: { unfold throw; cbn. discriminate. }
  unfold bind at 1, write at 1. unfold bind at 1. unfold createOrderItems.
  unfold bind at 1.
  match goal with
  | |- context [forEach (appendOrderItem ?a ?b) ?c [] ?w0] =>
      destruct (createOrderItems_items a b c [] w0) as (w2 & E2 & D2)
  end.
  rewrite E2. cbn [app]. cbn [db] in D2. unfold bind at 1. unfold insertMany.
  destruct (List.find _ _) as [invalid|].
  { unfold throw. cbv beta iota. destruct (_ || _); discriminate. }
  unfold bind, write, ret.
  intros H. injection H as <- <- <-.
  exists calc, w1. split_and!; try done.
  - intros Hn. rewrite Hn in Hne. discriminate.
  - rewrite <- D1. reflexivity.
  - cbn [db]. rewrite D2, <- D1. reflexivity.
Qed.

Lemma forallb_false {A} (f : A -> bool) (l : list A) :
  forallb f l = false -> exists x, In x l /\ f x = false.
Proof.
  induction l as [|x l IH]; cbn; [discriminate|].
  destruct (f x) eqn:Hx; cbn.
  - intros H. destruct (IH H) as (y & Hin & Hy). exists y. split; [by right | done].
  - intros _. exists x. split; [by left | done].
Qed.

(** An item document that fails the validators was built for a line of
    the cart with a quantity below 1, or for a product without a title. *)
Lemma invalid_item_line (d : Db) (buyerId : string) (orderId : ObjectId)
    (orig l : list OrderItemDto) :
  forallb validates
    (omap (orderItemOf d orderId orig) (omap (pricedItem ObjectId_isValid d buyerId) l))
  = false ->
  exists item,
    In item l
    /\ (dto_quantity item < 1
        \/ exists p, products d !! dto_productId item = Some p
                     /\ title p = EmptyString).
Proof.
  intros H. apply forallb_false in H as (it & Hin & Hv).
  apply list_elem_of_In, list_elem_of_omap in Hin as (x & Hx & Hit).
  apply list_elem_of_omap in Hx as (item & Hitem & Hp).
  exists item. split; [by apply list_elem_of_In|].
  destruct (pricedItem_fields _ _ _ _ Hp) as (_ & Hid & Hq & _).
  rewrite orderItemOf_eq in Hit.
  destruct (products d !! productId x) as [p|] eqn:Hprod; [|discriminate].
  destruct (users d !! sellerId x) as [u|]; [|discriminate].
  injection Hit as <-. unfold validates in Hv. cbn in Hv.
  apply andb_false_iff in Hv as [Hv|Hv].
  - right. exists p. rewrite <- Hid. split; [exact Hprod|].
    apply negb_false_iff, String.eqb_eq in Hv. exact Hv.
  - left. rewrite <- Hq. lia.
Qed.

(** X3. A call of [create] that fails has changed nothing in the store,
    with one exception: when the item documents do not pass the
    validators of their schema, which [insertMany] runs after the order
    was saved, the order stays in the store without any item. This
    happens only for a cart with a line whose quantity is below 1 or
    whose product has an empty title; a failure for any other cart leaves
    the store as it was. [create] fails with a validation error or with
    a conflict, and with a conflict only when the calculation of the
    cart has no error but lists an unavailable item. *)
Theorem X3_create_failure_effect (dto : CreateOrderDto) (buyerId : string) (e : Entropy)
    (w w' : World) (err : Exception) :
  create ObjectId_isValid toISOString dto buyerId e w = (Throw err, w') ->
  (kind err = Validation \/ kind err = Conflict)
  /\ (db w' = db w
      \/ exists calc w1,
           calculateOrder ObjectId_isValid (co_items dto) buyerId w = (Return calc, w1)
           /\ errors calc = [] /\ unavailableItems calc = []
           /\ kind err = Validation
           /\ db w'
              = set_orders (insert (newId e) (newOrder toISOString dto buyerId e calc))
                  (db w)
           /\ exists item,
                In item (co_items dto)
                /\ (dto_quantity item < 1
                    \/ exists p, products (db w) !! dto_productId item = Some p
                                 /\ title p = EmptyString))
  /\ ((forall item, In item (co_items dto) ->
         1 <= dto_quantity item
         /\ forall p, products (db w) !! dto_productId item = Some p ->
                      title p <> EmptyString) ->
      db w' = db w)
  /\ (kind err = Conflict ->
      exists calc w1,
        calculateOrder ObjectId_isValid (co_items dto) buyerId w = (Return calc, w1)
        /\ errors calc = [] /\ unavailableItems calc <> []).
Proof.
  intros Hrun.
  assert (H : (kind err = Validation \/ kind err = Conflict)
              /\ (db w' = db w
                  \/ exists calc w1,
                       calculateOrder ObjectId_isValid (co_items dto) buyerId w
                       = (Return calc, w1)
                       /\ errors calc = [] /\ unavailableItems calc = []
                       /\ kind err = Validation
                       /\ db w'
                          = set_orders
                              (insert (newId e) (newOrder toISOString dto buyerId e calc))
                              (db w)
                       /\ exists item,
                            In item (co_items dto)
                            /\ (dto_quantity item < 1
                                \/ exists p,
                                     products (db w) !! dto_productId item = Some p
                                     /\ title p = EmptyString))
              /\ (kind err = Conflict ->
                  exists calc w1,
                    calculateOrder ObjectId_isValid (co_items dto) buyerId w
                    = (Return calc, w1)
                    /\ errors calc = [] /\ unavailableItems calc <> [])).
  { revert Hrun. unfold create, try_catch.
    destruct (ObjectId_isValid buyerId) eqn:Hb; cbn [negb].
    2: { unfold throw; cbn. intros [= <- <-]. split_and!; [by left | by left | done]. }
    unfold bind at 1.
    pose proof (calculateOrder_result buyerId (co_items dto) w) as Hc.
    destruct (calculateOrder _ (co_items dto) buyerId w) as [[calc|err0] w1] eqn:Ec.
    2: { destruct Hc as (D & He & _).
         destruct err0; cbn in He; try discriminate. cbn.
         intros [= <- <-]. split_and!; [by left | by left | done]. }
    destruct Hc as (D1 & _ & r & s0 & A & Ef).
    destruct (errors calc) as [|? ?] eqn:He; cbn [nonEmpty].
    2: { unfold throw; cbn. intros [= <- <-]. split_and!; [by left | by left | done]. }
    destruct (unavailableItems calc) as [|? ?] eqn:Hu; cbn [nonEmpty].
    2: { unfold throw; cbn. intros [= <- <-]. split_and!; [by right | by left |].
         intros _. exists calc, w1. by rewrite Hu. }
    destruct (nonEmpty (items calc)) eqn:Hne; cbn [negb].
    2: { unfold throw; cbn. intros [= <- <-]. split_and!; [by left | by left | done]. }
    unfold bind at 1, write at 1. unfold bind at 1. unfold createOrderItems.
    unfold bind at 1.
    match goal with
    | |- context [forEach (appendOrderItem ?a ?b) ?c [] ?w0] =>
        destruct (createOrderItems_items a b c [] w0) as (w2 & E2 & D2)
    end.
    rewrite E2. cbn [app]. cbn [db] in D2. unfold bind at 1. unfold insertMany.
    destruct (List.find _ _) as [invalid|] eqn:Hfind.
    2: { unfold bind, write, ret. discriminate. }
    unfold throw. cbv beta iota. cbn [instanceof_NotFound instanceof_BadRequest
      instanceof_Conflict orb]. intros [= <- <-].
    split_and!; [by left | | discriminate].
    right. exists calc, w1. split_and!; try done.
    - rewrite D2, <- D1. reflexivity.
    - destruct A as (A1 & _). cbn [emptyResponse items app] in A1.
      apply (invalid_item_line (db w) buyerId (newId e) (co_items dto)).
      apply not_true_is_false. intros Hall.
      apply find_none_forallb in Hall.
      rewrite Ef in Hfind. cbn [finish items] in Hfind. rewrite A1, D1 in Hfind.
      cbn [db] in Hfind.
      change (orderItemOf (set_orders ?f ?d)) with (orderItemOf d) in Hfind.
      congruence. }
  destruct H as (H1 & H2 & H3). split_and!; [exact H1 | exact H2 | | exact H3].
  intros Hgood. destruct H2 as [D|(calc & w1 & _ & _ & _ & _ & _ & item & Hin & Hbad)];
    [exact D|].
  exfalso. destruct (Hgood item Hin) as [Hq Ht].
  destruct Hbad as [Hlt|(p & Hp & Hempty)]; [lia|]. by apply (Ht p).
Qed.

Lemma sellerId_makeItemData item product seller buyerId :
  sellerId (makeItemData item product seller buyerId) = product_sellerId product.
Proof. unfold makeItemData. by destruct (checkAvailability _ _ _). Qed.

Lemma pricedItem_orderItem d buyerId orderId orig item x :
  pricedItem ObjectId_isValid d buyerId item = Some x ->
  exists p u,
    orderItemOf d orderId orig x
    = Some (makeOrderItem orderId x
              (List.find (fun it => String.eqb (dto_productId it) (productId x)) orig)
              p u).
Proof.
  unfold pricedItem.
  destruct (ObjectId_isValid _); [|done].
  destruct (products d !! dto_productId item) as [p|] eqn:Hp; [|done]. cbn.
  destruct (users d !! product_sellerId p) as [u|] eqn:Hu; [|done]. cbn.
  intros [= <-]. exists p, u. rewrite orderItemOf_eq.
  rewrite productId_makeItemData, sellerId_makeItemData, Hp.
  match goal with
  | |- match ?t with Some _ => _ | None => _ end = _ =>
      replace t with (Some u) by (symmetry; exact Hu)
  end.
  reflexivity.
Qed.

Lemma cart_lines d orderId orig buyerId (l : list OrderItemDto) :
  (forall item, In item l ->
     exists x, pricedItem ObjectId_isValid d buyerId item = Some x) ->
  let xs := omap (pricedItem ObjectId_isValid d buyerId) l in
  let its := omap (orderItemOf d orderId orig) xs in
  map (fun it => (oi_productId it, oi_quantity it)) its
  = map (fun item => (dto_productId item, dto_quantity item)) l
  /\ Forall (fun it => oi_orderId it = orderId
                       /\ itemStatus it = ItemStatus.pending
                       /\ sellerPaid it = false) its
  /\ Zsum (map oi_itemTotal its) = Zsum (map itemTotal xs).
Proof.
  induction l as [|item l IH]; intros Hall; cbn zeta.
  - cbn. split_and!; [done | constructor | done].
  - destruct (Hall item (or_introl eq_refl)) as [x Hx].
    destruct IH as (I1 & I2 & I3); [intros; apply Hall; by right|].
    cbn [omap list_omap]. rewrite Hx. cbn [omap list_omap].
    destruct (pricedItem_fields _ _ _ _ Hx) as (_ & Hid & Hq & _).
    destruct (pricedItem_orderItem d buyerId orderId orig item x Hx) as (p & u & Ho).
    rewrite Ho. split_and!.
    + cbn [map]. rewrite <- I1. f_equal. cbn. by rewrite Hid, Hq.
    + constructor; [by cbn | exact I2].
    + unfold Zsum in *. cbn [map foldr]. rewrite I3. reflexivity.
Qed.

(** X4. An order that [create] returns is stored as a pending order with
    a pending payment, for the buyer who asked. It has one item document
    per line of the cart, for the product and the quantity of the line,
    each pending and unpaid to its seller, and the amount to pay of the
    order is the sum of the item totals of these documents. Creating the
    order changes neither a product (no stock is set aside) nor a user
    nor a payment. *)
Theorem X4_create_stores_order (dto : CreateOrderDto) (buyer : string) (e : Entropy)
    (w w' : World) (order : Order) (its : list OrderItem) :
  create ObjectId_isValid toISOString dto buyer e w = (Return (order, its), w') ->
  status order = OrderStatus.PENDING
  /\ paymentStatus (payment order) = PaymentStatus.PENDING
  /\ buyerId order = buyer
  /\ orders (db w') = <[newId e := order]> (orders (db w))
  /\ orderItems (db w') = (orderItems (db w) ++ its)%list
  /\ products (db w') = products (db w)
  /\ users (db w') = users (db w)
  /\ payments (db w') = payments (db w)
  /\ co_items dto <> []
  /\ map (fun it => (oi_productId it, oi_quantity it)) its
     = map (fun item => (dto_productId item, dto_quantity item)) (co_items dto)
  /\ Forall (fun it => oi_orderId it = newId e
                       /\ itemStatus it = ItemStatus.pending
                       /\ sellerPaid it = false) its
  /\ o_totalAmount (totals order) = Zsum (map oi_itemTotal its).
Proof.
  intros Hrun.
  destruct (create_effect _ _ _ _ _ _ _ Hrun)
    as (calc & w1 & Ec & He & Hu & Hne & -> & -> & D).
  pose proof (calculateOrder_result buyer (co_items dto) w) as Hr. rewrite Ec in Hr.
  destruct Hr as (_ & _ & r & s & A & Ef).
  pose proof (accumulated_unavailable buyer (db w) (co_items dto) r s A) as HU.
  assert (Hav : availableItems (items calc) = items calc).
  { apply filter_all. intros x Hx. destruct (available x) eqn:Ha; [done|]. exfalso.
    rewrite Ef in Hx, Hu. cbn in Hx, Hu. specialize (HU x Hx Ha).
    rewrite Hu in HU. destruct HU. }
  destruct A as (A1 & _ & _ & _ & _ & _ & _ & A8 & _).
  cbn [emptyResponse items errors app] in A1, A8.
  assert (Hi : items calc = omap (pricedItem ObjectId_isValid (db w) buyer) (co_items dto))
    by (rewrite Ef; exact A1).
  assert (Herr : omap (errorOf ObjectId_isValid (db w)) (co_items dto) = []).
  { rewrite <- A8. rewrite Ef in He. exact He. }
  assert (Hall : forall item, In item (co_items dto) ->
            exists x, pricedItem ObjectId_isValid (db w) buyer item = Some x).
  { intros item Hin. pose proof (proj1 (omap_nil_iff _ _) Herr item Hin) as Hn.
    unfold errorOf in Hn. unfold pricedItem.
    destruct (ObjectId_isValid (dto_productId item)) eqn:Hv; [|done].
    destruct (products (db w) !! dto_productId item) as [p|] eqn:Hp; [|done].
    destruct (calculateOrder_sellers _ _ _ _ _ Ec item p Hin Hv Hp) as [u Hu'].
    cbn. rewrite Hu'. cbn. by eauto. }
  destruct (cart_lines (db w) (newId e) (co_items dto) buyer (co_items dto) Hall)
    as (L1 & L2 & L3).
  cbn zeta in L1, L2, L3. rewrite <- Hi in L1, L2, L3.
  rewrite D. cbn [db orders orderItems products users payments set_orders set_orderItems].
  split_and!; try done.
  - intros Hn. apply Hne. rewrite Hi, Hn. reflexivity.
  - rewrite L3. cbn [newOrder totals o_totalAmount].
    rewrite (calculateOrder_totalAmount _ _ _ _ _ Ec), Hav. reflexivity.
Qed.


(** *** Status updates *)

(** X5. A status update that succeeds was asked for by an administrator
    and follows the transition table. The order it returns has the
    requested status and one more entry in its history, and is stored;
    no payment is touched, and unless the order is cancelled neither a
    product nor an item is. *)
Theorem X5_updateStatus_sound (orderId : string) (dto : UpdateOrderStatusDto)
    (userId userRole : string) (t : Date) (w w' : World) (order' : Order) :
  updateStatus ObjectId_isValid toISOString orderId dto userId userRole t w
  = (Return order', w') ->
  userRole = "admin"
  /\ exists order,
       orders (db w) !! orderId = Some order
       /\ In (status order, us_status dto) transitionTable
       /\ status order' = us_status dto
       /\ orders (db w') = <[orderId := order']> (orders (db w))
       /\ statusHistory order'
          = (statusHistory order ++ [historyEntry toISOString dto t])%list
       /\ payments (db w') = payments (db w)
       /\ (us_status dto <> OrderStatus.CANCELLED ->
           products (db w') = products (db w)
           /\ orderItems (db w') = orderItems (db w)).
Proof.
  unfold updateStatus, try_catch.
  destruct (ObjectId_isValid orderId); cbn [negb].
  2: { unfold throw; cbn. discriminate. }
  unfold bind at 1, read at 1.
  destruct (orders (db w) !! orderId) as [order|] eqn:Ho.
  2: { unfold throw; cbn. discriminate. }
  unfold bind at 1, lift at 1.
  destruct (String.eqb_spec userRole "admin") as [->|Hne].
  2: { rewrite canUpdateOrderStatus_other by done. cbn. discriminate. }
  rewrite canUpdateOrderStatus_admin. cbn [negb].
  unfold bind at 1, lift at 1, validateStatusTransition.
  destruct (includes (validTransitions (status order)) (us_status dto)) eqn:Hleg;
    cbn [negb].
  2: { cbn. discriminate. }
  apply validTransitions_table in Hleg.
  intros Hrun. split; [reflexivity|]. exists order. split; [reflexivity|].
  split; [exact Hleg|]. revert Hrun.
  unfold bind at 1. unfold applyStatus.
  destruct (us_status dto) eqn:Hs.
  all: try (unfold ret at 1; unfold bind, write, ret; intros [= <- <-];
            cbn -[historyEntry]; rewrite ?Hs;
            destruct (truthy (us_adminNotes dto)); cbn -[historyEntry];
            split_and!; done).
  unfold bind at 1, lift at 1, new_ObjectId.
  destruct (ObjectId_isValid userId).
  2: { cbn. discriminate. }
  unfold bind at 1.
  match goal with
  | |- context [restoreProductQuantity orderId ?w0] =>
      destruct (restoreProductQuantity_run orderId w0) as (w1 & E1 & D1)
  end.
  rewrite E1. unfold bind at 1, updateMany, write at 1. unfold ret at 1.
  unfold bind, write, ret. intros [= <- <-].
  cbn -[historyEntry]. rewrite D1. cbn -[historyEntry].
  destruct (truthy (us_adminNotes dto)); cbn -[historyEntry];
    split_and!; done.
Qed.

(** X6. The transition check lets an order move forwards only: along any
    chain of status updates that pass it the order never comes back to a
    status it has left, and the chain has at most five updates. *)
Theorem X6_status_chain_bounded (n : nat) (from to : OrderStatus.t) :
  nsteps legal n from to ->
  (n <= 5)%nat /\ ((0 < n)%nat -> from <> to).
Proof.
  assert (Hstep : forall a b, legal a b -> (rank a < rank b)%nat).
  { intros a b. unfold legal, validateStatusTransition.
    destruct a, b; cbn; intros H; try discriminate; lia. }
  assert (Hmax : forall s, (rank s <= 5)%nat) by (intros []; cbn; lia).
  intros H.
  assert (Hr : (rank from + n <= rank to)%nat).
  { induction H as [|n a b c Hab Hbc IH]; [lia|].
    apply Hstep in Hab. lia. }
  pose proof (Hmax to). split; [lia|].
  intros Hn ->. lia.
Qed.

(** X7. [cancelOrder] never succeeds. Whoever asks, and for whatever
    order, the call fails and the store is left as it was. The buyer or a
    seller of an order that may still be cancelled gets the wrapped
    failure of the read of [order.sellerId]: the status update that
    [cancelOrder] delegates to is asked for with the role [user]. *)
Theorem X7_cancelOrder_never_succeeds (orderId reason userId : string) (t : Date)
    (w : World) :
  exists e w',
    cancelOrder ObjectId_isValid toISOString orderId reason userId t w = (Throw e, w')
    /\ db w' = db w
    /\ (kind e = Validation \/ kind e = NotFound \/ kind e = Forbidden)
    /\ (forall order,
          ObjectId_isValid orderId = true ->
          orders (db w) !! orderId = Some order ->
          buyerId order = userId \/ In userId (sellerIds order) ->
          ~ In (status order)
              [OrderStatus.DELIVERED; OrderStatus.CANCELLED; OrderStatus.REFUNDED] ->
          e = sellerIdReadFailure).
Proof.
  unfold cancelOrder, try_catch.
  destruct (ObjectId_isValid orderId) eqn:Hv; cbn [negb].
  2: { eexists _, _. unfold throw; cbn. split_and!; [reflexivity | done | by left |].
       intros; discriminate. }
  unfold bind at 1, read at 1.
  destruct (orders (db w) !! orderId) as [order|] eqn:Ho.
  2: { eexists _, _. unfold throw; cbn. split_and!; [reflexivity | done | |].
       - right. by left.
       - intros; discriminate. }
  destruct (negb (String.eqb (buyerId order) userId)
            && negb (existsb (fun s => String.eqb s userId) (sellerIds order))) eqn:Hp.
  { eexists _, _. unfold throw; cbn. split_and!; [reflexivity | done | |].
    - right. by right.
    - intros o _ [= <-] Hpart _. exfalso.
      apply andb_true_iff in Hp as [Hb Hs].
      apply negb_true_iff in Hb, Hs. destruct Hpart as [Hb'|Hs'].
      + apply String.eqb_neq in Hb. contradiction.
      + assert (existsb (fun s => String.eqb s userId) (sellerIds order) = true); [|congruence].
        apply existsb_exists. exists userId. split; [done | apply String.eqb_refl]. }
  destruct (includes _ (status order)) eqn:Hst.
  { eexists _, _. unfold throw; cbn. split_and!; [reflexivity | done | by left |].
    intros o _ [= <-] _ Hnot. exfalso. apply Hnot.
    unfold includes in Hst. apply existsb_exists in Hst as (s & Hin & Hs).
    unfold OrderStatus.eqb in Hs. apply bool_decide_eq_true in Hs. by subst. }
  unfold updateStatus, try_catch. rewrite Hv. cbn [negb].
  unfold bind at 1, read at 1. cbn [db]. rewrite Ho.
  unfold bind at 1, lift at 1.
  rewrite canUpdateOrderStatus_other by discriminate.
  eexists _, _. cbn. split_and!; [reflexivity | done | by left |].
  intros; reflexivity.
Qed.

(** X8. When an administrator cancels an order, the stock of every
    product goes up by the quantity that the items of the order ask of
    it, and a product that has such an item is no longer marked sold:
    whether the payment of the order was ever confirmed, and its stock
    taken, plays no part. *)
Theorem X8_cancel_adds_ordered_quantity (orderId : string) (dto : UpdateOrderStatusDto)
    (adminId : string) (t : Date) (w : World) (order : Order) (pid : ObjectId)
    (p : Product) :
  ObjectId_isValid orderId = true ->
  ObjectId_isValid adminId = true ->
  orders (db w) !! orderId = Some order ->
  us_status dto = OrderStatus.CANCELLED ->
  In (status order, OrderStatus.CANCELLED) transitionTable ->
  products (db w) !! pid = Some p ->
  exists w' order' p',
    updateStatus ObjectId_isValid toISOString orderId dto adminId "admin" t w
    = (Return order', w')
    /\ products (db w') !! pid = Some p'
    /\ quantity p' = quantity p + ordered pid (itemsOf orderId (db w))
    /\ ((exists it, In it (itemsOf orderId (db w)) /\ oi_productId it = pid) ->
        sold p' = false).
Proof.
  intros Hv Ha Ho Hs Hleg Hp.
  destruct (updateStatus_cancel_run orderId dto adminId t w order Hv Ha Ho Hs Hleg)
    as (w' & order' & E & _ & _ & _ & _ & _ & _ & P).
  set (its := itemsOf orderId (db w)) in *.
  exists w', order',
    (perProduct (fun it => restoreUpdate (oi_quantity it)) pid its p).
  destruct (perProduct_restore pid its p) as [Hq Hsold].
  split_and!; [exact E | | exact Hq |].
  - rewrite P. unfold restoreAll. rewrite lookup_fold_alter, Hp. reflexivity.
  - intros Hex. apply Hsold. by left.
Qed.


(** *** Payout processing *)

Lemma findIndex_alter {A} (c : A -> bool) (f : A -> A) (i : nat) (l : list A) :
  (forall x, c (f x) = c x) -> findIndex c (alter f i l) = findIndex c l.
Proof.
  intros Hc. revert i. induction l as [|x l IH]; intros [|i]; cbn; try done.
  - by rewrite Hc.
  - by rewrite IH.
Qed.

Lemma findIndex_Some {A} (c : A -> bool) (l : list A) (i : nat) :
  findIndex c l = Some i -> exists x, l !! i = Some x /\ c x = true.
Proof.
  revert i. induction l as [|y l IH]; intros i; cbn; [done|].
  destruct (c y) eqn:Hy.
  - intros [= <-]. by exists y.
  - destruct (findIndex c l) as [j|]; cbn; [|done]. intros [= <-].
    destruct (IH j eq_refl) as (x & Hx & Hc). by exists x.
Qed.

Lemma findIndex_None {A} (c : A -> bool) (l : list A) :
  findIndex c l = None <-> forall x, In x l -> c x = false.
Proof.
  induction l as [|y l IH]; cbn.
  - split; [intros _ x [] | done].
  - destruct (c y) eqn:Hy.
    + split; [done|]. intros H. specialize (H y (or_introl eq_refl)). congruence.
    + destruct (findIndex c l) as [j|]; cbn.
      * split; [done|]. intros H.
        assert (Some j = None); [|done]. apply IH. intros x Hx. apply H. by right.
      * split; [|done]. intros _ x [<-|Hx]; [done|]. by apply IH.
Qed.

(** The store after the payout of a seller was processed. *)
Lemma processSellerPayout_run (orderId : string) (dto : ProcessSellerPayoutDto)
    (t : Date) (w : World) (order : Order) (i : nat) :
  orders (db w) !! orderId = Some order ->
  findIndex (fun p => String.eqb (payout_sellerId p) (pp_sellerId dto))
    (sellerPayouts order) = Some i ->
  exists w',
    processSellerPayout ObjectId_isValid orderId dto t w = (Return tt, w')
    /\ db w'
       = set_orders
           (insert orderId
              (set_sellerPayouts
                 (alter (markPayoutPaid (pp_payoutReference dto) t) i
                    (sellerPayouts order)) order))
           (set_orderItems
              (map (fun it => if bool_decide (oi_orderId it = orderId)
                                 && bool_decide (oi_sellerId it = pp_sellerId dto)
                              then payItem (pp_payoutReference dto) t it else it))
              (db w)).
Proof.
  intros Ho Hi. unfold processSellerPayout, try_catch.
  unfold bind at 1. rewrite (Model_findById_found _ _ _ _ _ _ Ho).
  unfold read at 1. rewrite Ho, Hi.
  unfold bind, updateMany, write. cbn [db]. eexists. split; reflexivity.
Qed.

(** X9. The payout of a seller of an order can be processed whatever the
    state of the order and of the payout. Processing marks the payout of
    that seller paid, with the reference and the date of the request, and
    marks the items of that seller in the order in the same way; it
    touches no other payout, no product and no payment. A payout that is
    paid already is not refused: it is processed again, and the store is
    then as if only the second request had been made. *)
Theorem X9_payout_last_request_wins (orderId : string)
    (first second : ProcessSellerPayoutDto) (t1 t2 : Date) (w : World)
    (order : Order) (i : nat) :
  orders (db w) !! orderId = Some order ->
  findIndex (fun p => String.eqb (payout_sellerId p) (pp_sellerId first))
    (sellerPayouts order) = Some i ->
  pp_sellerId second = pp_sellerId first ->
  exists w1 w2 w2' payout order2,
    processSellerPayout ObjectId_isValid orderId first t1 w = (Return tt, w1)
    /\ processSellerPayout ObjectId_isValid orderId second t2 w1 = (Return tt, w2)
    /\ processSellerPayout ObjectId_isValid orderId second t2 w = (Return tt, w2')
    /\ db w2 = db w2'
    /\ sellerPayouts order !! i = Some payout
    /\ payout_sellerId payout = pp_sellerId first
    /\ orders (db w2) !! orderId = Some order2
    /\ sellerPayouts order2
       = <[i := markPayoutPaid (pp_payoutReference second) t2 payout]>
           (sellerPayouts order)
    /\ status order2 = status order
    /\ payment order2 = payment order
    /\ products (db w2) = products (db w)
    /\ payments (db w2) = payments (db w).
Proof.
  intros Ho Hi Hsame.
  destruct (processSellerPayout_run orderId first t1 w order i Ho Hi) as (w1 & E1 & D1).
  set (order1 := set_sellerPayouts
                   (alter (markPayoutPaid (pp_payoutReference first) t1) i
                      (sellerPayouts order)) order) in *.
  assert (Ho1 : orders (db w1) !! orderId = Some order1).
  { rewrite D1. cbn. apply lookup_insert_eq. }
  assert (Hi1 : findIndex (fun p => String.eqb (payout_sellerId p) (pp_sellerId second))
                  (sellerPayouts order1) = Some i).
  { rewrite Hsame. subst order1. cbn [set_sellerPayouts sellerPayouts].
    rewrite findIndex_alter; [exact Hi | done]. }
  assert (Hi2 : findIndex (fun p => String.eqb (payout_sellerId p) (pp_sellerId second))
                  (sellerPayouts order) = Some i) by (by rewrite Hsame).
  destruct (processSellerPayout_run orderId second t2 w1 order1 i Ho1 Hi1)
    as (w2 & E2 & D2).
  destruct (processSellerPayout_run orderId second t2 w order i Ho Hi2)
    as (w2' & E2' & D2').
  destruct (findIndex_Some _ _ _ Hi) as (payout & Hp & Hc).
  apply String.eqb_eq in Hc.
  assert (Halter : alter (markPayoutPaid (pp_payoutReference second) t2) i
                     (alter (markPayoutPaid (pp_payoutReference first) t1) i
                        (sellerPayouts order))
                   = alter (markPayoutPaid (pp_payoutReference second) t2) i
                       (sellerPayouts order)).
  { rewrite list_alter_alter_eq. apply list_alter_ext; [|done]. done. }
  assert (Hitems : forall l : list OrderItem,
            map (fun it => if bool_decide (oi_orderId it = orderId)
                              && bool_decide (oi_sellerId it = pp_sellerId second)
                           then payItem (pp_payoutReference second) t2 it else it)
              (map (fun it => if bool_decide (oi_orderId it = orderId)
                                 && bool_decide (oi_sellerId it = pp_sellerId first)
                              then payItem (pp_payoutReference first) t1 it else it) l)
            = map (fun it => if bool_decide (oi_orderId it = orderId)
                                && bool_decide (oi_sellerId it = pp_sellerId second)
                             then payItem (pp_payoutReference second) t2 it else it) l).
  { intros l. rewrite map_map. apply map_ext. intros it. rewrite Hsame.
    destruct (bool_decide (oi_orderId it = orderId)
              && bool_decide (oi_sellerId it = pp_sellerId first)) eqn:Hb.
    - cbn [payItem oi_orderId oi_sellerId]. rewrite Hb. reflexivity.
    - rewrite Hb. reflexivity. }
  assert (D : db w2 = db w2').
  { rewrite D2, D2', D1. unfold set_orders, set_orderItems; cbn.
    rewrite Hitems, insert_insert_eq. subst order1.
    unfold set_sellerPayouts; cbn. rewrite Halter. reflexivity. }
  exists w1, w2, w2', payout,
    (set_sellerPayouts
       (alter (markPayoutPaid (pp_payoutReference second) t2) i (sellerPayouts order))
       order).
  split_and!; try done.
  - rewrite D, D2'. cbn. apply lookup_insert_eq.
  - cbn [set_sellerPayouts sellerPayouts].
    apply list_eq. intros j. destruct (decide (j = i)) as [->|Hj].
    + rewrite list_lookup_alter_eq, Hp. cbn.
      rewrite list_lookup_insert_eq; [done|]. by apply lookup_lt_Some in Hp.
    + rewrite list_lookup_alter_ne, list_lookup_insert_ne by congruence. reflexivity.
  - rewrite D, D2'. reflexivity.
  - rewrite D, D2'. reflexivity.
Qed.

(** X10. A payout request for an order that does not exist, or for a
    seller who has no payout in the order, fails, and nothing is changed.
    It is answered with a not-found error when the order id is well
    formed; an order id that is no ObjectId is refused by the query, and
    the request is answered with a validation error that carries the
    message of the cast. *)
Theorem X10_payout_unknown (orderId : string) (dto : ProcessSellerPayoutDto)
    (t : Date) (w : World) :
  (orders (db w) !! orderId = None
   \/ exists order, orders (db w) !! orderId = Some order
        /\ forall p, In p (sellerPayouts order) -> payout_sellerId p <> pp_sellerId dto) ->
  exists e w',
    processSellerPayout ObjectId_isValid orderId dto t w = (Throw e, w')
    /\ db w' = db w
    /\ (kind e = NotFound \/ kind e = Validation)
    /\ (orders (db w) !! orderId = None -> ObjectId_isValid orderId = true ->
        e = NotFoundException "Order not found")
    /\ (orders (db w) !! orderId = None -> ObjectId_isValid orderId = false ->
        w' = w
        /\ e = BadRequestException
                ("Failed to process seller payout: "
                 ++ message (castError "ObjectId" orderId "string" "_id" (Some "Order"))))
    /\ (is_Some (orders (db w) !! orderId) ->
        e = NotFoundException "Seller not found in this order").
Proof.
  intros H. unfold processSellerPayout, try_catch. unfold bind at 1.
  destruct H as [Hn|(order & Ho & Hs)].
  - destruct (ObjectId_isValid orderId) eqn:Hv.
    + rewrite (Model_findById_valid _ _ _ _ _ Hv). unfold read at 1. rewrite Hn.
      eexists _, _. cbn. split_and!; try done. by left.
    + rewrite (Model_findById_malformed _ _ _ _ _ Hn Hv).
      eexists _, _. cbn. split_and!; try done.
      * by right.
      * rewrite Hn. by intros [? ?].
  - rewrite (Model_findById_found _ _ _ _ _ _ Ho). unfold read at 1. rewrite Ho.
    assert (Hi : findIndex (fun p => String.eqb (payout_sellerId p) (pp_sellerId dto))
                   (sellerPayouts order) = None).
    { apply findIndex_None. intros p Hp. apply String.eqb_neq. by apply Hs. }
    rewrite Hi. eexists _, _. cbn. split_and!; try done; try congruence. by left.
Qed.


(** *** Payment confirmation, again *)

(** X11. [confirmPayment] takes the stock on every call. Confirmed twice
    (two payments of one order that both succeed, say), an order takes
    the quantity of its items twice from the stock of a product; the
    order then carries the reference of the second payment, and it is
    CONFIRMED if it was PENDING. *)
Theorem X11_confirmPayment_twice (orderId : string) (first second : PaymentData)
    (t1 t2 : Date) (w : World) (order : Order) (pid : ObjectId) (p : Product) :
  orders (db w) !! orderId = Some order ->
  products (db w) !! pid = Some p ->
  (forall it, In it (itemsOf orderId (db w)) -> oi_productId it = pid ->
     0 <= oi_quantity it) ->
  2 * ordered pid (itemsOf orderId (db w)) <= quantity p ->
  exists w1 w2 p2 order2,
    confirmPayment ObjectId_isValid toISOString orderId first t1 w = (Return tt, w1)
    /\ confirmPayment ObjectId_isValid toISOString orderId second t2 w1 = (Return tt, w2)
    /\ products (db w2) !! pid = Some p2
    /\ quantity p2 = quantity p - 2 * ordered pid (itemsOf orderId (db w))
    /\ orders (db w2) !! orderId = Some order2
    /\ paymentReference (payment order2) = Some (pd_reference second)
    /\ paymentStatus (payment order2) = PaymentStatus.COMPLETED
    /\ (status order = OrderStatus.PENDING -> status order2 = OrderStatus.CONFIRMED).
Proof.
  intros Ho Hp Hpos Hle.
  set (its := itemsOf orderId (db w)) in *.
  pose proof (ordered_nonneg pid its Hpos) as Hq.
  destruct (confirmPayment_run orderId first t1 w order Ho) as (w1 & E1 & D1).
  set (order1 := markPaid toISOString first t1 order) in *.
  assert (Ho1 : orders (db w1) !! orderId = Some order1).
  { rewrite D1. unfold confirmedDb; cbn. apply lookup_insert_eq. }
  destruct (confirmPayment_run orderId second t2 w1 order1 Ho1) as (w2 & E2 & D2).
  assert (Hits1 : itemsOf orderId (db w1) = map confirmItem its).
  { rewrite D1. unfold confirmedDb, itemsOf; cbn. by apply itemsOf_map. }
  set (p1 := perProduct (fun it => consume (oi_quantity it) t1) pid its p).
  assert (Hp1 : products (db w1) !! pid = Some p1).
  { rewrite D1. unfold confirmedDb, consumeAll; cbn.
    fold its. rewrite lookup_fold_alter, Hp. reflexivity. }
  assert (Hq1 : quantity p1 = quantity p - ordered pid its).
  { apply perProduct_consume; [done | lia]. }
  set (p2 := perProduct (fun it => consume (oi_quantity it) t2) pid
               (map confirmItem its) p1).
  assert (Hp2 : products (db w2) !! pid = Some p2).
  { rewrite D2. unfold confirmedDb, consumeAll; cbn.
    rewrite Hits1, lookup_fold_alter, Hp1. reflexivity. }
  assert (Hord : ordered pid (map confirmItem its) = ordered pid its)
    by (by apply ordered_map).
  assert (Hq2 : quantity p2 = quantity p1 - ordered pid (map confirmItem its)).
  { apply perProduct_consume.
    - intros it Hin Hid. apply in_map_iff in Hin as (it0 & <- & Hin0).
      cbn. by apply Hpos.
    - rewrite Hord, Hq1. lia. }
  exists w1, w2, p2, (markPaid toISOString second t2 order1).
  split_and!; try done.
  - rewrite Hq2, Hord, Hq1. lia.
  - rewrite D2. unfold confirmedDb; cbn. apply lookup_insert_eq.
  - unfold markPaid; cbn -[OrderStatus.eqb].
    destruct (OrderStatus.eqb _ OrderStatus.PENDING); reflexivity.
  - unfold markPaid; cbn -[OrderStatus.eqb].
    destruct (OrderStatus.eqb _ OrderStatus.PENDING); reflexivity.
  - intros Hs. subst order1. unfold markPaid; cbn -[OrderStatus.eqb]. rewrite Hs.
    reflexivity.
Qed.

(** *** Reading an order *)

Lemma findById_run (orderId : string) (userId userRole : option string)
    (w : World) (order : Order) :
  ObjectId_isValid orderId = true ->
  orders (db w) !! orderId = Some order ->
  is_Some (users (db w) !! buyerId order) ->
  findById ObjectId_isValid orderId userId userRole w
  = (if negb (bool_decide (userRole = Some "admin")) && truthy userId
        && negb (bool_decide (Some (buyerId order) = userId)
                 || existsb (fun seller => bool_decide (Some seller = userId))
                      (populateSellers (db w) order))
     then Throw (ForbiddenException "You do not have permission to view this order")
     else Return {| found_order := order; found_buyer := Some (buyerId order);
                    found_sellers := populateSellers (db w) order;
                    found_items := itemsOf orderId (db w) |},
     {| db := db w;
        trace := (((trace w ++ [DbRead OrderModel]) ++ [DbRead UserModel])
                  ++ [DbRead UserModel]) ++ [DbRead OrderItemModel] |}).
Proof.
  intros Hv Ho [buyer Hb].
  unfold findById, try_catch. rewrite Hv. cbn [negb].
  unfold bind at 1, read at 1. rewrite Ho.
  unfold bind at 1. unfold bind at 1, read at 1. unfold bind at 1, read at 1.
  unfold ret at 1. unfold bind at 1, read at 1. cbn [db].
  assert (Hpb : populateBuyer (db w) order = Some (buyerId order))
    by (unfold populateBuyer; by rewrite Hb).
  rewrite Hpb.
  destruct (negb (bool_decide (userRole = Some "admin")) && truthy userId);
    cbn [andb]; [|reflexivity].
  destruct (bool_decide (Some (buyerId order) = userId) || existsb _ _);
    reflexivity.
Qed.

(** X12. [findById] shows an order to an administrator, to its buyer and
    to each of its sellers who is still a user, and to a caller that
    gives no user id; anyone else is refused with a permission error.
    Nothing is written either way. *)
Theorem X12_findById_access (orderId : string) (userId userRole : option string)
    (w : World) (order : Order) :
  ObjectId_isValid orderId = true ->
  orders (db w) !! orderId = Some order ->
  is_Some (users (db w) !! buyerId order) ->
  let answer :=
    {| found_order := order; found_buyer := Some (buyerId order);
       found_sellers := populateSellers (db w) order;
       found_items := itemsOf orderId (db w) |} in
  let allowed :=
    userRole = Some "admin" \/ truthy userId = false
    \/ userId = Some (buyerId order)
    \/ exists s, In s (sellerIds order) /\ is_Some (users (db w) !! s)
                 /\ userId = Some s in
  exists w',
    db w' = db w
    /\ (allowed -> findById ObjectId_isValid orderId userId userRole w
                   = (Return answer, w'))
    /\ (~ allowed ->
        findById ObjectId_isValid orderId userId userRole w
        = (Throw (ForbiddenException "You do not have permission to view this order"),
           w')).
Proof.
  intros Hv Ho Hb answer allowed.
  rewrite (findById_run orderId userId userRole w order Hv Ho Hb).
  assert (Hsel : existsb (fun seller => bool_decide (Some seller = userId))
                   (populateSellers (db w) order) = true
                 <-> exists s, In s (sellerIds order) /\ is_Some (users (db w) !! s)
                               /\ userId = Some s).
  { rewrite existsb_exists. unfold populateSellers. split.
    - intros (s & Hin & Hs). apply filter_In in Hin as [Hin Hu].
      apply bool_decide_eq_true in Hs, Hu. by exists s.
    - intros (s & Hin & Hu & ->). exists s. split.
      + apply filter_In. split; [done|]. by apply bool_decide_eq_true.
      + by apply bool_decide_eq_true. }
  exists {| db := db w;
            trace := (((trace w ++ [DbRead OrderModel]) ++ [DbRead UserModel])
                      ++ [DbRead UserModel]) ++ [DbRead OrderItemModel] |}.
  split; [reflexivity|].
  destruct (bool_decide (userRole = Some "admin")) eqn:Hr; cbn [negb andb].
  { apply bool_decide_eq_true in Hr. split; [reflexivity|].
    intros Hn. exfalso. apply Hn. by left. }
  apply bool_decide_eq_false in Hr.
  destruct (truthy userId) eqn:Ht; cbn [negb andb].
  2: { split; [reflexivity|]. intros Hn. exfalso. apply Hn. right. by left. }
  destruct (bool_decide (Some (buyerId order) = userId)) eqn:Hbu; cbn [orb negb].
  { apply bool_decide_eq_true in Hbu. split; [reflexivity|].
    intros Hn. exfalso. apply Hn. right. right. by left. }
  apply bool_decide_eq_false in Hbu.
  destruct (existsb _ _) eqn:Hs; cbn [negb].
  - split; [reflexivity|]. intros Hn. exfalso. apply Hn. do 3 right.
    by apply Hsel.
  - split; [|reflexivity].
    intros [Ha|[Ha|[Ha|Ha]]]; [done | congruence | congruence |].
    apply Hsel in Ha. congruence.
Qed.


(** ** Further properties of the payment service *)

Variable payStackInitialize :
  PayStackInitializePaymentDto -> Completion PayStackInitializeResponse.
Variable payStackRefund : RefundPayload -> Completion json.

(** *** Initialisation of a payment *)

(** X13. A pending payment of the order that is less than thirty minutes
    old is handed out again: [initializePayment] answers with its
    reference, authorisation URL and amount after reading the order and
    the payment, without asking the gateway and without writing. *)
Theorem X13_initializePayment_reuses (initializeDto : InitializePaymentDto)
    (userId : string) (origin : option string) (e : Entropy) (w : World)
    (order : Order) (existing : Payment) :
  ObjectId_isValid (ip_orderId initializeDto) = true ->
  orders (db w) !! ip_orderId initializeDto = Some order ->
  buyerId order = userId ->
  paymentStatus (payment order) <> PaymentStatus.COMPLETED ->
  findPendingOfOrder (ip_orderId initializeDto) (db w) = Some existing ->
  now e < createdAt existing + thirtyMinutes ->
  initializePayment ObjectId_isValid payStackInitialize initializeDto userId origin e w
  = (Return {| init_success := true;
               init_message := "Payment already initialized";
               init_data :=
                 {| id_reference := reference existing;
                    id_authorizationUrl := authorizationUrl existing;
                    id_accessCode := accessCode existing;
                    id_orderId := ip_orderId initializeDto;
                    id_amount := amount existing;
                    id_currency := p_currency existing |} |},
     {| db := db w;
        trace := (trace w ++ [DbRead OrderModel; DbRead PaymentModel])%list |}).
Proof.
  intros Hv Ho Hb Hp Hf Hage.
  unfold initializePayment, try_catch. cbv zeta.
  rewrite Hv. cbn [negb]. unfold bind at 1, read at 1. rewrite Ho.
  rewrite Hb, String.eqb_refl. cbn [negb].
  assert (Hnc : PaymentStatus.eqb (paymentStatus (payment order)) PaymentStatus.COMPLETED
                = false).
  { unfold PaymentStatus.eqb. by apply bool_decide_eq_false. }
  rewrite Hnc. unfold bind at 1, read at 1. cbn [db]. rewrite Hf.
  assert (Hyoung : (now e - thirtyMinutes <? createdAt existing) = true).
  { apply Z.ltb_lt. lia. }
  rewrite Hyoung. unfold ret. cbn [trace]. rewrite <- app_assoc. reflexivity.
Qed.

(** X16. Only the buyer of an order can start its payment, and only
    while the order is not paid: anyone else is turned away with a
    validation error, and the buyer of a paid order with a conflict. In
    both cases the order was read and nothing else happened: no payment
    was read or written and the gateway was not asked. *)
Theorem X16_initializePayment_guards (initializeDto : InitializePaymentDto)
    (userId : string) (origin : option string) (e : Entropy) (w : World)
    (order : Order) :
  ObjectId_isValid (ip_orderId initializeDto) = true ->
  orders (db w) !! ip_orderId initializeDto = Some order ->
  buyerId order <> userId
  \/ paymentStatus (payment order) = PaymentStatus.COMPLETED ->
  exists err,
    initializePayment ObjectId_isValid payStackInitialize initializeDto userId origin e w
    = (Throw err, {| db := db w; trace := (trace w ++ [DbRead OrderModel])%list |})
    /\ (buyerId order <> userId ->
        err = BadRequestException "You can only pay for your own orders")
    /\ (buyerId order = userId ->
        err = ConflictException "Order has already been paid").
Proof.
  intros Hv Ho Hcase.
  unfold initializePayment, try_catch. cbv zeta.
  rewrite Hv. cbn [negb]. unfold bind at 1, read at 1. rewrite Ho.
  destruct (String.eqb_spec (buyerId order) userId) as [Hb|Hb]; cbn [negb].
  - destruct Hcase as [Hn|Hp]; [contradiction|]. rewrite Hp. cbn.
    eexists. split; [reflexivity|]. split; [contradiction | reflexivity].
  - eexists. cbn. split; [reflexivity|]. split; [reflexivity | contradiction].
Qed.

(** X15. The buyer of an unpaid order without a pending payment asks to
    pay by PayStack, and the gateway opens the transaction: the gateway
    was asked for the amount of the order in kobo, a hundred times the
    amount in naira, for the e-mail address of the shipping address and
    under the reference [PAY_<time>_<random>]; one payment is added to the
    store, pending, for the amount of the order and under that
    reference, which the answer carries; no order, item or product is
    touched. *)
Theorem X15_initializePayment_opens (initializeDto : InitializePaymentDto)
    (userId : string) (origin : option string) (e : Entropy) (w : World)
    (order : Order) (response : PayStackInitializeResponse) :
  ObjectId_isValid (ip_orderId initializeDto) = true ->
  ObjectId_isValid userId = true ->
  orders (db w) !! ip_orderId initializeDto = Some order ->
  buyerId order = userId ->
  paymentStatus (payment order) <> PaymentStatus.COMPLETED ->
  findPendingOfOrder (ip_orderId initializeDto) (db w) = None ->
  ip_gateway initializeDto = None
  \/ ip_gateway initializeDto = Some PaymentGateway.PAYSTACK ->
  (forall p, In p (payments (db w)) -> reference p <> generateReference "PAY" e) ->
  (forall request,
     psi_amount request = 100 * o_totalAmount (totals order) ->
     psi_email request = addr_email (shippingAddress (shipping order)) ->
     psi_reference request = generateReference "PAY" e ->
     payStackInitialize request = Return response) ->
  ir_status response = true ->
  exists answer w' pay,
    initializePayment ObjectId_isValid payStackInitialize initializeDto userId origin e w
    = (Return answer, w')
    /\ init_success answer = true
    /\ id_reference (init_data answer) = generateReference "PAY" e
    /\ id_amount (init_data answer) = o_totalAmount (totals order)
    /\ id_authorizationUrl (init_data answer)
       = Some (authorization_url (ir_data response))
    /\ payments (db w') = (payments (db w) ++ [pay])%list
    /\ payment_id pay = newId e
    /\ reference pay = generateReference "PAY" e
    /\ p_orderId pay = ip_orderId initializeDto
    /\ p_userId pay = userId
    /\ gateway pay = PaymentGateway.PAYSTACK
    /\ p_status pay = PaymentStatus.PENDING
    /\ amount pay = o_totalAmount (totals order)
    /\ createdAt pay = now e
    /\ orders (db w') = orders (db w)
    /\ orderItems (db w') = orderItems (db w)
    /\ products (db w') = products (db w).
Proof.
  intros Hv Hu Ho Hb Hp Hf Hg Hfresh Hgw Hok.
  assert (Hnc : PaymentStatus.eqb (paymentStatus (payment order)) PaymentStatus.COMPLETED
                = false).
  { unfold PaymentStatus.eqb. by apply bool_decide_eq_false. }
  assert (Hex : existsb (fun p => String.eqb (reference p) (generateReference "PAY" e))
                  (payments (db w)) = false).
  { apply not_true_is_false. intros H. apply existsb_exists in H as (p & Hin & Hr).
    apply String.eqb_eq in Hr. by apply (Hfresh p). }
  assert (Hgate : default PaymentGateway.PAYSTACK (ip_gateway initializeDto)
                  = PaymentGateway.PAYSTACK).
  { destruct Hg as [->| ->]; reflexivity. }
  unfold initializePayment, try_catch. cbv zeta.
  rewrite Hv. cbn [negb]. unfold bind at 1, read at 1. rewrite Ho.
  rewrite Hb, String.eqb_refl. cbn [negb]. rewrite Hnc.
  unfold bind at 1, read at 1. cbn [db]. rewrite Hf, Hgate.
  unfold bind at 1. unfold initializePayStackPayment. cbv zeta.
  unfold bind at 1, log at 1. unfold bind at 1, lift at 1.
  rewrite Hgw; [| cbn; apply nairaToKobo_exact | reflexivity | reflexivity].
  rewrite Hok. cbn [negb]. unfold ret at 1.
  unfold bind at 1, lift at 1, new_ObjectId. rewrite Hu.
  unfold bind at 1, savePayment. cbn [db reference newPayment]. rewrite Hex.
  unfold write, ret. eexists _, _, _. split; [reflexivity|].
  cbn. split_and!; reflexivity.
Qed.

(** X17. Every payment in the store is a PayStack payment, and it stays
    so: [initializePayment] saves a payment for that gateway only (a
    request for another one is refused before anything is saved), and
    [verifyPayment] and the webhook leave the gateway of a payment
    alone. *)
Theorem X17_payments_stay_with_PayStack (initializeDto : InitializePaymentDto)
    (userId : string) (origin : option string) (e : Entropy) (ref : string)
    (rawBody signature : option string) (t : Date) (w : World) :
  payStackOnly (db w) ->
  payStackOnly
    (db (initializePayment ObjectId_isValid payStackInitialize initializeDto userId
           origin e w).2)
  /\ payStackOnly (db (verifyPayment ObjectId_isValid toISOString payStackVerify Date_parse ref t w).2)
  /\ payStackOnly
       (db (paystackWebhook ObjectId_isValid toISOString secretKey JSON_parse Date_parse rawBody signature t w).2).
Proof.
  intros H. split_and!.
  - by apply initializePayment_payStackOnly.
  - by apply verifyPayment_payStackOnly.
  - by apply paystackWebhook_payStackOnly.
Qed.

(** *** At most one pending payment per order *)

Lemma pendingOf_settled (c : Payment -> bool) (f : Payment -> Payment)
    (orderId : ObjectId) (l : list Payment) :
  (forall p, p_orderId (f p) = p_orderId p) ->
  (forall p, p_status (f p) <> PaymentStatus.PENDING) ->
  List.filter (pendingFor orderId) (map (fun p => if c p then f p else p) l)
  = List.filter (fun p => negb (c p)) (List.filter (pendingFor orderId) l).
Proof.
  intros Ho Hs. induction l as [|p l IH]; [reflexivity|]. cbn [map List.filter].
  destruct (c p) eqn:Hc.
  - assert (Hf : pendingFor orderId (f p) = false).
    { unfold pendingFor. apply andb_false_iff. right.
      unfold PaymentStatus.eqb. apply bool_decide_eq_false. apply Hs. }
    rewrite Hf, IH. destruct (pendingFor orderId p); [|reflexivity].
    cbn [List.filter]. rewrite Hc. reflexivity.
  - rewrite IH. destruct (pendingFor orderId p); [|reflexivity].
    cbn [List.filter]. rewrite Hc. reflexivity.
Qed.

Lemma filter_length_le {A} (c : A -> bool) (l : list A) :
  (length (List.filter c l) <= length l)%nat.
Proof. induction l as [|x l IH]; cbn; [lia|]. destruct (c x); cbn; lia. Qed.

Lemma onePending_settled (id : ObjectId) (f : Payment -> Payment) (d : Db) :
  (forall p, p_orderId (f p) = p_orderId p) ->
  (forall p, p_status (f p) <> PaymentStatus.PENDING) ->
  onePending d ->
  onePending
    (set_payments (map (fun p => if String.eqb (payment_id p) id then f p else p)) d).
Proof.
  intros Ho Hs H orderId. unfold pendingOf; cbn [payments set_payments].
  change (fun p => String.eqb (p_orderId p) orderId
                   && PaymentStatus.eqb (p_status p) PaymentStatus.PENDING)
    with (pendingFor orderId).
  rewrite pendingOf_settled by done.
  etransitivity; [apply filter_length_le|]. apply H.
Qed.

Lemma preserves_onePending_update (id : ObjectId) (f : Payment -> Payment) :
  (forall p, p_orderId (f p) = p_orderId p) ->
  (forall p, p_status (f p) <> PaymentStatus.PENDING) ->
  preserves onePending (updatePaymentById id f).
Proof.
  intros Ho Hs. apply preserves_write. intros d. by apply onePending_settled.
Qed.

Lemma preserves_onePending_confirmPayment orderId paymentData t :
  preserves onePending (confirmPayment ObjectId_isValid toISOString orderId paymentData t).
Proof.
  unfold confirmPayment, updateMany, updateProductAfterPayment.
  repeat first [preserves_step | (intros d Hd; exact Hd)].
Qed.

Lemma preserves_onePending_verification payment vr t :
  preserves onePending (processPaymentVerification ObjectId_isValid toISOString Date_parse payment vr t).
Proof.
  unfold processPaymentVerification. cbv zeta.
  repeat first [ apply preserves_onePending_confirmPayment
               | apply preserves_onePending_update; [intros ?; reflexivity | intros ?; discriminate]
               | preserves_step ].
Qed.

Lemma find_head_filter {A} (c : A -> bool) (l : list A) :
  List.find c l = head (List.filter c l).
Proof.
  induction l as [|x l IH]; [reflexivity|]. cbn. destruct (c x); [reflexivity | exact IH].
Qed.

(** What the saved payment adds to the pending payments of an order. *)
Lemma pendingOf_saved (orderId : ObjectId) (pay : Payment) (d : Db) :
  pendingOf orderId (set_payments (fun l => l ++ [pay])%list d)
  = (pendingOf orderId d ++ if pendingFor orderId pay then [pay] else [])%list.
Proof.
  unfold pendingOf; cbn [payments set_payments]. rewrite List.filter_app. cbn.
  reflexivity.
Qed.

Lemma initializePayment_onePending initializeDto userId origin e :
  preserves onePending
    (initializePayment ObjectId_isValid payStackInitialize initializeDto userId origin e).
Proof.
  intros w Hw.
  unfold initializePayment, try_catch. cbv zeta.
  destruct (negb (ObjectId_isValid (ip_orderId initializeDto))); [exact Hw|].
  unfold bind at 1, read at 1.
  destruct (orders (db w) !! ip_orderId initializeDto) as [order|]; [|exact Hw].
  destruct (negb _); [exact Hw|].
  destruct (PaymentStatus.eqb _ _); [exact Hw|].
  unfold bind at 1, read at 1. cbn [db].
  set (orderId := ip_orderId initializeDto) in *.
  (* the part that opens a new payment keeps the invariant when it starts
     without a pending payment of the order *)
  assert (Hfresh : forall (w0 : World) g callbackUrl
                          (k : PayStackInitializeData -> PaymentInitializationResponseDto),
            onePending (db w0) -> pendingOf orderId (db w0) = [] ->
            onePending
              (db (let (c, w') :=
                     (let* paymentResponse :=
                        match g with
                        | PaymentGateway.PAYSTACK =>
                            initializePayStackPayment payStackInitialize orderId order
                              (generateReference "PAY" e) callbackUrl
                        | other =>
                            throw (BadRequestException
                                     ("Unsupported payment gateway: "
                                      ++ PaymentGateway.toString other))
                        end in
                      let* user := lift (new_ObjectId ObjectId_isValid userId) in
                      savePayment
                        (newPayment e orderId order user g
                           (generateReference "PAY" e) callbackUrl paymentResponse) ;;;
                      ret (k paymentResponse)) w0 in
                   match c with
                   | Return a => (Return a, w')
                   | Throw err =>
                       (if instanceof_NotFound err || instanceof_BadRequest err
                           || instanceof_Conflict err
                        then throw err
                        else throw (BadRequestException
                                      ("Failed to initialize payment: "
                                       ++ message err))) w'
                   end).2)).
  { intros w0 g callbackUrl k H0 Hnone.
    assert (Hsave : forall pay tr,
              onePending (set_payments (fun l => l ++ [pay])%list (db w0)) ->
              onePending (db {| db := set_payments (fun l => l ++ [pay])%list (db w0);
                                trace := tr |})) by (intros; assumption).
    assert (Hadd : forall pay, p_orderId pay = orderId ->
              onePending (set_payments (fun l => l ++ [pay])%list (db w0))).
    { intros pay Hpay oid. rewrite pendingOf_saved, length_app.
      destruct (pendingFor oid pay) eqn:Hpf; cbn [length].
      - unfold pendingFor in Hpf. apply andb_true_iff in Hpf as [Hoid _].
        apply String.eqb_eq in Hoid. rewrite Hpay in Hoid. subst oid.
        rewrite Hnone. cbn. lia.
      - specialize (H0 oid). lia. }
    destruct g; unfold bind at 1.
    2,3: exact H0.
    unfold initializePayStackPayment. cbv zeta.
    unfold bind at 1, log at 1. unfold bind at 1, lift at 1.
    destruct (payStackInitialize _) as [resp|err].
    2: { destruct (_ || _); exact H0. }
    destruct (negb (ir_status resp)); [exact H0|].
    unfold ret at 1. unfold bind at 1, lift at 1, new_ObjectId.
    destruct (ObjectId_isValid userId); [|exact H0].
    unfold bind at 1, savePayment. cbn [db].
    destruct (existsb _ _); [exact H0|].
    unfold write, ret. cbn [db snd]. apply Hadd. reflexivity. }
  destruct (findPendingOfOrder orderId (db w)) as [existing|] eqn:Hf.
  - destruct (_ <? _); [exact Hw|].
    unfold bind at 1, updatePaymentById at 1, write at 1.
    apply Hfresh; cbn [db].
    + apply onePending_settled; [reflexivity | discriminate | exact Hw].
    + unfold pendingOf; cbn [payments set_payments].
      change (fun p => String.eqb (p_orderId p) orderId
                       && PaymentStatus.eqb (p_status p) PaymentStatus.PENDING)
        with (pendingFor orderId).
      rewrite pendingOf_settled by (reflexivity || discriminate).
      unfold findPendingOfOrder in Hf. rewrite find_head_filter in Hf.
      specialize (Hw orderId). unfold pendingOf in Hw.
      change (fun p => String.eqb (p_orderId p) orderId
                       && PaymentStatus.eqb (p_status p) PaymentStatus.PENDING)
        with (pendingFor orderId) in Hf, Hw.
      destruct (List.filter (pendingFor orderId) (payments (db w))) as [|p0 [|p1 l]];
        [discriminate | | cbn in Hw; lia].
      cbn in Hf. injection Hf as ->. cbn. rewrite String.eqb_refl. reflexivity.
  - apply Hfresh; [exact Hw|].
    unfold findPendingOfOrder in Hf. rewrite find_head_filter in Hf.
    unfold pendingOf. cbn [db].
    destruct (List.filter _ (payments (db w))); [reflexivity | discriminate].
Qed.

(** X18. No order ever has two pending payments: if that holds of the
    store, it holds after [initializePayment] (which hands out the
    pending payment of the order, or marks it as expired before it opens
    another), after [verifyPayment] and after a webhook (which settle
    payments and open none). *)
Theorem X18_one_pending_payment (initializeDto : InitializePaymentDto)
    (userId : string) (origin : option string) (e : Entropy) (ref : string)
    (rawBody signature : option string) (t : Date) (w : World) :
  onePending (db w) ->
  onePending
    (db (initializePayment ObjectId_isValid payStackInitialize initializeDto userId
           origin e w).2)
  /\ onePending (db (verifyPayment ObjectId_isValid toISOString payStackVerify Date_parse ref t w).2)
  /\ onePending
       (db (paystackWebhook ObjectId_isValid toISOString secretKey JSON_parse Date_parse rawBody signature t w).2).
Proof.
  intros H. split_and!.
  - by apply initializePayment_onePending.
  - revert w H. change (preserves onePending
                          (verifyPayment ObjectId_isValid toISOString payStackVerify Date_parse ref t)).
    unfold verifyPayment. apply preserves_try.
    2: { intros err. destruct (_ || _); apply preserves_throw. }
    repeat first [ apply preserves_onePending_verification | preserves_step ].
  - revert w H. change (preserves onePending
                          (paystackWebhook ObjectId_isValid toISOString secretKey JSON_parse Date_parse rawBody
                             signature t)).
    unfold paystackWebhook, handlePayStackWebhook, handleSuccessfulPayment,
      handleFailedPayment. cbv zeta.
    repeat first [ apply preserves_onePending_verification
                 | apply preserves_onePending_update;
                   [intros ?; reflexivity | intros ?; discriminate]
                 | preserves_step ].
Qed.


(** *** Verification *)

(** X19. A verification that cannot be carried out changes nothing. For a
    reference that no payment has, [verifyPayment] answers not found
    after the one read, without asking the gateway. When the call to the
    gateway fails (the client of the gateway reports every failure as an
    [Error]), for a PayStack payment that is not completed, it answers
    with a validation error that carries the message of the failure, and
    the payment is as it was. *)
Theorem X19_verifyPayment_fails_without_effect (ref : string) (t : Date) (w : World) :
  (findOneByReference (Some ref) (db w) = None ->
   verifyPayment ObjectId_isValid toISOString payStackVerify Date_parse ref t w
   = (Throw (NotFoundException "Payment record not found"),
      {| db := db w; trace := (trace w ++ [DbRead PaymentModel])%list |}))
  /\ (forall pay failure,
        findOneByReference (Some ref) (db w) = Some pay ->
        p_status pay <> PaymentStatus.COMPLETED ->
        gateway pay = PaymentGateway.PAYSTACK ->
        payStackVerify ref = Throw (Error failure) ->
        verifyPayment ObjectId_isValid toISOString payStackVerify Date_parse ref t w
        = (Throw (BadRequestException ("Payment verification failed: " ++ failure)),
           {| db := db w;
              trace := (trace w ++ [DbRead PaymentModel; GatewayVerify ref])%list |})).
Proof.
  split.
  - intros Hf. unfold verifyPayment, try_catch, bind at 1, read at 1. rewrite Hf.
    reflexivity.
  - intros pay failure Hf Hs Hg Hv.
    assert (Hnc : PaymentStatus.eqb (p_status pay) PaymentStatus.COMPLETED = false).
    { unfold PaymentStatus.eqb. by apply bool_decide_eq_false. }
    unfold verifyPayment, try_catch, bind at 1, read at 1. rewrite Hf, Hnc, Hg.
    unfold bind at 1. unfold bind at 1, log at 1. unfold lift at 1. rewrite Hv.
    cbn [trace db]. rewrite <- app_assoc. reflexivity.
Qed.

(** X20. When the gateway reports anything but a success for a PayStack
    payment that is not completed, [verifyPayment] marks the payment as
    failed, with the response and the message of the gateway, and leaves
    the order, its items and the stock alone. Its answer still says
    [success: true]; the failure is in the message and in the status. *)
Theorem X20_verifyPayment_declined (ref : string) (t : Date) (w : World)
    (pay : Payment) (vr : VerificationResult) :
  findOneByReference (Some ref) (db w) = Some pay ->
  p_status pay <> PaymentStatus.COMPLETED ->
  gateway pay = PaymentGateway.PAYSTACK ->
  payStackVerify ref = Return vr ->
  vr_status vr = false \/ ps_status (vr_data vr) <> Some "success" ->
  NoDup (map payment_id (payments (db w))) ->
  let failed :=
    failUpdate (gateway_response (vr_data vr)) (ps_message (vr_data vr)) t in
  exists resp w',
    verifyPayment ObjectId_isValid toISOString payStackVerify Date_parse ref t w = (Return resp, w')
    /\ success resp = true
    /\ vrd_message resp = "Payment verification failed"
    /\ vd_status (vrd_data resp) = PaymentStatus.FAILED
    /\ findPaymentById (payment_id pay) (db w') = Some (failed pay)
    /\ payments (db w')
       = map (fun p => if String.eqb (payment_id p) (payment_id pay)
                       then failed p else p) (payments (db w))
    /\ orders (db w') = orders (db w)
    /\ orderItems (db w') = orderItems (db w)
    /\ products (db w') = products (db w).
Proof.
  intros Hf Hs Hg Hv Hdecl Hnd failed.
  destruct (findOneByReference_In _ _ _ Hf) as [Hin Href].
  assert (Hnc : PaymentStatus.eqb (p_status pay) PaymentStatus.COMPLETED = false).
  { unfold PaymentStatus.eqb. by apply bool_decide_eq_false. }
  assert (Hno : vr_status vr && bool_decide (ps_status (vr_data vr) = Some "success")
                = false).
  { destruct Hdecl as [->|Hn]; [reflexivity|].
    apply andb_false_iff. right. by apply bool_decide_eq_false. }
  assert (Hfind : findPaymentById (payment_id pay)
                    (set_payments
                       (map (fun p => if String.eqb (payment_id p) (payment_id pay)
                                      then failed p else p)) (db w))
                  = Some (failed pay)).
  { unfold findPaymentById; cbn. apply find_updated; done. }
  unfold verifyPayment, try_catch, bind at 1, read at 1. rewrite Hf, Hnc, Hg.
  unfold bind at 1. unfold bind at 1, log at 1. unfold lift at 1. rewrite Hv.
  unfold bind at 1. unfold processPaymentVerification. cbv zeta. rewrite Hno.
  unfold updatePaymentById, write. unfold bind, read. cbn [db].
  fold failed. rewrite Hfind. unfold ret.
  eexists _, _. split; [reflexivity|]. split_and!; try reflexivity. exact Hfind.
Qed.

(** *** Webhooks *)






(** *** Reading a payment *)

(** X24. [getPayment] shows a payment to the user who made it and to a
    caller that gives no user id (the endpoint gives none for an
    administrator); anyone else is turned away, with a validation error
    and not with a permission error. Nothing is written either way. *)
Theorem X24_getPayment_access (paymentId : string) (userId : option string) (w : World)
    (pay : Payment) :
  ObjectId_isValid paymentId = true ->
  findPaymentById paymentId (db w) = Some pay ->
  let mine := truthy userId = false \/ userId = Some (p_userId pay) in
  exists w',
    db w' = db w
    /\ (mine ->
        getPayment ObjectId_isValid paymentId userId w
        = (Return (mapPaymentToResponseDto pay (orders (db w) !! p_orderId pay)), w'))
    /\ (~ mine ->
        getPayment ObjectId_isValid paymentId userId w
        = (Throw (BadRequestException "You do not have permission to view this payment"),
           w')
        /\ kind (BadRequestException "You do not have permission to view this payment")
           = Validation).
Proof.
  intros Hv Hf mine.
  exists {| db := db w;
            trace := (trace w ++ [DbRead PaymentModel]) ++ [DbRead OrderModel] |}.
  split; [reflexivity|].
  assert (Hrun : getPayment ObjectId_isValid paymentId userId w
                 = (if truthy userId
                       && negb (bool_decide (Some (p_userId pay) = userId))
                    then Throw (BadRequestException
                                  "You do not have permission to view this payment")
                    else Return (mapPaymentToResponseDto pay
                                   (orders (db w) !! p_orderId pay)),
                    {| db := db w;
                       trace := (trace w ++ [DbRead PaymentModel])
                                ++ [DbRead OrderModel] |})).
  { unfold getPayment, try_catch. rewrite Hv. cbn [negb].
    unfold bind at 1, read at 1. rewrite Hf. unfold bind at 1, read at 1. cbn [db].
    destruct (truthy userId && negb _); reflexivity. }
  rewrite Hrun. destruct (truthy userId) eqn:Ht; cbn [andb].
  2: { split; [reflexivity|]. intros Hn. exfalso. apply Hn. by left. }
  destruct (bool_decide (Some (p_userId pay) = userId)) eqn:Hu; cbn [negb].
  - apply bool_decide_eq_true in Hu. split; [reflexivity|].
    intros Hn. exfalso. apply Hn. by right.
  - apply bool_decide_eq_false in Hu. split; [|done].
    intros [Ha|Ha]; [discriminate | congruence].
Qed.

(** *** Refunds *)

(** X25. The refund of a completed PayStack payment that the gateway
    accepts: the gateway was asked to refund the transaction of the
    payment, for the amount of the request when that is given and not
    zero; the payment becomes REFUNDED and is recorded as refunded, for
    that amount or else for the whole amount of the payment. The order of
    the payment is not touched: its payment status and its status stay
    as they are, and no stock is given back. *)
Theorem X25_refundPayment_effect (refundDto : RefundPaymentDto)
    (userId userRole : string) (t : Date) (refunds : gmap ObjectId Refund) (w : World)
    (pay : Payment) (answer : json) :
  findPaymentById (rf_paymentId refundDto) (db w) = Some pay ->
  userRole = "admin" \/ p_userId pay = userId ->
  p_status pay = PaymentStatus.COMPLETED ->
  refunds !! payment_id pay = None ->
  gateway pay = PaymentGateway.PAYSTACK ->
  payStackRefund
    {| transaction := gatewayTransactionId pay;
       payload_amount :=
         if truthyNumber (rf_amount refundDto) then rf_amount refundDto else None |}
  = Return answer ->
  NoDup (map payment_id (payments (db w))) ->
  exists w' refund,
    refundPayment ObjectId_isValid payStackRefund refundDto userId userRole t refunds w
    = (Return ({| refund_success := true;
                  refund_message := "Refund processed successfully";
                  refund_data := answer |},
               <[payment_id pay := refund]> refunds), w')
    /\ refundedAmount refund
       = (if truthyNumber (rf_amount refundDto)
          then default 0 (rf_amount refundDto) else amount pay)
    /\ refundedAt refund = t
    /\ refundReason refund = rf_reason refundDto
    /\ findPaymentById (payment_id pay) (db w') = Some (markRefunded pay)
    /\ p_status (markRefunded pay) = PaymentStatus.REFUNDED
    /\ orders (db w') = orders (db w)
    /\ orderItems (db w') = orderItems (db w)
    /\ products (db w') = products (db w).
Proof.
  intros Hf Hwho Hs Hnone Hg Hgw Hnd.
  assert (Hin : In pay (payments (db w))).
  { unfold findPaymentById in Hf. by apply find_some in Hf as [Hin _]. }
  assert (Hperm : negb (String.eqb userRole "admin")
                  && negb (String.eqb (p_userId pay) userId) = false).
  { destruct Hwho as [->| ->]; [reflexivity|].
    rewrite String.eqb_refl. apply andb_false_r. }
  assert (Hfind : findPaymentById (payment_id pay)
                    (set_payments
                       (map (fun p => if String.eqb (payment_id p) (payment_id pay)
                                      then markRefunded p else p)) (db w))
                  = Some (markRefunded pay)).
  { unfold findPaymentById; cbn. apply find_updated; done. }
  unfold refundPayment, try_catch. unfold bind at 1.
  rewrite (Model_findById_found _ _ _ _ _ _ Hf). unfold read at 1.
  rewrite Hf, Hperm, Hs.
  change (PaymentStatus.eqb PaymentStatus.COMPLETED PaymentStatus.COMPLETED) with true.
  cbn [negb]. rewrite Hnone.
  rewrite bool_decide_false by (intros [? ?]; discriminate).
  rewrite Hg. unfold bind at 1, lift at 1, refundTransaction. rewrite Hgw.
  unfold bind, updatePaymentById, write, ret. cbn [db].
  eexists _, _. split; [reflexivity|]. split_and!; try reflexivity. exact Hfind.
Qed.

(** X26. Only a completed payment can be refunded. A request for a
    payment in any other status is refused with a validation error and
    changes nothing: neither the payment nor the record of refunds. So a
    payment that was refunded, which is REFUNDED afterwards, cannot be
    refunded twice; the request is refused for its status, before the
    check on [refunded] is reached. Someone who is neither an
    administrator nor the user of the payment is refused before that. *)
Theorem X26_refundPayment_only_completed (refundDto : RefundPaymentDto)
    (userId userRole : string) (t : Date) (refunds : gmap ObjectId Refund) (w : World)
    (pay : Payment) :
  findPaymentById (rf_paymentId refundDto) (db w) = Some pay ->
  p_status pay <> PaymentStatus.COMPLETED ->
  exists err,
    refundPayment ObjectId_isValid payStackRefund refundDto userId userRole t refunds w
    = (Throw err, {| db := db w; trace := (trace w ++ [DbRead PaymentModel])%list |})
    /\ kind err = Validation
    /\ (userRole = "admin" \/ p_userId pay = userId ->
        err = BadRequestException "Only completed payments can be refunded")
    /\ (userRole <> "admin" /\ p_userId pay <> userId ->
        err = BadRequestException "You do not have permission to refund this payment").
Proof.
  intros Hf Hs.
  assert (Hnc : PaymentStatus.eqb (p_status pay) PaymentStatus.COMPLETED = false).
  { unfold PaymentStatus.eqb. by apply bool_decide_eq_false. }
  unfold refundPayment, try_catch. unfold bind at 1.
  rewrite (Model_findById_found _ _ _ _ _ _ Hf). unfold read at 1. rewrite Hf.
  destruct (String.eqb_spec userRole "admin") as [Hr|Hr];
    destruct (String.eqb_spec (p_userId pay) userId) as [Hu|Hu];
    cbn [negb andb]; rewrite ?Hnc; cbn [negb];
    eexists; (split; [reflexivity|]); split_and!;
    try reflexivity;
    first [ by intros [? ?] | by intros [?|?] | by intros _ ].
Qed.


(** *** The endpoint that creates an order *)

Lemma initializePayment_frame (P : Db -> Prop) initializeDto userId origin e :
  (forall d f, P d -> P (set_payments f d)) ->
  preserves P
    (initializePayment ObjectId_isValid payStackInitialize initializeDto userId origin e).
Proof.
  intros HP.
  assert (Hsave : forall pay, preserves P (savePayment pay)).
  { intros pay w Hw. unfold savePayment. destruct (existsb _ _); [exact Hw|].
    cbn. by apply HP. }
  unfold initializePayment, initializePayStackPayment, updatePaymentById. cbv zeta.
  repeat first [ apply Hsave
               | (apply preserves_write; intros d Hd; by apply HP)
               | preserves_step ].
Qed.

Lemma initializePayment_unsupported initializeDto userId origin e w g :
  ip_gateway initializeDto = Some g ->
  g <> PaymentGateway.PAYSTACK ->
  findPendingOfOrder (ip_orderId initializeDto) (db w) = None ->
  exists err w',
    initializePayment ObjectId_isValid payStackInitialize initializeDto userId origin e w
    = (Throw err, w')
    /\ db w' = db w.
Proof.
  intros Hg Hne Hf. unfold initializePayment, try_catch. cbv zeta.
  destruct (negb (ObjectId_isValid (ip_orderId initializeDto))).
  { eexists _, _. cbn. split; reflexivity. }
  unfold bind at 1, read at 1.
  destruct (orders (db w) !! ip_orderId initializeDto) as [order|].
  2: { eexists _, _. cbn. split; reflexivity. }
  destruct (negb _).
  { eexists _, _. cbn. split; reflexivity. }
  destruct (PaymentStatus.eqb _ _).
  { eexists _, _. cbn. split; reflexivity. }
  unfold bind at 1, read at 1. cbn [db]. rewrite Hf, Hg. cbn [default from_option id].
  destruct g; [contradiction | |]; eexists _, _; cbn; split; reflexivity.
Qed.

(** X21. The endpoint that creates an order answers with the order
    whenever the order was created, whatever becomes of the payment it
    then tries to start: a failure of the initialisation is swallowed,
    and the order, its items and the stock are as [create] left them.
    With no payment method, or with a method other than PayStack for an
    order that has no payment yet, the answer carries no payment and the
    store is as [create] left it. A failure of [create] itself is the
    failure of the endpoint. *)
Theorem X21_order_kept_when_payment_fails (createOrderDto : CreateOrderDto)
    (paymentMethod : option PaymentMethodName) (buyer : string)
    (origin : option string) (orderEntropy paymentEntropy : Entropy) (w w1 : World)
    (r : Completion (Order * list OrderItem)) :
  create ObjectId_isValid toISOString createOrderDto buyer orderEntropy w = (r, w1) ->
  match r with
  | Throw err =>
      OrdersController_create ObjectId_isValid toISOString payStackInitialize
        createOrderDto paymentMethod buyer origin orderEntropy paymentEntropy w
      = (Throw err, w1)
  | Return created =>
      exists answer w2,
        OrdersController_create ObjectId_isValid toISOString payStackInitialize
          createOrderDto paymentMethod buyer origin orderEntropy paymentEntropy w
        = (Return answer, w2)
        /\ cr_order answer = created
        /\ orders (db w2) = orders (db w1)
        /\ orderItems (db w2) = orderItems (db w1)
        /\ products (db w2) = products (db w1)
        /\ (paymentMethod = None -> cr_payment answer = None /\ db w2 = db w1)
        /\ (forall method,
              paymentMethod = Some method -> method <> paystack ->
              (forall p, In p (payments (db w)) -> p_orderId p <> newId orderEntropy) ->
              cr_payment answer = None /\ db w2 = db w1)
  end.
Proof.
  intros Hrun. destruct r as [created|err].
  2: { unfold OrdersController_create. unfold bind at 1. by rewrite Hrun. }
  unfold OrdersController_create. unfold bind at 1. rewrite Hrun.
  destruct paymentMethod as [method|].
  2: { eexists _, _. split; [reflexivity|]. cbn. split_and!; try done. }
  unfold try_catch. unfold bind at 1.
  set (dto := {| ip_orderId := newId orderEntropy;
                 ip_gateway := Some (mapPaymentMethodToGateway method);
                 ip_callbackUrl := _ |}).
  pose proof (initializePayment_frame
                (fun d => orders d = orders (db w1)
                          /\ orderItems d = orderItems (db w1)
                          /\ products d = products (db w1))
                dto buyer origin paymentEntropy
                (fun d f H => H) w1 (conj eq_refl (conj eq_refl eq_refl))) as Hframe.
  assert (Hnone : method <> paystack ->
            (forall p, In p (payments (db w)) -> p_orderId p <> newId orderEntropy) ->
            exists err w',
              initializePayment ObjectId_isValid payStackInitialize dto buyer origin
                paymentEntropy w1 = (Throw err, w')
              /\ db w' = db w1).
  { intros Hm Hnew. apply (initializePayment_unsupported dto buyer origin paymentEntropy
                             w1 (mapPaymentMethodToGateway method)).
    - reflexivity.
    - destruct method; [contradiction | discriminate | discriminate].
    - destruct created as [order its].
      destruct (create_effect _ _ _ _ _ _ _ Hrun) as (_ & _ & _ & _ & _ & _ & _ & _ & D).
      rewrite D. unfold findPendingOfOrder; cbn.
      destruct (List.find _ (payments (db w))) as [p|] eqn:Ef; [|reflexivity].
      apply find_some in Ef as [Hin Hp]. apply andb_true_iff in Hp as [Hp _].
      apply String.eqb_eq in Hp. exfalso. by apply (Hnew p). }
  destruct (initializePayment _ _ dto buyer origin paymentEntropy w1)
    as [[resp|err] w2] eqn:Einit.
  - cbn [snd] in Hframe. destruct Hframe as (F1 & F2 & F3).
    eexists _, _. unfold ret. split; [reflexivity|]. cbn.
    split_and!; try done.
    intros m [= <-] Hm Hnew. destruct (Hnone Hm Hnew) as (? & ? & ? & _). discriminate.
  - cbn [snd] in Hframe. destruct Hframe as (F1 & F2 & F3).
    eexists _, _. unfold ret. split; [reflexivity|]. cbn.
    split_and!; try done.
    intros m [= <-] Hm Hnew. destruct (Hnone Hm Hnew) as (err' & w' & E & D).
    injection E as <- <-. done.
Qed.


(** X14. A pending payment of the order that is thirty minutes old or
    older is not used again: the next [initializePayment] for the order
    marks it as failed, with the reason [Payment expired], and that is so
    whatever becomes of the new attempt, also when the gateway refuses
    it. *)
Theorem X14_initializePayment_expires (initializeDto : InitializePaymentDto)
    (userId : string) (origin : option string) (e : Entropy) (w : World)
    (order : Order) (old : Payment) :
  ObjectId_isValid (ip_orderId initializeDto) = true ->
  orders (db w) !! ip_orderId initializeDto = Some order ->
  buyerId order = userId ->
  paymentStatus (payment order) <> PaymentStatus.COMPLETED ->
  findPendingOfOrder (ip_orderId initializeDto) (db w) = Some old ->
  createdAt old + thirtyMinutes <= now e ->
  NoDup (map payment_id (payments (db w))) ->
  let w' :=
    (initializePayment ObjectId_isValid payStackInitialize initializeDto userId origin e
       w).2 in
  findPaymentById (payment_id old) (db w') = Some (expireUpdate (now e) old)
  /\ p_status (expireUpdate (now e) old) = PaymentStatus.FAILED
  /\ failureReason (expireUpdate (now e) old) = Some "Payment expired"
  /\ orders (db w') = orders (db w)
  /\ products (db w') = products (db w).
Proof.
  intros Hv Ho Hb Hp Hf Hage Hnd w'.
  destruct (initializePayment_expires payStackInitialize initializeDto userId origin e w
              order old Hv Ho Hb Hp Hf Hage Hnd) as (H1 & H2 & H3).
  split_and!; [exact H1 | exact H2 | exact H3 | |].
  - apply (initializePayment_frame (fun d => orders d = orders (db w))
             initializeDto userId origin e (fun d f H => H) w eq_refl).
  - apply (initializePayment_frame (fun d => products d = products (db w))
             initializeDto userId origin e (fun d f H => H) w eq_refl).
Qed.

End Properties.

(** * The properties on the scenario *)

(** ** Order calculation *)

Lemma scenario_sellersPresent (l : list OrderItemDto) :
  sellersPresent (db Scenario.world0) l.
Proof.
  intros item p _ Hp. cbn in Hp.
  destruct (decide (dto_productId item = Scenario.bagId)) as [E|N1].
  - rewrite E in Hp. vm_compute in Hp. injection Hp as <-. by eexists.
  - destruct (decide (dto_productId item = Scenario.coatId)) as [E|N2].
    + rewrite E in Hp. vm_compute in Hp. injection Hp as <-. by eexists.
    + exfalso. revert Hp. unfold Scenario.world0; cbn.
      rewrite lookup_insert_ne by done. rewrite lookup_insert_ne by done.
      by rewrite lookup_empty.
Qed.

(** The calculation of a cart with two bags and the sold coat. *)
Lemma C1_witness :
  isHex24 Scenario.buyerId = true
  /\ sellersPresent (db Scenario.world0) [Scenario.twoBags; Scenario.oneCoat]
  /\ exists resp w',
       calculateOrder isHex24 [Scenario.twoBags; Scenario.oneCoat] Scenario.buyerId
         Scenario.world0 = (Return resp, w')
       /\ db w' = db Scenario.world0
       /\ subtotal resp = Zsum (map totalPrice (availableItems (items resp)))
       /\ sellerCount resp = Z.of_nat (size (distinctSellers (items resp)))
       /\ totalAmount resp
          = subtotal resp + totalShippingCost resp + totalServiceFee resp
            + totalTaxes resp - couponDiscount resp.
Proof.
  split; [reflexivity|]. split; [apply scenario_sellersPresent|].
  destruct (C1_calculateOrder_totals isHex24
              [Scenario.twoBags; Scenario.oneCoat] Scenario.buyerId Scenario.world0
              eq_refl (scenario_sellersPresent _))
    as (resp & w' & E & D & _ & H1 & _ & _ & _ & _ & _ & _ & _ & H2 & _ & H3).
  exists resp, w'. split_and!; assumption.
Defined.

(** C1 as it is stated fails on the seller count: a cart whose one
    product is sold has no available entry, and its seller is counted. *)
Lemma C1_counterexample :
  match (calculateOrder isHex24 [Scenario.oneCoat] Scenario.buyerId Scenario.world0).1 with
  | Return resp =>
      availableItems (items resp) = []
      /\ sellerCount resp = 1
      /\ sellerCount resp
         <> Z.of_nat (size (distinctSellers (availableItems (items resp))))
  | Throw _ => False
  end.
Proof. vm_compute. split_and!; [reflexivity | reflexivity | discriminate]. Qed.

(** ** Pricing *)

(** The scenario of the specification on binary64 numbers: two units at
    25000 with 1250 of shipping each. *)
Lemma C2_witness :
  0 <= 25000 <= maxAmount /\ 0 <= 2 <= maxAmount /\ 0 <= 1250 <= maxAmount
  /\ 25000 * 2 <= maxAmount /\ 1250 * 2 <= maxAmount
  /\ calculateItemPricing (Number.of_Z 25000) (Number.of_Z 2) (Some (Number.of_Z 1250))
     = {| pr_totalPrice := Number.of_Z 50000;
          pr_shippingCost := Number.of_Z 2500;
          pr_itemServiceFee := Number.of_Z 1750;
          pr_itemTaxes := Number.of_Z 3881;
          pr_itemTotal := Number.of_Z 58131 |}.
Proof.
  assert (Hu : 0 <= 25000 <= maxAmount) by (unfold maxAmount; lia).
  assert (Hq : 0 <= 2 <= maxAmount) by (unfold maxAmount; lia).
  assert (Hd : 0 <= 1250 <= maxAmount) by (unfold maxAmount; lia).
  assert (Huq : 25000 * 2 <= maxAmount) by (unfold maxAmount; lia).
  assert (Hdq : 1250 * 2 <= maxAmount) by (unfold maxAmount; lia).
  split_and!; try assumption.
  destruct (C2_pricing_breakdown 25000 2 (Some 1250) Hu Hq Hd Huq Hdq) as [E _].
  exact E.
Defined.

(** C2 as it is stated, for every natural price, fails on large amounts:
    at a price of 1000000000000157 the service computes a service fee of
    35000000000006, while 3.5% of the price, 35000000000005.495, rounds to
    35000000000005. The product of the price and the literal [0.035] is
    not a binary64 number, and the one nearest to it is
    35000000000005.5. *)
Lemma C2_counterexample :
  let p :=
    calculateItemPricing (Number.of_Z 1000000000000157) (Number.of_Z 1) None in
  Number.to_Z (Number.of_Z 1000000000000157) = Some 1000000000000157
  /\ Number.to_Z (pr_totalPrice p) = Some (1000000000000157 * 1)
  /\ Number.to_Z (pr_itemServiceFee p) = Some 35000000000006
  /\ Number.mul (pr_totalPrice p) (Number.decimal 35 1000)
     = Number.div (Number.of_Z 70000000000011) (Number.of_Z 2)
  /\ Exact.calculateServiceFee 1000000000000157 = 35000000000005
  /\ ~ rounds_half_up (inject_Z (1000000000000157 * 1) * (35 # 1000)) 35000000000006.
Proof.
  split; [vm_compute; reflexivity|]. split; [vm_compute; reflexivity|].
  split; [vm_compute; reflexivity|]. split; [vm_compute; reflexivity|].
  split; [vm_compute; reflexivity|].
  intros H. apply rounds_half_up_unique in H. vm_compute in H. discriminate.
Qed.

(** ** The status state machine *)

Lemma scenario_order1 : orders (db Scenario.world1) !! Scenario.orderId = Some Scenario.order1.
Proof. vm_compute. reflexivity. Qed.

Lemma pending_to_delivered_illegal :
  ~ In (status Scenario.order1, us_status Scenario.toDelivered) transitionTable.
Proof. vm_compute. intuition discriminate. Qed.

(** An administrator tries to take the pending order to DELIVERED. *)
Lemma C3_witness :
  isHex24 Scenario.orderId = true
  /\ orders (db Scenario.world1) !! Scenario.orderId = Some Scenario.order1
  /\ ~ In (status Scenario.order1, us_status Scenario.toDelivered) transitionTable
  /\ exists w',
       updateStatus isHex24 epochString Scenario.orderId Scenario.toDelivered Scenario.adminId
         "admin" 1700000200000 Scenario.world1
       = (Throw (invalidTransition OrderStatus.PENDING OrderStatus.DELIVERED), w')
       /\ db w' = db Scenario.world1.
Proof.
  split; [reflexivity|]. split; [exact scenario_order1|].
  split; [exact pending_to_delivered_illegal|].
  destruct (C3_illegal_transition_rejected isHex24 epochString Scenario.orderId
              Scenario.toDelivered Scenario.adminId "admin" 1700000200000 Scenario.world1
              Scenario.order1 eq_refl scenario_order1 pending_to_delivered_illegal)
    as (e & w' & E & D & Hname).
  destruct (Hname eq_refl) as [-> _]. exists w'. split; [exact E | exact D].
Defined.

(** C3 as it is stated fails for a request that does not pass the
    permission check: the buyer of the pending order asks for DELIVERED,
    which is not in the table, and the error does not name the two
    statuses. *)
Lemma C3_counterexample :
  buyerId Scenario.order1 = Scenario.buyerId
  /\ status Scenario.order1 = OrderStatus.PENDING
  /\ ~ In (OrderStatus.PENDING, OrderStatus.DELIVERED) transitionTable
  /\ match (updateStatus isHex24 epochString Scenario.orderId Scenario.toDelivered
              Scenario.buyerId "user" 1700000200000 Scenario.world1).1 with
     | Throw e => e = sellerIdReadFailure
                  /\ e <> invalidTransition OrderStatus.PENDING OrderStatus.DELIVERED
     | Return _ => False
     end.
Proof.
  split; [reflexivity|]. split; [reflexivity|].
  split; [exact pending_to_delivered_illegal|].
  vm_compute. split; [reflexivity | discriminate].
Qed.

(** The failing input of C7: the buyer of the pending order asks for
    CANCELLED, with the role of a user. *)
Lemma C7_witness :
  isHex24 Scenario.orderId = true
  /\ orders (db Scenario.world1) !! Scenario.orderId = Some Scenario.order1
  /\ buyerId Scenario.order1 = Scenario.buyerId
  /\ "user" <> "admin"
  /\ exists w',
       updateStatus isHex24 epochString Scenario.orderId Scenario.toCancelled Scenario.buyerId
         "user" 1700000200000 Scenario.world1
       = (Throw sellerIdReadFailure, w')
       /\ db w' = db Scenario.world1.
Proof.
  assert (H : "user" <> "admin") by discriminate.
  split; [reflexivity|]. split; [exact scenario_order1|]. split; [reflexivity|].
  split; [exact H|].
  destruct (C7_non_admin_update_fails isHex24 epochString Scenario.orderId Scenario.toCancelled
              Scenario.buyerId "user" 1700000200000 Scenario.world1 Scenario.order1
              eq_refl scenario_order1 H)
    as (w' & E & D & _).
  exists w'. split; [exact E | exact D].
Defined.

(** The same defect on the other paths: the cancel endpoint lets the
    buyer through its own check, which reads [sellerIds], and then fails in
    [updateStatus]; a seller cannot confirm; and no request is ever
    refused with a permission error. *)
Example cancelOrder_by_buyer_fails :
  (cancelOrder isHex24 epochString Scenario.orderId "Changed my mind" Scenario.buyerId
     1700000200000 Scenario.world1).1
  = Throw sellerIdReadFailure.
Proof. vm_compute. reflexivity. Qed.

Example seller_cannot_confirm :
  (updateStatus isHex24 epochString Scenario.orderId
     Scenario.toConfirmed Scenario.sellerId "user" 1700000200000 Scenario.world1).1
  = Throw sellerIdReadFailure.
Proof. vm_compute. reflexivity. Qed.

Lemma applyStatus_result (isValid : string -> bool) orderId dto userId t order w :
  match applyStatus isValid orderId dto userId t order w with
  | (Return _, _) => True
  | (Throw e, _) => kind e = Internal
  end.
Proof.
  unfold applyStatus. destruct (us_status dto); try exact I.
  unfold bind at 1, lift at 1, new_ObjectId.
  destruct (isValid userId); [|reflexivity].
  unfold bind at 1.
  destruct (restoreProductQuantity_run orderId w) as (w1 & E1 & _). rewrite E1.
  exact I.
Qed.

(** No status update is ever refused with a permission error. *)
Lemma updateStatus_never_forbidden (isValid : string -> bool) (iso : Date -> string)
    orderId dto userId userRole t w e w' :
  updateStatus isValid iso orderId dto userId userRole t w = (Throw e, w') ->
  kind e <> Forbidden.
Proof.
  unfold updateStatus, try_catch.
  destruct (isValid orderId); cbn [negb].
  2: { unfold throw; cbn. intros [= <- <-]. discriminate. }
  unfold bind at 1, read at 1.
  destruct (orders (db w) !! orderId) as [order|].
  2: { unfold throw; cbn. intros [= <- <-]. discriminate. }
  unfold bind at 1, lift at 1.
  destruct (String.eqb_spec userRole "admin") as [->|Hne].
  - rewrite canUpdateOrderStatus_admin. cbn [negb].
    unfold bind at 1, lift at 1, validateStatusTransition.
    destruct (includes _ _); cbn [negb].
    + unfold bind at 1.
      match goal with
      | |- context [applyStatus ?v ?a ?b ?c ?d ?o ?w0] =>
          pose proof (applyStatus_result v a b c d o w0) as Hr;
          destruct (applyStatus v a b c d o w0) as [[o'|err] w1]
      end.
      * unfold bind, write, ret. discriminate.
      * destruct err; cbn in Hr; try discriminate; cbn; intros [= <- <-]; discriminate.
    + cbn. intros [= <- <-]. discriminate.
  - rewrite canUpdateOrderStatus_other by done. cbn. intros [= <- <-]. discriminate.
Qed.

(** ** Payment confirmation and cancellation *)

Lemma scenario_items1 : itemsOf Scenario.orderId (db Scenario.world1) = Scenario.items1.
Proof. vm_compute. reflexivity. Qed.

Lemma scenario_bag : products (db Scenario.world1) !! Scenario.bagId = Some Scenario.bag.
Proof. vm_compute. reflexivity. Qed.

(** The payment of the order of two bags is confirmed: three of the five
    bags are left. *)
Lemma C4_witness :
  orders (db Scenario.world1) !! Scenario.orderId = Some Scenario.order1
  /\ exists w' order',
       confirmPayment isHex24 epochString Scenario.orderId Scenario.paymentData 1700000130000
         Scenario.world1 = (Return tt, w')
       /\ orders (db w') !! Scenario.orderId = Some order'
       /\ paymentStatus (payment order') = PaymentStatus.COMPLETED
       /\ status order' = OrderStatus.CONFIRMED
       /\ (forall it, In it (itemsOf Scenario.orderId (db w')) ->
             itemStatus it = ItemStatus.confirmed)
       /\ quantity <$> products (db w') !! Scenario.bagId = Some 3
       /\ sold <$> products (db w') !! Scenario.bagId = Some false.
Proof.
  split; [exact scenario_order1|].
  destruct (C4_confirmPayment_effect isHex24 epochString Scenario.orderId Scenario.paymentData
              1700000130000 Scenario.world1 Scenario.order1 scenario_order1)
    as (w' & order' & E & Ho & Hp & Hs & _ & _ & _ & _ & Hi & Hq & _).
  exists w', order'. split; [exact E|].
  split; [rewrite Ho; apply lookup_insert_eq|].
  split; [rewrite Hp; reflexivity|].
  split; [rewrite Hs; reflexivity|].
  split; [exact Hi|].
  rewrite Hq. split; vm_compute; reflexivity.
Defined.

(** The order is paid and then cancelled by an administrator: the five
    bags are back and the bag is not sold. *)
Lemma C5_witness :
  isHex24 Scenario.orderId = true
  /\ isHex24 Scenario.adminId = true
  /\ orders (db Scenario.world1) !! Scenario.orderId = Some Scenario.order1
  /\ products (db Scenario.world1) !! Scenario.bagId = Some Scenario.bag
  /\ ordered Scenario.bagId (itemsOf Scenario.orderId (db Scenario.world1)) = 2
  /\ exists w1 p1 w2 order2 p2,
       confirmPayment isHex24 epochString Scenario.orderId Scenario.paymentData 1700000130000
         Scenario.world1 = (Return tt, w1)
       /\ products (db w1) !! Scenario.bagId = Some p1
       /\ quantity p1 = 3
       /\ updateStatus isHex24 epochString Scenario.orderId Scenario.toCancelled
            Scenario.adminId "admin" 1700000200000 w1 = (Return order2, w2)
       /\ status order2 = OrderStatus.CANCELLED
       /\ products (db w2) !! Scenario.bagId = Some p2
       /\ quantity p2 = 5
       /\ sold p2 = false
       /\ (forall it, In it (itemsOf Scenario.orderId (db w2)) ->
             itemStatus it = ItemStatus.cancelled
             /\ oi_cancelledAt it = Some 1700000200000
             /\ oi_cancellationReason it = Some "Changed my mind").
Proof.
  split; [reflexivity|]. split; [reflexivity|].
  split; [exact scenario_order1|]. split; [exact scenario_bag|].
  split; [vm_compute; reflexivity|].
  assert (H1 : In (status Scenario.order1)
                 [OrderStatus.PENDING; OrderStatus.CONFIRMED; OrderStatus.PROCESSING])
    by (left; reflexivity).
  assert (H2 : exists it, In it (itemsOf Scenario.orderId (db Scenario.world1))
                          /\ oi_productId it = Scenario.bagId).
  { rewrite scenario_items1. eexists. split; [left; reflexivity | reflexivity]. }
  assert (H3 : forall it, In it (itemsOf Scenario.orderId (db Scenario.world1)) ->
                          oi_productId it = Scenario.bagId -> 0 <= oi_quantity it).
  { rewrite scenario_items1. intros it [<-|[]] _. vm_compute. discriminate. }
  assert (H4 : ordered Scenario.bagId (itemsOf Scenario.orderId (db Scenario.world1))
               <= quantity Scenario.bag)
    by (vm_compute; discriminate).
  assert (H5 : forall it, In it (itemsOf Scenario.orderId (db Scenario.world1)) ->
                          oi_cancellationReason it = None).
  { rewrite scenario_items1. intros it [<-|[]]. reflexivity. }
  destruct (C5_cancel_restores_stock isHex24 epochString Scenario.orderId
              Scenario.paymentData 1700000130000 1700000200000 Scenario.toCancelled
              Scenario.adminId Scenario.world1 Scenario.order1 Scenario.bagId
              Scenario.bag eq_refl eq_refl scenario_order1 H1 eq_refl scenario_bag
              H2 H3 H4 H5)
    as (w1 & p1 & w2 & order2 & p2 & E1 & Hp1 & Hq1 & E2 & _ & Hs & Hc & Hr & Hp2
        & Hq2 & Hsold & Hit).
  exists w1, p1, w2, order2, p2.
  split_and!; try assumption.
  intros it Hin. destruct (Hit it Hin) as (A & B & C).
  rewrite B, C, Hc, Hr. done.
Defined.

(** ** Seller payouts *)

Lemma scenario_created :
  Scenario.created = (Return (Scenario.order1, Scenario.items1), Scenario.world1).
Proof. vm_compute. reflexivity. Qed.

(** The checkout of the scenario: one payout, of 48250 and 1750. *)
Lemma C6_witness :
  create isHex24 epochString Scenario.checkout Scenario.buyerId Scenario.entropy
    Scenario.world0 = (Return (Scenario.order1, Scenario.items1), Scenario.world1)
  /\ (forall p, In p (sellerPayouts Scenario.order1) ->
        summarises [makeItemData Scenario.twoBags Scenario.bag Scenario.seller
                      Scenario.buyerId] (payout_sellerId p) p)
  /\ payoutsTotal (sellerPayouts Scenario.order1) = o_subtotal (totals Scenario.order1)
  /\ o_subtotal (totals Scenario.order1) = 50000.
Proof.
  split; [exact scenario_created|].
  destruct (C6_seller_payouts isHex24 epochString Scenario.checkout Scenario.buyerId
              Scenario.entropy Scenario.world0 Scenario.world1 Scenario.order1
              Scenario.items1 scenario_created)
    as (calc & w1 & Ec & _ & _ & Hsum & _ & _ & Htot & _).
  assert (Hc : items calc = [makeItemData Scenario.twoBags Scenario.bag Scenario.seller
                               Scenario.buyerId]).
  { assert (Hcalc : (calculateOrder isHex24 (co_items Scenario.checkout)
                       Scenario.buyerId Scenario.world0).1 = Return calc)
      by (rewrite Ec; reflexivity).
    vm_compute in Hcalc. injection Hcalc as <-. vm_compute. reflexivity. }
  rewrite Hc in Hsum.
  split; [exact Hsum|]. split; [exact Htot | reflexivity].
Defined.

(** C6 as it is stated fails on the sum: the payouts of the scenario hand
    out 50000, the subtotal, and not the subtotal plus the total service
    fee, 51750. *)
Lemma C6_counterexample :
  Scenario.created = (Return (Scenario.order1, Scenario.items1), Scenario.world1)
  /\ payoutsTotal (sellerPayouts Scenario.order1) = 50000
  /\ o_subtotal (totals Scenario.order1) + o_totalServiceFee (totals Scenario.order1)
     = 51750
  /\ payoutsTotal (sellerPayouts Scenario.order1)
     <> o_subtotal (totals Scenario.order1) + o_totalServiceFee (totals Scenario.order1).
Proof.
  split; [exact scenario_created|].
  vm_compute. split_and!; [reflexivity | reflexivity | discriminate].
Qed.

(** ** The payment reconciliation bridge *)

Lemma scenario_bad_signature :
  verifyWebhookSignature Scenario.secret (JSON.stringify Scenario.chargeSuccess)
    "deadbeef" = false.
Proof. vm_compute. reflexivity. Qed.

(** A webhook with a signature that does not match. *)
Lemma C8_witness :
  verifyWebhookSignature Scenario.secret (JSON.stringify Scenario.chargeSuccess)
    "deadbeef" = false
  /\ handlePayStackWebhook isHex24 epochString Scenario.secret Scenario.parseDate Scenario.chargeSuccess "deadbeef"
       1700000140000 Scenario.worldPending
     = (Throw invalidSignature,
        Scenario.worldPending).
Proof.
  split; [exact scenario_bad_signature|].
  apply (C8_webhook_signature_gate isHex24 epochString Scenario.parseDate Scenario.secret Scenario.parse
           Scenario.chargeSuccess "deadbeef" 1700000140000
           Scenario.worldPending
           scenario_bad_signature).
Defined.

(** C8 as it is stated fails on the kind of the error: the webhook with
    the wrong signature is rejected with a validation error (Bad Request),
    not with an authentication error. *)
Lemma C8_counterexample :
  verifyWebhookSignature Scenario.secret (JSON.stringify Scenario.chargeSuccess)
    "deadbeef" = false
  /\ match (handlePayStackWebhook isHex24 epochString Scenario.secret Scenario.parseDate Scenario.chargeSuccess
              "deadbeef" 1700000140000
              Scenario.worldPending).1 with
     | Throw e => kind e = Validation /\ kind e <> Unauthorized
     | Return _ => False
     end.
Proof.
  split; [exact scenario_bad_signature|].
  vm_compute. split; [reflexivity | discriminate].
Qed.

(** The digest is taken over [JSON.stringify] of the parsed body, not over
    the raw body the controller fetched for it: a body signed by the
    gateway as it was sent is turned away when it is not byte for byte what
    [JSON.stringify] prints. *)
Example raw_body_signature_rejected :
  let signature := hmac_sha512_hex Scenario.secret Scenario.spacedBody in
  verifyWebhookSignature Scenario.secret Scenario.spacedBody signature = true
  /\ Scenario.parse Scenario.spacedBody = Return Scenario.chargeSuccess
  /\ (paystackWebhook isHex24 epochString Scenario.secret Scenario.parse Scenario.parseDate
        (Some Scenario.spacedBody) (Some signature) 1700000140000
        Scenario.worldPending).1
     = Throw invalidSignatureResponse.
Proof. vm_compute. split_and!; reflexivity. Qed.

(** The digest on a test vector of RFC 4231. *)
Example hmac_sha512_rfc4231 :
  hmac_sha512_hex "Jefe" "what do ya want for nothing?"
  = "164b7a7bfcf819e2e395fbe73b56e0a387bd64222e831fd610270cd7ea250554"
    ++ "9758bf75c05a994a6d034f65f8f0e6fdcaeab1a34d4a6b4b636e070a38bce737".
Proof. vm_compute. reflexivity. Qed.

Lemma scenario_paid :
  findOneByReference (Some "PAY_1700000000100_7") (db Scenario.worldPaid)
  = Some Scenario.paidPayment.
Proof. vm_compute. reflexivity. Qed.

(** The verified payment is verified twice more: both times the answer
    names the reference, the 58131 naira paid, the time of the payment and
    the order, and the store is as it was. *)
Lemma C9_witness :
  let answer :=
    {| success := true;
       vrd_message := "Payment already verified";
       vrd_data :=
         {| vd_reference := "PAY_1700000000100_7";
            vd_status := PaymentStatus.COMPLETED;
            vd_amount := 58131;
            vd_currency := "NGN";
            vd_paidAt := Some 1700000120000;
            vd_gatewayResponse := Some "Successful";
            vd_orderId := "65c000000000000000000001" |} |} in
  findOneByReference (Some "PAY_1700000000100_7") (db Scenario.worldPaid)
  = Some Scenario.paidPayment
  /\ p_status Scenario.paidPayment = PaymentStatus.COMPLETED
  /\ exists w1 w2,
       verifyPayment isHex24 epochString Scenario.payStack Scenario.parseDate
         "PAY_1700000000100_7" 1700000300000 Scenario.worldPaid = (Return answer, w1)
       /\ verifyPayment isHex24 epochString Scenario.payStack Scenario.parseDate
            "PAY_1700000000100_7" 1700000400000 w1 = (Return answer, w2)
       /\ db w2 = db Scenario.worldPaid
       /\ trace w2
          = (trace Scenario.worldPaid ++ [DbRead PaymentModel; DbRead PaymentModel])%list.
Proof.
  intros answer.
  split; [exact scenario_paid|]. split; [reflexivity|].
  destruct (C9_verify_completed_is_cached isHex24 epochString Scenario.parseDate
              Scenario.payStack "PAY_1700000000100_7" 1700000300000 1700000400000
              Scenario.worldPaid Scenario.paidPayment scenario_paid eq_refl)
    as (w1 & w2 & E1 & E2 & _ & D1 & D2 & T1 & T2 & _).
  exists w1, w2. split; [exact E1|]. split; [exact E2|]. split; [exact D2|].
  rewrite T2, T1, <- app_assoc. reflexivity.
Defined.

(** What the two initialisations left in the store. *)
Lemma scenario_pending : payments (db Scenario.worldPending) = [Scenario.pendingPayment].
Proof. vm_compute. reflexivity. Qed.

Lemma scenario_second_attempt :
  exists second,
    payments (db Scenario.worldExpired) = [Scenario.expiredPayment; second]
    /\ p_status second = PaymentStatus.PENDING
    /\ reference second = "PAY_1700003600000_8".
Proof. eexists. vm_compute. split_and!; reflexivity. Qed.





(** ** The further properties on the scenario *)

(** A cart of four entries, two of which cannot be priced. *)
Lemma X1_witness :
  exists resp w',
    calculateOrder isHex24 Scenario.mixedCart Scenario.buyerId Scenario.world0
    = (Return resp, w')
    /\ db w' = db Scenario.world0
    /\ errors resp = omap (errorOf isHex24 (db Scenario.world0)) Scenario.mixedCart
    /\ length (errors resp) = 2%nat.
Proof.
  destruct (calculateOrder isHex24 Scenario.mixedCart Scenario.buyerId Scenario.world0)
    as [[resp|err] w'] eqn:E.
  - exists resp, w'.
    destruct (X1_calculateOrder_reports isHex24 Scenario.mixedCart Scenario.buyerId
                Scenario.world0 w' (Return resp) E) as (D & He & _).
    split; [reflexivity|]. split; [exact D|]. split; [exact He|].
    rewrite He. vm_compute. reflexivity.
  - exfalso. vm_compute in E. discriminate.
Defined.

(** Two bags and the sold coat: the amount is that of the bags. *)
Lemma X2_witness :
  exists resp w',
    calculateOrder isHex24 [Scenario.twoBags; Scenario.oneCoat] Scenario.buyerId
      Scenario.world0 = (Return resp, w')
    /\ totalAmount resp = Zsum (map itemTotal (availableItems (items resp))).
Proof.
  destruct (calculateOrder isHex24 [Scenario.twoBags; Scenario.oneCoat] Scenario.buyerId
              Scenario.world0) as [[resp|err] w'] eqn:E.
  - exists resp, w'. split; [reflexivity|].
    exact (X2_totalAmount_sums_item_totals isHex24 _ _ _ _ _ E).
  - exfalso. vm_compute in E. discriminate.
Defined.

(** The checkout of the sold coat is refused and leaves no trace in the
    store. *)
Lemma X3_witness :
  exists err w',
    create isHex24 epochString Scenario.soldOut Scenario.buyerId Scenario.entropy
      Scenario.world0 = (Throw err, w')
    /\ db w' = db Scenario.world0
    /\ (kind err = Validation \/ kind err = Conflict).
Proof.
  destruct (create isHex24 epochString Scenario.soldOut Scenario.buyerId Scenario.entropy
              Scenario.world0) as [[created|err] w'] eqn:E.
  - exfalso. vm_compute in E. discriminate.
  - exists err, w'. split; [reflexivity|].
    destruct (X3_create_failure_effect isHex24 epochString _ _ _ _ _ _ E)
      as (K & _ & D & _).
    split; [|exact K]. apply D.
    intros item [<-|[]]. split; [vm_compute; discriminate|].
    intros p Hp. vm_compute in Hp. injection Hp as <-. discriminate.
Defined.

(** The checkout of a line of no bag at all fails in the validation of
    the item, after the order was saved: the order is in the store,
    without an item. *)
Example create_leaves_order_without_items :
  let run :=
    create isHex24 epochString Scenario.emptyLine Scenario.buyerId Scenario.entropy
      Scenario.world0 in
  run.1
  = Throw (BadRequestException
             ("Failed to create order: OrderItem validation failed: quantity: "
              ++ "Path `quantity` (0) is less than minimum allowed value (1)."))
  /\ is_Some (orders (db run.2) !! Scenario.orderId)
  /\ orderItems (db run.2) = [].
Proof. vm_compute. split_and!; [reflexivity | by eexists | reflexivity]. Qed.

(** The checkout of the two bags. *)
Lemma X4_witness :
  create isHex24 epochString Scenario.checkout Scenario.buyerId Scenario.entropy
    Scenario.world0 = (Return (Scenario.order1, Scenario.items1), Scenario.world1)
  /\ status Scenario.order1 = OrderStatus.PENDING
  /\ orders (db Scenario.world1)
     = <[Scenario.orderId := Scenario.order1]> (orders (db Scenario.world0))
  /\ products (db Scenario.world1) = products (db Scenario.world0)
  /\ map (fun it => (oi_productId it, oi_quantity it)) Scenario.items1
     = [(Scenario.bagId, 2)]
  /\ o_totalAmount (totals Scenario.order1) = Zsum (map oi_itemTotal Scenario.items1).
Proof.
  split; [exact scenario_created|].
  destruct (X4_create_stores_order isHex24 epochString Scenario.checkout Scenario.buyerId
              Scenario.entropy Scenario.world0 Scenario.world1 Scenario.order1
              Scenario.items1 scenario_created)
    as (H1 & _ & _ & H4 & _ & H6 & _ & _ & _ & H10 & _ & H12).
  split; [exact H1|]. split; [exact H4|]. split; [exact H6|].
  split; [exact H10 | exact H12].
Defined.

(** An administrator confirms the pending order. *)
Lemma X5_witness :
  exists order' w',
    updateStatus isHex24 epochString Scenario.orderId Scenario.toConfirmed
      Scenario.adminId "admin" 1700000200000 Scenario.world1 = (Return order', w')
    /\ status order' = OrderStatus.CONFIRMED
    /\ orders (db w') = <[Scenario.orderId := order']> (orders (db Scenario.world1))
    /\ products (db w') = products (db Scenario.world1).
Proof.
  destruct (updateStatus isHex24 epochString Scenario.orderId Scenario.toConfirmed
              Scenario.adminId "admin" 1700000200000 Scenario.world1)
    as [[order'|err] w'] eqn:E.
  - exists order', w'. split; [reflexivity|].
    destruct (X5_updateStatus_sound isHex24 epochString _ _ _ _ _ _ _ _ E)
      as (_ & order & _ & _ & Hs & Ho & _ & _ & Hp).
    split; [exact Hs|]. split; [exact Ho|].
    apply Hp. discriminate.
  - exfalso. vm_compute in E. discriminate.
Defined.

(** The longest life of an order: five steps. *)
Lemma X6_witness :
  nsteps legal 5 OrderStatus.PENDING OrderStatus.REFUNDED
  /\ (5 <= 5)%nat
  /\ OrderStatus.PENDING <> OrderStatus.REFUNDED.
Proof.
  assert (H : nsteps legal 5 OrderStatus.PENDING OrderStatus.REFUNDED).
  { apply (nsteps_l _ _ _ OrderStatus.CONFIRMED); [reflexivity|].
    apply (nsteps_l _ _ _ OrderStatus.PROCESSING); [reflexivity|].
    apply (nsteps_l _ _ _ OrderStatus.SHIPPED); [reflexivity|].
    apply (nsteps_l _ _ _ OrderStatus.DELIVERED); [reflexivity|].
    apply nsteps_once. reflexivity. }
  split; [exact H|].
  destruct (X6_status_chain_bounded 5 _ _ H) as [H1 H2].
  split; [exact H1 | apply H2; lia].
Defined.

(** The buyer of the pending order asks to cancel it. *)
Lemma X7_witness :
  exists w',
    cancelOrder isHex24 epochString Scenario.orderId "Changed my mind" Scenario.buyerId
      1700000200000 Scenario.world1 = (Throw sellerIdReadFailure, w')
    /\ db w' = db Scenario.world1.
Proof.
  destruct (X7_cancelOrder_never_succeeds isHex24 epochString Scenario.orderId
              "Changed my mind" Scenario.buyerId 1700000200000 Scenario.world1)
    as (e & w' & E & D & _ & H).
  assert (He : e = sellerIdReadFailure).
  { apply (H Scenario.order1 eq_refl scenario_order1 (or_introl eq_refl)).
    vm_compute. intuition discriminate. }
  rewrite He in E. exists w'. split; [exact E | exact D].
Defined.

(** The order of two bags is cancelled before it was paid: there are
    seven bags now, of the five there were. *)
Lemma X8_witness :
  isHex24 Scenario.orderId = true
  /\ isHex24 Scenario.adminId = true
  /\ orders (db Scenario.world1) !! Scenario.orderId = Some Scenario.order1
  /\ paymentStatus (payment Scenario.order1) = PaymentStatus.PENDING
  /\ products (db Scenario.world1) !! Scenario.bagId = Some Scenario.bag
  /\ quantity Scenario.bag = 5
  /\ exists w' order' p',
       updateStatus isHex24 epochString Scenario.orderId Scenario.toCancelled
         Scenario.adminId "admin" 1700000200000 Scenario.world1 = (Return order', w')
       /\ products (db w') !! Scenario.bagId = Some p'
       /\ quantity p' = 7.
Proof.
  split; [reflexivity|]. split; [reflexivity|]. split; [exact scenario_order1|].
  split; [reflexivity|]. split; [exact scenario_bag|]. split; [reflexivity|].
  assert (Hl : In (status Scenario.order1, OrderStatus.CANCELLED) transitionTable).
  { vm_compute. right. left. reflexivity. }
  destruct (X8_cancel_adds_ordered_quantity isHex24 epochString Scenario.orderId
              Scenario.toCancelled Scenario.adminId 1700000200000 Scenario.world1
              Scenario.order1 Scenario.bagId Scenario.bag
              eq_refl eq_refl scenario_order1 eq_refl Hl scenario_bag)
    as (w' & order' & p' & E & Hp & Hq & _).
  exists w', order', p'. split; [exact E|]. split; [exact Hp|].
  rewrite Hq. vm_compute. reflexivity.
Defined.
(** The payout of the seller is processed twice, with two references:
    the second one stays. *)
Lemma X9_witness :
  orders (db Scenario.world1) !! Scenario.orderId = Some Scenario.order1
  /\ exists w1 w2 payout order2,
       processSellerPayout isHex24 Scenario.orderId Scenario.firstPayout 1700000500000
         Scenario.world1 = (Return tt, w1)
       /\ processSellerPayout isHex24 Scenario.orderId Scenario.secondPayout 1700000600000 w1
          = (Return tt, w2)
       /\ sellerPayouts Scenario.order1 !! 0%nat = Some payout
       /\ orders (db w2) !! Scenario.orderId = Some order2
       /\ sellerPayouts order2
          = <[0%nat := markPayoutPaid "TRF_second" 1700000600000 payout]>
              (sellerPayouts Scenario.order1).
Proof.
  split; [exact scenario_order1|].
  assert (Hi : findIndex (fun p => String.eqb (payout_sellerId p)
                                     (pp_sellerId Scenario.firstPayout))
                 (sellerPayouts Scenario.order1) = Some 0%nat)
    by (vm_compute; reflexivity).
  destruct (X9_payout_last_request_wins isHex24 Scenario.orderId Scenario.firstPayout
              Scenario.secondPayout 1700000500000 1700000600000 Scenario.world1
              Scenario.order1 0%nat scenario_order1 Hi eq_refl)
    as (w1 & w2 & _ & payout & order2 & E1 & E2 & _ & _ & Hp & _ & Ho & Hs & _).
  exists w1, w2, payout, order2.
  split; [exact E1|]. split; [exact E2|]. split; [exact Hp|].
  split; [exact Ho | exact Hs].
Defined.

Lemma scenario_no_order : orders (db Scenario.world0) !! Scenario.orderId = None.
Proof. vm_compute. reflexivity. Qed.

(** A payout for an order that was never placed. *)
Lemma X10_witness :
  orders (db Scenario.world0) !! Scenario.orderId = None
  /\ exists w',
       processSellerPayout isHex24 Scenario.orderId Scenario.firstPayout 1700000500000
         Scenario.world0 = (Throw (NotFoundException "Order not found"), w')
       /\ db w' = db Scenario.world0.
Proof.
  split; [exact scenario_no_order|].
  destruct (X10_payout_unknown isHex24 Scenario.orderId Scenario.firstPayout 1700000500000
              Scenario.world0 (or_introl scenario_no_order))
    as (e & w' & E & D & _ & He & _).
  rewrite (He scenario_no_order eq_refl) in E. exists w'. split; [exact E | exact D].
Defined.

(** A payout for an order id that is no ObjectId: the cast of the id
    fails before the store is asked, and the request is a bad one. *)
Example payout_of_malformed_id :
  processSellerPayout isHex24 "bag" Scenario.firstPayout 1700000500000 Scenario.world0
  = (Throw (BadRequestException
              ("Failed to process seller payout: Cast to ObjectId failed for value "
               ++ quoted "bag" ++ " (type string) at path " ++ quoted "_id"
               ++ " for model " ++ quoted "Order")),
     Scenario.world0).
Proof. vm_compute. reflexivity. Qed.

(** The payment of the order of two bags is confirmed twice: one bag is
    left of the five. *)
Lemma X11_witness :
  orders (db Scenario.world1) !! Scenario.orderId = Some Scenario.order1
  /\ products (db Scenario.world1) !! Scenario.bagId = Some Scenario.bag
  /\ ordered Scenario.bagId (itemsOf Scenario.orderId (db Scenario.world1)) = 2
  /\ exists w1 w2 p2,
       confirmPayment isHex24 epochString Scenario.orderId Scenario.paymentData 1700000130000
         Scenario.world1 = (Return tt, w1)
       /\ confirmPayment isHex24 epochString Scenario.orderId Scenario.paymentData 1700000140000
            w1 = (Return tt, w2)
       /\ products (db w2) !! Scenario.bagId = Some p2
       /\ quantity p2 = 1.
Proof.
  split; [exact scenario_order1|]. split; [exact scenario_bag|].
  split; [vm_compute; reflexivity|].
  assert (H3 : forall it, In it (itemsOf Scenario.orderId (db Scenario.world1)) ->
                          oi_productId it = Scenario.bagId -> 0 <= oi_quantity it).
  { rewrite scenario_items1. intros it [<-|[]] _. vm_compute. discriminate. }
  assert (H4 : 2 * ordered Scenario.bagId (itemsOf Scenario.orderId (db Scenario.world1))
               <= quantity Scenario.bag)
    by (vm_compute; discriminate).
  destruct (X11_confirmPayment_twice isHex24 epochString Scenario.orderId Scenario.paymentData
              Scenario.paymentData 1700000130000 1700000140000 Scenario.world1
              Scenario.order1 Scenario.bagId Scenario.bag scenario_order1 scenario_bag
              H3 H4)
    as (w1 & w2 & p2 & order2 & E1 & E2 & Hp & Hq & _).
  exists w1, w2, p2. split; [exact E1|]. split; [exact E2|]. split; [exact Hp|].
  rewrite Hq. vm_compute. reflexivity.
Defined.

Lemma scenario_buyer : is_Some (users (db Scenario.world1) !! buyerId Scenario.order1).
Proof. exists Scenario.buyer. vm_compute. reflexivity. Qed.

(** The buyer reads the order. *)
Lemma X12_witness :
  isHex24 Scenario.orderId = true
  /\ orders (db Scenario.world1) !! Scenario.orderId = Some Scenario.order1
  /\ is_Some (users (db Scenario.world1) !! buyerId Scenario.order1)
  /\ exists w',
       db w' = db Scenario.world1
       /\ findById isHex24 Scenario.orderId (Some Scenario.buyerId) (Some "user")
            Scenario.world1
          = (Return {| found_order := Scenario.order1;
                       found_buyer := Some (buyerId Scenario.order1);
                       found_sellers := populateSellers (db Scenario.world1)
                                          Scenario.order1;
                       found_items := itemsOf Scenario.orderId (db Scenario.world1) |},
             w').
Proof.
  split; [reflexivity|]. split; [exact scenario_order1|]. split; [exact scenario_buyer|].
  destruct (X12_findById_access isHex24 Scenario.orderId (Some Scenario.buyerId)
              (Some "user") Scenario.world1 Scenario.order1 eq_refl scenario_order1
              scenario_buyer)
    as (w' & D & Hyes & _).
  exists w'. split; [exact D|].
  apply Hyes. right. right. left. reflexivity.
Defined.

Lemma scenario_pending_order :
  orders (db Scenario.worldPending) !! Scenario.orderId = Some Scenario.order1.
Proof. vm_compute. reflexivity. Qed.

Lemma scenario_unpaid :
  paymentStatus (payment Scenario.order1) <> PaymentStatus.COMPLETED.
Proof. vm_compute. discriminate. Qed.

Lemma scenario_find_pending :
  findPendingOfOrder Scenario.orderId (db Scenario.worldPending)
  = Some Scenario.pendingPayment.
Proof. vm_compute. reflexivity. Qed.

Lemma scenario_pending_NoDup :
  NoDup (map payment_id (payments (db Scenario.worldPending))).
Proof. rewrite scenario_pending. cbn. apply NoDup_singleton. Qed.

(** The buyer asks to pay again ten minutes after the first attempt. *)
Lemma X13_witness :
  isHex24 Scenario.orderId = true
  /\ orders (db Scenario.worldPending) !! Scenario.orderId = Some Scenario.order1
  /\ findPendingOfOrder Scenario.orderId (db Scenario.worldPending)
     = Some Scenario.pendingPayment
  /\ now Scenario.soonAfter < createdAt Scenario.pendingPayment + thirtyMinutes
  /\ exists answer,
       initializePayment isHex24 Scenario.payStackOpen Scenario.payRequest
         Scenario.buyerId (Some "https://tradeoff.example") Scenario.soonAfter
         Scenario.worldPending
       = (Return answer,
          {| db := db Scenario.worldPending;
             trace := (trace Scenario.worldPending
                       ++ [DbRead OrderModel; DbRead PaymentModel])%list |})
       /\ init_message answer = "Payment already initialized"
       /\ id_reference (init_data answer) = "PAY_1700000000100_7".
Proof.
  assert (Hage : now Scenario.soonAfter
                 < createdAt Scenario.pendingPayment + thirtyMinutes)
    by (vm_compute; reflexivity).
  split; [reflexivity|]. split; [exact scenario_pending_order|].
  split; [exact scenario_find_pending|]. split; [exact Hage|].
  eexists. split.
  - exact (X13_initializePayment_reuses isHex24 Scenario.payStackOpen
             Scenario.payRequest Scenario.buyerId (Some "https://tradeoff.example")
             Scenario.soonAfter Scenario.worldPending Scenario.order1
             Scenario.pendingPayment eq_refl scenario_pending_order eq_refl
             scenario_unpaid scenario_find_pending Hage).
  - split; reflexivity.
Defined.

(** The buyer asks to pay again an hour after the first attempt. *)
Lemma X14_witness :
  isHex24 Scenario.orderId = true
  /\ findPendingOfOrder Scenario.orderId (db Scenario.worldPending)
     = Some Scenario.pendingPayment
  /\ createdAt Scenario.pendingPayment + thirtyMinutes <= now Scenario.secondAttempt
  /\ findPaymentById Scenario.paymentId (db Scenario.worldExpired)
     = Some Scenario.expiredPayment
  /\ p_status Scenario.expiredPayment = PaymentStatus.FAILED
  /\ orders (db Scenario.worldExpired) = orders (db Scenario.worldPending).
Proof.
  assert (Hage : createdAt Scenario.pendingPayment + thirtyMinutes
                 <= now Scenario.secondAttempt)
    by (vm_compute; discriminate).
  split; [reflexivity|]. split; [exact scenario_find_pending|]. split; [exact Hage|].
  destruct (X14_initializePayment_expires isHex24 Scenario.payStackOpen
              Scenario.payRequest Scenario.buyerId (Some "https://tradeoff.example")
              Scenario.secondAttempt Scenario.worldPending Scenario.order1
              Scenario.pendingPayment eq_refl scenario_pending_order eq_refl
              scenario_unpaid scenario_find_pending Hage scenario_pending_NoDup)
    as (H1 & H2 & _ & H4 & _).
  split; [exact H1|]. split; [exact H2 | exact H4].
Defined.

Lemma scenario_no_pending :
  findPendingOfOrder Scenario.orderId (db Scenario.world1) = None.
Proof. vm_compute. reflexivity. Qed.

Lemma scenario_no_payments : payments (db Scenario.world1) = [].
Proof. vm_compute. reflexivity. Qed.

(** The buyer starts to pay for the order of two bags. *)
Lemma X15_witness :
  isHex24 Scenario.orderId = true
  /\ isHex24 Scenario.buyerId = true
  /\ orders (db Scenario.world1) !! Scenario.orderId = Some Scenario.order1
  /\ findPendingOfOrder Scenario.orderId (db Scenario.world1) = None
  /\ exists answer w' pay,
       initializePayment isHex24 Scenario.payStackOpen Scenario.payRequest
         Scenario.buyerId (Some "https://tradeoff.example") Scenario.firstAttempt
         Scenario.world1 = (Return answer, w')
       /\ id_reference (init_data answer) = "PAY_1700000000100_7"
       /\ payments (db w') = [pay]
       /\ p_status pay = PaymentStatus.PENDING
       /\ amount pay = 58131.
Proof.
  split; [reflexivity|]. split; [reflexivity|]. split; [exact scenario_order1|].
  split; [exact scenario_no_pending|].
  assert (Hfresh : forall p, In p (payments (db Scenario.world1)) ->
                     reference p <> generateReference "PAY" Scenario.firstAttempt).
  { rewrite scenario_no_payments. intros p []. }
  assert (Hgw : forall request,
             psi_amount request = 100 * o_totalAmount (totals Scenario.order1) ->
             psi_email request
             = addr_email (shippingAddress (shipping Scenario.order1)) ->
             psi_reference request = generateReference "PAY" Scenario.firstAttempt ->
             Scenario.payStackOpen request
             = Return {| ir_status := true;
                         ir_data :=
                           {| authorization_url :=
                                "https://checkout.paystack.com/0peioxfhpn";
                              access_code := "0peioxfhpn";
                              init_reference :=
                                generateReference "PAY" Scenario.firstAttempt |} |}).
  { intros request _ _ Hr. unfold Scenario.payStackOpen. rewrite Hr. reflexivity. }
  destruct (X15_initializePayment_opens isHex24 Scenario.payStackOpen
              Scenario.payRequest Scenario.buyerId (Some "https://tradeoff.example")
              Scenario.firstAttempt Scenario.world1 Scenario.order1 _
              eq_refl eq_refl scenario_order1 eq_refl scenario_unpaid
              scenario_no_pending (or_introl eq_refl) Hfresh Hgw eq_refl)
    as (answer & w' & pay & E & _ & Hr & _ & _ & Hp & _ & _ & _ & _ & _ & Hs & Ha & _).
  exists answer, w', pay. split; [exact E|].
  split; [rewrite Hr; vm_compute; reflexivity|].
  split; [rewrite Hp, scenario_no_payments; reflexivity|].
  split; [exact Hs|]. rewrite Ha. vm_compute. reflexivity.
Defined.

(** The seller asks to pay for the order of the buyer. *)
Lemma X16_witness :
  isHex24 Scenario.orderId = true
  /\ orders (db Scenario.world1) !! Scenario.orderId = Some Scenario.order1
  /\ buyerId Scenario.order1 <> Scenario.sellerId
  /\ initializePayment isHex24 Scenario.payStackOpen Scenario.payRequest
       Scenario.sellerId (Some "https://tradeoff.example") Scenario.firstAttempt
       Scenario.world1
     = (Throw (BadRequestException "You can only pay for your own orders"),
        {| db := db Scenario.world1;
           trace := (trace Scenario.world1 ++ [DbRead OrderModel])%list |}).
Proof.
  assert (Hne : buyerId Scenario.order1 <> Scenario.sellerId)
    by (vm_compute; discriminate).
  split; [reflexivity|]. split; [exact scenario_order1|]. split; [exact Hne|].
  destruct (X16_initializePayment_guards isHex24 Scenario.payStackOpen
              Scenario.payRequest Scenario.sellerId (Some "https://tradeoff.example")
              Scenario.firstAttempt Scenario.world1 Scenario.order1 eq_refl
              scenario_order1 (or_introl Hne))
    as (err & E & He & _).
  rewrite (He Hne) in E. exact E.
Defined.
Lemma scenario_payStackOnly : payStackOnly (db Scenario.worldPending).
Proof.
  unfold payStackOnly. rewrite scenario_pending.
  apply Forall_cons. split; [reflexivity | apply Forall_nil; exact I].
Qed.

(** The three entry points on the store with the pending payment. *)
Lemma X17_witness :
  payStackOnly (db Scenario.worldPending)
  /\ payStackOnly (db Scenario.worldExpired)
  /\ payStackOnly (db Scenario.worldPaid)
  /\ payStackOnly
       (db (paystackWebhook isHex24 epochString Scenario.secret Scenario.parse Scenario.parseDate
              (Some Scenario.spacedBody) (Some "deadbeef") 1700000130000
              Scenario.worldPending).2).
Proof.
  split; [exact scenario_payStackOnly|].
  exact (X17_payments_stay_with_PayStack isHex24 epochString Scenario.parseDate Scenario.secret
           Scenario.payStack Scenario.parse Scenario.payStackOpen Scenario.payRequest
           Scenario.buyerId (Some "https://tradeoff.example") Scenario.secondAttempt
           "PAY_1700000000100_7" (Some Scenario.spacedBody) (Some "deadbeef")
           1700000130000 Scenario.worldPending scenario_payStackOnly).
Defined.

Lemma scenario_onePending : onePending (db Scenario.worldPending).
Proof.
  intros oid. unfold pendingOf. rewrite scenario_pending. cbn [List.filter].
  destruct (_ && _); cbn [length]; lia.
Qed.

(** The same three on the one pending payment of the order. *)
Lemma X18_witness :
  onePending (db Scenario.worldPending)
  /\ onePending (db Scenario.worldExpired)
  /\ onePending (db Scenario.worldPaid)
  /\ onePending
       (db (paystackWebhook isHex24 epochString Scenario.secret Scenario.parse Scenario.parseDate
              (Some Scenario.spacedBody) (Some "deadbeef") 1700000130000
              Scenario.worldPending).2).
Proof.
  split; [exact scenario_onePending|].
  exact (X18_one_pending_payment isHex24 epochString Scenario.parseDate Scenario.secret
           Scenario.payStack Scenario.parse Scenario.payStackOpen Scenario.payRequest
           Scenario.buyerId (Some "https://tradeoff.example") Scenario.secondAttempt
           "PAY_1700000000100_7" (Some Scenario.spacedBody) (Some "deadbeef")
           1700000130000 Scenario.worldPending scenario_onePending).
Defined.

Lemma scenario_find_reference :
  findOneByReference (Some "PAY_1700000000100_7") (db Scenario.worldPending)
  = Some Scenario.pendingPayment.
Proof. vm_compute. reflexivity. Qed.

Lemma scenario_pending_open :
  p_status Scenario.pendingPayment <> PaymentStatus.COMPLETED.
Proof. discriminate. Qed.

(** The pending payment is verified while the gateway cannot be
    reached. *)
Lemma X19_witness :
  findOneByReference (Some "PAY_1700000000100_7") (db Scenario.worldPending)
  = Some Scenario.pendingPayment
  /\ Scenario.payStackDown "PAY_1700000000100_7" = Throw (Error "connect ETIMEDOUT")
  /\ verifyPayment isHex24 epochString Scenario.payStackDown Scenario.parseDate "PAY_1700000000100_7"
       1700000130000 Scenario.worldPending
     = (Throw (BadRequestException "Payment verification failed: connect ETIMEDOUT"),
        {| db := db Scenario.worldPending;
           trace := (trace Scenario.worldPending
                     ++ [DbRead PaymentModel; GatewayVerify "PAY_1700000000100_7"])%list |}).
Proof.
  split; [exact scenario_find_reference|]. split; [reflexivity|].
  destruct (X19_verifyPayment_fails_without_effect isHex24 epochString Scenario.parseDate Scenario.payStackDown
              "PAY_1700000000100_7" 1700000130000 Scenario.worldPending) as [_ H].
  exact (H Scenario.pendingPayment "connect ETIMEDOUT" scenario_find_reference
           scenario_pending_open eq_refl eq_refl).
Defined.

(** The pending payment is verified after the bank declined the card. *)
Lemma X20_witness :
  findOneByReference (Some "PAY_1700000000100_7") (db Scenario.worldPending)
  = Some Scenario.pendingPayment
  /\ Scenario.payStackDeclines "PAY_1700000000100_7" = Return Scenario.declinedAnswer
  /\ ps_status (vr_data Scenario.declinedAnswer) <> Some "success"
  /\ exists resp w',
       verifyPayment isHex24 epochString Scenario.payStackDeclines Scenario.parseDate "PAY_1700000000100_7"
         1700000130000 Scenario.worldPending = (Return resp, w')
       /\ success resp = true
       /\ vd_status (vrd_data resp) = PaymentStatus.FAILED
       /\ orders (db w') = orders (db Scenario.worldPending)
       /\ products (db w') = products (db Scenario.worldPending).
Proof.
  assert (Hd : ps_status (vr_data Scenario.declinedAnswer) <> Some "success")
    by discriminate.
  split; [exact scenario_find_reference|]. split; [reflexivity|]. split; [exact Hd|].
  destruct (X20_verifyPayment_declined isHex24 epochString Scenario.parseDate Scenario.payStackDeclines
              "PAY_1700000000100_7" 1700000130000 Scenario.worldPending
              Scenario.pendingPayment Scenario.declinedAnswer scenario_find_reference
              scenario_pending_open eq_refl eq_refl (or_intror Hd)
              scenario_pending_NoDup)
    as (resp & w' & E & Hs & _ & Hst & _ & _ & Ho & _ & Hp).
  exists resp, w'. split; [exact E|]. split; [exact Hs|]. split; [exact Hst|].
  split; [exact Ho | exact Hp].
Defined.

Lemma scenario_world0_payments :
  forall p, In p (payments (db Scenario.world0)) -> p_orderId p <> newId Scenario.entropy.
Proof. intros p []. Qed.

(** The checkout of the two bags with a payment method that is not
    PayStack: the order is there, without a payment. *)
Lemma X21_witness :
  create isHex24 epochString Scenario.checkout Scenario.buyerId Scenario.entropy
    Scenario.world0 = (Return (Scenario.order1, Scenario.items1), Scenario.world1)
  /\ exists answer w2,
       OrdersController_create isHex24 epochString Scenario.payStackOpen
         Scenario.checkout (Some stripe) Scenario.buyerId
         (Some "https://tradeoff.example") Scenario.entropy Scenario.firstAttempt
         Scenario.world0 = (Return answer, w2)
       /\ cr_order answer = (Scenario.order1, Scenario.items1)
       /\ cr_payment answer = None
       /\ db w2 = db Scenario.world1.
Proof.
  split; [exact scenario_created|].
  destruct (X21_order_kept_when_payment_fails isHex24 epochString Scenario.payStackOpen
              Scenario.checkout (Some stripe) Scenario.buyerId
              (Some "https://tradeoff.example") Scenario.entropy Scenario.firstAttempt
              Scenario.world0 Scenario.world1
              (Return (Scenario.order1, Scenario.items1)) scenario_created)
    as (answer & w2 & E & Ho & _ & _ & _ & _ & Hm).
  assert (Hs : stripe <> paystack) by discriminate.
  destruct (Hm stripe eq_refl Hs scenario_world0_payments) as [Hp D].
  exists answer, w2. split; [exact E|]. split; [exact Ho|]. split; [exact Hp | exact D].
Defined.






(** The body [null], signed with the secret key: the read of its event
    fails and the webhook is refused, with nothing done. *)
Example signed_null_body_refused :
  let signature := hmac_sha512_hex Scenario.secret (JSON.stringify JNull) in
  verifyWebhookSignature Scenario.secret (JSON.stringify JNull) signature = true
  /\ handlePayStackWebhook isHex24 epochString Scenario.secret Scenario.parseDate JNull
       signature 1700000140000 Scenario.worldPending
     = (Throw (BadRequestException
                 ("Webhook processing failed: "
                  ++ "Cannot read properties of null (reading 'event')")),
        Scenario.worldPending).
Proof. vm_compute. split; reflexivity. Qed.

Lemma scenario_find_payment :
  findPaymentById Scenario.paymentId (db Scenario.worldPending)
  = Some Scenario.pendingPayment.
Proof. vm_compute. reflexivity. Qed.

(** The buyer reads the pending payment. *)
Lemma X24_witness :
  isHex24 Scenario.paymentId = true
  /\ findPaymentById Scenario.paymentId (db Scenario.worldPending)
     = Some Scenario.pendingPayment
  /\ exists w',
       db w' = db Scenario.worldPending
       /\ getPayment isHex24 Scenario.paymentId (Some Scenario.buyerId)
            Scenario.worldPending
          = (Return (mapPaymentToResponseDto Scenario.pendingPayment
                       (Some Scenario.order1)), w').
Proof.
  split; [reflexivity|]. split; [exact scenario_find_payment|].
  destruct (X24_getPayment_access isHex24 Scenario.paymentId (Some Scenario.buyerId)
              Scenario.worldPending Scenario.pendingPayment eq_refl
              scenario_find_payment) as (w' & D & Hyes & _).
  exists w'. split; [exact D|].
  rewrite <- scenario_pending_order. apply Hyes. right. reflexivity.
Defined.

Lemma scenario_paid_payments : payments (db Scenario.worldPaid) = [Scenario.paidPayment].
Proof. vm_compute. reflexivity. Qed.

Lemma scenario_find_paid :
  findPaymentById (rf_paymentId Scenario.refundRequest) (db Scenario.worldPaid)
  = Some Scenario.paidPayment.
Proof. vm_compute. reflexivity. Qed.

Lemma scenario_paid_completed : p_status Scenario.paidPayment = PaymentStatus.COMPLETED.
Proof. vm_compute. reflexivity. Qed.

Lemma scenario_paid_gateway : gateway Scenario.paidPayment = PaymentGateway.PAYSTACK.
Proof. vm_compute. reflexivity. Qed.

Lemma scenario_paid_NoDup : NoDup (map payment_id (payments (db Scenario.worldPaid))).
Proof. rewrite scenario_paid_payments. cbn [map]. apply NoDup_singleton. Qed.

(** An administrator refunds the completed payment, in full. *)
Lemma X25_witness :
  findPaymentById (rf_paymentId Scenario.refundRequest) (db Scenario.worldPaid)
  = Some Scenario.paidPayment
  /\ p_status Scenario.paidPayment = PaymentStatus.COMPLETED
  /\ exists w' refund answer,
       refundPayment isHex24 Scenario.payStackRefunds Scenario.refundRequest Scenario.adminId
         "admin" 1700000900000 ∅ Scenario.worldPaid
       = (Return ({| refund_success := true;
                     refund_message := "Refund processed successfully";
                     refund_data := answer |},
                  <[payment_id Scenario.paidPayment := refund]> ∅), w')
       /\ refundedAmount refund = amount Scenario.paidPayment
       /\ findPaymentById (payment_id Scenario.paidPayment) (db w')
          = Some (markRefunded Scenario.paidPayment)
       /\ orders (db w') = orders (db Scenario.worldPaid).
Proof.
  split; [exact scenario_find_paid|]. split; [exact scenario_paid_completed|].
  destruct (X25_refundPayment_effect isHex24 Scenario.payStackRefunds Scenario.refundRequest
              Scenario.adminId "admin" 1700000900000 ∅ Scenario.worldPaid
              Scenario.paidPayment _ scenario_find_paid (or_introl eq_refl)
              scenario_paid_completed (lookup_empty _) scenario_paid_gateway eq_refl
              scenario_paid_NoDup)
    as (w' & refund & E & Ha & _ & _ & Hf & _ & Ho & _).
  eexists w', refund, _. split; [exact E|]. split; [exact Ha|].
  split; [exact Hf | exact Ho].
Defined.

(** The buyer asks for a refund of the payment that is still pending. *)
Lemma X26_witness :
  findPaymentById (rf_paymentId Scenario.refundRequest) (db Scenario.worldPending)
  = Some Scenario.pendingPayment
  /\ p_status Scenario.pendingPayment <> PaymentStatus.COMPLETED
  /\ refundPayment isHex24 Scenario.payStackRefunds Scenario.refundRequest Scenario.buyerId
       "user" 1700000900000 ∅ Scenario.worldPending
     = (Throw (BadRequestException "Only completed payments can be refunded"),
        {| db := db Scenario.worldPending;
           trace := (trace Scenario.worldPending ++ [DbRead PaymentModel])%list |}).
Proof.
  split; [exact scenario_find_payment|]. split; [exact scenario_pending_open|].
  destruct (X26_refundPayment_only_completed isHex24 Scenario.payStackRefunds
              Scenario.refundRequest Scenario.buyerId "user" 1700000900000 ∅
              Scenario.worldPending Scenario.pendingPayment scenario_find_payment
              scenario_pending_open) as (err & E & _ & He & _).
  rewrite (He (or_intror eq_refl)) in E. exact E.
Defined.

(** ** Amounts in naira and in kobo *)

(** The 58131 naira of the scenario are 5813100 kobo, and back. *)
Lemma X27_witness :
  0 <= 58131 <= 90071992547409
  /\ nairaToKobo (Number.of_Z 58131) = Number.of_Z 5813100
  /\ koboToNaira (nairaToKobo (Number.of_Z 58131)) = Number.of_Z 58131.
Proof.
  assert (H : 0 <= 58131 <= 90071992547409) by lia.
  split; [exact H|].
  destruct (X27_naira_kobo_round_trip 58131 H) as (E1 & _ & _ & E2 & _).
  split; [exact E1 | exact E2].
Defined.

(** Beyond the bound the kobo need not be a hundred times the naira: a
    hundred times 360287970189641 is no binary64 number, and the nearest
    one is four less. *)
Example nairaToKobo_beyond_bound :
  Number.to_Z (Number.of_Z 360287970189641) = Some 360287970189641
  /\ Number.to_Z (nairaToKobo (Number.of_Z 360287970189641)) = Some 36028797018964096
  /\ Exact.nairaToKobo 360287970189641 = 36028797018964100.
Proof. vm_compute. split_and!; reflexivity. Qed.
